(** * Verification of the entity-modal controller (companies/static/js/script.js)

    A shallow embedding of the validation engine, the save gate, the entity
    router, the modal injection and the submission pipeline of [script.js],
    together with the properties stated for them.

    Conventions of the embedding.
    - A JavaScript string is a [string]: a sequence of code units below 256
      (Latin-1).  Every literal and every regular expression of the source
      is ASCII, so the behaviour on such strings is modelled exactly.
    - A regular expression of the source is a term of [JS.regex], run by a
      backtracking matcher that yields the matches in the priority order of
      the ECMAScript semantics; the first one is what [test], [match] and
      [replace] observe.
    - The DOM is a record of the properties the code reads and writes; a
      node reference inside a form is the index of the control in
      document order, or the place of an element that is not a control
      among the controls.
    - What a control holds after an assignment to its [value] is what the
      browser keeps of it: the value sanitization of the type of an input,
      the options of a select.
    - Calls that leave the page ([alert], [confirm], [fetch],
      [location.reload], focus changes) are recorded in order in a trace of
      [Effect]s.  A call handed to [setTimeout] is queued in the page and
      runs, with its effects, once the handler that queued it has
      returned. *)

From Stdlib Require Import ZArith NArith List String Ascii Bool Lia.
From stdpp Require Import base list option strings.
Import ListNotations.

Local Open Scope string_scope.
Local Open Scope list_scope.

(* ====================================================================== *)
(** * The JavaScript runtime used by the script *)
(* ====================================================================== *)

Module JS.

(** ** Code units and character classes *)

Definition code (c : ascii) : N := N_of_ascii c.

(** [\d] *)
Definition isDigit (c : ascii) : bool :=
  ((48 <=? code c) && (code c <=? 57))%N.

(** [\s], and the characters removed by [String.prototype.trim]: on code
    units below 256 these are TAB, LF, VT, FF, CR, SPACE and NBSP. *)
Definition isSpace (c : ascii) : bool :=
  match code c with
  | 9 | 10 | 11 | 12 | 13 | 32 | 160 => true
  | _ => false
  end%N.

(** Line terminators, which [.] does not match. *)
Definition isLineTerminator (c : ascii) : bool :=
  match code c with
  | 10 | 13 => true
  | _ => false
  end%N.

Definition isUpper (c : ascii) : bool :=
  ((65 <=? code c) && (code c <=? 90))%N.

(** [String.prototype.toLowerCase] on one code unit: A-Z, and the Latin-1
    capitals U+00C0..U+00DE except the multiplication sign. *)
Definition toLowerChar (c : ascii) : ascii :=
  let n := code c in
  if (isUpper c || ((192 <=? n) && (n <=? 222) && negb (n =? 215)))%N
  then ascii_of_N (n + 32) else c.

Fixpoint toLowerCase (s : string) : string :=
  match s with
  | "" => ""
  | String c t => String (toLowerChar c) (toLowerCase t)
  end.

(** Canonicalization of the [i] flag: two code units match when they agree
    after folding the ASCII letters (a non-ASCII code unit never folds to
    an ASCII one). *)
Definition foldCase (c : ascii) : ascii :=
  if isUpper c then ascii_of_N (code c + 32) else c.

(** ** String methods *)

Definition truthy (s : string) : bool :=
  match s with "" => false | _ => true end.

(** [a || b] on values that are a string or [undefined]/[null]. *)
Definition orElse (a : option string) (b : option string) : option string :=
  match a with
  | Some s => if truthy s then a else b
  | None => b
  end.

(** [x || ""] *)
Definition orEmpty (a : option string) : string :=
  match a with Some s => s | None => "" end.

Fixpoint trimStart (s : string) : string :=
  match s with
  | "" => ""
  | String c t => if isSpace c then trimStart t else s
  end.

Fixpoint trimEnd (s : string) : string :=
  match s with
  | "" => ""
  | String c t =>
      match trimEnd t with
      | "" => if isSpace c then "" else String c ""
      | t' => String c t'
      end
  end.

Definition trim (s : string) : string := trimEnd (trimStart s).

Fixpoint includes (needle s : string) : bool :=
  String.prefix needle s ||
  match s with
  | "" => false
  | String _ t => includes needle t
  end.

(** [s.split(sep)] for a one-character separator. *)
Fixpoint split (sep : ascii) (s : string) : list string :=
  match s with
  | "" => [""]
  | String c t =>
      if Ascii.eqb c sep then "" :: split sep t
      else match split sep t with
           | h :: r => String c h :: r
           | [] => [String c ""]
           end
  end.

(** [Number(s)] on an unsigned decimal literal; every other string is sent
    to [None], which stands for a value whose comparisons are all false
    (the script only converts strings that passed a [\d] pattern). *)
Fixpoint digitsValue (acc : Z) (s : string) : option Z :=
  match s with
  | "" => Some acc
  | String c t =>
      if isDigit c
      then digitsValue (10 * acc + Z.of_N (code c - 48)) t
      else None
  end.

Definition Number (s : string) : option Z :=
  match s with
  | "" => None
  | _ => digitsValue 0 s
  end.

(** [String(n)] for a non-negative integer. *)
Fixpoint decimalDigits (fuel : nat) (n : N) (acc : string) : string :=
  match fuel with
  | O => acc
  | S fuel' =>
      let acc' := String (ascii_of_N (48 + n mod 10)) acc in
      if (n / 10 =? 0)%N then acc' else decimalDigits fuel' (n / 10) acc'
  end.

Definition stringOfN (n : N) : string :=
  decimalDigits (S (N.to_nat (N.log2 n))) n "".

Fixpoint repeatChar (c : ascii) (n : nat) : string :=
  match n with
  | O => ""
  | S n' => String c (repeatChar c n')
  end.

(** [s.padStart(n, c)] with a one-character filler. *)
Definition padStart (n : nat) (c : ascii) (s : string) : string :=
  repeatChar c (n - String.length s) +:+ s.

(** ** Regular expressions *)

Inductive regex : Type :=
| Eps                                          (* the empty pattern *)
| Chr (c : ascii)                              (* a literal character *)
| Digit                                        (* \d *)
| Space                                        (* \s *)
| Dot                                          (* . *)
| NoneOf (noSpace : bool) (cs : list ascii)    (* [^...], [^\s...] *)
| OneOf (cs : list ascii)                      (* [...] *)
| Seq (r1 r2 : regex)
| Alt (r1 r2 : regex)
| Star (r : regex)                             (* r*, greedy *)
| Group (n : nat) (r : regex)                  (* the n-th capture group *)
| Eol.                                         (* $ *)

Definition Plus (r : regex) : regex := Seq r (Star r).
Definition Opt (r : regex) : regex := Alt r Eps.

(** A literal word, character by character. *)
Fixpoint Lit (w : string) : regex :=
  match w with
  | "" => Eps
  | String c "" => Chr c
  | String c t => Seq (Chr c) (Lit t)
  end.

(** [r{n}] *)
Fixpoint Times (n : nat) (r : regex) : regex :=
  match n with
  | O => Eps
  | 1%nat => r
  | S n' => Seq r (Times n' r)
  end.

Definition memChar (c : ascii) (cs : list ascii) : bool :=
  existsb (Ascii.eqb c) cs.

Definition memString (s : string) (ss : list string) : bool :=
  existsb (String.eqb s) ss.

(** One match of a pattern from a position: the text it consumed, the text
    left, and the captures recorded so far (latest first). *)
Definition captures : Type := list (nat * string).
Definition outcome : Type := (string * string * captures)%type.

Definition oneChar (p : ascii -> bool) (s : string) (g : captures)
  : list outcome :=
  match s with
  | String x t => if p x then [(String x "", t, g)] else []
  | "" => []
  end.

Definition after (c1 : string) (o : outcome) : outcome :=
  let '(c2, rest, g) := o in (c1 +:+ c2, rest, g).

(** The iterations of a starred pattern whose body matches by [step]: as
    many as possible first, none last.  An iteration that consumes nothing
    is rejected, as in ECMAScript, so that [fuel] iterations are enough
    for a text of [fuel] characters. *)
Fixpoint iterate (step : string -> captures -> list outcome) (fuel : nat)
  (s : string) (g : captures) : list outcome :=
  match fuel with
  | O => [("", s, g)]
  | S fuel' =>
      flat_map (fun o1 : outcome =>
                  let '(c1, s1, g1) := o1 in
                  if (String.length s1 <? String.length s)%nat
                  then map (after c1) (iterate step fuel' s1 g1)
                  else [])
               (step s g)
      ++ [("", s, g)]
  end.

(** All the matches of [r] at the head of [s], in the order in which a
    backtracking matcher tries them.  [icase] is the [i] flag. *)
Fixpoint run (icase : bool) (r : regex) (s : string) (g : captures)
  : list outcome :=
  match r with
  | Eps => [("", s, g)]
  | Chr c =>
      oneChar (fun x => if icase then Ascii.eqb (foldCase x) (foldCase c)
                        else Ascii.eqb x c) s g
  | Digit => oneChar isDigit s g
  | Space => oneChar isSpace s g
  | Dot => oneChar (fun x => negb (isLineTerminator x)) s g
  | NoneOf noSpace cs =>
      oneChar (fun x => negb (memChar x cs) && negb (noSpace && isSpace x)) s g
  | OneOf cs => oneChar (fun x => memChar x cs) s g
  | Seq r1 r2 =>
      flat_map (fun o1 : outcome =>
                  let '(c1, s1, g1) := o1 in
                  map (after c1) (run icase r2 s1 g1))
               (run icase r1 s g)
  | Alt r1 r2 => run icase r1 s g ++ run icase r2 s g
  | Star r1 => iterate (run icase r1) (String.length s) s g
  | Group n r1 =>
      map (fun o : outcome => let '(c, s1, g1) := o in (c, s1, (n, c) :: g1))
          (run icase r1 s g)
  | Eol => match s with "" => [("", s, g)] | _ => [] end
  end.

(** A pattern of the source: its flags and whether it starts with [^]. *)
Record pattern : Type := Pattern {
  anchored : bool;
  icase : bool;
  body : regex
}.

(** The result of [RegExp.prototype.exec]: the matched text (index 0) and
    the captures. *)
Record matchResult : Type := MatchResult {
  m_prefix : string;      (* the text before the match *)
  m_text : string;        (* m[0] *)
  m_rest : string;        (* the text after the match *)
  m_groups : captures
}.

Definition firstMatch (ic : bool) (r : regex) (pre s : string)
  : option matchResult :=
  match run ic r s [] with
  | (c, rest, g) :: _ => Some (MatchResult pre c rest g)
  | [] => None
  end.

(** The leftmost match, trying every start position from the left. *)
Fixpoint searchFrom (ic : bool) (r : regex) (pre s : string)
  : option matchResult :=
  match firstMatch ic r pre s with
  | Some m => Some m
  | None =>
      match s with
      | "" => None
      | String c t => searchFrom ic r (pre +:+ String c "") t
      end
  end.

Definition exec (p : pattern) (s : string) : option matchResult :=
  if anchored p then firstMatch (icase p) (body p) "" s
  else searchFrom (icase p) (body p) "" s.

Definition test (p : pattern) (s : string) : bool :=
  match exec p s with Some _ => true | None => false end.

(** [m[n]] for [n >= 1]; a group that did not take part is [undefined]. *)
Definition group (n : nat) (m : matchResult) : option string :=
  snd <$> List.find (fun e : nat * string => Nat.eqb (fst e) n) (m_groups m).

(** [s.replace(p, by)] for a pattern without the [g] flag and a
    replacement text without [$]. *)
Definition replace (p : pattern) (by_ : string) (s : string) : string :=
  match exec p s with
  | Some m => m_prefix m +:+ by_ +:+ m_rest m
  | None => s
  end.

(** [s.replace(/\s+/g, "")] *)
Fixpoint removeSpaces (s : string) : string :=
  match s with
  | "" => ""
  | String c t => if isSpace c then removeSpaces t else String c (removeSpaces t)
  end.

(** ** [encodeURIComponent]

    Unreserved characters are kept; any other code unit is written as the
    percent-escaped bytes of its UTF-8 encoding. *)

Definition hexDigit (n : N) : ascii :=
  if (n <? 10)%N then ascii_of_N (48 + n) else ascii_of_N (55 + n).

Definition percent (n : N) : string :=
  String "%" (String (hexDigit (n / 16)) (String (hexDigit (n mod 16)) "")).

Definition isUnreserved (c : ascii) : bool :=
  let n := code c in
  (((65 <=? n) && (n <=? 90)) || ((97 <=? n) && (n <=? 122))
   || ((48 <=? n) && (n <=? 57))
   || memChar c ["-"; "_"; "."; "!"; "~"; "*"; "'"; "("; ")"]%char)%N.

Fixpoint encodeURIComponent (s : string) : string :=
  match s with
  | "" => ""
  | String c t =>
      let n := code c in
      (if isUnreserved c then String c ""
       else if (n <? 128)%N then percent n
       else percent (192 + n / 64) +:+ percent (128 + n mod 64))
      +:+ encodeURIComponent t
  end.

(** A template literal prints [undefined] by name. *)
Definition interpolate (v : option string) : string :=
  match v with Some s => s | None => "undefined" end.

(** [xs.join(sep)] *)
Fixpoint join (sep : string) (xs : list string) : string :=
  match xs with
  | [] => ""
  | [x] => x
  | x :: rest => x +:+ sep +:+ join sep rest
  end.

(** ** Dates

    [new Date(y, m, d)] followed by [getDate()], after ECMAScript's MakeDay
    and DateFromTime.  Both ends use local time, so the time zone cancels
    and only the day number since the epoch matters. *)

Local Open Scope Z_scope.

Definition DaysInYear (y : Z) : Z :=
  if negb (y mod 4 =? 0) then 365
  else if negb (y mod 100 =? 0) then 366
  else if negb (y mod 400 =? 0) then 365
  else 366.

Definition InLeapYear (y : Z) : Z :=
  if DaysInYear y =? 366 then 1 else 0.

Definition DayFromYear (y : Z) : Z :=
  365 * (y - 1970) + (y - 1969) / 4 - (y - 1901) / 100 + (y - 1601) / 400.

(** The largest [y] with [DayFromYear y <= day]: the mean-year estimate is
    off by at most one. *)
Definition YearFromDay (day : Z) : Z :=
  let y0 := 1970 + (day * 10000) / 3652425 in
  if day <? DayFromYear y0 then y0 - 1
  else if DayFromYear (y0 + 1) <=? day then y0 + 1
  else y0.

Definition DayWithinYear (day : Z) : Z :=
  day - DayFromYear (YearFromDay day).

(** The day within the year on which month [mn] (0-based) starts. *)
Definition MonthStart (mn leap : Z) : Z :=
  match mn with
  | 0 => 0
  | 1 => 31
  | 2 => 59 + leap
  | 3 => 90 + leap
  | 4 => 120 + leap
  | 5 => 151 + leap
  | 6 => 181 + leap
  | 7 => 212 + leap
  | 8 => 243 + leap
  | 9 => 273 + leap
  | 10 => 304 + leap
  | _ => 334 + leap
  end.

Definition MonthFromDay (day : Z) : Z :=
  let d := DayWithinYear day in
  let leap := InLeapYear (YearFromDay day) in
  if d <? 31 then 0
  else if d <? 59 + leap then 1
  else if d <? 90 + leap then 2
  else if d <? 120 + leap then 3
  else if d <? 151 + leap then 4
  else if d <? 181 + leap then 5
  else if d <? 212 + leap then 6
  else if d <? 243 + leap then 7
  else if d <? 273 + leap then 8
  else if d <? 304 + leap then 9
  else if d <? 334 + leap then 10
  else 11.

Definition DateFromDay (day : Z) : Z :=
  DayWithinYear day
  - MonthStart (MonthFromDay day) (InLeapYear (YearFromDay day)) + 1.

Definition MakeDay (year month date : Z) : Z :=
  let ym := year + month / 12 in
  let mn := month mod 12 in
  DayFromYear ym + MonthStart mn (InLeapYear ym) + date - 1.

(** The day number held by [new Date(y, m, d)]; a year from 0 to 99 means
    1900 + y. *)
Definition newDate (y m d : Z) : Z :=
  let yr := if (0 <=? y) && (y <=? 99) then 1900 + y else y in
  MakeDay yr m d.

Definition getDate (day : Z) : Z := DateFromDay day.
Definition getMonth (day : Z) : Z := MonthFromDay day.
Definition getFullYear (day : Z) : Z := YearFromDay day.

Local Close Scope Z_scope.

End JS.

(* ====================================================================== *)
(** * The document *)
(* ====================================================================== *)

Module Dom.
Import JS.

Inductive Tag : Type := INPUT | SELECT | TEXTAREA.

Definition Tag_eqb (a b : Tag) : bool :=
  match a, b with
  | INPUT, INPUT | SELECT, SELECT | TEXTAREA, TEXTAREA => true
  | _, _ => false
  end.

(** An [option] of a select. *)
Record SelectOption : Type := mkOption {
  opt_value : string;              (* option.value *)
  opt_selected : bool;             (* its selectedness *)
  opt_disabled : bool              (* disabled, by itself or by its group *)
}.

(** A form control, as matched by ["input, select, textarea"]: the
    properties and attributes the script reads or writes, and what the
    browser needs of the control to follow an assignment to [el.value] and
    to build the form data. *)
Record Element : Type := mkControl {
  elem_id : string;                (* el.id *)
  tagName : Tag;
  type : string;                   (* el.type, as normalized by the browser *)
  name : string;                   (* el.name *)
  value : string;                  (* el.value *)
  checked : bool;                  (* el.checked *)
  disabled : bool;                 (* el.disabled *)
  offsetParent : bool;             (* el.offsetParent is not null *)
  clientRects : nat;               (* el.getClientRects().length *)
  closestHidden : bool;           (* el.closest("[hidden]") is not null *)
  attr_required : bool;            (* el.hasAttribute("required") *)
  data_required : option string;   (* el.dataset.required *)
  aria_required : option string;   (* el.getAttribute("aria-required") *)
  data_optional : option string;   (* el.dataset.optional *)
  data_type : option string;       (* el.dataset.type *)
  placeholder : option string;     (* the placeholder attribute *)
  classList : list string;         (* el.classList *)
  options : list SelectOption;     (* of a select: its list of options *)
  files : list string;             (* of a file input: the selected files,
                                      by their names *)
  has_value_attr : bool            (* el.hasAttribute("value") *)
}.

(** A control that has no option and no file, and a [value] attribute. *)
Definition mkElement (elem_id : string) (tagName : Tag) (type name value : string)
  (checked disabled offsetParent : bool) (clientRects : nat)
  (closestHidden attr_required : bool)
  (data_required aria_required data_optional data_type placeholder : option string)
  (classList : list string) : Element :=
  mkControl elem_id tagName type name value checked disabled offsetParent
          clientRects closestHidden attr_required data_required aria_required
          data_optional data_type placeholder classList [] [] true.

(** ** Assignments to [el.value]

    What a control holds after [el.value = v] is decided by the browser:
    the value sanitization algorithm of the type of an input, the list of
    options of a select.  The script assigns the empty text
    ([focusAndClear]) and texts of the form dd/mm/yyyy
    ([formatDateFields], [insertEntityModal]). *)

(** LF and CR, which the text-like inputs remove. *)
Fixpoint stripNewlines (s : string) : string :=
  match s with
  | "" => ""
  | String c t =>
      if isLineTerminator c then stripNewlines t
      else String c (stripNewlines t)
  end.

(** ASCII whitespace: TAB, LF, FF, CR and SPACE. *)
Definition isAsciiWhitespace (c : ascii) : bool :=
  match code c with
  | 9 | 10 | 12 | 13 | 32 => true
  | _ => false
  end%N.

Fixpoint stripLeading (s : string) : string :=
  match s with
  | "" => ""
  | String c t => if isAsciiWhitespace c then stripLeading t else s
  end.

Fixpoint stripTrailing (s : string) : string :=
  match s with
  | "" => ""
  | String c t =>
      match stripTrailing t with
      | "" => if isAsciiWhitespace c then "" else String c ""
      | t' => String c t'
      end
  end.

Fixpoint digitsOnly (s : string) : bool :=
  match s with
  | "" => true
  | String c t => isDigit c && digitsOnly t
  end.

(** The number of days of the month [m] of the year [y] of the proleptic
    Gregorian calendar. *)
Definition monthLength (y m : Z) : Z :=
  if (m =? 2)%Z
  then (if ((y mod 4 =? 0) && negb (y mod 100 =? 0) || (y mod 400 =? 0))%Z
        then 29 else 28)%Z
  else if ((m =? 4) || (m =? 6) || (m =? 9) || (m =? 11))%Z then 30%Z
  else 31%Z.

(** A valid date string, the only text a date input keeps: a year of four
    digits or more that is not zero, a month and a day of two digits each
    that exist in that year, with ["-"] between them. *)
Definition validDateString (v : string) : bool :=
  match split "-" v with
  | [y; m; d] =>
      digitsOnly y && (4 <=? String.length y)%nat
      && digitsOnly m && Nat.eqb (String.length m) 2
      && digitsOnly d && Nat.eqb (String.length d) 2
      && match digitsValue 0 y, digitsValue 0 m, digitsValue 0 d with
         | Some y, Some m, Some d =>
             ((0 <? y) && (1 <=? m) && (m <=? 12)
              && (1 <=? d) && (d <=? monthLength y m))%Z
         | _, _, _ => false
         end
  | _ => false
  end.

(** The value sanitization algorithm of an input of type [ty], on the text
    [v] assigned to it.
    - A date input keeps a valid date string and nothing else.
    - No text that a month, week, time, datetime-local or number input
      admits holds a ["/"]: such a text is replaced by the empty one.  Of
      the texts without a ["/"] the script assigns only the empty one,
      which these inputs keep; the others are kept here as well, whether
      the input would admit them or not.
    - A url or email input (without [multiple]) removes the line breaks,
      then the white space at both ends; the other text inputs remove the
      line breaks.
    Range and color inputs, which never hold the empty text, are not part
    of the model. *)
Definition sanitize (ty v : string) : string :=
  if String.eqb ty "date"
  then (if validDateString v then v else "")
  else if memString ty ["month"; "week"; "time"; "datetime-local"; "number"]
  then (if includes "/" v then "" else v)
  else if memString ty ["url"; "email"]
  then stripTrailing (stripLeading (stripNewlines v))
  else if memString ty ["text"; "search"; "tel"; "password"]
  then stripNewlines v
  else v.

(** The types of input whose [value] is their [value] attribute:
    assigning to [el.value] sets the attribute. *)
Definition reflectsValueAttr (ty : string) : bool :=
  memString ty ["hidden"; "checkbox"; "radio"; "submit"; "image"; "reset";
                "button"].

(** [select.value = v]: the first option whose value is [v] becomes the
    only one selected; when there is none, no option is selected. *)
Definition unselect (o : SelectOption) : SelectOption :=
  mkOption (opt_value o) false (opt_disabled o).

Fixpoint selectFirst (v : string) (os : list SelectOption)
  : list SelectOption :=
  match os with
  | [] => []
  | o :: rest =>
      if String.eqb (opt_value o) v
      then mkOption (opt_value o) true (opt_disabled o) :: map unselect rest
      else unselect o :: selectFirst v rest
  end.

(** [select.value]: the value of the first selected option. *)
Definition selectedValue (os : list SelectOption) : string :=
  match List.find opt_selected os with
  | Some o => opt_value o
  | None => ""
  end.

(** [textarea.value] reads line breaks as LF. *)
Fixpoint normalizeNewlines (s : string) : string :=
  match s with
  | "" => ""
  | String c t =>
      if (code c =? 13)%N
      then String (ascii_of_N 10)
             (match t with
              | String c' t' =>
                  if (code c' =? 10)%N then normalizeNewlines t'
                  else normalizeNewlines t
              | "" => ""
              end)
      else String c (normalizeNewlines t)
  end.

Definition with_value (v : string) (os : list SelectOption) (fs : list string)
  (attr : bool) (el : Element) : Element :=
  mkControl (elem_id el) (tagName el) (type el) (name el) v (checked el)
          (disabled el) (offsetParent el) (clientRects el) (closestHidden el)
          (attr_required el) (data_required el) (aria_required el)
          (data_optional el) (data_type el) (placeholder el) (classList el)
          os fs attr.

(** [el.value = v].  Assigning a text that is not empty to a file input
    throws: the control is then as before (and the script does not go on;
    the places where the model assigns to an input say so). *)
Definition set_value (v : string) (el : Element) : Element :=
  match tagName el with
  | SELECT =>
      let os := selectFirst v (options el) in
      with_value (selectedValue os) os (files el) (has_value_attr el) el
  | TEXTAREA =>
      with_value (normalizeNewlines v) (options el) (files el)
                 (has_value_attr el) el
  | INPUT =>
      if String.eqb (type el) "file"
      then (if truthy v then el
            else with_value "" (options el) [] (has_value_attr el) el)
      else if reflectsValueAttr (type el)
      then with_value v (options el) (files el) true el
      else with_value (sanitize (type el) v) (options el) (files el)
                      (has_value_attr el) el
  end.

Definition set_classList (cs : list string) (el : Element) : Element :=
  mkControl (elem_id el) (tagName el) (type el) (name el) (value el) (checked el)
          (disabled el) (offsetParent el) (clientRects el)
          (closestHidden el) (attr_required el) (data_required el)
          (aria_required el) (data_optional el) (data_type el)
          (placeholder el) cs (options el) (files el) (has_value_attr el).

Definition contains (c : string) (cs : list string) : bool :=
  existsb (String.eqb c) cs.

(** [classList.add], [classList.remove], [classList.toggle(c, force)] *)
Definition classAdd (c : string) (cs : list string) : list string :=
  if contains c cs then cs else cs ++ [c].

Definition classRemove (c : string) (cs : list string) : list string :=
  List.filter (fun x => negb (String.eqb c x)) cs.

Definition classToggle (c : string) (force : bool) (cs : list string)
  : list string :=
  if force then classAdd c cs else classRemove c cs.

Definition attrIs (a : option string) (b : string) : bool :=
  match a with Some s => String.eqb s b | None => false end.

(** An element of the form that ["input, select, textarea"] does not
    match (a wrapper, a label, a button...): what the selectors of
    [locateField] read of it, and its classes.  The options of a select
    and the [.invalid-feedback] nodes are not among them: they are taken
    to bear no name and no id (those that [markFieldInvalid] inserts bear
    none), so that no selector of [locateField] answers one. *)
Record Other : Type := mkOther {
  o_id : string;                   (* its id, empty when it has none *)
  o_name : string;                 (* its name attribute, empty when it has none *)
  o_classList : list string
}.

(** The live form of the modal: [#entity-form], its controls in document
    order ([form.querySelectorAll("input, select, textarea")]) and its other
    elements: [others !! k] holds, in document order, those that come
    after the control of index [k - 1] and before the control of index
    [k], and for [k] the number of controls those that come after the
    last control; a wrapper of a control comes before it.  There is no
    list beyond that one. *)
Record Form : Type := mkFormTree {
  action : string;
  form_entity : option string;     (* form.dataset.entity *)
  fields : list Element;
  others : list (list Other)
}.

(** A form all of whose elements are controls. *)
Definition mkForm (action : string) (form_entity : option string)
  (fields : list Element) : Form :=
  mkFormTree action form_entity fields [].

Definition set_fields (fs : list Element) (f : Form) : Form :=
  mkFormTree (action f) (form_entity f) fs (others f).

Definition set_others (os : list (list Other)) (f : Form) : Form :=
  mkFormTree (action f) (form_entity f) (fields f) os.

(** [#modal-save-btn] *)
Record Button : Type := mkButton {
  btn_disabled : bool;
  btn_classList : list string;
  btn_text : string;
  btn_boundAjax : bool             (* saveBtn.dataset.boundAjax === "1" *)
}.

End Dom.

(* ====================================================================== *)
(** * Field classifier, validator and save gate *)
(* ====================================================================== *)

Module Validation.
Import JS Dom.

(** ** dd/mm/yyyy *)

(** [/^\d{2}\/\d{2}\/\d{4}$/] *)
Definition reDDMMYYYY : pattern :=
  Pattern true false
    (Seq (Times 2 Digit)
    (Seq (Chr "/")
    (Seq (Times 2 Digit)
    (Seq (Chr "/")
    (Seq (Times 4 Digit) Eol))))).

(** Comparisons of numbers, with [None] for NaN. *)
Definition num_lt (a : option Z) (b : Z) : bool :=
  match a with Some x => (x <? b)%Z | None => false end.
Definition num_gt (a : option Z) (b : Z) : bool :=
  match a with Some x => (b <? x)%Z | None => false end.
Definition num_ge (a : option Z) (b : Z) : bool :=
  match a with Some x => (b <=? x)%Z | None => false end.
Definition num_le (a b : option Z) : bool :=
  match a, b with Some x, Some y => (x <=? y)%Z | _, _ => false end.

(** [new Date(y, m, 0).getDate()] *)
Definition lastDayOfMonth (y m : option Z) : option Z :=
  match y, m with
  | Some y, Some m => Some (getDate (newDate y m 0))
  | _, _ => None
  end.

Definition isValidDateDDMMYYYY (s : string) : bool :=
  if negb (test reDDMMYYYY s) then false
  else
    match map Number (split "/" s) with
    | d :: m :: y :: _ =>
        if num_lt y 1900 || num_gt y 9999 then false
        else if num_lt m 1 || num_gt m 12 then false
        else
          let dim := lastDayOfMonth y m in
          num_ge d 1 && num_le d dim
    | _ => false
    end.

(** ** Visibility and completeness checks *)

Definition isVisible (el : Element) : bool :=
  offsetParent el || negb (Nat.eqb (clientRects el) 0).

(** [form.querySelectorAll(`input[type="${type}"][name="${name}"]`)]: for
    the types "checkbox" and "radio" the attribute selector and [el.type]
    agree. *)
Definition groupOf (form : Form) (ty nm : string) : list Element :=
  List.filter (fun g => Tag_eqb (tagName g) INPUT
                        && String.eqb (type g) ty
                        && String.eqb (name g) nm)
              (fields form).

Definition isGroupChecked (form : Form) (el : Element) : bool :=
  let ty := toLowerCase (type el) in
  if negb (String.eqb ty "checkbox") && negb (String.eqb ty "radio") then true
  else
    let nm := name el in
    if negb (truthy nm) then true
    else existsb checked (groupOf form ty nm).

Fixpoint allFilledFrom (form : Form) (els : list Element) : bool :=
  match els with
  | [] => true
  | el :: rest =>
      if negb (isVisible el) || disabled el || String.eqb (type el) "hidden"
      then allFilledFrom form rest
      else if attrIs (data_optional el) "true" then allFilledFrom form rest
      else
        let ty := toLowerCase (type el) in
        if String.eqb ty "button" || String.eqb ty "submit"
        then allFilledFrom form rest
        else if String.eqb ty "checkbox" || String.eqb ty "radio"
        then (if negb (isGroupChecked form el) then false
              else allFilledFrom form rest)
        else
          let val := trim (value el) in
          if negb (truthy val) then false
          else allFilledFrom form rest
  end.

Definition areAllVisibleFieldsFilled (form : Form) : bool :=
  allFilledFrom form (fields form).

(** The selector list [dateSel], shared by [allDatesValid],
    [formatDateFields], [prepareFormValidation] and the save handler. *)
Definition matchesDateSel (el : Element) : bool :=
  Tag_eqb (tagName el) INPUT &&
  (contains "date-field" (classList el)
   || attrIs (placeholder el) "dd/mm/yyyy"
   || attrIs (placeholder el) "DD/MM/YYYY"
   || attrIs (data_type el) "date"
   || includes "date" (name el)
   || includes "dob" (name el)).

Fixpoint allDatesValidFrom (els : list Element) : bool :=
  match els with
  | [] => true
  | el :: rest =>
      if negb (isVisible el) || disabled el then allDatesValidFrom rest
      else
        let v := trim (value el) in
        if negb (Nat.eqb (String.length v) 10) || negb (isValidDateDDMMYYYY v)
        then false
        else allDatesValidFrom rest
  end.

Definition allDatesValid (form : Form) : bool :=
  allDatesValidFrom (List.filter matchesDateSel (fields form)).

(** ** The validator *)

(** [/^[^\s@]+@[^\s@]+\.[^\s@]+$/] *)
Definition reEmail : pattern :=
  Pattern true false
    (Seq (Plus (NoneOf true ["@"%char]))
    (Seq (Chr "@")
    (Seq (Plus (NoneOf true ["@"%char]))
    (Seq (Chr ".")
    (Seq (Plus (NoneOf true ["@"%char])) Eol))))).

(** [/date|dob/i] *)
Definition reDateOrDob : pattern :=
  Pattern false true (Alt (Lit "date") (Lit "dob")).

(** [/^\d{4}\s\d{4}\s\d{4}$/] *)
Definition reAadhaar : pattern :=
  Pattern true false
    (Seq (Times 4 Digit)
    (Seq Space
    (Seq (Times 4 Digit)
    (Seq Space
    (Seq (Times 4 Digit) Eol))))).

Record ValidationResult : Type := mkResult {
  valid : bool;
  firstEl : option nat;     (* the index of the offending control *)
  msg : string
}.

(** [mark(el)] *)
Definition mark (el : Element) : Element :=
  set_classList (classAdd "invalid" (classList el)) el.

(** [fail(el, msg)] *)
Definition fail (i : nat) (m : string) : ValidationResult :=
  mkResult false (Some i) m.

Definition isRequired (el : Element) : bool :=
  attr_required el || attrIs (data_required el) "true"
  || attrIs (aria_required el) "true".

(** The loop of [validateForm] from the control of index [i] on; the
    controls come back with the class added by [mark]. *)
Fixpoint validateFrom (i : nat) (els : list Element)
  : list Element * ValidationResult :=
  match els with
  | [] => ([], mkResult true None "")
  | el :: rest =>
      let continue :=
        let '(rest', r) := validateFrom (S i) rest in (el :: rest', r) in
      if closestHidden el || String.eqb (type el) "hidden" || disabled el
      then continue
      else
        let required := isRequired el in
        let val := trim (value el) in
        if required && negb (truthy val)
        then (mark el :: rest, fail i "Please fill the required field.")
        else if String.eqb (type el) "email" && truthy val
                && negb (test reEmail val)
        then (mark el :: rest, fail i "Invalid email address.")
        else if (contains "date-field" (classList el)
                 || attrIs (data_type el) "date"
                 || test reDateOrDob (name el))
                && truthy val && negb (isValidDateDDMMYYYY val)
        then (mark el :: rest, fail i "Date must be dd/mm/yyyy.")
        else if truthy (name el)
                && includes "aadhar" (toLowerCase (name el))
                && truthy val && negb (test reAadhaar val)
        then (mark el :: rest, fail i "Invalid Aadhaar format.")
        else continue
  end.

Definition validateForm (form : Form) : Form * ValidationResult :=
  let '(els, r) := validateFrom 0 (fields form) in (set_fields els form, r).

(** ** The save gate *)

Definition recomputeSaveEnabled (form : option Form) (saveBtn : option Button)
  : option Form * option Button :=
  match form, saveBtn with
  | Some f, Some b =>
      let '(f', enable) :=
        if areAllVisibleFieldsFilled f && allDatesValid f
        then let '(f', r) := validateForm f in (f', valid r)
        else (f, false) in
      (Some f',
       Some (mkButton (negb enable)
                      (classToggle "save-disabled" (negb enable)
                                   (btn_classList b))
                      (btn_text b) (btn_boundAjax b)))
  | _, _ => (form, saveBtn)
  end.

End Validation.

(* ====================================================================== *)
(** * Entity router *)
(* ====================================================================== *)

Module Router.
Import JS.

(** An ancestor of the trigger element, with the two attributes
    [closest] looks for. *)
Record Ancestor : Type := mkAncestor {
  anc_data_entity : option string;
  anc_data_id : option string
}.

(** The trigger element of an entity action. *)
Record Trigger : Type := mkTrigger {
  el_id : string;                       (* el.id *)
  href : option string;                 (* el.getAttribute("href") *)
  data_open_entity : option string;     (* el.dataset.openEntity *)
  data_edit_entity : option string;     (* el.dataset.editEntity *)
  data_delete_entity : option string;   (* el.dataset.deleteEntity *)
  data_entity : option string;          (* data-entity *)
  data_id : option string;              (* data-id *)
  ancestors : list Ancestor             (* the parent chain, nearest first *)
}.

(** [/^create-.+-btn$/i] *)
Definition reCreateBtn : pattern :=
  Pattern true true (Seq (Lit "create-") (Seq (Plus Dot) (Seq (Lit "-btn") Eol))).

(** [/^create-/] and [/-btn$/] *)
Definition reCreatePrefix : pattern := Pattern true false (Lit "create-").
Definition reBtnSuffix : pattern := Pattern false false (Seq (Lit "-btn") Eol).

(** [/^\/([^\/]+)\/(get|create|update|delete)(\/|$)/i] *)
Definition reEntityHref : pattern :=
  Pattern true true
    (Seq (Chr "/")
    (Seq (Group 1 (Plus (NoneOf false ["/"%char])))
    (Seq (Chr "/")
    (Seq (Group 2 (Alt (Lit "get") (Alt (Lit "create")
                  (Alt (Lit "update") (Lit "delete")))))
         (Group 3 (Alt (Chr "/") Eol)))))).

(** [/\/(update|get|delete)\/([^\/]+)\/?$/i] *)
Definition reIdHref : pattern :=
  Pattern false true
    (Seq (Chr "/")
    (Seq (Group 1 (Alt (Lit "update") (Alt (Lit "get") (Lit "delete"))))
    (Seq (Chr "/")
    (Seq (Group 2 (Plus (NoneOf false ["/"%char])))
    (Seq (Opt (Chr "/")) Eol))))).

(** [/^:/] *)
Definition reLeadingColon : pattern := Pattern true false (Chr ":").

(** [el.closest("[data-entity]")?.getAttribute("data-entity")]: the element
    itself comes first. *)
Definition closestDataEntity (el : Trigger) : option string :=
  match data_entity el with
  | Some v => Some v
  | None =>
      match List.find (fun a => bool_decide (is_Some (anc_data_entity a)))
                      (ancestors el) with
      | Some a => anc_data_entity a
      | None => None
      end
  end.

Definition closestDataId (el : Trigger) : option string :=
  match data_id el with
  | Some v => Some v
  | None =>
      match List.find (fun a => bool_decide (is_Some (anc_data_id a)))
                      (ancestors el) with
      | Some a => anc_data_id a
      | None => None
      end
  end.

Definition getEntityFromElement (el : option Trigger) : string :=
  match el with
  | None => ""
  | Some el =>
      let entity :=
        orEmpty (orElse (data_open_entity el)
                (orElse (data_edit_entity el)
                (orElse (data_delete_entity el)
                (orElse (data_entity el) (data_entity el))))) in
      if truthy entity then entity
      else
        let idAttr := el_id el in
        if test reCreateBtn idAttr
        then replace reBtnSuffix "" (replace reCreatePrefix "" idAttr)
        else
          let href := orEmpty (href el) in
          match (if truthy href then exec reEntityHref href else None) with
          | Some m => orEmpty (group 1 m)
          | None =>
              match closestDataEntity el with
              | Some v => v
              | None => ""
              end
          end
  end.

Definition getIdFromElement (el : option Trigger) : string :=
  match el with
  | None => ""
  | Some el =>
      let id :=
        orEmpty (orElse (data_id el)
                (orElse (data_id el) (closestDataId el))) in
      let id :=
        if negb (truthy id)
        then
          let href := orEmpty (href el) in
          match (if truthy href then exec reIdHref href else None) with
          | Some m => orEmpty (group 2 m)
          | None => id
          end
        else id in
      replace reLeadingColon "" id
  end.

End Router.

(* ====================================================================== *)
(** * The page: modal controller and submission pipeline *)
(* ====================================================================== *)

Module Page.
Import JS Dom Validation.

(** ** State *)

Record Body : Type := mkBody {
  data_role : option string            (* document.body.dataset.role *)
}.

(** [#login-username] and [#login-password].  [resetLoginModalState]
    binds to each of them listeners that remove [readonly] at the first
    [focus], [keydown] or [pointerdown] event; the script itself only
    brings about [focus] events, and [ti_unlock] tells whether such a
    listener is bound for them. *)
Record TextInput : Type := mkLoginInput {
  ti_value : string;
  ti_readonly : bool;
  ti_unlock : bool
}.

(** A login input no listener is bound to. *)
Definition mkTextInput (v : string) (readonly : bool) : TextInput :=
  mkLoginInput v readonly false.

(** [#login-error] *)
Record ErrorBox : Type := mkErrorBox {
  err_text : string;
  err_hidden : bool;
  err_display : string;
  err_role : option string;
  err_live : option string
}.

(** [#login-modal] *)
Record LoginModal : Type := mkLoginModal {
  lm_classList : list string;
  lm_display : string
}.

(** [#entity-modal]: its display, whether it has a [.modal-body], the
    content of [#form-errors] if that box exists, [#entity-form] and
    [#modal-save-btn]. *)
Record Modal : Type := mkModal {
  modal_display : string;
  modal_body : bool;
  form_errors : option string;
  modal_form : option Form;
  modal_save : option Button
}.

Record Document : Type := mkPage {
  body : option Body;
  csrfToken : string;                  (* what getCsrfTokenSafe() finds *)
  entityModal : option Modal;
  loginModal : option LoginModal;
  loginUsername : option TextInput;    (* #login-username *)
  loginPassword : option TextInput;    (* #login-password *)
  otpBlock : option bool;              (* #otp-block, its hidden flag *)
  loginError : option ErrorBox;
  loginSubmit : option bool;           (* #login-submit, its disabled flag *)
  focusTimers : nat                    (* the calls [u.focus()] queued by
                                          [setTimeout] that have not run *)
}.

(** A page with no timer pending. *)
Definition mkDocument (body : option Body) (csrfToken : string)
  (entityModal : option Modal) (loginModal : option LoginModal)
  (loginUsername loginPassword : option TextInput) (otpBlock : option bool)
  (loginError : option ErrorBox) (loginSubmit : option bool) : Document :=
  mkPage body csrfToken entityModal loginModal loginUsername loginPassword
         otpBlock loginError loginSubmit 0.

(** Markup received from the server, with what the browser finds in it once
    parsed: the [#entity-modal] subtree if there is one, and the
    [#entity-form] obtained when the markup becomes the body of the
    skeleton. *)
Record Markup : Type := mkMarkup {
  markup_text : string;
  markup_modal : option Modal;
  markup_form : option Form
}.

(** The value of an entry of a [FormData]: a text, or a file, which is
    stood for by its name. *)
Inductive FormValue : Type :=
| Text (s : string)
| File (filename : string).

Record Request : Type := mkRequest {
  req_url : string;
  req_method : string;
  req_headers : list (string * string);
  req_body : list (string * FormValue)
}.

(** Calls that reach outside the page, in the order they are made.
    [FocusField], [SelectField] and [ScrollToField] name a control of the
    live form by its index, [FocusOther] and [ScrollToOther] another
    element of the form by the index of its list in [others] and its index
    in that list. *)
Inductive Effect : Type :=
| Alert (m : string)
| Confirm (m : string)
| Fetch (r : Request)
| Reload
| ConsoleWarn (m : string)
| ConsoleError (m : string)
| FocusField (i : nat)
| SelectField (i : nat)
| ScrollToField (i : nat)
| FocusLoginUsername
| FocusOther (k j : nat)
| ScrollToOther (k j : nat).

Definition isFetch (e : Effect) : bool :=
  match e with Fetch _ => true | _ => false end.

Definition set_entityModal (m : option Modal) (d : Document) : Document :=
  mkPage (body d) (csrfToken d) m (loginModal d) (loginUsername d)
         (loginPassword d) (otpBlock d) (loginError d) (loginSubmit d)
         (focusTimers d).

Definition set_modal_form (f : option Form) (m : Modal) : Modal :=
  mkModal (modal_display m) (modal_body m) (form_errors m) f (modal_save m).

Definition set_modal_save (b : option Button) (m : Modal) : Modal :=
  mkModal (modal_display m) (modal_body m) (form_errors m) (modal_form m) b.

Definition set_form_errors (e : option string) (m : Modal) : Modal :=
  mkModal (modal_display m) (modal_body m) e (modal_form m) (modal_save m).

Definition set_modal_display (v : string) (m : Modal) : Modal :=
  mkModal v (modal_body m) (form_errors m) (modal_form m) (modal_save m).

(** ** Roles and paths *)

Definition getCurrentRole (d : Document) : string :=
  match body d with
  | Some b => toLowerCase (orEmpty (orElse (data_role b) (Some "")))
  | None => ""
  end.

Definition getEntityBase (entity : string) (pathname : string) : string :=
  if truthy entity
  then "/" +:+ encodeURIComponent (toLowerCase (removeSpaces entity)) +:+ "/"
  else if String.eqb (String.substring (String.length pathname - 1) 1 pathname) "/"
       then pathname else pathname +:+ "/".

(** [/^userpermissions?$/i] *)
Definition reUserPerm : pattern :=
  Pattern true true
    (Seq (Lit "userpermission") (Seq (Opt (Chr "s")) Eol)).

Definition isUserPermEntity (ent : string) : bool := test reUserPerm ent.

(** ** Authentication failure *)

(** [resetLoginModalState()]: both inputs are emptied and made read-only,
    and the listeners that unlock them are bound. *)
Definition resetLoginModalState (d : Document) : Document :=
  let clear (i : TextInput) := mkLoginInput "" true true in
  mkPage (body d) (csrfToken d) (entityModal d) (loginModal d)
         (clear <$> loginUsername d) (clear <$> loginPassword d)
         ((fun _ => true) <$> otpBlock d)
         ((fun e => mkErrorBox "" true "" (err_role e) (err_live e))
            <$> loginError d)
         ((fun _ => true) <$> loginSubmit d)
         (focusTimers d).

(** [openLoginModal()].  The call [u.focus()] is handed to [setTimeout]:
    it is queued, and runs after the handler that opened the overlay has
    returned (see [runTimers]). *)
Definition openLoginModal (d : Document) : Document * list Effect :=
  match loginModal d with
  | Some lm =>
      let d1 := resetLoginModalState d in
      let lm' := mkLoginModal (classAdd "show" (lm_classList lm)) "flex" in
      (mkPage (body d1) (csrfToken d1) (entityModal d1) (Some lm')
              (loginUsername d1) (loginPassword d1) (otpBlock d1)
              (loginError d1) (loginSubmit d1)
              (match loginUsername d1 with
               | Some _ => S (focusTimers d1)
               | None => focusTimers d1
               end),
       [])
  | None => (d, [Alert "Not authenticated."])
  end.

(** The queued calls of [u.focus()], run in turn once the handler that
    queued them has returned.  [takesFocus] tells whether the first of
    them gives the focus to the user name input, which it does when the
    input can take the focus and does not have it yet: the [focus] event
    is then dispatched, and the listener bound by [resetLoginModalState],
    if there is one, removes [readonly] and is itself removed.  A later
    call finds the input focused and dispatches nothing. *)
Definition runTimers (takesFocus : bool) (d : Document)
  : Document * list Effect :=
  match focusTimers d with
  | O => (d, [])
  | S n =>
      let unlock (i : TextInput) :=
        if takesFocus && ti_unlock i
        then mkLoginInput (ti_value i) false false else i in
      (mkPage (body d) (csrfToken d) (entityModal d) (loginModal d)
              (unlock <$> loginUsername d) (loginPassword d) (otpBlock d)
              (loginError d) (loginSubmit d) 0,
       repeat FocusLoginUsername (S n))
  end.

Definition showInlineLoginError (m : string) (d : Document)
  : Document * list Effect :=
  let text := if truthy m then m else "Invalid credentials." in
  match loginError d with
  | None => (d, [Alert text])
  | Some _ =>
      (mkPage (body d) (csrfToken d) (entityModal d) (loginModal d)
              (loginUsername d) (loginPassword d) (otpBlock d)
              (Some (mkErrorBox text false "block" (Some "alert")
                                (Some "assertive")))
              (loginSubmit d) (focusTimers d),
       [])
  end.

Definition handleAuthFailure (m : string) (d : Document)
  : Document * list Effect :=
  let '(d1, e1) := openLoginModal d in
  let '(d2, e2) :=
    showInlineLoginError (if truthy m then m else "Not authenticated.") d1 in
  (d2, e1 ++ e2 ++ [ConsoleWarn "Auth required"]).

(** ** Delete *)

Definition ajaxHeaders (d : Document) (accept : string)
  : list (string * string) :=
  [("X-CSRFToken", csrfToken d); ("X-Requested-With", "XMLHttpRequest");
   ("Accept", accept)].

(** [deleteEntity(entity, id)]; [confirmed] is the answer of the user to
    the [confirm] prompt.  The handlers of the response are not part of
    this function. *)
Definition deleteEntity (d : Document) (confirmed : bool) (entity id : string)
  : list Effect :=
  Confirm "Are you sure you want to delete this item?" ::
  if negb confirmed then []
  else if String.eqb (getCurrentRole d) "master"
  then [Alert "Delete is disabled for Master role."]
  else if isUserPermEntity entity
  then [Alert "This is a settings page with no table. Use the User Permissions UI."]
  else
    let id := replace Router.reLeadingColon "" id in
    let entSeg := toLowerCase (removeSpaces entity) in
    let url := "/" +:+ encodeURIComponent entSeg +:+ "/delete/"
               +:+ encodeURIComponent id +:+ "/" in
    [Fetch (mkRequest url "POST" (ajaxHeaders d "application/json") [])].

(** ** Field utilities *)

Fixpoint findIndexFrom {A : Type} (p : A -> bool) (i : nat) (l : list A)
  : option nat :=
  match l with
  | [] => None
  | x :: rest => if p x then Some i else findIndexFrom p (S i) rest
  end.

Definition findIndex {A : Type} (p : A -> bool) (l : list A) : option nat :=
  findIndexFrom p 0 l.

Definition endsWith (suffix s : string) : bool :=
  (String.length suffix <=? String.length s)%nat
  && String.eqb (String.substring (String.length s - String.length suffix)
                                  (String.length suffix) s) suffix.

(** An element of the form: the control of index [i], or the element of
    index [j] of the list [others !! k]. *)
Inductive Located : Type :=
| AtField (i : nat)
| AtOther (k j : nat).

(** [form.querySelector(sel)] for a selector that matches the controls
    [pc] holds of and the other elements [po] holds of: the first match in
    document order, the elements of [others !! i] coming before the
    control of index [i]. *)
Fixpoint queryFrom (pc : Element -> bool) (po : Other -> bool) (i : nat)
  (cs : list Element) (gaps : list (list Other)) {struct cs}
  : option Located :=
  match findIndex po (match gaps with g :: _ => g | [] => [] end) with
  | Some j => Some (AtOther i j)
  | None =>
      match cs with
      | [] => None
      | c :: rest =>
          if pc c then Some (AtField i)
          else queryFrom pc po (S i) rest (tail gaps)
      end
  end.

Definition querySelector (pc : Element -> bool) (po : Other -> bool)
  (form : Form) : option Located :=
  queryFrom pc po 0 (fields form) (others form).

(** [locateField(form, fieldName)] *)
Definition locateField (form : Form) (fieldName : option string)
  : option Located :=
  match fieldName with
  | None => None
  | Some fieldName =>
      if negb (truthy fieldName) then None
      else
        match querySelector (fun el => String.eqb (name el) fieldName)
                            (fun o => String.eqb (o_name o) fieldName) form with
        | Some l => Some l
        | None =>
        match querySelector
                (fun el => String.eqb (name el) (fieldName +:+ "[]"))
                (fun o => String.eqb (o_name o) (fieldName +:+ "[]")) form with
        | Some l => Some l
        | None =>
        match querySelector
                (fun el => String.eqb (elem_id el) ("id_" +:+ fieldName))
                (fun o => String.eqb (o_id o) ("id_" +:+ fieldName)) form with
        | Some l => Some l
        | None =>
            querySelector (fun el => endsWith fieldName (elem_id el))
                          (fun o => endsWith fieldName (o_id o)) form
        end end end
  end.

Definition mapField (i : nat) (f : Element -> Element) (form : Form) : Form :=
  set_fields (alter f i (fields form)) form.

Definition mapOther (k j : nat) (f : Other -> Other) (form : Form) : Form :=
  set_others (alter (alter f j) k (others form)) form.

Definition lookupOther (k j : nat) (form : Form) : option Other :=
  others form !! k ≫= (fun g => g !! j).

Definition removeClass (c : string) (el : Element) : Element :=
  set_classList (classRemove c (classList el)) el.

Definition addClass (c : string) (el : Element) : Element :=
  set_classList (classAdd c (classList el)) el.

Definition removeClassOther (c : string) (o : Other) : Other :=
  mkOther (o_id o) (o_name o) (classRemove c (o_classList o)).

Definition addClassOther (c : string) (o : Other) : Other :=
  mkOther (o_id o) (o_name o) (classAdd c (o_classList o)).

(** [el.classList.add(c)] on a located element. *)
Definition addClassAt (c : string) (l : Located) (form : Form) : Form :=
  match l with
  | AtField i => mapField i (addClass c) form
  | AtOther k j => mapOther k j (addClassOther c) form
  end.

(** [clearInvalids(form)] and [clearFieldErrors(form)], which go through
    every element of the form; the [.invalid-feedback] nodes they empty are
    not part of the model. *)
Definition clearInvalids (form : Form) : Form :=
  set_others
    (map (map (fun o => removeClassOther "is-invalid"
                          (removeClassOther "invalid" o)))
         (others form))
    (set_fields (map (fun el => removeClass "is-invalid" (removeClass "invalid" el))
                     (fields form)) form).

Definition clearFieldErrors (form : Form) : Form :=
  set_others (map (map (removeClassOther "is-invalid")) (others form))
             (set_fields (map (removeClass "is-invalid") (fields form)) form).

(** [focusAndClear(el)]; ["select" in el] holds for inputs and text
    areas.  On an element that is not a control the assignment to [value]
    changes nothing the script or the form data read. *)
Definition focusAndClear (form : Form) (el : option Located)
  : Form * list Effect :=
  match el with
  | None => (form, [])
  | Some (AtField i) =>
      match fields form !! i with
      | None => (form, [])
      | Some e =>
          (mapField i (set_value "") form,
           [FocusField i]
           ++ (if Tag_eqb (tagName e) SELECT then [] else [SelectField i])
           ++ [ScrollToField i])
      end
  | Some (AtOther k j) =>
      match lookupOther k j form with
      | None => (form, [])
      | Some _ => (form, [FocusOther k j; ScrollToOther k j])
      end
  end.

(** [ensureFormErrorBox()]: the box is created inside [.modal-body] when
    it is missing. *)
Definition ensureFormErrorBox (m : Modal) : Modal :=
  match form_errors m with
  | Some _ => m
  | None => if modal_body m then set_form_errors (Some "") m else m
  end.

(** ** Date display and transmission formats *)

(** [/^(\d{2})\/(\d{2})\/(\d{4})$/] *)
Definition reDDMMYYYYGroups : pattern :=
  Pattern true false
    (Seq (Group 1 (Times 2 Digit))
    (Seq (Chr "/")
    (Seq (Group 2 (Times 2 Digit))
    (Seq (Chr "/")
    (Seq (Group 3 (Times 4 Digit)) Eol))))).

(** [/^\d{4}-\d{2}-\d{2}$/] *)
Definition reISODate : pattern :=
  Pattern true false
    (Seq (Times 4 Digit)
    (Seq (Chr "-")
    (Seq (Times 2 Digit)
    (Seq (Chr "-")
    (Seq (Times 2 Digit) Eol))))).

(** The value the save handler puts in the form data for a date input
    holding [v], when it rewrites it. *)
Definition toTransmission (v : string) : option string :=
  match exec reDDMMYYYYGroups (trim v) with
  | Some m =>
      Some (interpolate (group 3 m) +:+ "-" +:+ interpolate (group 2 m)
            +:+ "-" +:+ interpolate (group 1 m))
  | None => None
  end.

(** The text [formatDateFields] wants an input that holds [v] to hold: [v]
    rewritten as dd/mm/yyyy when it has the form yyyy-mm-dd (lines 587 to
    590), and [v] itself otherwise.  What the input keeps of a text
    assigned to it depends on its type: see [formatDateField]. *)
Definition toDisplay (v : string) : string :=
  if truthy v && includes "-" v && test reISODate v
  then
    match split "-" v with
    | yyyy :: mm :: dd :: _ => dd +:+ "/" +:+ mm +:+ "/" +:+ yyyy
    | yyyy :: mm :: [] => "undefined/" +:+ mm +:+ "/" +:+ yyyy
    | yyyy :: [] => "undefined/undefined/" +:+ yyyy
    | [] => "undefined/undefined/undefined"
    end
  else v.

(** [input.placeholder = "dd/mm/yyyy"; input.type = "text"], by the steps
    the HTML standard gives for a change of type.  An input whose [value]
    was its [value] attribute, or a valid text of its type, keeps it; a
    check box or a radio button that has no [value] attribute held ["on"]
    and a file input held the path of its file: as text inputs they are
    empty.  (The [value] attribute of an input holds no line break, which
    the text input would remove; a file input has no [value]
    attribute.) *)
Definition becomeText (el : Element) : Element :=
  let v :=
    if String.eqb (type el) "file" then ""
    else if memString (type el) ["checkbox"; "radio"]
            && negb (has_value_attr el) then ""
    else value el in
  mkControl (elem_id el) (tagName el) "text" (name el) v (checked el)
            (disabled el) (offsetParent el) (clientRects el)
            (closestHidden el) (attr_required el) (data_required el)
            (aria_required el) (data_optional el) (data_type el)
            (Some "dd/mm/yyyy") (classList el) (options el) (files el)
            (has_value_attr el).

(** [formatDateFields()], on the controls of the form.  The text
    dd/mm/yyyy is assigned at line 590, while the input still has the type
    it came with, and the type becomes ["text"] at line 594: an input of
    type [date] has refused the text by then, and is left empty.  (A file
    input never holds a text of the form yyyy-mm-dd, so that nothing is
    assigned to it.) *)
Definition formatDateField (el : Element) : Element :=
  if matchesDateSel el
  then
    let v := value el in
    becomeText
      (if truthy v && includes "-" v && test reISODate v
       then set_value (toDisplay v) el
       else el)
  else el.

Definition formatDateFields (form : Form) : Form :=
  set_fields (map formatDateField (fields form)) form.

(** ** Form data *)

(** The entries [new FormData(form)] takes from a control: none from a
    disabled control, a button, a check box or radio button that is not
    checked, or a control without a name; one per selected option that is
    not disabled from a select; one per selected file from a file input,
    and an empty file when there is none; the name of the encoding from a
    hidden input called [_charset_]; the value of any other control.
    (No control of the form lies in a disabled [fieldset] or in a
    [datalist], none has a [dirname] attribute, and the form owns no
    control outside its subtree.) *)
Definition entriesOfControl (el : Element) : list (string * FormValue) :=
  if disabled el then []
  else
    match tagName el with
    | INPUT =>
        if memString (type el) ["button"; "submit"; "reset"; "image"] then []
        else if memString (type el) ["checkbox"; "radio"] && negb (checked el)
        then []
        else if negb (truthy (name el)) then []
        else if String.eqb (type el) "file"
        then match files el with
             | [] => [(name el, File "")]
             | fs => map (fun f => (name el, File f)) fs
             end
        else if String.eqb (type el) "hidden"
                && String.eqb (toLowerCase (name el)) "_charset_"
        then [(name el, Text "UTF-8")]
        else [(name el, Text (value el))]
    | SELECT =>
        if negb (truthy (name el)) then []
        else map (fun o => (name el, Text (opt_value o)))
                 (List.filter (fun o => opt_selected o && negb (opt_disabled o))
                              (options el))
    | TEXTAREA =>
        if negb (truthy (name el)) then []
        else [(name el, Text (value el))]
    end.

(** [new FormData(form)] *)
Definition formDataOf (form : Form) : list (string * FormValue) :=
  concat (map entriesOfControl (fields form)).

(** [formData.set(name, value)] for a text. *)
Fixpoint formDataSet (k v : string) (fd : list (string * FormValue))
  : list (string * FormValue) :=
  match fd with
  | [] => [(k, Text v)]
  | (k', v') :: rest =>
      if String.eqb k' k
      then (k, Text v) :: List.filter (fun e => negb (String.eqb (fst e) k)) rest
      else (k', v') :: formDataSet k v rest
  end.

Definition normalizeDates (form : Form) (fd : list (string * FormValue))
  : list (string * FormValue) :=
  fold_left (fun acc inp =>
               match toTransmission (value inp) with
               | Some iso => formDataSet (name inp) iso acc
               | None => acc
               end)
            (List.filter matchesDateSel (fields form)) fd.

(** ** The save handler *)

(** The click listener bound by [setupSaveButtonHandler], up to the call
    of [fetch]. *)
Definition saveClick (d : Document) : Document * list Effect :=
  match entityModal d with
  | None => (d, [])
  | Some modal =>
      match modal_form modal, modal_save modal with
      | Some form, Some saveBtn =>
          let form := clearInvalids (clearFieldErrors form) in
          let '(form, v) := validateForm form in
          if negb (valid v)
          then
            let '(form, effs) := focusAndClear form (AtField <$> firstEl v) in
            (set_entityModal (Some (set_modal_form (Some form) modal)) d,
             Alert (if truthy (msg v) then msg v
                    else "Please correct highlighted fields.") :: effs)
          else if negb (areAllVisibleFieldsFilled form)
                  || negb (allDatesValid form)
          then
            (set_entityModal (Some (set_modal_form (Some form) modal)) d,
             [Alert "Please complete all fields and enter valid dates (dd/mm/yyyy)."])
          else
            let url := action form in
            let formData := formDataOf form in
            let modal := ensureFormErrorBox (set_modal_form (Some form) modal) in
            let modal := set_form_errors ((fun _ => "") <$> form_errors modal)
                                         modal in
            let formData := normalizeDates form formData in
            let saveBtn :=
              mkButton true (classAdd "save-disabled" (btn_classList saveBtn))
                       "Saving..." (btn_boundAjax saveBtn) in
            (set_entityModal (Some (set_modal_save (Some saveBtn) modal)) d,
             [Fetch (mkRequest url "POST"
                       (ajaxHeaders d "application/json,text/html")
                       formData)])
      | _, _ => (d, [])
      end
  end.

(** ** Installing a modal *)

(** [setupSaveButtonHandler()]: the listener is bound once per button. *)
Definition setupSaveButtonHandler (m : Modal) : Modal :=
  match modal_save m with
  | Some b =>
      if btn_boundAjax b then m
      else set_modal_save
             (Some (mkButton (btn_disabled b) (btn_classList b) (btn_text b) true)) m
  | None => m
  end.

(** [prepareFormValidation(form, saveBtn)]: the save button starts
    disabled and the gate is computed once; the listeners it binds call
    [recomputeSaveEnabled] on later events. *)
Definition prepareFormValidation (m : Modal) : Modal :=
  match modal_form m, modal_save m with
  | Some form, Some saveBtn =>
      let saveBtn :=
        mkButton true (classAdd "save-disabled" (btn_classList saveBtn))
                 (btn_text saveBtn) (btn_boundAjax saveBtn) in
      let '(form', saveBtn') :=
        recomputeSaveEnabled (Some form) (Some saveBtn) in
      set_modal_save saveBtn' (set_modal_form form' m)
  | _, _ => m
  end.

Definition closeEntityModal (d : Document) : Document :=
  set_entityModal (set_modal_display "none" <$> entityModal d) d.

(** [replaceModalWithHTML(html)] *)
Definition replaceModalWithHTML (html : Markup) (d : Document) : Document :=
  match markup_modal html with
  | None => d
  | Some fresh =>
      let m := set_modal_display "flex" fresh in
      let m := set_modal_form (formatDateFields <$> modal_form m) m in
      let m := ensureFormErrorBox m in
      let m := setupSaveButtonHandler m in
      set_entityModal (Some (prepareFormValidation m)) d
  end.

(** The modal built by [ensureModalSkeleton()]. *)
Definition modalSkeleton : Modal :=
  mkModal "none" true (Some "") None
          (Some (mkButton true ["btn"; "btn-primary"; "save-disabled"] "Save" false)).

(** [fillAutoCode(entity)], up to its request. *)
Definition fillAutoCode (entity : string) (d : Document) : list Effect :=
  match entityModal d with
  | Some m =>
      match modal_form m with
      | Some form =>
          let byName (n : string) :=
            List.find (fun el => Tag_eqb (tagName el) INPUT
                                 && String.eqb (name el) n) (fields form) in
          let target :=
            match byName "code" with
            | Some t => Some t
            | None =>
                foldr (fun n acc => match byName n with
                                    | Some t => Some t
                                    | None => acc
                                    end)
                      None ["voucher_no"; "smtcode"; "empcode"; "staffcode"; "VCode"]
            end in
          match target with
          | Some t =>
              if truthy (value t) then []
              else
                let entSeg := toLowerCase (removeSpaces entity) in
                [Fetch (mkRequest "/next_code/" "POST"
                          [("X-CSRFToken", csrfToken d);
                           ("X-Requested-With", "XMLHttpRequest");
                           ("Content-Type", "application/x-www-form-urlencoded");
                           ("Accept", "application/json")]
                          [("entity", Text (encodeURIComponent entSeg))])]
          | None => []
          end
      | None => []
      end
  | None => []
  end.

(** [today.getDate()/getMonth()+1/getFullYear()], padded, for the day
    number [today]. *)
Definition formatToday (today : Z) : string :=
  padStart 2 "0" (stringOfN (Z.to_N (getDate today))) +:+ "/"
  +:+ padStart 2 "0" (stringOfN (Z.to_N (getMonth today + 1))) +:+ "/"
  +:+ stringOfN (Z.to_N (getFullYear today)).

Definition setAction (entity : string) (base mode : string)
  (id : option string) (form : Form) : Form :=
  let act :=
    if String.eqb mode "Create" then base +:+ "create/"
    else if String.eqb mode "Edit"
    then base +:+ "update/"
         +:+ replace Router.reLeadingColon "" (interpolate id) +:+ "/"
    else action form in
  mkFormTree act (Some entity) (fields form) (others form).

(** [form.querySelectorAll("input.date-field").forEach(...)] of the create
    branch: the text is assigned to the input as it came, which keeps it
    or not according to its type.  (No file input has the class
    [date-field]: the assignment would throw.) *)
Definition prefillDate (formatted : string) (input : Element) : Element :=
  if Tag_eqb (tagName input) INPUT && contains "date-field" (classList input)
  then (if negb (truthy (value input)) then set_value formatted input
        else input)
  else input.

(** [insertEntityModal(entity, html, mode, id)]; [pathname] is
    [window.location.pathname] and [today] the day [new Date()] falls on.
    The title, the layout classes, the masks and the password toggles are
    not part of the model. *)
Definition insertEntityModal (entity : string) (html : Markup)
  (mode : string) (id : option string) (pathname : string) (today : Z)
  (d : Document) : Document * list Effect :=
  let base := getEntityBase entity pathname in
  let returnedModal := markup_modal html in
  let d := set_entityModal None d in
  let d :=
    match returnedModal with
    | Some returnedModal =>
        let m := set_modal_form (setAction entity base mode id
                                   <$> modal_form returnedModal)
                                returnedModal in
        let m := ensureFormErrorBox m in
        set_entityModal (Some (set_modal_display "flex" m)) d
    | None =>
        let m := set_modal_form (markup_form html) modalSkeleton in
        let m := set_modal_display "flex" m in
        let m :=
          set_modal_form
            ((fun form =>
                let form := setAction entity base mode id form in
                if String.eqb mode "Create"
                then set_fields (map (prefillDate (formatToday today))
                                     (fields form)) form
                else form) <$> modal_form m) m in
        set_entityModal (Some m) d
    end in
  let d := set_entityModal (set_modal_display "flex" <$> entityModal d) d in
  let d :=
    set_entityModal
      ((fun m => set_modal_form (formatDateFields <$> modal_form m) m)
         <$> entityModal d) d in
  let effs := fillAutoCode entity d in
  let d :=
    set_entityModal
      ((fun m => prepareFormValidation
                   (setupSaveButtonHandler (ensureFormErrorBox m)))
         <$> entityModal d) d in
  (d, effs).

(** ** The response of the server to a submission *)

Inductive ErrorValue : Type :=
| Msgs (l : list string)      (* an array of messages *)
| Msg (s : string).           (* a single text *)

Record JsonData : Type := mkJson {
  j_success : bool;                                   (* data.success *)
  j_errors : option (list (string * ErrorValue));     (* data.errors *)
  j_html : option Markup                              (* data.html *)
}.

Record Response : Type := mkResponse {
  status : Z;
  redirected : bool;
  contentType : option string;      (* res.headers.get("content-type") *)
  json : option JsonData;           (* res.json(), None when it rejects *)
  text : Markup                     (* res.text() *)
}.

Definition quoteChars : list ascii := [ascii_of_N 34; "'"%char].

(** [/id=["']entity-modal["']/] *)
Definition reModalMarker : pattern :=
  Pattern false false
    (Seq (Lit "id=") (Seq (OneOf quoteChars)
    (Seq (Lit "entity-modal") (OneOf quoteChars)))).

Definition errorText (v : ErrorValue) : string :=
  match v with
  | Msgs l => join ", " l
  | Msg s => s
  end.

(** [markFieldInvalid(field, msg)] *)
Definition markFieldInvalid (field : string) (m : Modal) : Modal :=
  match modal_form m with
  | None => m
  | Some form =>
      match locateField form (Some field) with
      | None => m
      | Some l => set_modal_form (Some (addClassAt "is-invalid" l form)) m
      end
  end.

(** [showFormErrors(errors)] *)
Definition showFormErrors (errors : list (string * ErrorValue)) (m : Modal)
  : Modal :=
  let m := ensureFormErrorBox m in
  let m := set_form_errors ((fun _ => "") <$> form_errors m) m in
  fold_left
    (fun m (e : string * ErrorValue) =>
       let '(field, msgs) := e in
       let m :=
         set_form_errors
           ((fun h => h +:+ "<p><strong>" +:+ field +:+ ":</strong> "
                      +:+ errorText msgs +:+ "</p>") <$> form_errors m) m in
       markFieldInvalid field m)
    errors m.

(** What the [.catch] handler of the submission does. *)
Definition submissionFailed : list Effect :=
  [ConsoleError "Submission failed:"; Alert "Submission failed. Check console."].

Definition reinstall (html : Markup) (d : Document) : Document :=
  let d := replaceModalWithHTML html d in
  set_entityModal (prepareFormValidation <$> entityModal d) d.

(** The [.then] handler of the submission, followed by [.catch] when it
    throws. *)
Definition saveResponse (res : Response) (d : Document)
  : Document * list Effect :=
  let ct := toLowerCase (orEmpty (contentType res)) in
  if (status res =? 401)%Z || (status res =? 403)%Z || redirected res
  then handleAuthFailure "Not authenticated." d
  else if includes "application/json" ct
  then
    match json res with
    | None => (d, submissionFailed)
    | Some data =>
        if j_success data then (closeEntityModal d, [Reload])
        else
          match j_errors data with
          | Some errors =>
              let first := head errors in
              let field := fst <$> first in
              let msg :=
                match snd <$> first with
                | Some (Msgs l) => head l
                | Some (Msg s) => Some (if truthy s then s else "Fix errors.")
                | None => Some "Fix errors."
                end in
              let d := set_entityModal (showFormErrors errors <$> entityModal d) d in
              let alert :=
                Alert (match msg with
                       | Some t => if truthy t then t
                                   else "Please fix the highlighted field."
                       | None => "Please fix the highlighted field."
                       end) in
              match entityModal d ≫= modal_form with
              | None =>
                  match field with
                  | Some f => if truthy f then (d, alert :: submissionFailed)
                              else (d, [alert])
                  | None => (d, [alert])
                  end
              | Some form =>
                  match locateField form field with
                  | None => (d, [alert])
                  | Some l =>
                      let form := addClassAt "invalid" l form in
                      let '(form, effs) := focusAndClear form (Some l) in
                      (set_entityModal
                         (set_modal_form (Some form) <$> entityModal d) d,
                       alert :: effs)
                  end
              end
          | None =>
              match j_html data with
              | Some html =>
                  if truthy (markup_text html) then (reinstall html d, [])
                  else (d, [Alert "Validation failed."])
              | None => (d, [Alert "Validation failed."])
              end
          end
    end
  else
    let text := text res in
    if truthy (markup_text text) && test reModalMarker (markup_text text)
    then (reinstall text d, [])
    else (d, [Alert "Server returned unexpected response. Reloading..."; Reload]).

End Page.

(* ====================================================================== *)
(** * Input masks *)
(* ====================================================================== *)

Module Masks.
Import JS Dom Validation.

(** [s.replace(/[^\d]/g, "")] and [s.replace(/\D/g, "")] *)
Fixpoint keepDigits (s : string) : string :=
  match s with
  | "" => ""
  | String c t => if isDigit c then String c (keepDigits t) else keepDigits t
  end.

(** [s.slice(a, b)] and [s.slice(a)] for indices within [0, s.length]. *)
Definition slice (a b : nat) (s : string) : string :=
  String.substring a (b - a) s.

Definition sliceFrom (a : nat) (s : string) : string :=
  String.substring a (String.length s - a) s.

(** The value the [input] listener of [attachDateMask] writes back. *)
Definition maskDate (value : string) : string :=
  let v := slice 0 8 (keepDigits value) in
  if (5 <=? String.length v)%nat
  then slice 0 2 v +:+ "/" +:+ slice 2 4 v +:+ "/" +:+ sliceFrom 4 v
  else if (3 <=? String.length v)%nat
  then slice 0 2 v +:+ "/" +:+ sliceFrom 2 v
  else v.

(** The custom validity message the [input] listener sets for the masked
    value [v]; the empty text clears it. *)
Definition maskValidity (v : string) : string :=
  if Nat.eqb (String.length v) 10 && negb (isValidDateDDMMYYYY v)
  then "Enter date as dd/mm/yyyy" else "".

(** The custom validity message the [blur] listener sets. *)
Definition blurValidity (value : string) : string :=
  let v := trim value in
  if truthy v && negb (isValidDateDDMMYYYY v)
  then "Enter date as dd/mm/yyyy" else "".

(** A date input as its listeners see it: the text it holds and its
    custom validity message. *)
Record DateInput := mkDateInput {
  di_value    : string;
  di_validity : string
}.

(** The [input] listener bound by [attachDateMask]. *)
Definition onMaskInput (i : DateInput) : DateInput :=
  let v := maskDate (di_value i) in
  mkDateInput v (maskValidity v).

(** The [blur] listener bound by [attachDateMask]. *)
Definition onMaskBlur (i : DateInput) : DateInput :=
  mkDateInput (di_value i) (blurValidity (di_value i)).

(** The [input] listener [formatDateFields] adds:
    [() => input.setCustomValidity("")]. *)
Definition onFormattedInput (i : DateInput) : DateInput :=
  mkDateInput (di_value i) "".

(** An [input] event on a date input.  Listeners run in the order of their
    registration, and [formatDateFields] adds its own after the call of
    [attachDateMask]: on an input [formatDateFields] has gone through
    ([formatted]), the listener of the mask is followed by the one that
    clears the message. *)
Definition inputEvent (formatted : bool) (i : DateInput) : DateInput :=
  let i1 := onMaskInput i in
  if formatted then onFormattedInput i1 else i1.

(** [s.replace(/(\d{4})(?=\d)/g, "$1 ")] and
    [s.replace(/(.{4})(?=.)/g, "$1 ")]: from the left, four characters of
    the class [p] that another one follows are copied with a space after
    them and the scan goes on behind them; any other character is copied
    and the scan goes on at the next one. *)
Fixpoint spaceEveryFour (p : ascii -> bool) (s : string) : string :=
  match s with
  | String a (String b (String c (String d (String e _ as rest) as t3) as t2) as t1) =>
      if p a && p b && p c && p d && p e
      then String a (String b (String c (String d (String " " (spaceEveryFour p rest)))))
      else String a (spaceEveryFour p t1)
  | String a t => String a (spaceEveryFour p t)
  | "" => ""
  end.

(** The value written back by the phone listener of [addMasks] and of
    [initPhoneInputs]. *)
Definition maskPhone (value : string) : string :=
  slice 0 10 (keepDigits value).

(** The value written back by the Aadhaar listener of [addMasks]. *)
Definition maskAadhaar (value : string) : string :=
  let v := slice 0 12 (keepDigits value) in
  trim (spaceEveryFour isDigit v).

(** The value written back by the listener of [formatAadharInput]. *)
Definition formatAadhar (value : string) : string :=
  let raw := slice 0 12 (keepDigits value) in
  trim (spaceEveryFour (fun x => negb (isLineTerminator x)) raw).

End Masks.

(* ====================================================================== *)
(** * Normalizing the entity buttons and routing their clicks *)
(* ====================================================================== *)

Module Dispatch.
Import JS Dom Router.

(** An element the router may meet: what [getEntityFromElement] and
    [getIdFromElement] read, its tag and its classes. *)
Record Target : Type := mkTarget {
  trigger : Trigger;
  isAnchor : bool;                 (* an [a] element *)
  isButtonTag : bool;              (* a [button] element *)
  classes : list string            (* el.classList *)
}.

Definition segment : regex := Plus (NoneOf false ["/"%char]).

(** [/^\/([^\/]+)\/get\/?$/i] *)
Definition reAddHref : pattern :=
  Pattern true true
    (Seq (Chr "/")
    (Seq (Group 1 segment)
    (Seq (Chr "/")
    (Seq (Lit "get")
    (Seq (Opt (Chr "/")) Eol))))).

(** [/^\/([^\/]+)\/<word>\/([^\/]+)\/?$/i] *)
Definition idLink (word : string) : pattern :=
  Pattern true true
    (Seq (Chr "/")
    (Seq (Group 1 segment)
    (Seq (Chr "/")
    (Seq (Lit word)
    (Seq (Chr "/")
    (Seq (Group 2 segment)
    (Seq (Opt (Chr "/")) Eol))))))).

(** [/^\/([^\/]+)\/update\/([^\/]+)\/?$/i] and
    [/^\/([^\/]+)\/delete\/([^\/]+)\/?$/i] *)
Definition reEditHref : pattern := idLink "update".
Definition reDelHref : pattern := idLink "delete".

(** [el.dataset.k = el.dataset.k || v] *)
Definition stamp (old : option string) (v : option string) : option string :=
  Some (interpolate (orElse old v)).

(** The selector ["a[href^='/'], button, .btn"]. *)
Definition isButtonLike (t : Target) : bool :=
  (isAnchor t
   && match href (trigger t) with
      | Some h => String.prefix "/" h
      | None => false
      end)
  || isButtonTag t
  || contains "btn" (classes t).

(** The body of the loop of [normalizeEntityButtons], on one element. *)
Definition normalizeEntityButton (t : Target) : Target :=
  if negb (isButtonLike t) then t
  else
    match href (trigger t) with
    | None => t
    | Some h =>
        if negb (truthy h) then t
        else
          let el := trigger t in
          match exec reAddHref h with
          | Some mAdd =>
              mkTarget
                (mkTrigger (el_id el) (href el)
                   (stamp (data_open_entity el) (group 1 mAdd))
                   (data_edit_entity el) (data_delete_entity el)
                   (stamp (data_entity el) (group 1 mAdd))
                   (data_id el) (ancestors el))
                (isAnchor t) (isButtonTag t) (classAdd "btn-add" (classes t))
          | None =>
          match exec reEditHref h with
          | Some mEdit =>
              mkTarget
                (mkTrigger (el_id el) (href el)
                   (data_open_entity el)
                   (stamp (data_edit_entity el) (group 1 mEdit))
                   (data_delete_entity el)
                   (stamp (data_entity el) (group 1 mEdit))
                   (stamp (data_id el) (group 2 mEdit)) (ancestors el))
                (isAnchor t) (isButtonTag t) (classAdd "btn-edit" (classes t))
          | None =>
          match exec reDelHref h with
          | Some mDel =>
              mkTarget
                (mkTrigger (el_id el) (href el)
                   (data_open_entity el) (data_edit_entity el)
                   (stamp (data_delete_entity el) (group 1 mDel))
                   (stamp (data_entity el) (group 1 mDel))
                   (stamp (data_id el) (group 2 mDel)) (ancestors el))
                (isAnchor t) (isButtonTag t) (classAdd "btn-delete" (classes t))
          | None => t
          end end end
    end.

(** [normalizeEntityButtons(scope)], on the elements of the scope. *)
Definition normalizeEntityButtons (scope : list Target) : list Target :=
  map normalizeEntityButton scope.

(** ["[id^='create-'][id$='-btn']"] *)
Definition isCreateId (id : string) : bool :=
  String.prefix "create-" id && Page.endsWith "-btn" id.

(** ["[data-open-entity], .btn-add, [id^='create-'][id$='-btn']"],
    ["[data-edit-entity], .btn-edit"] and
    ["[data-delete-entity], .btn-delete"] *)
Definition matchesAdd (t : Target) : bool :=
  bool_decide (is_Some (data_open_entity (trigger t)))
  || contains "btn-add" (classes t)
  || isCreateId (el_id (trigger t)).

Definition matchesEdit (t : Target) : bool :=
  bool_decide (is_Some (data_edit_entity (trigger t)))
  || contains "btn-edit" (classes t).

Definition matchesDelete (t : Target) : bool :=
  bool_decide (is_Some (data_delete_entity (trigger t)))
  || contains "btn-delete" (classes t).

(** [ENTITY_BTN_SEL] *)
Definition matchesEntityBtn (t : Target) : bool :=
  bool_decide (is_Some (data_open_entity (trigger t)))
  || bool_decide (is_Some (data_edit_entity (trigger t)))
  || bool_decide (is_Some (data_delete_entity (trigger t)))
  || contains "btn-add" (classes t)
  || contains "btn-edit" (classes t)
  || contains "btn-delete" (classes t)
  || isCreateId (el_id (trigger t)).

(** What the click router does: the function it calls, or the warning
    it logs. *)
Inductive Call : Type :=
| NoCall
| OpenEntityModal (entity : string)
| EditEntity (entity id : string)
| DeleteEntity (entity id : string)
| Warn (m : string).

Record Routed : Type := mkRouted {
  defaultPrevented : bool;         (* e.preventDefault() was called *)
  call : Call
}.

(** The delegated click listener; [path] is the element clicked followed
    by its ancestors, nearest first. *)
Definition routeClick (path : list Target) : Routed :=
  match List.find matchesEntityBtn path with
  | None => mkRouted false NoCall
  | Some t =>
      let entity := getEntityFromElement (Some (trigger t)) in
      let id := getIdFromElement (Some (trigger t)) in
      if negb (truthy entity) then mkRouted false NoCall
      else
        mkRouted true
          (if matchesAdd t then OpenEntityModal entity
           else if matchesEdit t
           then (if negb (truthy id) then Warn "Edit clicked without id"
                 else EditEntity entity id)
           else if matchesDelete t
           then (if negb (truthy id) then Warn "Delete clicked without id"
                 else DeleteEntity entity id)
           else NoCall)
  end.

End Dispatch.

(* ====================================================================== *)
(** * Permission check boxes *)
(* ====================================================================== *)

Module Permissions.
Import JS Dom.

(** ** Select-all boxes *)

(** One [.check-all] box and the boxes of its group
    ([.form-check-input.<group>]), the select-all box not being one of
    them: their [checked] states. *)
Record Group : Type := mkGroup {
  selectAll : bool;
  boxes : list bool
}.

(** The [change] listener of the select-all box. *)
Definition onSelectAllChange (g : Group) : Group :=
  mkGroup (selectAll g) (map (fun _ => selectAll g) (boxes g)).

(** The [change] listener of a box of the group. *)
Definition onBoxChange (g : Group) : Group :=
  mkGroup (forallb (fun c => c) (boxes g)) (boxes g).

(** A click of the user: the browser flips the box, then runs its
    listener.  There is no box of index [i] beyond the group. *)
Inductive GroupClick : Type :=
| ClickSelectAll
| ClickBox (i : nat).

Definition groupClick (e : GroupClick) (g : Group) : Group :=
  match e with
  | ClickSelectAll =>
      onSelectAllChange (mkGroup (negb (selectAll g)) (boxes g))
  | ClickBox i =>
      if (i <? length (boxes g))%nat
      then onBoxChange (mkGroup (selectAll g) (alter negb i (boxes g)))
      else g
  end.

(** ** Role switches *)

(** A [.perm-checkbox]. *)
Record Perm : Type := mkPerm {
  perm : option string;            (* cb.dataset.perm *)
  p_checked : bool;
  p_disabled : bool
}.

(** The three role switches, which are not permission check boxes
    themselves, and the permission check boxes. *)
Record Switches : Type := mkSwitches {
  master : bool;                   (* #role-master-switch, checked *)
  staff : bool;                    (* #role-staff-switch *)
  report : bool;                   (* #role-report-switch *)
  perms : list Perm
}.

(** [cb.dataset.perm?.includes(w)] as a filter condition *)
Definition hasPerm (w : string) (cb : Perm) : bool :=
  match perm cb with
  | Some p => includes w p
  | None => false
  end.

Definition clearAll (ps : list Perm) : list Perm :=
  map (fun cb => mkPerm (perm cb) false false) ps.

Inductive Role : Type := Master | Staff | Report.

(** The [change] listeners bound by [setupRoleSwitches]. *)
Definition onRoleChange (r : Role) (s : Switches) : Switches :=
  let ps := clearAll (perms s) in
  match r with
  | Master =>
      if master s
      then mkSwitches (master s) false false
             (map (fun cb => mkPerm (perm cb) true (p_disabled cb)) ps)
      else mkSwitches (master s) (staff s) (report s) ps
  | Staff =>
      if staff s
      then mkSwitches false (staff s) false
             (map (fun cb => if hasPerm "loanapplication" cb
                             then mkPerm (perm cb) true true else cb) ps)
      else mkSwitches (master s) (staff s) (report s) ps
  | Report =>
      if report s
      then mkSwitches false false (report s)
             (map (fun cb => if hasPerm "fieldschedule" cb
                                || hasPerm "fieldreport" cb
                             then mkPerm (perm cb) true true else cb) ps)
      else mkSwitches (master s) (staff s) (report s) ps
  end.

(** A click of the user on a switch: the browser flips it, then runs its
    listener. *)
Definition flip (r : Role) (s : Switches) : Switches :=
  match r with
  | Master => mkSwitches (negb (master s)) (staff s) (report s) (perms s)
  | Staff => mkSwitches (master s) (negb (staff s)) (report s) (perms s)
  | Report => mkSwitches (master s) (staff s) (negb (report s)) (perms s)
  end.

Definition roleClick (r : Role) (s : Switches) : Switches :=
  onRoleChange r (flip r s).

Definition roleClicks (rs : list Role) (s : Switches) : Switches :=
  fold_left (fun s r => roleClick r s) rs s.

End Permissions.

(* ====================================================================== *)
(** * The login overlay *)
(* ====================================================================== *)

Module Login.
Import JS Dom Page.

(** [(u && u.value.trim().length > 0)] *)
Definition nonBlank (i : option TextInput) : bool :=
  match i with
  | Some t => (0 <? String.length (trim (ti_value t)))%nat
  | None => false
  end.

(** [updateSubmitState()]; [focused] tells whether the active element is
    the user name or the password input. *)
Definition updateSubmitState (focused : bool) (d : Document) : Document :=
  let ok := nonBlank (loginUsername d) && nonBlank (loginPassword d) in
  mkPage (body d) (csrfToken d) (entityModal d) (loginModal d)
         (loginUsername d) (loginPassword d) (otpBlock d)
         (if focused
          then (fun e => mkErrorBox "" true "" (err_role e) (err_live e))
                 <$> loginError d
          else loginError d)
         ((fun _ => negb ok) <$> loginSubmit d)
         (focusTimers d).

(** [closeLoginModal()] *)
Definition closeLoginModal (d : Document) : Document :=
  match loginModal d with
  | Some lm =>
      resetLoginModalState
        (mkPage (body d) (csrfToken d) (entityModal d)
                (Some (mkLoginModal (classRemove "show" (lm_classList lm))
                                    "none"))
                (loginUsername d) (loginPassword d) (otpBlock d)
                (loginError d) (loginSubmit d) (focusTimers d))
  | None => d
  end.

(** The JSON body of the answer to a login. *)
Record LoginData : Type := mkLoginData {
  l_success : bool;                    (* data.success *)
  l_redirect_url : option string;      (* data.redirect_url *)
  l_require_otp : bool;                (* data.require_otp *)
  l_error : option string              (* data.error *)
}.

Record LoginResponse : Type := mkLoginResponse {
  l_status : Z;
  l_redirected : bool;
  l_contentType : option string;
  l_json : option LoginData            (* res.json(), None when it rejects *)
}.

(** What the handler of the answer leaves: the page, the calls made and
    the address assigned to [window.location.href], if any. *)
Record LoginOutcome : Type := mkLoginOutcome {
  page : Document;
  effects : list Effect;
  navigatedTo : option string
}.

Definition shown (r : Document * list Effect) : LoginOutcome :=
  mkLoginOutcome (fst r) (snd r) None.

(** The [.then] handler of the login request, followed by [.catch] when
    [res.json()] rejects. *)
Definition loginResponse (res : LoginResponse) (d : Document) : LoginOutcome :=
  let ct := toLowerCase (orEmpty (l_contentType res)) in
  if l_redirected res && negb (includes "application/json" ct)
  then shown (showInlineLoginError "Invalid credentials." d)
  else if (l_status res =? 401)%Z || (l_status res =? 400)%Z
          || (l_status res =? 403)%Z
  then shown (showInlineLoginError "Invalid credentials." d)
  else if includes "application/json" ct
  then
    match l_json res with
    | None => shown (showInlineLoginError "Network error. Please try again." d)
    | Some data =>
        if l_success data
        then mkLoginOutcome (closeLoginModal d) []
               (Some (orEmpty (orElse (l_redirect_url data) (Some "/dashboard/"))))
        else
          let d :=
            if l_require_otp data
            then mkPage (body d) (csrfToken d) (entityModal d) (loginModal d)
                        (loginUsername d) (loginPassword d)
                        ((fun _ => false) <$> otpBlock d)
                        (loginError d) (loginSubmit d) (focusTimers d)
            else d in
          shown (showInlineLoginError
                   (orEmpty (orElse (l_error data) (Some "Invalid credentials.")))
                   d)
    end
  else shown (showInlineLoginError "Invalid credentials." d).

End Login.

(* ====================================================================== *)
(** * Opening, editing and deleting: requests and answers *)
(* ====================================================================== *)

Module Requests.
Import JS Dom Router Page.

(** [/\/userpermissions?\/?$/i] *)
Definition reUserPermPage : pattern :=
  Pattern false true
    (Seq (Chr "/") (Seq (Lit "userpermission")
    (Seq (Opt (Chr "s")) (Seq (Opt (Chr "/")) Eol)))).

(** The argument of [openEntityModal]: a text, an event with its
    [currentTarget], or anything else. *)
Inductive OpenArg : Type :=
| ByName (entity : string)
| ByEvent (currentTarget : option Trigger)
| ByOther.

Definition loadHeaders : list (string * string) :=
  [("X-Requested-With", "XMLHttpRequest");
   ("Accept", "application/json,text/html")].

(** [openEntityModal(entityOrEvent)], up to its request: the calls made
    and the address assigned to [window.location.href], if any. *)
Definition openEntityModal (arg : OpenArg) (pathname : string)
  : list Effect * option string :=
  let entity :=
    match arg with
    | ByName s => Some s
    | ByEvent (Some el) =>
        orElse (Some (getEntityFromElement (Some el)))
               (orElse (data_entity el) (data_entity el))
    | _ => None
    end in
  if negb (truthy (orEmpty entity))
  then ([ConsoleError "No entity provided to openEntityModal"], None)
  else
    let entity := orEmpty entity in
    if isUserPermEntity entity && negb (test reUserPermPage pathname)
    then ([], Some "/UserPermission/")
    else
      ([Fetch (mkRequest (getEntityBase entity pathname +:+ "get/") "GET"
                 loadHeaders [])], None).

(** [editEntity(entity, id)], up to its request. *)
Definition editEntity (entity id : string) (pathname : string)
  : list Effect :=
  if negb (truthy entity) || negb (truthy id)
  then [ConsoleError "editEntity requires entity and id"]
  else if isUserPermEntity entity
  then [Alert "Use the User Permissions page to manage permissions."]
  else
    let id := replace reLeadingColon "" id in
    [Fetch (mkRequest (getEntityBase entity pathname +:+ "get/" +:+ id +:+ "/")
              "GET" loadHeaders [])].

(** The answer to the request of a form. *)
Record LoadData : Type := mkLoadData {
  d_success : bool;                 (* data.success *)
  d_error : option string;          (* data.error *)
  d_warning : option string;        (* data.warning *)
  d_html : option Markup            (* data.html *)
}.

Record LoadResponse : Type := mkLoadResponse {
  r_status : Z;
  r_redirected : bool;
  r_contentType : option string;
  r_json : option LoadData;         (* res.json(), None when it rejects *)
  r_text : option Markup            (* res.text(), None when it rejects *)
}.

(** [res.ok] *)
Definition ok (res : LoadResponse) : bool :=
  ((200 <=? r_status res) && (r_status res <=? 299))%Z.

(** The handlers of [openEntityModal] and [editEntity] differ by their
    messages and by the mode and id they pass on. *)
Record LoadTexts : Type := mkLoadTexts {
  notFound : string;
  failedLog : string;
  failedAlert : string
}.

Definition createTexts : LoadTexts :=
  mkLoadTexts "Form endpoint not found." "Load create form error:"
              "Failed to load create form.".

Definition editTexts : LoadTexts :=
  mkLoadTexts "Edit form endpoint not found." "Edit load error:"
              "Failed to load data.".

(** The [.then] handler of the request of a form, followed by [.catch]
    when reading the body rejects. *)
Definition loadResponse (texts : LoadTexts) (entity mode : string)
  (id : option string) (res : LoadResponse) (pathname : string) (today : Z)
  (d : Document) : Document * list Effect :=
  let failed := [ConsoleError (failedLog texts); Alert (failedAlert texts)] in
  if (r_status res =? 401)%Z || (r_status res =? 403)%Z || r_redirected res
  then handleAuthFailure "Not authenticated." d
  else
    let ct := orEmpty (r_contentType res) in
    if includes "application/json" ct
    then
      match r_json res with
      | None => (d, failed)
      | Some data =>
          if negb (ok res) || negb (d_success data)
          then (d, [Alert (orEmpty (orElse (d_error data)
                             (Some ("Error " +:+ stringOfN (Z.to_N (r_status res))))))])
          else
            let warn :=
              if truthy (orEmpty (d_warning data))
              then [ConsoleWarn (orEmpty (d_warning data))] else [] in
            match d_html data with
            | Some html =>
                if truthy (markup_text html)
                then
                  let '(d', effs) :=
                    insertEntityModal entity html mode id pathname today d in
                  (d', warn ++ effs)
                else (d, warn ++ [Alert "Empty form response."])
            | None => (d, warn ++ [Alert "Empty form response."])
            end
      end
    else
      match r_text res with
      | None => (d, failed)
      | Some text =>
          if (r_status res =? 404)%Z then (d, [Alert (notFound texts)])
          else if truthy (markup_text text)
          then insertEntityModal entity text mode id pathname today d
          else (d, [Alert "Empty form response."])
      end.

(** The handler of [openEntityModal(entity)]. *)
Definition openResponse (entity : string) :=
  loadResponse createTexts entity "Create" None.

(** The handler of [editEntity(entity, id)]: the id passed on is the one
    of the request, without its leading colon. *)
Definition editResponse (entity id : string) :=
  loadResponse editTexts entity "Edit"
               (Some (replace reLeadingColon "" id)).

(** ** The answer to a deletion *)

(** [/no such table|table .* does not exist|relation .* does not exist|undefinedtable|table .* not present/i] *)
Definition reTableMissing : pattern :=
  Pattern false true
    (Alt (Lit "no such table")
    (Alt (Seq (Lit "table ") (Seq (Star Dot) (Lit " does not exist")))
    (Alt (Seq (Lit "relation ") (Seq (Star Dot) (Lit " does not exist")))
    (Alt (Lit "undefinedtable")
         (Seq (Lit "table ") (Seq (Star Dot) (Lit " not present"))))))).

(** [/csrf|forgery/i] *)
Definition reCsrf : pattern :=
  Pattern false true (Alt (Lit "csrf") (Lit "forgery")).

Record DeleteData : Type := mkDeleteData {
  del_success : bool;               (* data.success *)
  del_error : option string         (* data.error *)
}.

Record DeleteResponse : Type := mkDeleteResponse {
  del_status : Z;
  del_redirected : bool;
  del_contentType : option string;
  del_json : option DeleteData;     (* res.json(), None when it rejects *)
  del_text : option string          (* res.text(), None when it rejects *)
}.

(** The [.then] handler of [deleteEntity(entity, id)], followed by
    [.catch] when [res.json()] rejects; [entSeg] is the entity segment of
    the request. *)
Definition deleteResponse (entSeg : string) (res : DeleteResponse)
  (d : Document) : Document * list Effect :=
  let ct := toLowerCase (orEmpty (del_contentType res)) in
  if (del_status res =? 401)%Z
  then handleAuthFailure "Not authenticated." d
  else if (del_status res =? 403)%Z || del_redirected res
  then handleAuthFailure "Not authenticated." d
  else if includes "application/json" ct
  then
    match del_json res with
    | None =>
        (d, [ConsoleError "Delete error:";
             Alert "Delete request failed. Check console for details."])
    | Some data =>
        if del_success data then (d, [Reload])
        else
          let msg := toLowerCase (orEmpty (orElse (del_error data) (Some ""))) in
          let tableMissing := test reTableMissing msg in
          let limited :=
            String.eqb entSeg "userprofile" || String.eqb entSeg "hrpm" in
          if tableMissing && limited
          then (d, [Alert "Table missing. Run migrations, then retry delete."])
          else (d, [Alert (orEmpty (orElse (del_error data)
                                           (Some "Delete failed.")))])
    end
  else
    let t := orEmpty (del_text res) in
    if (del_status res =? 403)%Z && test reCsrf t
    then (d, [Alert "CSRF validation failed or session expired. Refresh the page and try again."])
    else (d, [Alert "Server returned unexpected response while deleting.";
              ConsoleError "Delete non-JSON response:"]).

End Requests.

(* ====================================================================== *)
(** * Vocabulary of the properties *)
(* ====================================================================== *)

Module Spec.
Import JS Dom Validation.

(** ** Calendar dates *)

(** The value of a decimal digit. *)
Definition digitVal (c : ascii) : Z := Z.of_N (code c - 48).

Definition isLeapYear (y : Z) : bool :=
  ((y mod 4 =? 0) && negb (y mod 100 =? 0) || (y mod 400 =? 0))%Z.

Definition daysInMonth (y m : Z) : Z :=
  match m with
  | 2 => if isLeapYear y then 29 else 28
  | 4 | 6 | 9 | 11 => 30
  | _ => 31
  end%Z.

(** One period of the calendar, month by month. *)
Definition lastDayAgrees (y m : Z) : bool :=
  (DateFromDay (MakeDay y m 0) =? daysInMonth y m)%Z.

(** The text [d1 d2 / m1 m2 / y1 y2 y3 y4]. *)
Definition dateText (d1 d2 m1 m2 y1 y2 y3 y4 : ascii) : string :=
  String d1 (String d2 (String "/" (String m1 (String m2 (String "/"
    (String y1 (String y2 (String y3 (String y4 ""))))))))).

Definition allDigits (cs : list ascii) : Prop :=
  Forall (fun c => isDigit c = true) cs.

Definition dayOf (d1 d2 : ascii) : Z := (10 * digitVal d1 + digitVal d2)%Z.
Definition monthOf (m1 m2 : ascii) : Z := (10 * digitVal m1 + digitVal m2)%Z.
Definition yearOf (y1 y2 y3 y4 : ascii) : Z :=
  (1000 * digitVal y1 + 100 * digitVal y2 + 10 * digitVal y3 + digitVal y4)%Z.

(** [s] has the shape [\d\d/\d\d/\d\d\d\d]. *)
Definition HasDateShape (s : string) : Prop :=
  exists d1 d2 m1 m2 y1 y2 y3 y4,
    s = dateText d1 d2 m1 m2 y1 y2 y3 y4
    /\ allDigits [d1; d2; m1; m2; y1; y2; y3; y4].

(** [s] has the shape [\d\d/\d\d/\d\d\d\d], its year is in [1900, 9999],
    its month in [1, 12] and its day between 1 and the length of that
    month in that year. *)
Definition CalendarValid (s : string) : Prop :=
  exists d1 d2 m1 m2 y1 y2 y3 y4,
    s = dateText d1 d2 m1 m2 y1 y2 y3 y4
    /\ allDigits [d1; d2; m1; m2; y1; y2; y3; y4]
    /\ (1900 <= yearOf y1 y2 y3 y4 <= 9999)%Z
    /\ (1 <= monthOf m1 m2 <= 12)%Z
    /\ (1 <= dayOf d1 d2 <= daysInMonth (yearOf y1 y2 y3 y4) (monthOf m1 m2))%Z.

(** ** The rules of the validator *)

Inductive Rule : Type :=
| RequiredEmpty        (* required and empty *)
| EmailShape           (* e-mail shape *)
| DateValid            (* calendar-valid dd/mm/yyyy *)
| IdentifierFormat.    (* "dddd dddd dddd" *)

(** The order in which the rules are listed. *)
Definition rank (r : Rule) : nat :=
  match r with
  | RequiredEmpty => 0
  | EmailShape => 1
  | DateValid => 2
  | IdentifierFormat => 3
  end.

Definition ruleOrder : list Rule :=
  [RequiredEmpty; EmailShape; DateValid; IdentifierFormat].

Definition ruleMessage (r : Rule) : string :=
  match r with
  | RequiredEmpty => "Please fill the required field."
  | EmailShape => "Invalid email address."
  | DateValid => "Date must be dd/mm/yyyy."
  | IdentifierFormat => "Invalid Aadhaar format."
  end.

(** The text [a1 a2 a3 a4 s1 b1 b2 b3 b4 s2 c1 c2 c3 c4] of an identifier:
    three groups of four digits with one white-space character between
    them. *)
Definition HasIdentifierShape (s : string) : Prop :=
  exists a1 a2 a3 a4 s1 b1 b2 b3 b4 s2 c1 c2 c3 c4,
    s = String a1 (String a2 (String a3 (String a4 (String s1
          (String b1 (String b2 (String b3 (String b4 (String s2
          (String c1 (String c2 (String c3 (String c4 "")))))))))))))
    /\ allDigits [a1; a2; a3; a4; b1; b2; b3; b4; c1; c2; c3; c4]
    /\ isSpace s1 = true /\ isSpace s2 = true.

(** The date category and the identifier category of the validator. *)
Definition isDateCategory (el : Element) : bool :=
  contains "date-field" (classList el) || attrIs (data_type el) "date"
  || test reDateOrDob (name el).

Definition isIdentifier (el : Element) : bool :=
  truthy (name el) && includes "aadhar" (toLowerCase (name el)).

(** The control breaks the rule. *)
Definition violates (r : Rule) (el : Element) : bool :=
  let val := trim (value el) in
  match r with
  | RequiredEmpty => isRequired el && negb (truthy val)
  | EmailShape =>
      String.eqb (type el) "email" && truthy val && negb (test reEmail val)
  | DateValid =>
      isDateCategory el && truthy val && negb (isValidDateDDMMYYYY val)
  | IdentifierFormat =>
      isIdentifier el && truthy val && negb (test reAadhaar val)
  end.

(** The controls the validator passes over: inside a [hidden] subtree, of
    type "hidden", or disabled. *)
Definition skipped (el : Element) : bool :=
  closestHidden el || String.eqb (type el) "hidden" || disabled el.

(** A control marked optional: [data-optional="true"]. *)
Definition markedOptional (el : Element) : bool :=
  attrIs (data_optional el) "true".

(** A control the validator examines and that breaks some rule. *)
Definition failing (el : Element) : bool :=
  negb (skipped el) && existsb (fun r => violates r el) ruleOrder.

(** ** The save gate *)

(** Whether the save action is enabled once [recomputeSaveEnabled] has run
    on the form and the button. *)
Definition saveEnabled (form : Form) (saveBtn : Button) : bool :=
  match snd (recomputeSaveEnabled (Some form) (Some saveBtn)) with
  | Some b => negb (btn_disabled b)
  | None => false
  end.

Definition IsChoice (el : Element) : Prop :=
  toLowerCase (type el) = "checkbox" \/ toLowerCase (type el) = "radio".

(** Some member of the group of [el] (the inputs of the form with its type
    and name) is checked. *)
Definition GroupChecked (form : Form) (el : Element) : Prop :=
  exists g, g ∈ fields form /\ tagName g = INPUT
            /\ type g = toLowerCase (type el) /\ name g = name el
            /\ checked g = true.

(** The control is filled: a checkbox or radio button through its group
    (one without a name belongs to no group and counts as satisfied), any
    other control through a value that is not blank. *)
Definition Filled (form : Form) (el : Element) : Prop :=
  (IsChoice el -> name el = "" \/ GroupChecked form el)
  /\ (~ IsChoice el -> trim (value el) <> "").

Definition IsButton (el : Element) : Prop :=
  toLowerCase (type el) = "button" \/ toLowerCase (type el) = "submit".

(** The controls of the completeness check, as the specification lists them:
    visible, not disabled, not hidden, not optional. *)
Definition Participates (el : Element) : Prop :=
  isVisible el = true /\ disabled el = false /\ type el <> "hidden"
  /\ markedOptional el = false.

(** The value held is a calendar-valid dd/mm/yyyy text of 10 characters. *)
Definition HoldsDate (el : Element) : Prop :=
  String.length (trim (value el)) = 10%nat /\ CalendarValid (trim (value el)).

(** The gate as stated: every date input that is visible is checked. *)
Definition GateAsStated (form : Form) : Prop :=
  (forall el, el ∈ fields form -> Participates el -> Filled form el)
  /\ (forall el, el ∈ fields form -> matchesDateSel el = true ->
                 isVisible el = true -> HoldsDate el)
  /\ valid (snd (validateForm form)) = true.

(** The gate of the code: buttons take no part in the completeness check,
    and a disabled date input is not checked. *)
Definition Gate (form : Form) : Prop :=
  (forall el, el ∈ fields form -> Participates el -> ~ IsButton el ->
              Filled form el)
  /\ (forall el, el ∈ fields form -> matchesDateSel el = true ->
                 isVisible el = true -> disabled el = false -> HoldsDate el)
  /\ valid (snd (validateForm form)) = true.

(** The test [areAllVisibleFieldsFilled] applies to one control. *)
Definition fieldComplete (form : Form) (el : Element) : bool :=
  if negb (isVisible el) || disabled el || String.eqb (type el) "hidden"
  then true
  else if markedOptional el then true
  else
    let ty := toLowerCase (type el) in
    if String.eqb ty "button" || String.eqb ty "submit" then true
    else if String.eqb ty "checkbox" || String.eqb ty "radio"
    then isGroupChecked form el
    else truthy (trim (value el)).

(** The test [allDatesValid] applies to one date input. *)
Definition dateComplete (el : Element) : bool :=
  if negb (isVisible el) || disabled el then true
  else Nat.eqb (String.length (trim (value el))) 10
       && isValidDateDDMMYYYY (trim (value el)).

(** ** Sample forms *)

Definition textInput (nm v : string) : Element :=
  mkElement "" INPUT "text" nm v false false true 1 false false
            None None None None None [].

(** A visible, disabled date input that is empty. *)
Definition disabledDate : Element :=
  mkElement "" INPUT "text" "dob" "" false true true 1 false false
            None None None None None ["date-field"].

(** A disabled input that is required and empty. *)
Definition disabledRequired : Element :=
  mkElement "" INPUT "text" "code" "" false true true 1 false true
            None None None None None [].

(** An e-mail input marked optional that holds a malformed address. *)
Definition optionalEmail : Element :=
  mkElement "" INPUT "email" "contact" "abc" false false true 1 false false
            None None (Some "true") None None [].

Definition formOf (els : list Element) : Form :=
  mkForm "/client/create/" None els.

Definition someButton : Button := mkButton true ["btn"] "Save" true.

(** ** The page *)

(** Equality of two texts up to the case of their letters. *)
Fixpoint sameIgnoringCase (a b : string) : Prop :=
  match a, b with
  | "", "" => True
  | String x a', String y b' =>
      toLowerChar x = toLowerChar y /\ sameIgnoringCase a' b'
  | _, _ => False
  end.

(** The field of index [i] of the live form, if the page has one. *)
Definition liveForm (d : Page.Document) : option Form :=
  match Page.entityModal d with
  | Some m => Page.modal_form m
  | None => None
  end.

Definition liveField (d : Page.Document) (i : nat) : option Element :=
  match liveForm d with
  | Some f => fields f !! i
  | None => None
  end.

Definition emptyPage : Page.Document :=
  Page.mkDocument None "token" None None None None None None None.

(** A page whose body carries [data-role]. *)
Definition pageWithRole (role : string) : Page.Document :=
  Page.mkDocument (Some (Page.mkBody (Some role))) "token"
                  None None None None None None None.

(** A page with a login overlay and an open entity modal holding [els]. *)
Definition pageWithForm (els : list Element) : Page.Document :=
  Page.mkDocument None "token"
    (Some (Page.mkModal "flex" true (Some "") (Some (formOf els))
                        (Some someButton)))
    (Some (Page.mkLoginModal [] "none"))
    (Some (Page.mkTextInput "asha" false))
    (Some (Page.mkTextInput "secret" false))
    (Some true)
    (Some (Page.mkErrorBox "" true "" None None))
    (Some false).


(** An empty date input of class [date-field]. *)
Definition emptyDateField : Element :=
  mkElement "" INPUT "text" "joined" "" false false true 1 false false
            None None None None None ["date-field"].

(** Markup of a create form that brings its own [#entity-modal] root. *)
Definition modalMarkup : Page.Markup :=
  Page.mkMarkup "<div id='entity-modal'>...</div>"
    (Some (Page.mkModal "none" true None
             (Some (mkForm "" None [textInput "name" ""; emptyDateField]))
             (Some (mkButton true ["btn"] "Save" false))))
    None.

(** Markup of the same form without a modal root. *)
Definition bodyMarkup : Page.Markup :=
  Page.mkMarkup "<form id='entity-form'>...</form>" None
    (Some (mkForm "" None [textInput "name" ""; emptyDateField])).

(** A 403 response whose body lists field errors. *)
Definition forbiddenWithErrors : Page.Response :=
  Page.mkResponse 403 false (Some "application/json")
    (Some (Page.mkJson false (Some [("name", Page.Msgs ["Invalid"])]) None))
    (Page.mkMarkup "" None None).

(** ** Paths *)

(** Every character of the text satisfies [p]. *)
Fixpoint allChars (p : ascii -> bool) (s : string) : Prop :=
  match s with
  | "" => True
  | String c t => p c = true /\ allChars p t
  end.

(** The text holds no slash: it is a single path segment. *)
Definition isSegmentChar (c : ascii) : bool := negb (Ascii.eqb c "/").
Definition noSlash (s : string) : Prop := allChars isSegmentChar s.

Definition isLower (c : ascii) : bool := ((97 <=? code c) && (code c <=? 122))%N.

(** [op] is one of the words [ws], up to the case of its letters. *)
Definition isOneOf (ws : list string) (op : string) : Prop :=
  exists w, In w ws /\ sameIgnoringCase op w.

(** The text without one leading colon. *)
Definition stripColon (s : string) : string :=
  match s with
  | String c t => if Ascii.eqb c ":" then t else s
  | "" => ""
  end.

(** The target has the form [/<entity>/(get|create|update|delete)] followed
    by nothing or by a slash and anything: [ent] is its first segment. *)
Definition HrefNamesEntity (h ent : string) : Prop :=
  exists op tail,
    h = "/" +:+ ent +:+ "/" +:+ op +:+ tail
    /\ ent <> "" /\ noSlash ent
    /\ isOneOf ["get"; "create"; "update"; "delete"] op
    /\ (tail = "" \/ exists t, tail = String "/" t).

(** The target ends with [/(update|get|delete)/<seg>], with or without a
    closing slash: [seg] is its trailing segment. *)
Definition HrefEndsWithId (h seg : string) : Prop :=
  exists pre op sl,
    h = pre +:+ "/" +:+ op +:+ "/" +:+ seg +:+ sl
    /\ seg <> "" /\ noSlash seg
    /\ isOneOf ["update"; "get"; "delete"] op
    /\ (sl = "" \/ sl = "/").

(** The element carries none of the entity and id data attributes. *)
Definition NoDataAttributes (el : Router.Trigger) : Prop :=
  Router.data_open_entity el = None
  /\ Router.data_edit_entity el = None
  /\ Router.data_delete_entity el = None
  /\ Router.data_entity el = None
  /\ Router.data_id el = None.

(** A link with the given [id] attribute and target, without data
    attributes, below the given ancestors. *)
Definition linkTo (id h : string) (ancs : list Router.Ancestor)
  : Router.Trigger :=
  Router.mkTrigger id (Some h) None None None None None ancs.

(** The pattern has no capture group. *)
Fixpoint groupFree (r : regex) : bool :=
  match r with
  | Seq a b | Alt a b => groupFree a && groupFree b
  | Star a => groupFree a
  | Group _ _ => false
  | _ => true
  end.

End Spec.

(* ====================================================================== *)
(** * Vocabulary of the further properties *)
(* ====================================================================== *)

Module Spec2.
Import JS Dom Validation Spec.

(** The last character of the text, if any, is not white space. *)
Fixpoint lastNotSpace (s : string) : bool :=
  match s with
  | "" => true
  | String c "" => negb (isSpace c)
  | String _ t => lastNotSpace t
  end.

(** The three checks of the save gate. *)
Definition gateHolds (form : Form) : bool :=
  areAllVisibleFieldsFilled form && allDatesValid form
  && valid (snd (validateForm form)).

(** The class of the save button agrees with its state. *)
Definition buttonCoherent (b : Button) : Prop :=
  contains "save-disabled" (btn_classList b) = btn_disabled b.

(** The text [y1 y2 y3 y4 - m1 m2 - d1 d2]. *)
Definition isoText (d1 d2 m1 m2 y1 y2 y3 y4 : ascii) : string :=
  String y1 (String y2 (String y3 (String y4 (String "-"
    (String m1 (String m2 (String "-" (String d1 (String d2 ""))))))))).

(** [s] has the shape [\d\d\d\d-\d\d-\d\d]. *)
Definition HasIsoShape (s : string) : Prop :=
  exists d1 d2 m1 m2 y1 y2 y3 y4,
    s = isoText d1 d2 m1 m2 y1 y2 y3 y4
    /\ allDigits [d1; d2; m1; m2; y1; y2; y3; y4].

(** The entries of a form data set under the key [k]. *)
Definition entriesOf (k : string) (fd : list (string * Page.FormValue))
  : list (string * Page.FormValue) :=
  List.filter (fun e => String.eqb (fst e) k) fd.

(** A date input of class [date-field] named [nm] that holds [v]. *)
Definition dateInput (nm v : string) (off : bool) : Element :=
  mkElement "" INPUT "text" nm v false off true 1 false false
            None None None None None ["date-field"].

(** The test of [formatDateFields] for the texts it rewrites (line 587). *)
Definition rewritten (v : string) : bool :=
  truthy v && includes "-" v && test Page.reISODate v.

(** The types of input that refuse a text of the form dd/mm/yyyy. *)
Definition refusesDateText (ty : string) : bool :=
  memString ty ["date"; "month"; "week"; "time"; "datetime-local"; "number"].


(** A file input named [nm] with the files [fs] selected. *)
Definition fileInput (nm : string) (fs : list string) : Element :=
  mkControl "" INPUT "file" nm
            (match fs with f :: _ => "C:\fakepath\" +:+ f | [] => "" end)
            false false true 1 false false None None None None None []
            [] fs false.

(** A select named [nm] that takes several values, with the options [os]. *)
Definition multiSelect (nm : string) (os : list SelectOption) : Element :=
  mkControl "" SELECT "select-multiple" nm (selectedValue os)
            false false true 1 false false None None None None None []
            os [] false.

(** A form with a text input, two files selected and two of three options
    selected. *)
Definition uploadForm : Form :=
  mkForm "/client/create/" None
    [textInput "name" "Asha";
     fileInput "photos" ["a.png"; "b.png"];
     multiSelect "tags" [mkOption "x" true false; mkOption "y" false false;
                         mkOption "z" true false]].

(** A native date input of class [date-field] named [nm] that holds [v]. *)
Definition nativeDateInput (nm v : string) : Element :=
  mkElement "" INPUT "date" nm v false false true 1 false false
            None None None None None ["date-field"].

(** The four ways [locateField] looks for the field [f], in the order it
    tries them: the name [f], the name [f[]], the id [id_f], an id that
    ends with [f]. *)
Definition locates (f : string) (k : nat) (el : Element) : bool :=
  match k with
  | 0 => String.eqb (name el) f
  | 1 => String.eqb (name el) (f +:+ "[]")
  | 2 => String.eqb (elem_id el) ("id_" +:+ f)
  | _ => Page.endsWith f (elem_id el)
  end.

Definition locatesOther (f : string) (k : nat) (o : Other) : bool :=
  match k with
  | 0 => String.eqb (o_name o) f
  | 1 => String.eqb (o_name o) (f +:+ "[]")
  | 2 => String.eqb (o_id o) ("id_" +:+ f)
  | _ => Page.endsWith f (o_id o)
  end.

(** The location names an element of the form: a control, or an element
    of one of the lists that come before a control or after the last. *)
Definition inForm (form : Form) (l : Page.Located) : Prop :=
  match l with
  | Page.AtField i => (i < length (fields form))%nat
  | Page.AtOther g j =>
      (g <= length (fields form))%nat /\ is_Some (Page.lookupOther g j form)
  end.

(** The element at [l] is one a selector matches, where [pc] tells the
    controls and [po] the other elements it matches. *)
Definition holdsAt (pc : Element -> bool) (po : Other -> bool) (form : Form)
  (l : Page.Located) : bool :=
  match l with
  | Page.AtField i =>
      match fields form !! i with Some el => pc el | None => false end
  | Page.AtOther g j =>
      match Page.lookupOther g j form with Some o => po o | None => false end
  end.

(** The element at [l] meets the criterion of rank [k] for the field [f]. *)
Definition meets (f : string) (k : nat) (form : Form) (l : Page.Located)
  : bool :=
  holdsAt (locates f k) (locatesOther f k) form l.

(** [a] comes before [b] in document order. *)
Definition precedes (a b : Page.Located) : Prop :=
  match a, b with
  | Page.AtField i, Page.AtField i' => (i < i')%nat
  | Page.AtField i, Page.AtOther g _ => (i < g)%nat
  | Page.AtOther g _, Page.AtField i => (g <= i)%nat
  | Page.AtOther g j, Page.AtOther g' j' =>
      (g < g')%nat \/ (g = g' /\ (j < j')%nat)
  end.

(** The location [l], [n] controls further in the form. *)
Definition shift (n : nat) (l : Page.Located) : Page.Located :=
  match l with
  | Page.AtField i => Page.AtField (n + i)
  | Page.AtOther g j => Page.AtOther (n + g) j
  end.

(** The conditions the response handlers test. *)
Definition authRefused (res : Page.Response) : bool :=
  (Page.status res =? 401)%Z || (Page.status res =? 403)%Z
  || Page.redirected res.

Definition saysJson (res : Page.Response) : bool :=
  includes "application/json" (toLowerCase (orEmpty (Page.contentType res))).

Definition carriesModal (res : Page.Response) : bool :=
  truthy (Page.markup_text (Page.text res))
  && test Page.reModalMarker (Page.markup_text (Page.text res)).










(** A page with a login overlay and an open entity modal holding [f]. *)
Definition pageOf (f : Form) : Page.Document :=
  Page.mkDocument None "token"
    (Some (Page.mkModal "flex" true (Some "") (Some f) (Some someButton)))
    (Some (Page.mkLoginModal [] "none"))
    (Some (Page.mkTextInput "asha" false))
    (Some (Page.mkTextInput "secret" false))
    (Some true)
    (Some (Page.mkErrorBox "" true "" None None))
    (Some false).


(** ** Links to the entity endpoints *)

Definition closing (sl : string) : Prop := sl = "" \/ sl = "/".

(** [h] is [/<ent>/get], with or without a closing slash and whatever the
    case of the word. *)
Definition AddLink (h ent : string) : Prop :=
  exists op sl,
    h = String "/" (ent +:+ String "/" (op +:+ sl))
    /\ ent <> "" /\ noSlash ent
    /\ sameIgnoringCase op "get" /\ closing sl.

(** [h] is [/<ent>/<w>/<seg>], with or without a closing slash and
    whatever the case of the word [w]. *)
Definition IdLink (w h ent seg : string) : Prop :=
  exists op sl,
    h = String "/" (ent +:+ String "/" (op +:+ String "/" (seg +:+ sl)))
    /\ ent <> "" /\ noSlash ent
    /\ sameIgnoringCase op w
    /\ seg <> "" /\ noSlash seg /\ closing sl.

(** An element that carries nothing the router goes by: none of the data
    attributes, none of the classes [btn-add], [btn-edit], [btn-delete],
    and an id that is not that of a create button. *)
Definition Unmarked (t : Dispatch.Target) : Prop :=
  NoDataAttributes (Dispatch.trigger t)
  /\ contains "btn-add" (Dispatch.classes t) = false
  /\ contains "btn-edit" (Dispatch.classes t) = false
  /\ contains "btn-delete" (Dispatch.classes t) = false
  /\ Dispatch.isCreateId (Router.el_id (Dispatch.trigger t)) = false.

(** A plain link to [h]. *)
Definition anchorTo (h : string) : Dispatch.Target :=
  Dispatch.mkTarget (linkTo "" h []) true false [].

(** The address [deleteEntity] posts to for an entity segment and an id
    that need no escaping. *)
Definition deleteUrl (entity id : string) : string :=
  "/" +:+ entity +:+ "/delete/" +:+ id +:+ "/".

(** ** The installed modal *)

(** The save button of the live modal, if any. *)
Definition liveButton (d : Page.Document) : option Button :=
  match Page.entityModal d with
  | Some m => Page.modal_save m
  | None => None
  end.

(** The address a form is given for a mode: the create or the update
    endpoint of the entity, or the one it came with. *)
Definition endpoint (base mode : string) (id : option string) (old : string)
  : string :=
  if String.eqb mode "Create" then base +:+ "create/"
  else if String.eqb mode "Edit"
  then base +:+ "update/" +:+ stripColon (interpolate id) +:+ "/"
  else old.

(** Markup of an edit form without a modal root: a text input, a text
    input for a date and a native date input. *)
Definition editMarkup : Page.Markup :=
  Page.mkMarkup "<form id='entity-form'>...</form>" None
    (Some (mkForm "" None
             [textInput "name" "Asha"; dateInput "joined" "2024-02-29" false;
              nativeDateInput "dob" "1990-05-17"])).


(** What [formatDateFields] leaves in an input it goes through: nothing in
    a file input; of a text of the form yyyy-mm-dd, nothing in an input of
    a type that refuses dd/mm/yyyy and that text rewritten in any other;
    nothing in a check box or radio button without a [value] attribute;
    the value as it was in any other case. *)
Definition formattedValue (el : Element) : string :=
  if String.eqb (type el) "file" then ""
  else if rewritten (value el)
       then (if refusesDateText (type el) then "" else Page.toDisplay (value el))
       else if memString (type el) ["checkbox"; "radio"]
               && negb (has_value_attr el) then ""
       else value el.

(** ** Requests *)

(** The form the markup carries. *)
Definition receivedForm (html : Page.Markup) : option Form :=
  match Page.markup_modal html with
  | Some rm => Page.modal_form rm
  | None => Page.markup_form html
  end.

(** The answer delivers the markup [html]: it is not an authentication
    failure; as JSON it is ok, reports success and carries [html], and
    otherwise its status is not 404 and its body is [html]; and [html] is
    not empty. *)
Definition Delivers (res : Requests.LoadResponse) (html : Page.Markup) : Prop :=
  (Requests.r_status res =? 401)%Z || (Requests.r_status res =? 403)%Z
  || Requests.r_redirected res = false
  /\ truthy (Page.markup_text html) = true
  /\ if includes "application/json" (orEmpty (Requests.r_contentType res))
     then exists data,
            Requests.r_json res = Some data
            /\ Requests.ok res = true /\ Requests.d_success data = true
            /\ Requests.d_html data = Some html
     else Requests.r_status res <> 404%Z /\ Requests.r_text res = Some html.

(** An answer that carries [html] as its body. *)
Definition htmlAnswer (html : Page.Markup) : Requests.LoadResponse :=
  Requests.mkLoadResponse 200 false (Some "text/html; charset=utf-8") None
                          (Some html).

(** [entity] is the name of the permissions page, whatever its case. *)
Definition IsUserPerm (entity : string) : Prop :=
  sameIgnoringCase entity "userpermission"
  \/ sameIgnoringCase entity "userpermissions".

(** The conditions the handler of the answer to a deletion tests. *)
Definition deleteRefused (res : Requests.DeleteResponse) : bool :=
  (Requests.del_status res =? 401)%Z || (Requests.del_status res =? 403)%Z
  || Requests.del_redirected res.

Definition deleteSaysJson (res : Requests.DeleteResponse) : bool :=
  includes "application/json"
           (toLowerCase (orEmpty (Requests.del_contentType res))).

(** ** Login *)

(** The answer to a login is accepted: it is JSON, its status is none of
    400, 401 and 403, and its body reports success. *)
Definition loginAccepted (res : Login.LoginResponse) : bool :=
  includes "application/json"
           (toLowerCase (orEmpty (Login.l_contentType res)))
  && negb ((Login.l_status res =? 401)%Z || (Login.l_status res =? 400)%Z
           || (Login.l_status res =? 403)%Z)
  && match Login.l_json res with
     | Some data => Login.l_success data
     | None => false
     end.

(** An error is on display: in the error box of the overlay, or in an
    alert when the page has no such box. *)
Definition errorDisplayed (o : Login.LoginOutcome) : Prop :=
  (exists box, Page.loginError (Login.page o) = Some box
               /\ Page.err_hidden box = false /\ Page.err_text box <> "")
  \/ (exists m, Login.effects o = [Page.Alert m] /\ m <> "").

(** ** Permissions *)

(** The select-all box says whether every box of the group is checked. *)
Definition groupCoherent (g : Permissions.Group) : Prop :=
  Permissions.selectAll g = forallb (fun c => c) (Permissions.boxes g).

(** At most one of the three role switches is on. *)
Definition atMostOneRole (s : Permissions.Switches) : Prop :=
  (Permissions.master s = true ->
   Permissions.staff s = false /\ Permissions.report s = false)
  /\ (Permissions.staff s = true -> Permissions.report s = false).

(** The state of the switch of a role. *)
Definition roleOn (r : Permissions.Role) (s : Permissions.Switches) : bool :=
  match r with
  | Permissions.Master => Permissions.master s
  | Permissions.Staff => Permissions.staff s
  | Permissions.Report => Permissions.report s
  end.

(** The permissions a role grants, and whether it locks them. *)
Definition grants (r : Permissions.Role) (cb : Permissions.Perm) : bool :=
  match r with
  | Permissions.Master => true
  | Permissions.Staff => Permissions.hasPerm "loanapplication" cb
  | Permissions.Report =>
      Permissions.hasPerm "fieldschedule" cb
      || Permissions.hasPerm "fieldreport" cb
  end.

Definition locks (r : Permissions.Role) : bool :=
  match r with
  | Permissions.Master => false
  | _ => true
  end.

End Spec2.
(* ====================================================================== *)
(** * Assignments to the value of a control *)
(* ====================================================================== *)

Module DomFacts.
Import JS Dom.

Lemma selectedValue_unselect (os : list SelectOption) :
  selectedValue (map unselect os) = "".
Proof.
  unfold selectedValue. induction os as [|o os IH]; [reflexivity|].
  cbn [map List.find unselect opt_selected]. exact IH.
Qed.



(** An assignment to [el.value] changes the value, and for a select its
    options, for a file input its files, for an input that reflects it
    the presence of the [value] attribute; nothing else. *)
Lemma set_value_eq (v : string) (el : Element) :
  set_value v el
  = with_value (value (set_value v el)) (options (set_value v el))
               (files (set_value v el)) (has_value_attr (set_value v el)) el.
Proof.
  unfold set_value. destruct (tagName el); [|reflexivity..].
  destruct (String.eqb (type el) "file").
  - destruct (truthy v); [now destruct el | reflexivity].
  - destruct (reflectsValueAttr (type el)); reflexivity.
Qed.



Lemma set_value_type (v : string) (el : Element) :
  type (set_value v el) = type el.
Proof. now rewrite set_value_eq. Qed.

Lemma set_value_tagName (v : string) (el : Element) :
  tagName (set_value v el) = tagName el.
Proof. now rewrite set_value_eq. Qed.

End DomFacts.


(* ====================================================================== *)
(** * Properties of the runtime model *)
(* ====================================================================== *)

Module RuntimeFacts.
Import JS Spec.

Lemma digit_not_space (c : ascii) : isDigit c = true -> isSpace c = false.
Proof.
  destruct c as [[] [] [] [] [] [] [] []]; vm_compute; congruence.
Qed.

Lemma digit_not_slash (c : ascii) : isDigit c = true -> Ascii.eqb c "/" = false.
Proof.
  destruct c as [[] [] [] [] [] [] [] []]; vm_compute; congruence.
Qed.

Lemma digit_not_dash (c : ascii) : isDigit c = true -> Ascii.eqb c "-" = false.
Proof.
  destruct c as [[] [] [] [] [] [] [] []]; vm_compute; congruence.
Qed.

(** ** Days in a month *)

(** The calendar repeats every 400 years, that is every 146097 days. *)

Lemma DayFromYear_shift (y : Z) :
  DayFromYear (y + 400) = (DayFromYear y + 146097)%Z.
Proof.
  unfold DayFromYear.
  replace (y + 400 - 1969)%Z with (y - 1969 + 100 * 4)%Z by lia.
  replace (y + 400 - 1901)%Z with (y - 1901 + 4 * 100)%Z by lia.
  replace (y + 400 - 1601)%Z with (y - 1601 + 1 * 400)%Z by lia.
  rewrite !Z.div_add by lia. lia.
Qed.

Lemma DaysInYear_shift (y : Z) : DaysInYear (y + 400) = DaysInYear y.
Proof.
  unfold DaysInYear.
  replace ((y + 400) mod 4)%Z with (y mod 4)%Z
    by (replace (y + 400)%Z with (y + 100 * 4)%Z by lia;
        now rewrite Z.mod_add by lia).
  replace ((y + 400) mod 100)%Z with (y mod 100)%Z
    by (replace (y + 400)%Z with (y + 4 * 100)%Z by lia;
        now rewrite Z.mod_add by lia).
  replace ((y + 400) mod 400)%Z with (y mod 400)%Z
    by (replace (y + 400)%Z with (y + 1 * 400)%Z by lia;
        now rewrite Z.mod_add by lia).
  reflexivity.
Qed.

Lemma InLeapYear_shift (y : Z) : InLeapYear (y + 400) = InLeapYear y.
Proof. unfold InLeapYear. now rewrite DaysInYear_shift. Qed.

Lemma YearFromDay_shift (day : Z) :
  YearFromDay (day + 146097) = (YearFromDay day + 400)%Z.
Proof.
  unfold YearFromDay.
  replace ((day + 146097) * 10000)%Z with (day * 10000 + 400 * 3652425)%Z by lia.
  rewrite Z.div_add by lia.
  set (y0 := (1970 + day * 10000 / 3652425)%Z).
  replace (1970 + (day * 10000 / 3652425 + 400))%Z with (y0 + 400)%Z by lia.
  replace (y0 + 400 + 1)%Z with (y0 + 1 + 400)%Z by lia.
  rewrite !DayFromYear_shift.
  destruct (Z.ltb_spec day (DayFromYear y0)),
           (Z.ltb_spec (day + 146097) (DayFromYear y0 + 146097)); try lia.
  destruct (Z.leb_spec (DayFromYear (y0 + 1)) day),
           (Z.leb_spec (DayFromYear (y0 + 1) + 146097) (day + 146097)); lia.
Qed.

Lemma DayWithinYear_shift (day : Z) :
  DayWithinYear (day + 146097) = DayWithinYear day.
Proof.
  unfold DayWithinYear. rewrite YearFromDay_shift, DayFromYear_shift. lia.
Qed.

Lemma DateFromDay_shift (day : Z) :
  DateFromDay (day + 146097) = DateFromDay day.
Proof.
  unfold DateFromDay, MonthFromDay.
  now rewrite DayWithinYear_shift, YearFromDay_shift, InLeapYear_shift.
Qed.

Lemma MakeDay_shift (y m d : Z) :
  MakeDay (y + 400) m d = (MakeDay y m d + 146097)%Z.
Proof.
  unfold MakeDay.
  replace (y + 400 + m / 12)%Z with (y + m / 12 + 400)%Z by lia.
  rewrite DayFromYear_shift, InLeapYear_shift. lia.
Qed.

Lemma daysInMonth_shift (y m : Z) : daysInMonth (y + 400) m = daysInMonth y m.
Proof.
  unfold daysInMonth, isLeapYear.
  replace ((y + 400) mod 4)%Z with (y mod 4)%Z
    by (replace (y + 400)%Z with (y + 100 * 4)%Z by lia;
        now rewrite Z.mod_add by lia).
  replace ((y + 400) mod 100)%Z with (y mod 100)%Z
    by (replace (y + 400)%Z with (y + 4 * 100)%Z by lia;
        now rewrite Z.mod_add by lia).
  replace ((y + 400) mod 400)%Z with (y mod 400)%Z
    by (replace (y + 400)%Z with (y + 1 * 400)%Z by lia;
        now rewrite Z.mod_add by lia).
  reflexivity.
Qed.

Lemma lastDay_table :
  forallb (fun y => forallb (lastDayAgrees y) (seqZ 1 12)) (seqZ 1900 400) = true.
Proof. vm_cast_no_check (eq_refl true). Qed.

Lemma lastDay_period (k : nat) (y m : Z) :
  (1900 <= y < 2300)%Z -> (1 <= m <= 12)%Z ->
  DateFromDay (MakeDay (y + 400 * Z.of_nat k) m 0) = daysInMonth y m.
Proof.
  intros Hy Hm. induction k as [|k IH].
  - replace (y + 400 * Z.of_nat 0)%Z with y by lia.
    pose proof lastDay_table as T.
    rewrite forallb_forall in T. specialize (T y).
    rewrite forallb_forall in T.
    apply Z.eqb_eq, T; apply list_elem_of_In, elem_of_seqZ; lia.
  - replace (y + 400 * Z.of_nat (S k))%Z
      with (y + 400 * Z.of_nat k + 400)%Z by lia.
    now rewrite MakeDay_shift, DateFromDay_shift.
Qed.

Lemma daysInMonth_period (k : nat) (y m : Z) :
  daysInMonth (y + 400 * Z.of_nat k) m = daysInMonth y m.
Proof.
  induction k as [|k IH].
  - f_equal. lia.
  - replace (y + 400 * Z.of_nat (S k))%Z
      with (y + 400 * Z.of_nat k + 400)%Z by lia.
    now rewrite daysInMonth_shift.
Qed.

(** [new Date(y, m, 0).getDate()] is the length of month [m] of year [y]. *)
Lemma getDate_day0 (y m : Z) :
  (1900 <= y)%Z -> (1 <= m <= 12)%Z ->
  getDate (newDate y m 0) = daysInMonth y m.
Proof.
  intros Hy Hm.
  unfold getDate, newDate.
  replace ((0 <=? y) && (y <=? 99))%Z with false
    by (symmetry; apply andb_false_iff; right; apply Z.leb_gt; lia).
  set (k := ((y - 1900) / 400)%Z).
  assert (Hk : (0 <= k)%Z) by (apply Z.div_pos; lia).
  pose proof (Z.mod_pos_bound (y - 1900) 400 ltac:(lia)) as Hb.
  pose proof (Z.div_mod (y - 1900) 400 ltac:(lia)) as Hd.
  fold k in Hd.
  set (y0 := (1900 + (y - 1900) mod 400)%Z).
  replace y with (y0 + 400 * Z.of_nat (Z.to_nat k))%Z by (subst y0; lia).
  rewrite lastDay_period, daysInMonth_period by (subst y0; lia).
  reflexivity.
Qed.

End RuntimeFacts.

(* ====================================================================== *)
(** * Properties of the validator and of the save gate *)
(* ====================================================================== *)

Module ValidationFacts.
Import JS Dom Validation Spec RuntimeFacts.

(** Case analysis of a match of a fixed-width pattern against a text that
    is not known yet: the text is opened character by character. *)
Ltac open_text H :=
  repeat (cbn in H;
          match type of H with
          | context [match ?s with "" => _ | String _ _ => _ end] =>
              is_var s; destruct s
          | context [if isDigit ?b then _ else _] =>
              destruct (isDigit b) eqn:?
          | context [if isSpace ?b then _ else _] =>
              destruct (isSpace b) eqn:?
          | context [if Ascii.eqb ?b ?c then _ else _] =>
              destruct (Ascii.eqb_spec b c); [subst|]
          end);
  cbn in H; try discriminate H.

Lemma test_reDDMMYYYY_shape (s : string) :
  test reDDMMYYYY s = true <-> HasDateShape s.
Proof.
  split.
  - intros H. unfold test, exec, firstMatch, reDDMMYYYY in H.
    cbn in H. unfold oneChar in H. open_text H.
    unfold HasDateShape, dateText, allDigits.
    repeat eexists; repeat constructor; assumption.
  - intros (d1 & d2 & m1 & m2 & y1 & y2 & y3 & y4 & -> & Hd).
    unfold allDigits in Hd.
    repeat match goal with
           | H : Forall _ (_ :: _) |- _ => inversion_clear H
           end.
    unfold test, exec, firstMatch, reDDMMYYYY, dateText. cbn. unfold oneChar.
    repeat (cbn; match goal with
                 | H : isDigit ?c = true |- context [isDigit ?c] => rewrite H
                 end).
    reflexivity.
Qed.

Lemma Number_two_digits (a b : ascii) :
  isDigit a = true -> isDigit b = true ->
  Number (String a (String b "")) = Some (10 * digitVal a + digitVal b)%Z.
Proof.
  intros Ha Hb. unfold Number, digitsValue, digitVal. rewrite Ha, Hb.
  f_equal; lia.
Qed.

Lemma Number_four_digits (a b c d : ascii) :
  isDigit a = true -> isDigit b = true -> isDigit c = true -> isDigit d = true ->
  Number (String a (String b (String c (String d ""))))
  = Some (1000 * digitVal a + 100 * digitVal b + 10 * digitVal c + digitVal d)%Z.
Proof.
  intros Ha Hb Hc Hd. unfold Number, digitsValue, digitVal.
  rewrite Ha, Hb, Hc, Hd. f_equal; lia.
Qed.

Lemma split_dateText (d1 d2 m1 m2 y1 y2 y3 y4 : ascii) :
  allDigits [d1; d2; m1; m2; y1; y2; y3; y4] ->
  split "/" (dateText d1 d2 m1 m2 y1 y2 y3 y4)
  = [String d1 (String d2 ""); String m1 (String m2 "");
     String y1 (String y2 (String y3 (String y4 "")))].
Proof.
  intros Hd. unfold allDigits in Hd.
  repeat match goal with
         | H : Forall _ (_ :: _) |- _ => inversion_clear H
         end.
  unfold dateText. cbn.
  repeat match goal with
         | H : isDigit _ = true |- _ => rewrite (digit_not_slash _ H); clear H
         end.
  reflexivity.
Qed.

(** What [isValidDateDDMMYYYY] computes on a text of the right shape. *)
Lemma isValidDate_on_shape (d1 d2 m1 m2 y1 y2 y3 y4 : ascii) :
  allDigits [d1; d2; m1; m2; y1; y2; y3; y4] ->
  let y := yearOf y1 y2 y3 y4 in
  let m := monthOf m1 m2 in
  let d := dayOf d1 d2 in
  isValidDateDDMMYYYY (dateText d1 d2 m1 m2 y1 y2 y3 y4)
  = ((1900 <=? y) && (y <=? 9999) && (1 <=? m) && (m <=? 12)
     && (1 <=? d) && (d <=? getDate (newDate y m 0)))%Z.
Proof.
  intros Hd y m d. unfold isValidDateDDMMYYYY.
  assert (Ht : test reDDMMYYYY (dateText d1 d2 m1 m2 y1 y2 y3 y4) = true).
  { apply test_reDDMMYYYY_shape. repeat eexists. exact Hd. }
  rewrite Ht, split_dateText by exact Hd. cbn [negb map].
  unfold allDigits in Hd.
  repeat match goal with
         | H : Forall _ (_ :: _) |- _ => inversion_clear H
         end.
  rewrite !Number_two_digits, Number_four_digits by assumption.
  fold (dayOf d1 d2) (monthOf m1 m2) (yearOf y1 y2 y3 y4). fold y m d.
  unfold num_lt, num_gt, num_ge, num_le, lastDayOfMonth.
  rewrite !Z.ltb_antisym.
  destruct (1900 <=? y)%Z, (y <=? 9999)%Z, (1 <=? m)%Z, (m <=? 12)%Z;
    reflexivity.
Qed.

Lemma isValidDate_iff (s : string) :
  isValidDateDDMMYYYY s = true <-> CalendarValid s.
Proof.
  split.
  - intros H.
    assert (Hs : HasDateShape s).
    { apply test_reDDMMYYYY_shape. unfold isValidDateDDMMYYYY in H.
      destruct (test reDDMMYYYY s); [reflexivity | discriminate H]. }
    destruct Hs as (d1 & d2 & m1 & m2 & y1 & y2 & y3 & y4 & -> & Hd).
    rewrite isValidDate_on_shape in H by exact Hd.
    repeat (apply andb_prop in H; destruct H as [H ?]).
    exists d1, d2, m1, m2, y1, y2, y3, y4.
    repeat match goal with
           | H : (_ <=? _)%Z = true |- _ => apply Z.leb_le in H
           end.
    rewrite getDate_day0 in * by lia.
    repeat split; try assumption; lia.
  - intros (d1 & d2 & m1 & m2 & y1 & y2 & y3 & y4 & -> & Hd & Hy & Hm & Hday).
    rewrite isValidDate_on_shape by exact Hd.
    rewrite getDate_day0 by lia.
    repeat (apply andb_true_intro; split); apply Z.leb_le; lia.
Qed.

(** C2.  For every string [s], [isValidDateDDMMYYYY s] is true exactly when
    [s] has the shape [\d\d/\d\d/\d\d\d\d] with a year in [1900, 9999], a
    month in [1, 12] and a day between 1 and the number of days of that
    month in that year, leap years included; "29/02/2024" is accepted,
    "29/02/2023", "31/04/2020" and "01/01/1899" are rejected. *)
Theorem isValidDateDDMMYYYY_spec :
  (forall s : string, isValidDateDDMMYYYY s = true <-> CalendarValid s)
  /\ isValidDateDDMMYYYY "29/02/2024" = true
  /\ isValidDateDDMMYYYY "29/02/2023" = false
  /\ isValidDateDDMMYYYY "31/04/2020" = false
  /\ isValidDateDDMMYYYY "01/01/1899" = false.
Proof.
  split; [exact isValidDate_iff|].
  repeat split; vm_compute; reflexivity.
Qed.

(** ** The validator *)

(** The identifier rule accepts exactly the texts "dddd dddd dddd". *)
Lemma test_reAadhaar_shape (s : string) :
  test reAadhaar s = true <-> HasIdentifierShape s.
Proof.
  split.
  - intros H. unfold test, exec, firstMatch, reAadhaar in H.
    cbn in H. unfold oneChar in H. open_text H.
    unfold HasIdentifierShape, allDigits.
    repeat eexists; repeat constructor; assumption.
  - intros (a1 & a2 & a3 & a4 & s1 & b1 & b2 & b3 & b4 & s2 & c1 & c2 & c3
            & c4 & -> & Hd & Hs1 & Hs2).
    unfold allDigits in Hd.
    repeat match goal with
           | H : Forall _ (_ :: _) |- _ => inversion_clear H
           end.
    unfold test, exec, firstMatch, reAadhaar. cbn. unfold oneChar.
    repeat (cbn; match goal with
                 | H : isDigit ?c = true |- context [isDigit ?c] => rewrite H
                 | H : isSpace ?c = true |- context [isSpace ?c] => rewrite H
                 end).
    reflexivity.
Qed.

(** One turn of the loop of [validateForm]: a control that is passed over
    or breaks no rule lets the loop go on; otherwise the first rule it
    breaks, in the order of the rules, ends the loop. *)
Lemma validateFrom_cons (i : nat) (el : Element) (rest : list Element) :
  validateFrom i (el :: rest) =
  if skipped el || negb (existsb (fun r => violates r el) ruleOrder)
  then (el :: fst (validateFrom (S i) rest), snd (validateFrom (S i) rest))
  else
    match List.find (fun r => violates r el) ruleOrder with
    | Some r => (mark el :: rest, fail i (ruleMessage r))
    | None => (el :: rest, mkResult true None "")
    end.
Proof.
  cbn [validateFrom]. unfold skipped.
  destruct (validateFrom (S i) rest) as [rest' r] eqn:E. cbn [fst snd].
  destruct (closestHidden el || String.eqb (type el) "hidden" || disabled el);
    [reflexivity|].
  cbn [orb existsb List.find ruleOrder violates].
  unfold isDateCategory, isIdentifier.
  destruct (isRequired el && negb (truthy (trim (value el)))); [reflexivity|].
  destruct (String.eqb (type el) "email" && truthy (trim (value el))
            && negb (test reEmail (trim (value el)))); [reflexivity|].
  destruct ((contains "date-field" (classList el)
             || attrIs (data_type el) "date" || test reDateOrDob (name el))
            && truthy (trim (value el))
            && negb (isValidDateDDMMYYYY (trim (value el)))); [reflexivity|].
  destruct (truthy (name el) && includes "aadhar" (toLowerCase (name el))
            && truthy (trim (value el))
            && negb (test reAadhaar (trim (value el)))); reflexivity.
Qed.

Lemma failing_false_iff (el : Element) :
  failing el = false <->
  skipped el || negb (existsb (fun r => violates r el) ruleOrder) = true.
Proof.
  unfold failing.
  destruct (skipped el), (existsb (fun r => violates r el) ruleOrder);
    cbn; intuition congruence.
Qed.

(** The rule found first is broken, and the rules listed before it are
    not. *)
Lemma find_first_rule (el : Element) (r : Rule) :
  List.find (fun r => violates r el) ruleOrder = Some r ->
  violates r el = true
  /\ forall r', (rank r' < rank r)%nat -> violates r' el = false.
Proof.
  unfold ruleOrder. cbn [List.find].
  destruct (violates RequiredEmpty el) eqn:E0.
  { intros [= <-]. split; [exact E0|]. intros r'. cbn. lia. }
  destruct (violates EmailShape el) eqn:E1.
  { intros [= <-]. split; [exact E1|].
    intros [] Hr; cbn in Hr; try lia; assumption. }
  destruct (violates DateValid el) eqn:E2.
  { intros [= <-]. split; [exact E2|].
    intros [] Hr; cbn in Hr; try lia; assumption. }
  destruct (violates IdentifierFormat el) eqn:E3.
  { intros [= <-]. split; [exact E3|].
    intros [] Hr; cbn in Hr; try lia; assumption. }
  discriminate.
Qed.

Lemma find_rule_exists (el : Element) :
  existsb (fun r => violates r el) ruleOrder = true ->
  exists r, List.find (fun r => violates r el) ruleOrder = Some r.
Proof.
  intros H. destruct (List.find _ ruleOrder) as [r|] eqn:E; [eauto|].
  apply existsb_exists in H as (r & Hin & Hr).
  now rewrite (find_none _ _ E r Hin) in Hr.
Qed.

(** The outcome of the loop started at index [i]: either no control of the
    list fails, or the first failing one is reported through the first rule
    it breaks. *)
Lemma validateFrom_outcome (els : list Element) : forall i : nat,
  let r := snd (validateFrom i els) in
  (r = mkResult true None "" /\ Forall (fun el => failing el = false) els)
  \/ (exists k el rule,
        els !! k = Some el
        /\ r = mkResult false (Some (i + k)) (ruleMessage rule)
        /\ skipped el = false
        /\ violates rule el = true
        /\ (forall rule', (rank rule' < rank rule)%nat ->
                          violates rule' el = false)
        /\ (forall j el', (j < k)%nat -> els !! j = Some el' ->
                          failing el' = false)).
Proof.
  induction els as [|el rest IH]; intros i r.
  - left. split; [reflexivity | constructor].
  - subst r. rewrite validateFrom_cons.
    destruct (skipped el || negb (existsb (fun r => violates r el) ruleOrder))
      eqn:Hgo.
    + cbn [snd].
      destruct (IH (S i)) as [[Hr Hall] | (k & e & rule & Hk & Hr & Hs & Hv & Hfirst & Hbefore)].
      * left. split; [exact Hr|]. constructor; [|exact Hall].
        now apply failing_false_iff.
      * right. exists (S k), e, rule.
        split; [exact Hk|]. split; [rewrite Hr; do 2 f_equal; lia|].
        split; [exact Hs|]. split; [exact Hv|]. split; [exact Hfirst|].
        intros [|j] el' Hj Hl.
        -- cbn in Hl. injection Hl as <-. now apply failing_false_iff.
        -- apply (Hbefore j); [lia | exact Hl].
    + apply orb_false_iff in Hgo as [Hs Hex].
      apply negb_false_iff in Hex.
      destruct (find_rule_exists el Hex) as [rule Hrule].
      rewrite Hrule. cbn [snd].
      destruct (find_first_rule el rule Hrule) as [Hv Hfirst].
      right. exists 0%nat, el, rule.
      split; [reflexivity|]. split; [unfold fail; do 2 f_equal; lia|].
      split; [exact Hs|]. split; [exact Hv|]. split; [exact Hfirst|].
      intros j el' Hj. lia.
Qed.

Lemma validateForm_snd (form : Form) :
  snd (validateForm form) = snd (validateFrom 0 (fields form)).
Proof.
  unfold validateForm. now destruct (validateFrom 0 (fields form)).
Qed.

(** C3.  For every form, [validateForm] returns either the valid result or
    a single (field, message) failure, whatever the number of invalid
    fields: the field reported is the first failing one in document order,
    and its message is that of the first rule it breaks in the order
    required-and-empty, e-mail shape, calendar-valid dd/mm/yyyy, identifier
    format "dddd dddd dddd". *)
Theorem validateForm_first_failure (form : Form) :
  let r := snd (validateForm form) in
  (r = mkResult true None ""
   /\ forall el, el ∈ fields form -> failing el = false)
  \/ (exists i el rule,
        fields form !! i = Some el
        /\ r = mkResult false (Some i) (ruleMessage rule)
        /\ skipped el = false
        /\ violates rule el = true
        /\ (forall rule', (rank rule' < rank rule)%nat ->
                          violates rule' el = false)
        /\ (forall j el', (j < i)%nat -> fields form !! j = Some el' ->
                          failing el' = false)).
Proof.
  intros r. subst r. rewrite validateForm_snd.
  destruct (validateFrom_outcome (fields form) 0)
    as [[Hr Hall] | (k & e & rule & H)].
  - left. split; [exact Hr|]. intros el Hel.
    rewrite Forall_forall in Hall. now apply Hall.
  - right. exists k, e, rule. exact H.
Qed.

(** ** Controls the validator passes over *)

(** The verdict and the message do not depend on the index the loop
    starts from. *)
Lemma validateFrom_index (els : list Element) : forall i j : nat,
  valid (snd (validateFrom i els)) = valid (snd (validateFrom j els))
  /\ msg (snd (validateFrom i els)) = msg (snd (validateFrom j els)).
Proof.
  induction els as [|el rest IH]; intros i j; [split; reflexivity|].
  rewrite !validateFrom_cons.
  destruct (skipped el || negb (existsb (fun r => violates r el) ruleOrder)).
  - cbn [snd]. apply IH.
  - destruct (List.find _ ruleOrder); split; reflexivity.
Qed.

(** Taking a passed-over control out of the list changes neither the
    verdict nor the message. *)
Lemma validateFrom_delete (els : list Element) : forall (i k : nat) el,
  els !! k = Some el -> skipped el = true ->
  valid (snd (validateFrom i els)) = valid (snd (validateFrom i (delete k els)))
  /\ msg (snd (validateFrom i els)) = msg (snd (validateFrom i (delete k els))).
Proof.
  induction els as [|e rest IH]; intros i k el Hk Hs; [discriminate Hk|].
  destruct k as [|k].
  - cbn in Hk. injection Hk as ->. cbn [delete list_delete].
    rewrite validateFrom_cons, Hs. cbn [orb snd].
    apply validateFrom_index.
  - cbn in Hk. cbn [delete list_delete].
    rewrite !validateFrom_cons.
    destruct (skipped e || negb (existsb (fun r => violates r e) ruleOrder)).
    + cbn [snd]. now apply (IH (S i) k el).
    + destruct (List.find _ ruleOrder); split; reflexivity.
Qed.

(** C4, as the code has it.  A field that lies in a hidden subtree, is of
    type "hidden" or is disabled is passed over by the validator whatever
    its category and content: it is never the field reported, and the
    verdict and message are those of the form without it.  (A field marked
    optional is not passed over.) *)
Theorem validateForm_skips (form : Form) (i : nat) (el : Element) :
  fields form !! i = Some el -> skipped el = true ->
  firstEl (snd (validateForm form)) <> Some i
  /\ valid (snd (validateForm form))
     = valid (snd (validateForm (set_fields (delete i (fields form)) form)))
  /\ msg (snd (validateForm form))
     = msg (snd (validateForm (set_fields (delete i (fields form)) form))).
Proof.
  intros Hi Hs. split.
  - rewrite validateForm_snd.
    destruct (validateFrom_outcome (fields form) 0)
      as [[Hr _] | (k & e & rule & Hk & Hr & Hns & _)].
    + rewrite Hr. discriminate.
    + rewrite Hr. cbn. intros [= ->]. congruence.
  - rewrite !validateForm_snd. cbn [fields set_fields set_others].
    now apply (validateFrom_delete (fields form) 0 i el).
Qed.

(** ** The save gate *)

Lemma truthy_true_iff (s : string) : truthy s = true <-> s <> "".
Proof. destruct s; cbn; split; congruence. Qed.

Lemma truthy_false_iff (s : string) : truthy s = false <-> s = "".
Proof. destruct s; cbn; split; congruence. Qed.

Lemma allFilledFrom_forallb (form : Form) (els : list Element) :
  allFilledFrom form els = forallb (fieldComplete form) els.
Proof.
  induction els as [|el rest IH]; [reflexivity|].
  cbn [allFilledFrom forallb]. unfold fieldComplete at 1, markedOptional.
  rewrite IH.
  destruct (negb (isVisible el) || disabled el || String.eqb (type el) "hidden");
    [reflexivity|].
  destruct (attrIs (data_optional el) "true"); [reflexivity|].
  destruct (String.eqb (toLowerCase (type el)) "button"
            || String.eqb (toLowerCase (type el)) "submit"); [reflexivity|].
  destruct (String.eqb (toLowerCase (type el)) "checkbox"
            || String.eqb (toLowerCase (type el)) "radio").
  - destruct (isGroupChecked form el); reflexivity.
  - destruct (truthy (trim (value el))); reflexivity.
Qed.

Lemma isChoice_iff (el : Element) :
  String.eqb (toLowerCase (type el)) "checkbox"
  || String.eqb (toLowerCase (type el)) "radio" = true <-> IsChoice el.
Proof.
  unfold IsChoice.
  rewrite orb_true_iff, !String.eqb_eq. reflexivity.
Qed.

Lemma isButton_iff (el : Element) :
  String.eqb (toLowerCase (type el)) "button"
  || String.eqb (toLowerCase (type el)) "submit" = true <-> IsButton el.
Proof.
  unfold IsButton.
  rewrite orb_true_iff, !String.eqb_eq. reflexivity.
Qed.

Lemma isGroupChecked_choice (form : Form) (el : Element) :
  IsChoice el ->
  isGroupChecked form el = true <-> name el = "" \/ GroupChecked form el.
Proof.
  intros Hc. unfold isGroupChecked.
  assert (Hb : negb (String.eqb (toLowerCase (type el)) "checkbox")
               && negb (String.eqb (toLowerCase (type el)) "radio") = false).
  { apply isChoice_iff in Hc. rewrite <- negb_orb, Hc. reflexivity. }
  rewrite Hb.
  destruct (truthy (name el)) eqn:Hn; cbn [negb].
  - apply truthy_true_iff in Hn.
    rewrite existsb_exists. unfold GroupChecked, groupOf.
    split.
    + intros (g & Hin & Hg). right. exists g.
      apply filter_In in Hin as [Hin Hsel].
      apply andb_prop in Hsel as [Hsel Hname].
      apply andb_prop in Hsel as [Htag Hty].
      apply String.eqb_eq in Hname, Hty.
      repeat split; try assumption.
      * now apply list_elem_of_In.
      * now destruct (tagName g).
    + intros [He | (g & Hin & Htag & Hty & Hname & Hg)]; [contradiction|].
      exists g. split; [|exact Hg].
      apply filter_In. split; [now apply list_elem_of_In|].
      rewrite Htag, Hty, Hname, !String.eqb_refl. reflexivity.
  - apply truthy_false_iff in Hn. intuition.
Qed.

Lemma fieldComplete_iff (form : Form) (el : Element) :
  fieldComplete form el = true <->
  (Participates el -> ~ IsButton el -> Filled form el).
Proof.
  unfold fieldComplete, Participates, Filled.
  destruct (isVisible el); cbn [negb orb]; [|intuition congruence].
  destruct (disabled el); cbn [orb]; [intuition congruence|].
  destruct (String.eqb_spec (type el) "hidden") as [Hh|Hh];
    [intuition congruence|].
  destruct (markedOptional el); [intuition congruence|].
  destruct (String.eqb (toLowerCase (type el)) "button"
            || String.eqb (toLowerCase (type el)) "submit") eqn:Hb.
  { apply isButton_iff in Hb. intuition. }
  assert (Hnb : ~ IsButton el).
  { intros Hx. apply isButton_iff in Hx. congruence. }
  destruct (String.eqb (toLowerCase (type el)) "checkbox"
            || String.eqb (toLowerCase (type el)) "radio") eqn:Hc.
  - apply isChoice_iff in Hc.
    rewrite (isGroupChecked_choice form el Hc). intuition.
  - assert (Hnc : ~ IsChoice el).
    { intros Hx. apply isChoice_iff in Hx. congruence. }
    rewrite truthy_true_iff. intuition.
Qed.

Lemma areAllVisibleFieldsFilled_iff (form : Form) :
  areAllVisibleFieldsFilled form = true <->
  forall el, el ∈ fields form -> Participates el -> ~ IsButton el ->
             Filled form el.
Proof.
  unfold areAllVisibleFieldsFilled.
  rewrite allFilledFrom_forallb, forallb_forall.
  split.
  - intros H el Hel. apply fieldComplete_iff, H. now apply list_elem_of_In.
  - intros H el Hel. apply fieldComplete_iff, H. now apply list_elem_of_In.
Qed.

Lemma allDatesValidFrom_forallb (els : list Element) :
  allDatesValidFrom els = forallb dateComplete els.
Proof.
  induction els as [|el rest IH]; [reflexivity|].
  cbn [allDatesValidFrom forallb]. unfold dateComplete at 1. rewrite IH.
  destruct (negb (isVisible el) || disabled el); [reflexivity|].
  destruct (Nat.eqb (String.length (trim (value el))) 10),
           (isValidDateDDMMYYYY (trim (value el))); reflexivity.
Qed.

Lemma dateComplete_iff (el : Element) :
  dateComplete el = true <->
  (isVisible el = true -> disabled el = false -> HoldsDate el).
Proof.
  unfold dateComplete, HoldsDate.
  destruct (isVisible el); cbn [negb orb]; [|intuition congruence].
  destruct (disabled el); [intuition congruence|].
  rewrite andb_true_iff, Nat.eqb_eq, isValidDate_iff. intuition.
Qed.

Lemma allDatesValid_iff (form : Form) :
  allDatesValid form = true <->
  forall el, el ∈ fields form -> matchesDateSel el = true ->
             isVisible el = true -> disabled el = false -> HoldsDate el.
Proof.
  unfold allDatesValid.
  rewrite allDatesValidFrom_forallb, forallb_forall.
  split.
  - intros H el Hel Hsel. apply dateComplete_iff, H.
    apply filter_In. split; [now apply list_elem_of_In | exact Hsel].
  - intros H el Hel. apply filter_In in Hel as [Hel Hsel].
    apply dateComplete_iff, H; [now apply list_elem_of_In | exact Hsel].
Qed.

Lemma saveEnabled_eq (form : Form) (saveBtn : Button) :
  saveEnabled form saveBtn
  = areAllVisibleFieldsFilled form && allDatesValid form
    && valid (snd (validateForm form)).
Proof.
  unfold saveEnabled, recomputeSaveEnabled.
  destruct (areAllVisibleFieldsFilled form && allDatesValid form).
  - destruct (validateForm form) as [f' r]. cbn.
    now rewrite negb_involutive.
  - reflexivity.
Qed.

Lemma saveEnabled_iff (form : Form) (saveBtn : Button) :
  saveEnabled form saveBtn = true <-> Gate form.
Proof.
  rewrite saveEnabled_eq, !andb_true_iff.
  rewrite areAllVisibleFieldsFilled_iff, allDatesValid_iff.
  unfold Gate. intuition.
Qed.

(** C1, as the code has it.  Once [recomputeSaveEnabled] has run on a form
    and its save button, the save action is enabled exactly when every
    visible, non-disabled, non-hidden, non-optional field other than a
    button is filled (a checkbox or radio button through a checked member
    of the group of its type and name), every visible, non-disabled date
    input holds a calendar-valid dd/mm/yyyy value of 10 characters, and
    the validator reports valid; in particular the action is disabled as
    soon as one such field is not filled, also when the validator alone
    passes. *)
Theorem recomputeSaveEnabled_gate (form : Form) (saveBtn : Button) :
  (saveEnabled form saveBtn = true <-> Gate form)
  /\ (forall el, el ∈ fields form -> Participates el -> ~ IsButton el ->
                 ~ Filled form el -> saveEnabled form saveBtn = false).
Proof.
  split; [apply saveEnabled_iff|].
  intros el Hel Hp Hb Hnf.
  destruct (saveEnabled form saveBtn) eqn:E; [|reflexivity].
  apply saveEnabled_iff in E. destruct E as (Hfill & _).
  exfalso. apply Hnf. now apply Hfill.
Qed.

(** C1, as stated, fails: a form whose only control is a visible but
    disabled date input left empty has its save action enabled, although a
    visible date field holds no date. *)
Lemma disabled_date_enables_save :
  ~ (forall (form : Form) (saveBtn : Button),
        saveEnabled form saveBtn = true <-> GateAsStated form).
Proof.
  intros H.
  destruct (H (formOf [disabledDate]) someButton) as [Hgate _].
  destruct (Hgate eq_refl) as (_ & Hdates & _).
  destruct (Hdates disabledDate) as [Hlen _].
  - apply list_elem_of_In. left. reflexivity.
  - reflexivity.
  - reflexivity.
  - discriminate Hlen.
Qed.

(** C4, as stated, fails: a field marked optional is examined by the
    validator, and is the field reported when it holds a malformed
    e-mail address. *)
Lemma optional_field_is_validated :
  ~ (forall (form : Form) (i : nat) (el : Element),
        fields form !! i = Some el ->
        skipped el || markedOptional el = true ->
        firstEl (snd (validateForm form)) <> Some i).
Proof.
  intros H.
  apply (H (formOf [optionalEmail]) 0%nat optionalEmail).
  - reflexivity.
  - reflexivity.
  - vm_compute. reflexivity.
Qed.

Lemma validateForm_skips_witness :
  firstEl (snd (validateForm (formOf [disabledRequired; textInput "name" "Asha"])))
  <> Some 0%nat
  /\ valid (snd (validateForm (formOf [disabledRequired; textInput "name" "Asha"])))
     = valid (snd (validateForm
                     (set_fields (delete 0%nat [disabledRequired; textInput "name" "Asha"])
                                 (formOf [disabledRequired; textInput "name" "Asha"]))))
  /\ msg (snd (validateForm (formOf [disabledRequired; textInput "name" "Asha"])))
     = msg (snd (validateForm
                   (set_fields (delete 0%nat [disabledRequired; textInput "name" "Asha"])
                               (formOf [disabledRequired; textInput "name" "Asha"])))).
Proof.
  apply (validateForm_skips (formOf [disabledRequired; textInput "name" "Asha"])
                            0%nat disabledRequired).
  - reflexivity.
  - reflexivity.
Defined.

End ValidationFacts.

(* ====================================================================== *)
(** * Properties of the page *)
(* ====================================================================== *)

Module PageFacts.
Import JS Dom Validation Page Spec RuntimeFacts ValidationFacts.

(** ** Delete *)

Lemma sameIgnoringCase_lower (a : string) : forall b : string,
  sameIgnoringCase a b -> toLowerCase a = toLowerCase b.
Proof.
  induction a as [|x a IH]; intros [|y b] H; cbn in H; try contradiction.
  - reflexivity.
  - destruct H as [Hx Hab]. cbn. now rewrite Hx, (IH b Hab).
Qed.

Lemma getCurrentRole_master (d : Document) (b : Body) (role : string) :
  body d = Some b -> data_role b = Some role ->
  sameIgnoringCase role "master" ->
  getCurrentRole d = "master".
Proof.
  intros Hb Hr Hs. unfold getCurrentRole. rewrite Hb, Hr.
  destruct role as [|c role]; [contradiction|].
  cbn [orElse truthy orEmpty].
  now rewrite (sameIgnoringCase_lower _ _ Hs).
Qed.

(** C10.  When the [data-role] of the body equals "master" up to case,
    every invocation of [deleteEntity] makes no network request, whatever
    the entity, the identifier and the answer to the prompt; once the user
    has confirmed, the only thing that follows the prompt is the alert of
    the refusal. *)
Theorem deleteEntity_master_refused
  (d : Document) (b : Body) (role entity id : string) :
  body d = Some b -> data_role b = Some role ->
  sameIgnoringCase role "master" ->
  (forall confirmed : bool,
      Forall (fun e => isFetch e = false) (deleteEntity d confirmed entity id))
  /\ deleteEntity d true entity id
     = [Confirm "Are you sure you want to delete this item?";
        Alert "Delete is disabled for Master role."].
Proof.
  intros Hb Hr Hs.
  pose proof (getCurrentRole_master d b role Hb Hr Hs) as Hrole.
  unfold deleteEntity. rewrite Hrole. cbn [String.eqb negb].
  split.
  - intros [|]; cbn; repeat constructor.
  - reflexivity.
Qed.

Lemma deleteEntity_master_refused_witness :
  (forall confirmed : bool,
      Forall (fun e => isFetch e = false)
             (deleteEntity (pageWithRole "Master") confirmed "client" "42"))
  /\ deleteEntity (pageWithRole "Master") true "client" "42"
     = [Confirm "Are you sure you want to delete this item?";
        Alert "Delete is disabled for Master role."].
Proof.
  apply (deleteEntity_master_refused (pageWithRole "Master")
           (mkBody (Some "Master")) "Master" "client" "42").
  - reflexivity.
  - reflexivity.
  - cbn. repeat split; reflexivity.
Defined.

(** ** Authentication failure *)

(** [handleAuthFailure] leaves the entity modal as it is. *)
Lemma handleAuthFailure_entityModal (m : string) (d : Document) :
  entityModal (fst (handleAuthFailure m d)) = entityModal d.
Proof.
  unfold handleAuthFailure, openLoginModal, showInlineLoginError,
    resetLoginModalState.
  destruct (loginModal d), (loginError d); reflexivity.
Qed.

(** [handleAuthFailure] shows the login overlay when the page has one. *)
Lemma handleAuthFailure_overlay (m : string) (d : Document) (lm : LoginModal) :
  loginModal d = Some lm ->
  loginModal (fst (handleAuthFailure m d))
  = Some (mkLoginModal (classAdd "show" (lm_classList lm)) "flex").
Proof.
  intros H.
  unfold handleAuthFailure, openLoginModal, showInlineLoginError,
    resetLoginModalState.
  rewrite H. destruct (loginError d); reflexivity.
Qed.

(** [handleAuthFailure] writes its message in [#login-error] when the page
    has that box, and alerts it otherwise. *)
Lemma handleAuthFailure_message (d : Document) :
  match loginError d with
  | Some _ =>
      loginError (fst (handleAuthFailure "Not authenticated." d))
      = Some (mkErrorBox "Not authenticated." false "block" (Some "alert")
                         (Some "assertive"))
  | None => In (Alert "Not authenticated.")
               (snd (handleAuthFailure "Not authenticated." d))
  end.
Proof.
  unfold handleAuthFailure, openLoginModal, showInlineLoginError,
    resetLoginModalState.
  destruct (loginModal d), (loginError d), (loginUsername d); cbn;
    try reflexivity; auto.
Qed.

Lemma handleAuthFailure_effects (m : string) (d : Document) :
  Forall (fun e => match e with
                   | Alert _ | ConsoleWarn _ | FocusLoginUsername => True
                   | _ => False
                   end)
         (snd (handleAuthFailure m d)).
Proof.
  unfold handleAuthFailure, openLoginModal, showInlineLoginError,
    resetLoginModalState.
  destruct (loginModal d), (loginError d), (loginUsername d); cbn;
    repeat constructor.
Qed.

(** C5.  A response to a submission whose status is 401 or 403, or that
    was redirected, is handled by [handleAuthFailure] and by nothing else,
    whatever its body: the login overlay is shown and carries the message
    "Not authenticated." (an alert replaces a missing overlay or message
    box), while the entity modal, with the classes and values of its
    fields and its error panel, is left untouched and no field is focused
    or cleared. *)
Theorem submission_auth_failure (res : Response) (d : Document) :
  status res = 401%Z \/ status res = 403%Z \/ redirected res = true ->
  saveResponse res d = handleAuthFailure "Not authenticated." d
  /\ entityModal (fst (saveResponse res d)) = entityModal d
  /\ (forall lm, loginModal d = Some lm ->
        loginModal (fst (saveResponse res d))
        = Some (mkLoginModal (classAdd "show" (lm_classList lm)) "flex"))
  /\ (forall box, loginError d = Some box ->
        loginError (fst (saveResponse res d))
        = Some (mkErrorBox "Not authenticated." false "block" (Some "alert")
                           (Some "assertive")))
  /\ Forall (fun e => match e with
                      | Alert _ | ConsoleWarn _ | FocusLoginUsername => True
                      | _ => False
                      end)
            (snd (saveResponse res d)).
Proof.
  intros Hres.
  assert (Hpath : saveResponse res d = handleAuthFailure "Not authenticated." d).
  { unfold saveResponse.
    destruct Hres as [H | [H | H]]; rewrite H.
    - reflexivity.
    - reflexivity.
    - now rewrite orb_true_r. }
  rewrite Hpath. split; [reflexivity|].
  split; [apply handleAuthFailure_entityModal|].
  split; [intros lm; apply handleAuthFailure_overlay|].
  split; [|apply handleAuthFailure_effects].
  intros box Hbox.
  pose proof (handleAuthFailure_message d) as Hm.
  now rewrite Hbox in Hm.
Qed.

Lemma submission_auth_failure_witness :
  saveResponse forbiddenWithErrors (pageWithForm [textInput "name" "Asha"])
  = handleAuthFailure "Not authenticated." (pageWithForm [textInput "name" "Asha"])
  /\ entityModal (fst (saveResponse forbiddenWithErrors
                         (pageWithForm [textInput "name" "Asha"])))
     = entityModal (pageWithForm [textInput "name" "Asha"])
  /\ (forall lm, loginModal (pageWithForm [textInput "name" "Asha"]) = Some lm ->
        loginModal (fst (saveResponse forbiddenWithErrors
                           (pageWithForm [textInput "name" "Asha"])))
        = Some (mkLoginModal (classAdd "show" (lm_classList lm)) "flex"))
  /\ (forall box, loginError (pageWithForm [textInput "name" "Asha"]) = Some box ->
        loginError (fst (saveResponse forbiddenWithErrors
                           (pageWithForm [textInput "name" "Asha"])))
        = Some (mkErrorBox "Not authenticated." false "block" (Some "alert")
                           (Some "assertive")))
  /\ Forall (fun e => match e with
                      | Alert _ | ConsoleWarn _ | FocusLoginUsername => True
                      | _ => False
                      end)
            (snd (saveResponse forbiddenWithErrors
                    (pageWithForm [textInput "name" "Asha"]))).
Proof.
  apply (submission_auth_failure forbiddenWithErrors
           (pageWithForm [textInput "name" "Asha"])).
  right. left. reflexivity.
Defined.

(** ** The local guard of the save handler *)

Lemma contains_classRemove (c x : string) (cs : list string) :
  x <> c -> contains x (classRemove c cs) = contains x cs.
Proof.
  intros Hne. unfold contains, classRemove.
  induction cs as [|y cs IH]; [reflexivity|].
  cbn [List.filter existsb].
  destruct (String.eqb_spec c y) as [<-|Hcy]; cbn [negb existsb].
  - rewrite IH. destruct (String.eqb_spec x c); [contradiction | reflexivity].
  - now rewrite IH.
Qed.

(** Taking an annotation class away from a control changes nothing of
    what the validator looks at. *)
Lemma skipped_removeClass (c : string) (el : Element) :
  skipped (removeClass c el) = skipped el.
Proof. reflexivity. Qed.

Lemma violates_removeClass (c : string) (r : Rule) (el : Element) :
  c <> "date-field" -> violates r (removeClass c el) = violates r el.
Proof.
  intros Hc. destruct r; try reflexivity.
  unfold violates, isDateCategory, removeClass, set_classList.
  cbn [classList data_type name value].
  rewrite contains_classRemove by congruence. reflexivity.
Qed.

Lemma validateFrom_map (g : Element -> Element) :
  (forall el, skipped (g el) = skipped el) ->
  (forall r el, violates r (g el) = violates r el) ->
  forall (els : list Element) (i : nat),
    snd (validateFrom i (map g els)) = snd (validateFrom i els).
Proof.
  intros Hs Hv. induction els as [|el rest IH]; intros i; [reflexivity|].
  cbn [map]. rewrite !validateFrom_cons.
  unfold ruleOrder. cbn [existsb List.find].
  rewrite Hs, !Hv.
  destruct (skipped el
            || negb (violates RequiredEmpty el
                     || (violates EmailShape el
                         || (violates DateValid el
                             || (violates IdentifierFormat el || false))))).
  - cbn [snd]. apply IH.
  - destruct (violates RequiredEmpty el); [reflexivity|].
    destruct (violates EmailShape el); [reflexivity|].
    destruct (violates DateValid el); [reflexivity|].
    destruct (violates IdentifierFormat el); reflexivity.
Qed.

Lemma validateForm_cleared (form : Form) :
  snd (validateForm (clearInvalids (clearFieldErrors form)))
  = snd (validateForm form).
Proof.
  rewrite !validateForm_snd. unfold clearInvalids, clearFieldErrors.
  cbn [fields set_fields set_others].
  rewrite validateFrom_map.
  - apply validateFrom_map.
    + intros el. apply skipped_removeClass.
    + intros r el. apply violates_removeClass. discriminate.
  - intros el. reflexivity.
  - intros r el.
    rewrite violates_removeClass by discriminate.
    apply violates_removeClass. discriminate.
Qed.







(** ** Display and transmission formats of a date *)

Ltac use_digits :=
  repeat (cbn;
          match goal with
          | H : isDigit ?c = true |- context [isDigit ?c] => rewrite H
          | H : isDigit ?c = true |- context [isSpace ?c] =>
              rewrite (digit_not_space c H)
          | H : isDigit ?c = true |- context [Ascii.eqb ?c "-"] =>
              rewrite (digit_not_dash c H)
          end).

Lemma trim_dateText (d1 d2 m1 m2 y1 y2 y3 y4 : ascii) :
  isDigit d1 = true -> isDigit y4 = true ->
  trim (dateText d1 d2 m1 m2 y1 y2 y3 y4) = dateText d1 d2 m1 m2 y1 y2 y3 y4.
Proof.
  intros H1 H4. unfold trim, dateText.
  cbn [trimStart]. rewrite (digit_not_space d1 H1).
  cbn [trimEnd]. rewrite (digit_not_space y4 H4). reflexivity.
Qed.

(** The text [y1 y2 y3 y4 - m1 m2 - d1 d2]. *)
Lemma toTransmission_dateText (d1 d2 m1 m2 y1 y2 y3 y4 : ascii) :
  allDigits [d1; d2; m1; m2; y1; y2; y3; y4] ->
  toTransmission (dateText d1 d2 m1 m2 y1 y2 y3 y4)
  = Some (String y1 (String y2 (String y3 (String y4 (String "-"
           (String m1 (String m2 (String "-" (String d1 (String d2 "")))))))))).
Proof.
  intros Hd. unfold allDigits in Hd.
  repeat match goal with
         | H : Forall _ (_ :: _) |- _ => inversion_clear H
         end.
  unfold toTransmission. rewrite trim_dateText by assumption.
  unfold exec, firstMatch, reDDMMYYYYGroups, dateText. cbn. unfold oneChar.
  use_digits. reflexivity.
Qed.

Lemma includes_later (n : string) (c : ascii) (s : string) :
  includes n s = true -> includes n (String c s) = true.
Proof. intros H. cbn [includes]. rewrite H. apply orb_true_r. Qed.

Lemma includes_dash (a b c d : ascii) (t : string) :
  includes "-" (String a (String b (String c (String d (String "-" t))))) = true.
Proof.
  do 4 apply includes_later.
  destruct t; reflexivity.
Qed.

Lemma toDisplay_iso (d1 d2 m1 m2 y1 y2 y3 y4 : ascii) :
  allDigits [d1; d2; m1; m2; y1; y2; y3; y4] ->
  toDisplay (String y1 (String y2 (String y3 (String y4 (String "-"
             (String m1 (String m2 (String "-" (String d1 (String d2 ""))))))))))
  = dateText d1 d2 m1 m2 y1 y2 y3 y4.
Proof.
  intros Hd. unfold allDigits in Hd.
  repeat match goal with
         | H : Forall _ (_ :: _) |- _ => inversion_clear H
         end.
  unfold toDisplay. rewrite includes_dash. cbn [truthy andb].
  assert (Ht : test reISODate
                 (String y1 (String y2 (String y3 (String y4 (String "-"
                   (String m1 (String m2 (String "-" (String d1 (String d2 ""))))))))))
               = true).
  { unfold test, exec, firstMatch, reISODate. cbn. unfold oneChar.
    use_digits. reflexivity. }
  rewrite Ht. use_digits. reflexivity.
Qed.

(** The two rewritings of the text of a date undo each other: for every
    calendar-valid date [d] in the display format dd/mm/yyyy, the text
    [iso] the save handler computes has the form yyyy-mm-dd, and the text
    [formatDateFields] computes for [iso] is [d]. *)
Lemma display_texts_round_trip (d : string) :
  isValidDateDDMMYYYY d = true ->
  exists iso,
    toTransmission d = Some iso
    /\ test reISODate iso = true
    /\ toDisplay iso = d.
Proof.
  intros Hv. apply isValidDate_iff in Hv.
  destruct Hv as (d1 & d2 & m1 & m2 & y1 & y2 & y3 & y4 & -> & Hd & _).
  eexists. split; [apply toTransmission_dateText; exact Hd|].
  split; [|apply toDisplay_iso; exact Hd].
  unfold allDigits in Hd.
  repeat match goal with
         | H : Forall _ (_ :: _) |- _ => inversion_clear H
         end.
  unfold test, exec, firstMatch, reISODate. cbn. unfold oneChar.
  use_digits. reflexivity.
Qed.

(** ** Pre-filling the dates of a create form *)

(** C8, at the input where it fails.  In create mode, when the markup
    brings its own [#entity-modal] root, the empty [input.date-field] of
    the form is still empty once the modal is installed, whatever the
    current day; the same form received without a modal root has it
    pre-filled with the current day (here 3 November 2026). *)
Theorem create_prefill_misses_modal_markup :
  (forall today : Z,
      value <$> liveField (fst (insertEntityModal "client" modalMarkup "Create"
                                  None "/client/" today emptyPage)) 1
      = Some "")
  /\ value <$> liveField (fst (insertEntityModal "client" bodyMarkup "Create"
                                 None "/client/" (newDate 2026 10 3) emptyPage)) 1
     = Some "03/11/2026".
Proof.
  split.
  - intros today. reflexivity.
  - vm_compute. reflexivity.
Qed.

End PageFacts.

(* ====================================================================== *)
(** * Properties of the matcher *)
(* ====================================================================== *)

Module RegexFacts.
Import JS Spec RuntimeFacts.

(** ** Texts *)

Lemma app_cons (c : ascii) (a b : string) :
  String c a +:+ b = String c (a +:+ b).
Proof. reflexivity. Qed.

Lemma app_nil_l (s : string) : "" +:+ s = s.
Proof. reflexivity. Qed.

Lemma app_nil_r (s : string) : s +:+ "" = s.
Proof.
  induction s as [|c s IH]; [reflexivity|]. now rewrite app_cons, IH.
Qed.

Lemma app_assoc (a b c : string) : (a +:+ b) +:+ c = a +:+ (b +:+ c).
Proof.
  induction a as [|x a IH]; [reflexivity|]. now rewrite !app_cons, IH.
Qed.

(** ** Outcomes of the elementary patterns *)

Lemma in_oneChar (p : ascii -> bool) (s : string) (g : captures) (o : outcome) :
  In o (oneChar p s g) <->
  exists x t, s = String x t /\ p x = true /\ o = (String x "", t, g).
Proof.
  unfold oneChar. destruct s as [|x t].
  - split; [intros [] | intros (x & t & H & _); discriminate H].
  - destruct (p x) eqn:Hp.
    + split.
      * intros [<- | []]. now exists x, t.
      * intros (x' & t' & [= <- <-] & _ & ->). now left.
    + split; [intros [] | intros (x' & t' & [= <- <-] & Hp' & _); congruence].
Qed.

Lemma in_run_Seq (ic : bool) (a b : regex) (s : string) (g : captures)
  (o : outcome) :
  In o (run ic (Seq a b) s g) <->
  exists c1 s1 g1 c2 s2 g2,
    In (c1, s1, g1) (run ic a s g)
    /\ In (c2, s2, g2) (run ic b s1 g1)
    /\ o = (c1 +:+ c2, s2, g2).
Proof.
  cbn [run]. rewrite in_flat_map. split.
  - intros ([[c1 s1] g1] & H1 & H2).
    apply in_map_iff in H2 as ([[c2 s2] g2] & <- & H2).
    now exists c1, s1, g1, c2, s2, g2.
  - intros (c1 & s1 & g1 & c2 & s2 & g2 & H1 & H2 & ->).
    exists (c1, s1, g1). split; [exact H1|].
    apply in_map_iff. now exists (c2, s2, g2).
Qed.

Lemma in_run_Alt (ic : bool) (a b : regex) (s : string) (g : captures)
  (o : outcome) :
  In o (run ic (Alt a b) s g) <-> In o (run ic a s g) \/ In o (run ic b s g).
Proof. cbn [run]. apply in_app_iff. Qed.

Lemma in_run_Group (ic : bool) (n : nat) (r : regex) (s : string)
  (g : captures) (o : outcome) :
  In o (run ic (Group n r) s g) <->
  exists c s1 g1, In (c, s1, g1) (run ic r s g) /\ o = (c, s1, (n, c) :: g1).
Proof.
  cbn [run]. rewrite in_map_iff. split.
  - intros ([[c s1] g1] & <- & H). now exists c, s1, g1.
  - intros (c & s1 & g1 & H & ->). now exists (c, s1, g1).
Qed.

Lemma in_run_Eol (ic : bool) (s : string) (g : captures) (o : outcome) :
  In o (run ic Eol s g) <-> s = "" /\ o = ("", "", g).
Proof.
  cbn [run]. destruct s.
  - split; [intros [<- | []]; now split | intros [_ ->]; now left].
  - split; [intros [] | intros [H _]; discriminate H].
Qed.

Lemma in_run_Opt (ic : bool) (r : regex) (s : string) (g : captures)
  (o : outcome) :
  In o (run ic (Opt r) s g) <-> In o (run ic r s g) \/ o = ("", s, g).
Proof.
  unfold Opt. rewrite in_run_Alt. cbn [run In]. intuition.
Qed.

(** ** Repetition of a character class *)

Lemma iterate_ext (step1 step2 : string -> captures -> list outcome) :
  (forall s g, step1 s g = step2 s g) ->
  forall fuel s g, iterate step1 fuel s g = iterate step2 fuel s g.
Proof.
  intros H. induction fuel as [|fuel IH]; intros s g; [reflexivity|].
  cbn [iterate]. rewrite H. f_equal.
  apply flat_map_ext. intros [[c1 s1] g1].
  destruct (String.length s1 <? String.length s)%nat; [|reflexivity].
  now rewrite IH.
Qed.

Lemma in_iterate_class (p : ascii -> bool) : forall (fuel : nat) (s : string)
  (g : captures) (o : outcome),
  (String.length s <= fuel)%nat ->
  (In o (iterate (oneChar p) fuel s g) <->
   exists c rest, s = c +:+ rest /\ allChars p c /\ o = (c, rest, g)).
Proof.
  induction fuel as [|fuel IH]; intros s g o Hlen.
  - destruct s; [|cbn in Hlen; lia]. cbn [iterate In]. split.
    + intros [<- | []]. exists "", "". repeat split.
    + intros (c & rest & Hs & _ & ->).
      destruct c; [|discriminate Hs].
      rewrite app_nil_l in Hs. subst rest. now left.
  - cbn [iterate]. rewrite in_app_iff, in_flat_map. cbn [In]. split.
    + intros [([[c1 s1] g1] & H1 & H2) | [<- | []]].
      * apply in_oneChar in H1 as (x & t & -> & Hp & [= -> -> ->]).
        cbn [String.length] in H2, Hlen.
        rewrite (proj2 (Nat.ltb_lt _ _) (Nat.lt_succ_diag_r _)) in H2.
        apply in_map_iff in H2 as ([[c2 s2] g2] & <- & H2).
        apply IH in H2 as (c & rest & -> & Hc & [= -> -> ->]); [|lia].
        exists (String x c), rest. repeat split; assumption.
      * exists "", s. repeat split.
    + intros (c & rest & -> & Hc & ->). destruct c as [|x c].
      * right. now left.
      * left. destruct Hc as [Hp Hc].
        rewrite app_cons in *. cbn [String.length] in Hlen.
        exists (String x "", c +:+ rest, g). split.
        -- apply in_oneChar. now exists x, (c +:+ rest).
        -- cbn [String.length].
           rewrite (proj2 (Nat.ltb_lt _ _) (Nat.lt_succ_diag_r _)).
           apply in_map_iff. exists (c, rest, g). split; [reflexivity|].
           apply IH; [lia|]. now exists c, rest.
Qed.

(** [r+] for a pattern [r] that matches one character of the class [p]. *)
Lemma in_run_Plus_class (ic : bool) (r : regex) (p : ascii -> bool) :
  (forall s g, run ic r s g = oneChar p s g) ->
  forall (s : string) (g : captures) (o : outcome),
    In o (run ic (Plus r) s g) <->
    exists c rest,
      s = c +:+ rest /\ c <> "" /\ allChars p c /\ o = (c, rest, g).
Proof.
  intros Hr s g o. unfold Plus. rewrite in_run_Seq. split.
  - intros (c1 & s1 & g1 & c2 & s2 & g2 & H1 & H2 & ->).
    rewrite Hr in H1.
    apply in_oneChar in H1 as (x & t & -> & Hp & [= -> -> ->]).
    cbn [run] in H2.
    rewrite (iterate_ext _ _ Hr) in H2.
    apply in_iterate_class in H2 as (c & rest & -> & Hc & [= -> -> ->]);
      [|lia].
    exists (String x c), rest. repeat split; [discriminate | assumption ..].
  - intros (c & rest & -> & Hne & Hc & ->).
    destruct c as [|x c]; [contradiction|]. destruct Hc as [Hp Hc].
    exists (String x ""), (c +:+ rest), g, c, rest, g.
    split; [rewrite Hr; apply in_oneChar; now exists x, (c +:+ rest)|].
    split; [|reflexivity].
    cbn [run]. rewrite (iterate_ext _ _ Hr).
    apply in_iterate_class; [lia|]. now exists c, rest.
Qed.

(** ** Patterns without groups *)

Lemma iterate_keeps_groups (step : string -> captures -> list outcome) :
  (forall s g c s' g', In (c, s', g') (step s g) -> g' = g) ->
  forall fuel s g c s' g', In (c, s', g') (iterate step fuel s g) -> g' = g.
Proof.
  intros Hstep. induction fuel as [|fuel IH]; intros s g c s' g' H.
  - cbn [iterate In] in H. destruct H as [[= _ _ ->] | []]. reflexivity.
  - cbn [iterate] in H. apply in_app_iff in H as [H | [[= _ _ ->] | []]];
      [|reflexivity].
    apply in_flat_map in H as ([[c1 s1] g1] & H1 & H2).
    apply Hstep in H1 as ->.
    destruct (String.length s1 <? String.length s)%nat; [|contradiction].
    apply in_map_iff in H2 as ([[c2 s2] g2] & [= _ _ <-] & H2).
    exact (IH _ _ _ _ _ H2).
Qed.

(** A pattern without groups leaves the captures as they are. *)
Lemma run_keeps_groups (ic : bool) (r : regex) :
  groupFree r = true ->
  forall s g c s' g', In (c, s', g') (run ic r s g) -> g' = g.
Proof.
  induction r as [| ch | | | | ns cs | cs | a IHa b IHb | a IHa b IHb
                  | a IHa | n a IHa |];
    intros Hf s g c s' g' H; cbn [groupFree] in Hf;
    try (cbn [run] in H; apply in_oneChar in H as (x & t & _ & _ & [= _ _ ->]);
         reflexivity).
  - cbn [run In] in H. destruct H as [[= _ _ ->] | []]. reflexivity.
  - apply andb_prop in Hf as [Hfa Hfb].
    apply in_run_Seq in H as (c1 & s1 & g1 & c2 & s2 & g2 & H1 & H2 & [= _ _ ->]).
    apply (IHa Hfa) in H1 as ->. exact (IHb Hfb _ _ _ _ _ H2).
  - apply andb_prop in Hf as [Hfa Hfb].
    apply in_run_Alt in H as [H | H]; [exact (IHa Hfa _ _ _ _ _ H)|].
    exact (IHb Hfb _ _ _ _ _ H).
  - cbn [run] in H.
    exact (iterate_keeps_groups _ (IHa Hf) _ _ _ _ _ _ H).
  - discriminate Hf.
  - apply in_run_Eol in H as (_ & [= _ _ ->]). reflexivity.
Qed.

(** ** What a match consumes *)

Lemma iterate_consumes (step : string -> captures -> list outcome) :
  (forall s g c s' g', In (c, s', g') (step s g) -> s = c +:+ s') ->
  forall fuel s g c s' g', In (c, s', g') (iterate step fuel s g) -> s = c +:+ s'.
Proof.
  intros Hstep. induction fuel as [|fuel IH]; intros s g c s' g' H.
  - cbn [iterate In] in H. destruct H as [[= <- <- _] | []]. reflexivity.
  - cbn [iterate] in H. apply in_app_iff in H as [H | [[= <- <- _] | []]];
      [|reflexivity].
    apply in_flat_map in H as ([[c1 s1] g1] & H1 & H2).
    apply Hstep in H1 as ->.
    destruct (String.length s1 <? String.length (c1 +:+ s1))%nat;
      [|contradiction].
    apply in_map_iff in H2 as ([[c2 s2] g2] & [= <- <- _] & H2).
    apply IH in H2 as ->. now rewrite app_assoc.
Qed.

(** The text is what a match consumed followed by what it left. *)
Lemma run_consumes (ic : bool) (r : regex) :
  forall s g c s' g', In (c, s', g') (run ic r s g) -> s = c +:+ s'.
Proof.
  induction r as [| ch | | | | ns cs | cs | a IHa b IHb | a IHa b IHb
                  | a IHa | n a IHa |];
    intros s g c s' g' H;
    try (cbn [run] in H; apply in_oneChar in H as (x & t & -> & _ & [= -> -> _]);
         reflexivity).
  - cbn [run In] in H. destruct H as [[= <- <- _] | []]. reflexivity.
  - apply in_run_Seq in H as (c1 & s1 & g1 & c2 & s2 & g2 & H1 & H2 & [= -> -> _]).
    apply IHa in H1 as ->. apply IHb in H2 as ->. now rewrite app_assoc.
  - apply in_run_Alt in H as [H | H]; [exact (IHa _ _ _ _ _ H)|].
    exact (IHb _ _ _ _ _ H).
  - cbn [run] in H. exact (iterate_consumes _ IHa _ _ _ _ _ _ H).
  - apply in_run_Group in H as (c1 & s1 & g1 & H & [= -> -> _]).
    exact (IHa _ _ _ _ _ H).
  - apply in_run_Eol in H as (-> & [= -> -> _]). reflexivity.
Qed.

(** ** Literal words under the [i] flag *)

Lemma lower_letter_fixed (c : ascii) :
  isLower c = true -> toLowerChar c = c /\ foldCase c = c.
Proof.
  destruct c as [[] [] [] [] [] [] [] []]; vm_compute;
    intuition congruence.
Qed.

Lemma foldCase_of_lower (x : ascii) :
  isLower (toLowerChar x) = true -> foldCase x = toLowerChar x.
Proof.
  destruct x as [[] [] [] [] [] [] [] []]; vm_compute; congruence.
Qed.

Lemma fold_matches_letter (x c : ascii) :
  isLower c = true -> toLowerChar x = toLowerChar c ->
  Ascii.eqb (foldCase x) (foldCase c) = true.
Proof.
  intros Hc Hx. destruct (lower_letter_fixed c Hc) as [Hl Hf].
  rewrite Hl in Hx. rewrite Hf, foldCase_of_lower by now rewrite Hx.
  rewrite Hx. apply Ascii.eqb_refl.
Qed.

(** A word of lower-case letters matches any text equal to it up to
    case, and consumes exactly that text. *)
Lemma run_Lit_word (w : string) :
  allChars isLower w -> w <> "" ->
  forall (op rest : string) (g : captures),
    sameIgnoringCase op w ->
    In (op, rest, g) (run true (Lit w) (op +:+ rest) g).
Proof.
  induction w as [|c w IH]; intros Hw Hne op rest g Hop; [contradiction|].
  destruct op as [|x op]; [contradiction|].
  destruct Hw as [Hc Hw]. destruct Hop as [Hx Hop].
  pose proof (fold_matches_letter x c Hc Hx) as Hm.
  destruct w as [|c' w'].
  - destruct op; [|contradiction].
    cbn [Lit run]. apply in_oneChar. exists x, rest. now rewrite Hm.
  - change (Lit (String c (String c' w')))
      with (Seq (Chr c) (Lit (String c' w'))).
    apply in_run_Seq.
    exists (String x ""), (op +:+ rest), g, op, rest, g.
    split; [cbn [run]; apply in_oneChar; exists x, (op +:+ rest); now rewrite Hm|].
    split; [|reflexivity].
    apply IH; [exact Hw | discriminate | exact Hop].
Qed.

(** ** Searching a text for a pattern *)

Lemma firstMatch_Some_iff (ic : bool) (r : regex) (pre s : string) :
  firstMatch ic r pre s <> None <-> run ic r s [] <> [].
Proof.
  unfold firstMatch. destruct (run ic r s []) as [|[[c rest] g] l].
  - split; intros H; exfalso; now apply H.
  - split; intros _; discriminate.
Qed.

(** What a search returns is the first match at some position of the
    text. *)
Lemma searchFrom_sound (ic : bool) (r : regex) : forall (s pre : string) m,
  searchFrom ic r pre s = Some m ->
  exists pre' s' c rest g l,
    pre +:+ s = pre' +:+ s'
    /\ run ic r s' [] = (c, rest, g) :: l
    /\ m = MatchResult pre' c rest g.
Proof.
  induction s as [|x s IH]; intros pre m H; cbn [searchFrom] in H.
  - unfold firstMatch in H.
    destruct (run ic r "" []) as [|[[c rest] g] l] eqn:E; [discriminate|].
    injection H as <-. now exists pre, "", c, rest, g, l.
  - unfold firstMatch in H.
    destruct (run ic r (String x s) []) as [|[[c rest] g] l] eqn:E.
    + apply IH in H as (pre' & s' & c & rest & g & l & Hs & Hr & ->).
      exists pre', s', c, rest, g, l. split; [|now split].
      rewrite <- Hs, app_assoc. reflexivity.
    + injection H as <-. now exists pre, (String x s), c, rest, g, l.
Qed.

(** A search finds a match as soon as some position has one. *)
Lemma searchFrom_complete (ic : bool) (r : regex) : forall (mid s pre : string),
  run ic r s [] <> [] -> searchFrom ic r pre (mid +:+ s) <> None.
Proof.
  induction mid as [|x mid IH]; intros s pre Hs.
  - rewrite app_nil_l.
    assert (Hf : firstMatch ic r pre s <> None) by now apply firstMatch_Some_iff.
    destruct s; cbn [searchFrom]; destruct (firstMatch ic r pre _);
      congruence.
  - rewrite app_cons. cbn [searchFrom].
    destruct (firstMatch ic r pre (String x (mid +:+ s))); [discriminate|].
    now apply IH.
Qed.

(** ** Segments of a path *)

Lemma noSlash_head (x : ascii) (s : string) :
  noSlash (String x s) -> x <> "/"%char.
Proof.
  intros [Hx _] ->. discriminate Hx.
Qed.

Lemma noSlash_app_slash (a t : string) : ~ noSlash (a +:+ String "/" t).
Proof.
  induction a as [|c a IH].
  - rewrite app_nil_l. intros H. now apply noSlash_head in H.
  - rewrite app_cons. intros [_ H]. exact (IH H).
Qed.

(** A text splits in one way only at its first slash. *)
Lemma split_at_slash (a : string) : forall (b x y : string),
  noSlash a -> noSlash b ->
  a +:+ String "/" x = b +:+ String "/" y -> a = b /\ x = y.
Proof.
  induction a as [|c a IH]; intros [|d b] x y Ha Hb H.
  - rewrite !app_nil_l in H. injection H as ->. now split.
  - rewrite app_nil_l, app_cons in H. injection H as <- _.
    now apply noSlash_head in Hb.
  - rewrite app_nil_l, app_cons in H. injection H as -> _.
    now apply noSlash_head in Ha.
  - rewrite !app_cons in H. injection H as -> H.
    destruct Ha as [_ Ha], Hb as [_ Hb].
    destruct (IH b x y Ha Hb H) as [-> ->]. now split.
Qed.

(** A segment followed by at most one slash has no slash followed by a
    non-empty segment. *)
Lemma no_inner_slash (a : string) : forall (sa y b sb : string),
  noSlash a -> sa = "" \/ sa = "/" -> b <> "" ->
  a +:+ sa <> y +:+ String "/" (b +:+ sb).
Proof.
  induction a as [|c a IH]; intros sa y b sb Ha Hsa Hb H.
  - rewrite app_nil_l in H.
    destruct b as [|x b]; [contradiction|].
    destruct Hsa as [-> | ->]; destruct y as [|? [|? ?]]; discriminate H.
  - destruct y as [|d y].
    + rewrite app_nil_l, app_cons in H. injection H as -> _.
      now apply noSlash_head in Ha.
    + rewrite !app_cons in H. injection H as _ H.
      destruct Ha as [_ Ha]. exact (IH sa y b sb Ha Hsa Hb H).
Qed.

(** The trailing segment of a text, before its optional closing slash, is
    determined by the text. *)
Lemma trailing_segment_unique (x : string) : forall (y a b sa sb : string),
  noSlash a -> noSlash b -> a <> "" -> b <> "" ->
  sa = "" \/ sa = "/" -> sb = "" \/ sb = "/" ->
  x +:+ String "/" (a +:+ sa) = y +:+ String "/" (b +:+ sb) ->
  a = b.
Proof.
  induction x as [|c x IH]; intros y a b sa sb Ha Hb Hna Hnb Hsa Hsb H.
  - rewrite app_nil_l in H. destruct y as [|d y].
    + rewrite app_nil_l in H. injection H as H.
      destruct Hsa as [-> | ->], Hsb as [-> | ->];
        rewrite ?app_nil_r in H.
      * exact H.
      * exfalso. rewrite H in Ha. exact (noSlash_app_slash b "" Ha).
      * exfalso. rewrite <- H in Hb. exact (noSlash_app_slash a "" Hb).
      * now destruct (split_at_slash a b "" "" Ha Hb H).
    + rewrite app_cons in H. injection H as <- H.
      exfalso. exact (no_inner_slash a sa y b sb Ha Hsa Hnb H).
  - destruct y as [|d y].
    + rewrite app_nil_l, app_cons in H. injection H as -> H.
      exfalso. symmetry in H.
      exact (no_inner_slash b sb x a sa Hb Hsb Hna H).
    + rewrite !app_cons in H. injection H as _ H.
      exact (IH y a b sa sb Ha Hb Hna Hnb Hsa Hsb H).
Qed.

End RegexFacts.

(* ====================================================================== *)
(** * Properties of the entity router *)
(* ====================================================================== *)

Module RouterFacts.
Import JS Router Spec RuntimeFacts RegexFacts.

Lemma run_segment_char (ic : bool) (s : string) (g : captures) :
  run ic (NoneOf false ["/"%char]) s g = oneChar isSegmentChar s g.
Proof.
  cbn [run]. unfold oneChar, isSegmentChar, memChar.
  destruct s as [|x t]; [reflexivity|]. cbn [existsb andb negb orb].
  now rewrite orb_false_r, andb_true_r.
Qed.

Lemma fold_is_slash (x : ascii) :
  Ascii.eqb (foldCase x) (foldCase "/") = true <-> x = "/"%char.
Proof.
  destruct x as [[] [] [] [] [] [] [] []]; vm_compute; split; congruence.
Qed.

Lemma in_run_slash (s : string) (g : captures) (o : outcome) :
  In o (run true (Chr "/") s g) <-> exists t, s = String "/" t /\ o = ("/", t, g).
Proof.
  cbn [run]. rewrite in_oneChar. split.
  - intros (x & t & -> & Hx & ->). apply fold_is_slash in Hx as ->.
    now exists t.
  - intros (t & -> & ->). exists "/"%char, t. repeat split.
Qed.

Lemma in_run_segment (s : string) (g : captures) (o : outcome) :
  In o (run true (Plus (NoneOf false ["/"%char])) s g) <->
  exists c rest, s = c +:+ rest /\ c <> "" /\ noSlash c /\ o = (c, rest, g).
Proof. apply in_run_Plus_class, run_segment_char. Qed.

Lemma truthy_app_cons (a : string) (c : ascii) (b : string) :
  truthy (a +:+ String c b) = true.
Proof. destruct a; reflexivity. Qed.

Lemma replace_leading_colon (s : string) :
  replace reLeadingColon "" s = stripColon s.
Proof.
  unfold replace, exec, firstMatch, reLeadingColon, stripColon. cbn.
  destruct s as [|c t]; [reflexivity|].
  cbn. destruct (Ascii.eqb c ":"); reflexivity.
Qed.

Lemma lower_word (w : string) :
  In w ["get"; "create"; "update"; "delete"] -> allChars isLower w /\ w <> "".
Proof.
  intros [<- | [<- | [<- | [<- | []]]]]; cbn; repeat split; discriminate.
Qed.

(** ** The entity of a link *)

(** Every match of the entity pattern against [/ent/...] captures [ent]
    as its first group. *)
Lemma entity_pattern_captures (ent x c rest : string) (g : captures) :
  noSlash ent ->
  In (c, rest, g)
     (run true (body reEntityHref) (String "/" (ent +:+ String "/" x)) []) ->
  List.find (fun e : nat * string => Nat.eqb (fst e) 1) g = Some (1%nat, ent).
Proof.
  intros Hent H. unfold reEntityHref in H. cbn [body] in H.
  apply in_run_Seq in H as (c1 & s1 & g1 & c2 & s2 & g2 & H1 & H & [= -> -> ->]).
  apply in_run_slash in H1 as (t & [= <-] & [= -> -> ->]).
  apply in_run_Seq in H as (c3 & s3 & g3 & c4 & s4 & g4 & H3 & H & [= -> -> ->]).
  apply in_run_Group in H3 as (c5 & s5 & g5 & H3 & [= -> -> ->]).
  apply in_run_segment in H3 as (c6 & r6 & Hs & Hne & Hc & [= -> -> ->]).
  apply in_run_Seq in H as (c7 & s7 & g7 & c8 & s8 & g8 & H7 & H & [= -> -> ->]).
  apply in_run_slash in H7 as (t7 & -> & [= -> -> ->]).
  destruct (split_at_slash ent c6 x t7 Hent Hc Hs) as [<- <-].
  apply in_run_Seq in H as (c9 & s9 & g9 & c10 & s10 & g10 & H9 & H10 & [= -> -> ->]).
  apply in_run_Group in H9 as (c11 & s11 & g11 & H9 & [= -> -> ->]).
  apply in_run_Group in H10 as (c12 & s12 & g12 & H10 & [= -> -> ->]).
  apply run_keeps_groups in H9; [|reflexivity]. subst g11.
  apply run_keeps_groups in H10; [|reflexivity]. subst g12.
  reflexivity.
Qed.

(** The entity pattern matches [/ent/op] followed by nothing or by a
    slash. *)
Lemma operation_word_matches (op rest : string) (g : captures) :
  isOneOf ["get"; "create"; "update"; "delete"] op ->
  In (op, rest, g)
     (run true (Alt (Lit "get") (Alt (Lit "create")
                (Alt (Lit "update") (Lit "delete")))) (op +:+ rest) g).
Proof.
  intros (w & Hw & Hop).
  destruct (lower_word w Hw) as [Hlow Hwne].
  destruct Hw as [<- | [<- | [<- | [<- | []]]]].
  - apply in_run_Alt. left. now apply run_Lit_word.
  - apply in_run_Alt. right. apply in_run_Alt. left.
    now apply run_Lit_word.
  - apply in_run_Alt. right. apply in_run_Alt. right.
    apply in_run_Alt. left. now apply run_Lit_word.
  - apply in_run_Alt. right. apply in_run_Alt. right.
    apply in_run_Alt. right. now apply run_Lit_word.
Qed.

Lemma end_or_slash_matches (tail : string) (g : captures) :
  tail = "" \/ (exists t, tail = String "/" t) ->
  exists c rest, In (c, rest, g) (run true (Alt (Chr "/") Eol) tail g).
Proof.
  intros [-> | (t & ->)].
  - exists "", "". apply in_run_Alt. right. apply in_run_Eol. now split.
  - exists "/", t. apply in_run_Alt. left. apply in_run_slash. now exists t.
Qed.

(** The entity pattern matches [/ent/op] followed by nothing or by a
    slash. *)
Lemma entity_pattern_matches (ent op tail : string) :
  ent <> "" -> noSlash ent ->
  isOneOf ["get"; "create"; "update"; "delete"] op ->
  tail = "" \/ (exists t, tail = String "/" t) ->
  run true (body reEntityHref) (String "/" (ent +:+ String "/" (op +:+ tail))) []
  <> [].
Proof.
  intros Hne Hent Hop Htail.
  destruct (end_or_slash_matches tail [(2%nat, op); (1%nat, ent)] Htail)
    as (c3 & rest & H3).
  assert (Hin : In ("/" +:+ ent +:+ "/" +:+ op +:+ c3, rest,
                    [(3%nat, c3); (2%nat, op); (1%nat, ent)])
                   (run true (body reEntityHref)
                      (String "/" (ent +:+ String "/" (op +:+ tail))) [])).
  { unfold reEntityHref. cbn [body].
    apply in_run_Seq.
    exists "/", (ent +:+ String "/" (op +:+ tail)), [],
           (ent +:+ "/" +:+ op +:+ c3), rest,
           [(3%nat, c3); (2%nat, op); (1%nat, ent)].
    split; [apply in_run_slash; eexists; split; reflexivity|].
    split; [|reflexivity].
    apply in_run_Seq.
    exists ent, (String "/" (op +:+ tail)), [(1%nat, ent)],
           ("/" +:+ op +:+ c3), rest,
           [(3%nat, c3); (2%nat, op); (1%nat, ent)].
    split; [apply in_run_Group; exists ent, (String "/" (op +:+ tail)), [];
            split; [|reflexivity];
            apply in_run_segment; exists ent, (String "/" (op +:+ tail));
            repeat split; assumption|].
    split; [|reflexivity].
    apply in_run_Seq.
    exists "/", (op +:+ tail), [(1%nat, ent)], (op +:+ c3), rest,
           [(3%nat, c3); (2%nat, op); (1%nat, ent)].
    split; [apply in_run_slash; eexists; split; reflexivity|].
    split; [|reflexivity].
    apply in_run_Seq.
    exists op, tail, [(2%nat, op); (1%nat, ent)], c3, rest,
           [(3%nat, c3); (2%nat, op); (1%nat, ent)].
    split; [apply in_run_Group; exists op, tail, [(1%nat, ent)];
            split; [|reflexivity]; now apply operation_word_matches|].
    split; [|reflexivity].
    apply in_run_Group. exists c3, rest, [(2%nat, op); (1%nat, ent)].
    split; [exact H3 | reflexivity]. }
  intros E. rewrite E in Hin. exact Hin.
Qed.

Lemma exec_entity_href (h ent : string) :
  HrefNamesEntity h ent ->
  exists m, exec reEntityHref h = Some m /\ group 1 m = Some ent.
Proof.
  intros (op & tail & -> & Hne & Hent & Hop & Htail).
  change ("/" +:+ ent +:+ "/" +:+ op +:+ tail)
    with (String "/" (ent +:+ String "/" (op +:+ tail))).
  pose proof (entity_pattern_matches ent op tail Hne Hent Hop Htail) as Hm.
  unfold exec. cbn [anchored icase reEntityHref]. unfold firstMatch.
  fold reEntityHref.
  destruct (run true (body reEntityHref) _ []) as [|[[c rest] g] l] eqn:E;
    [contradiction|].
  eexists. split; [reflexivity|].
  unfold group. cbn [m_groups].
  assert (Hin : In (c, rest, g)
                   (run true (body reEntityHref)
                      (String "/" (ent +:+ String "/" (op +:+ tail))) [])).
  { rewrite E. now left. }
  now rewrite (entity_pattern_captures ent _ c rest g Hent Hin).
Qed.

(** ** The identifier of a link *)

(** A match of the identifier pattern at some position covers
    [/<word>/<seg>] up to the end of the text, with or without a closing
    slash, and captures [seg] as its second group. *)
Lemma id_pattern_captures (s c rest : string) (g : captures) :
  In (c, rest, g) (run true (body reIdHref) s []) ->
  exists w seg sl,
    s = String "/" (w +:+ String "/" (seg +:+ sl))
    /\ seg <> "" /\ noSlash seg /\ (sl = "" \/ sl = "/")
    /\ List.find (fun e : nat * string => Nat.eqb (fst e) 2) g
       = Some (2%nat, seg).
Proof.
  intros H. unfold reIdHref in H. cbn [body] in H.
  apply in_run_Seq in H as (c1 & s1 & g1 & c2 & s2 & g2 & H1 & H & [= -> -> ->]).
  apply in_run_slash in H1 as (t & -> & [= -> -> ->]).
  apply in_run_Seq in H as (c3 & s3 & g3 & c4 & s4 & g4 & H3 & H & [= -> -> ->]).
  apply in_run_Group in H3 as (w & s5 & g5 & H3 & [= -> -> ->]).
  pose proof (run_consumes _ _ _ _ _ _ _ H3) as ->.
  apply run_keeps_groups in H3; [|reflexivity]. subst g5.
  apply in_run_Seq in H as (c7 & s7 & g7 & c8 & s8 & g8 & H7 & H & [= -> -> ->]).
  apply in_run_slash in H7 as (t7 & -> & [= -> -> ->]).
  apply in_run_Seq in H as (c9 & s9 & g9 & c10 & s10 & g10 & H9 & H & [= -> -> ->]).
  apply in_run_Group in H9 as (seg & s11 & g11 & H9 & [= -> -> ->]).
  apply in_run_segment in H9 as (c12 & r12 & -> & Hne & Hseg & [= -> -> ->]).
  apply in_run_Seq in H as (c13 & s13 & g13 & c14 & s14 & g14 & H13 & H14 & E).
  injection E as E1 E2 E3. subst c10 s10 g10.
  apply in_run_Eol in H14 as (Hs13 & E). injection E as E1 E2 E3.
  subst s13 c14 s14 g14.
  apply in_run_Opt in H13 as [H13 | E].
  - apply in_run_slash in H13 as (t13 & Hr & E). injection E as E1 E2 E3.
    subst c13 t13 g13 r12.
    exists w, c12, "/". repeat split; auto.
  - injection E as E1 E2 E3. subst c13 r12 g13.
    exists w, c12, "". repeat split; auto.
Qed.

Lemma short_word_matches (op rest : string) (g : captures) :
  isOneOf ["update"; "get"; "delete"] op ->
  In (op, rest, g)
     (run true (Alt (Lit "update") (Alt (Lit "get") (Lit "delete")))
          (op +:+ rest) g).
Proof.
  intros (w & Hw & Hop).
  assert (Hlow : allChars isLower w /\ w <> "").
  { destruct Hw as [<- | [<- | [<- | []]]]; cbn; repeat split; discriminate. }
  destruct Hlow as [Hlow Hwne].
  destruct Hw as [<- | [<- | [<- | []]]].
  - apply in_run_Alt. left. now apply run_Lit_word.
  - apply in_run_Alt. right. apply in_run_Alt. left.
    now apply run_Lit_word.
  - apply in_run_Alt. right. apply in_run_Alt. right.
    now apply run_Lit_word.
Qed.

Lemma id_pattern_matches (op seg sl : string) :
  seg <> "" -> noSlash seg ->
  isOneOf ["update"; "get"; "delete"] op ->
  sl = "" \/ sl = "/" ->
  run true (body reIdHref) (String "/" (op +:+ String "/" (seg +:+ sl))) []
  <> [].
Proof.
  intros Hne Hseg Hop Hsl.
  assert (Hin : In ("/" +:+ op +:+ "/" +:+ seg +:+ sl +:+ "", "",
                    [(2%nat, seg); (1%nat, op)])
                   (run true (body reIdHref)
                      (String "/" (op +:+ String "/" (seg +:+ sl))) [])).
  { unfold reIdHref. cbn [body].
    apply in_run_Seq.
    exists "/", (op +:+ String "/" (seg +:+ sl)), [],
           (op +:+ "/" +:+ seg +:+ sl +:+ ""), "",
           [(2%nat, seg); (1%nat, op)].
    split; [apply in_run_slash; eexists; split; reflexivity|].
    split; [|reflexivity].
    apply in_run_Seq.
    exists op, (String "/" (seg +:+ sl)), [(1%nat, op)],
           ("/" +:+ seg +:+ sl +:+ ""), "", [(2%nat, seg); (1%nat, op)].
    split; [apply in_run_Group; exists op, (String "/" (seg +:+ sl)), [];
            split; [|reflexivity]; now apply short_word_matches|].
    split; [|reflexivity].
    apply in_run_Seq.
    exists "/", (seg +:+ sl), [(1%nat, op)], (seg +:+ sl +:+ ""), "",
           [(2%nat, seg); (1%nat, op)].
    split; [apply in_run_slash; eexists; split; reflexivity|].
    split; [|reflexivity].
    apply in_run_Seq.
    exists seg, sl, [(2%nat, seg); (1%nat, op)], (sl +:+ ""), "",
           [(2%nat, seg); (1%nat, op)].
    split; [apply in_run_Group; exists seg, sl, [(1%nat, op)];
            split; [|reflexivity];
            apply in_run_segment; exists seg, sl; repeat split; assumption|].
    split; [|reflexivity].
    apply in_run_Seq.
    exists sl, "", [(2%nat, seg); (1%nat, op)], "", "",
           [(2%nat, seg); (1%nat, op)].
    split; [|split; [apply in_run_Eol; now split | reflexivity]].
    apply in_run_Opt. destruct Hsl as [-> | ->].
    - now right.
    - left. apply in_run_slash. now exists "". }
  intros E. rewrite E in Hin. exact Hin.
Qed.

Lemma exec_id_href (h seg : string) :
  HrefEndsWithId h seg ->
  exists m, exec reIdHref h = Some m /\ group 2 m = Some seg.
Proof.
  intros (pre & op & sl & -> & Hne & Hseg & Hop & Hsl).
  change (pre +:+ "/" +:+ op +:+ "/" +:+ seg +:+ sl)
    with (pre +:+ String "/" (op +:+ String "/" (seg +:+ sl))).
  pose proof (id_pattern_matches op seg sl Hne Hseg Hop Hsl) as Hm.
  unfold exec. cbn [anchored icase reIdHref]. fold reIdHref.
  destruct (searchFrom true (body reIdHref) ""
              (pre +:+ String "/" (op +:+ String "/" (seg +:+ sl))))
    as [m|] eqn:E.
  - exists m. split; [reflexivity|].
    apply searchFrom_sound in E
      as (pre' & s' & c & rest & g & l & Hs & Hr & ->).
    assert (Hin : In (c, rest, g) (run true (body reIdHref) s' [])).
    { rewrite Hr. now left. }
    apply id_pattern_captures in Hin
      as (w & seg' & sl' & -> & Hne' & Hseg' & Hsl' & Hg).
    unfold group. cbn [m_groups]. rewrite Hg. cbn.
    f_equal. symmetry.
    apply (trailing_segment_unique (pre +:+ String "/" op)
             (pre' +:+ String "/" w) seg seg' sl sl'); try assumption.
    rewrite !app_assoc, !app_cons. rewrite app_nil_l in Hs. exact Hs.
  - exfalso. revert E. now apply searchFrom_complete.
Qed.

(** ** Resolution *)

Lemma closestDataId_none (el : Trigger) :
  data_id el = None ->
  Forall (fun a => anc_data_id a = None) (ancestors el) ->
  closestDataId el = None.
Proof.
  intros Hid Hanc. unfold closestDataId. rewrite Hid.
  induction (ancestors el) as [|a l IH]; [reflexivity|].
  inversion_clear Hanc as [|? ? Ha Hl]. cbn [List.find].
  rewrite Ha. cbn. now apply IH.
Qed.

Lemma getEntity_of_href (el : Trigger) (h ent : string) :
  NoDataAttributes el -> test reCreateBtn (el_id el) = false ->
  href el = Some h -> HrefNamesEntity h ent ->
  getEntityFromElement (Some el) = ent.
Proof.
  intros (Ho & He & Hd & Hen & _) Hbtn Hhref Hh.
  destruct (exec_entity_href h ent Hh) as (m & Hm & Hg).
  unfold getEntityFromElement.
  rewrite Ho, He, Hd, Hen, Hbtn, Hhref. cbn [orElse orEmpty truthy].
  assert (Ht : truthy h = true).
  { destruct Hh as (op & tail & -> & _). reflexivity. }
  now rewrite Ht, Hm, Hg.
Qed.

Lemma getId_of_href (el : Trigger) (h seg : string) :
  NoDataAttributes el ->
  Forall (fun a => anc_data_id a = None) (ancestors el) ->
  href el = Some h -> HrefEndsWithId h seg ->
  getIdFromElement (Some el) = stripColon seg.
Proof.
  intros (_ & _ & _ & _ & Hid) Hanc Hhref Hh.
  destruct (exec_id_href h seg Hh) as (m & Hm & Hg).
  unfold getIdFromElement.
  rewrite (closestDataId_none el Hid Hanc), Hid, Hhref.
  cbn [orElse orEmpty truthy negb].
  assert (Ht : truthy h = true).
  { destruct Hh as (pre & op & sl & -> & _). apply truthy_app_cons. }
  rewrite Ht, Hm, Hg. cbn [orEmpty]. apply replace_leading_colon.
Qed.

(** C7, as the code has it.  For an element without entity or id data
    attributes whose own id is not of the form create-<x>-btn and whose
    href is [/<entity>/(get|create|update|delete)] followed by nothing or
    by a slash, the router resolves the entity as the first path segment;
    for an element without data attributes, none of whose ancestors
    carries [data-id], and whose href ends with
    [/(update|get|delete)/<seg>] with or without a closing slash, it
    resolves the identifier as [seg] without one leading colon.  The link
    "/client/update/42/" resolves to the entity "client" and the id "42",
    and "/client/update/:42/" to the id "42". *)
Theorem router_resolves_href :
  (forall (el : Trigger) (h ent : string),
      NoDataAttributes el -> test reCreateBtn (el_id el) = false ->
      href el = Some h -> HrefNamesEntity h ent ->
      getEntityFromElement (Some el) = ent)
  /\ (forall (el : Trigger) (h seg : string),
        NoDataAttributes el ->
        Forall (fun a => anc_data_id a = None) (ancestors el) ->
        href el = Some h -> HrefEndsWithId h seg ->
        getIdFromElement (Some el) = stripColon seg)
  /\ getEntityFromElement (Some (linkTo "" "/client/update/42/" [])) = "client"
  /\ getIdFromElement (Some (linkTo "" "/client/update/42/" [])) = "42"
  /\ getIdFromElement (Some (linkTo "" "/client/update/:42/" [])) = "42".
Proof.
  split; [exact getEntity_of_href|].
  split; [exact getId_of_href|].
  repeat split; vm_compute; reflexivity.
Qed.

(** C7, as stated, fails: a link whose own id is create-UserProfile-btn
    and whose href is "/userprofile/get/" carries no data attribute, yet
    its entity is resolved from the id, as "UserProfile", and not as the
    first path segment. *)
Lemma create_button_id_overrides_href :
  ~ (forall (el : Trigger) (h ent : string),
        NoDataAttributes el -> href el = Some h -> HrefNamesEntity h ent ->
        getEntityFromElement (Some el) = ent).
Proof.
  intros H.
  specialize (H (linkTo "create-UserProfile-btn" "/userprofile/get/" [])
                "/userprofile/get/" "userprofile").
  assert (Hr : getEntityFromElement
                 (Some (linkTo "create-UserProfile-btn" "/userprofile/get/" []))
               = "UserProfile") by (vm_compute; reflexivity).
  rewrite Hr in H. discriminate H.
  - repeat split.
  - reflexivity.
  - exists "get", "/". split; [reflexivity|].
    split; [discriminate|]. split; [cbn; repeat split|].
    split; [exists "get"; split; [now left | cbn; repeat split]|].
    right. now exists "".
Qed.

End RouterFacts.

(* ====================================================================== *)
(** * Properties of the input masks *)
(* ====================================================================== *)

Module MaskFacts.
Import JS Dom Validation Masks Spec Spec2 RuntimeFacts ValidationFacts RegexFacts.

Lemma keepDigits_digits (s : string) : allChars isDigit (keepDigits s).
Proof.
  induction s as [|c s IH]; [exact I|].
  cbn [keepDigits]. destruct (isDigit c) eqn:E; [now split | exact IH].
Qed.

Lemma keepDigits_fixed (s : string) :
  allChars isDigit s -> keepDigits s = s.
Proof.
  induction s as [|c s IH]; [reflexivity|].
  intros [Hc Hs]. cbn [keepDigits]. now rewrite Hc, IH.
Qed.

Lemma prefix_allChars (p : ascii -> bool) (n : nat) : forall s : string,
  allChars p s -> allChars p (String.substring 0 n s).
Proof.
  induction n as [|n IH]; intros [|c s] H; try exact I.
  destruct H as [Hc Hs]. cbn [String.substring]. split; [exact Hc|].
  now apply IH.
Qed.

Lemma prefix_length (n : nat) : forall s : string,
  (String.length (String.substring 0 n s) <= n)%nat.
Proof.
  induction n as [|n IH]; intros [|c s]; cbn; try lia.
  specialize (IH s). lia.
Qed.

Lemma prefix_length_full (n : nat) : forall s : string,
  (n <= String.length s)%nat -> String.length (String.substring 0 n s) = n.
Proof.
  induction n as [|n IH]; intros [|c s] H; cbn in *; try lia.
  rewrite IH; lia.
Qed.

Lemma prefix_all (n : nat) : forall s : string,
  (String.length s <= n)%nat -> String.substring 0 n s = s.
Proof.
  induction n as [|n IH]; intros [|c s] H; cbn in *; try reflexivity; try lia.
  rewrite IH; [reflexivity | lia].
Qed.

(** The digits a mask works on: the first [n] digits of the value. *)
Lemma firstDigits_spec (n : nat) (value : string) :
  allChars isDigit (slice 0 n (keepDigits value))
  /\ (String.length (slice 0 n (keepDigits value)) <= n)%nat.
Proof.
  unfold slice. rewrite Nat.sub_0_r. split.
  - apply prefix_allChars, keepDigits_digits.
  - apply prefix_length.
Qed.

Lemma firstDigits_fixed (n : nat) (ds : string) :
  allChars isDigit ds -> (String.length ds <= n)%nat ->
  slice 0 n (keepDigits ds) = ds.
Proof.
  intros Hd Hl. rewrite (keepDigits_fixed ds Hd).
  unfold slice. rewrite Nat.sub_0_r. now apply prefix_all.
Qed.

(** ** The phone mask *)

(** X1.  The phone listeners of [addMasks] and of [initPhoneInputs]
    write back decimal digits only, at most ten of them, and leave the
    text they wrote unchanged when they run on it again. *)
Theorem maskPhone_digits (value : string) :
  allChars isDigit (maskPhone value)
  /\ (String.length (maskPhone value) <= 10)%nat
  /\ maskPhone (maskPhone value) = maskPhone value.
Proof.
  destruct (firstDigits_spec 10 value) as [Hd Hl].
  split; [exact Hd|]. split; [exact Hl|].
  unfold maskPhone at 1. now apply firstDigits_fixed.
Qed.

(** ** The date mask *)

Lemma slash_not_digit : isDigit "/" = false.
Proof. reflexivity. Qed.

Lemma space_not_digit : isDigit " " = false.
Proof. reflexivity. Qed.

Lemma space_is_space : isSpace " " = true.
Proof. reflexivity. Qed.

Lemma digit_not_terminator (c : ascii) :
  isDigit c = true -> isLineTerminator c = false.
Proof.
  destruct c as [[] [] [] [] [] [] [] []]; vm_compute; congruence.
Qed.

(** Evaluation of a mask on a text whose characters are known to be
    digits. *)
Ltac run_mask :=
  repeat (cbv [maskDate maskAadhaar formatAadhar maskPhone slice sliceFrom
               keepDigits spaceEveryFour trim trimStart trimEnd
               String.substring String.length String.append
               Nat.leb Nat.sub andb negb];
          rewrite ?slash_not_digit, ?space_not_digit, ?space_is_space;
          repeat match goal with
                 | H : isDigit ?c = true |- context [isDigit ?c] => rewrite H
                 | H : isDigit ?c = true |- context [isSpace ?c] =>
                     rewrite (digit_not_space c H)
                 | H : isDigit ?c = true |- context [isLineTerminator ?c] =>
                     rewrite (digit_not_terminator c H)
                 end).

Lemma maskDate_from_digits (value : string) :
  maskDate value = maskDate (slice 0 8 (keepDigits value)).
Proof.
  destruct (firstDigits_spec 8 value) as [Hd Hl].
  unfold maskDate at 2. now rewrite (firstDigits_fixed 8 _ Hd Hl).
Qed.

Lemma maskDate_twice_digits (ds : string) :
  allChars isDigit ds -> (String.length ds <= 8)%nat ->
  maskDate (maskDate ds) = maskDate ds.
Proof.
  intros Hd Hl.
  do 9 (destruct ds as [|? ds];
        [run_mask; reflexivity
        |destruct Hd as [? Hd]; cbn [String.length] in Hl]).
  exfalso. lia.
Qed.

(** X2.  The date mask is idempotent, and it leaves a text of the shape
    dd/mm/yyyy as it is. *)
Theorem maskDate_idempotent :
  (forall value : string, maskDate (maskDate value) = maskDate value)
  /\ (forall d : string, HasDateShape d -> maskDate d = d).
Proof.
  split.
  - intros value. rewrite (maskDate_from_digits value).
    destruct (firstDigits_spec 8 value) as [Hd Hl].
    now apply maskDate_twice_digits.
  - intros d (d1 & d2 & m1 & m2 & y1 & y2 & y3 & y4 & -> & Hd).
    unfold allDigits in Hd.
    repeat match goal with
           | H : Forall _ (_ :: _) |- _ => inversion_clear H
           end.
    unfold dateText. run_mask. reflexivity.
Qed.

Lemma maskDate_short (ds : string) :
  allChars isDigit ds -> (String.length ds < 8)%nat ->
  Nat.eqb (String.length (maskDate ds)) 10 = false.
Proof.
  intros Hd Hl.
  do 8 (destruct ds as [|? ds];
        [run_mask; reflexivity
        |destruct Hd as [? Hd]; cbn [String.length] in Hl]).
  exfalso. lia.
Qed.

Lemma maskDate_full (ds : string) :
  allChars isDigit ds -> String.length ds = 8%nat ->
  HasDateShape (maskDate ds).
Proof.
  intros Hd Hl.
  do 8 (destruct ds as [|? ds]; [discriminate Hl|destruct Hd as [? Hd]]).
  destruct ds; [|discriminate Hl].
  run_mask. unfold HasDateShape, dateText, allDigits.
  do 8 eexists. split; [reflexivity|]. repeat constructor; assumption.
Qed.

(** X3.  As soon as the value typed holds eight digits, the date mask
    writes back a text of the shape dd/mm/yyyy. *)
Theorem maskDate_complete (value : string) :
  (8 <= String.length (keepDigits value))%nat ->
  HasDateShape (maskDate value).
Proof.
  intros H8. rewrite (maskDate_from_digits value).
  destruct (firstDigits_spec 8 value) as [Hd _].
  apply maskDate_full; [exact Hd|].
  unfold slice. rewrite Nat.sub_0_r. now apply prefix_length_full.
Qed.

Lemma maskDate_complete_witness : HasDateShape (maskDate "2902-2024 x").
Proof. apply (maskDate_complete "2902-2024 x"). vm_compute. lia. Defined.

Lemma maskValidity_flags (value : string) :
  maskValidity (maskDate value) <> "" <->
  (8 <= String.length (keepDigits value))%nat /\ ~ CalendarValid (maskDate value).
Proof.
  rewrite (maskDate_from_digits value).
  destruct (firstDigits_spec 8 value) as [Hd Hl].
  unfold maskValidity.
  destruct (Nat.lt_ge_cases (String.length (keepDigits value)) 8) as [Hlt | Hge].
  - assert (Hs : slice 0 8 (keepDigits value) = keepDigits value).
    { unfold slice. rewrite Nat.sub_0_r. apply prefix_all. lia. }
    rewrite (maskDate_short _ Hd) by (rewrite Hs; exact Hlt).
    cbn [andb]. split; [intros H; now destruct H | intros [H _]; lia].
  - assert (Hfull : String.length (slice 0 8 (keepDigits value)) = 8%nat).
    { unfold slice. rewrite Nat.sub_0_r. now apply prefix_length_full. }
    pose proof (maskDate_full _ Hd Hfull) as Hshape.
    assert (Hten : Nat.eqb (String.length
                              (maskDate (slice 0 8 (keepDigits value)))) 10
                   = true).
    { destruct Hshape as (d1 & d2 & m1 & m2 & y1 & y2 & y3 & y4 & -> & _).
      reflexivity. }
    rewrite Hten. cbn [andb].
    destruct (isValidDateDDMMYYYY (maskDate (slice 0 8 (keepDigits value))))
      eqn:Ev; cbn [negb].
    + apply isValidDate_iff in Ev.
      split; [intros H; now destruct H | intros [_ H]; contradiction].
    + split; [|discriminate]. intros _. split; [exact Hge|].
      intros Hc. apply isValidDate_iff in Hc. congruence.
Qed.

Lemma blurValidity_flags (value : string) :
  blurValidity value <> "" <->
  trim value <> "" /\ ~ CalendarValid (trim value).
Proof.
  unfold blurValidity.
  destruct (trim value) as [|c t] eqn:Et; cbn [truthy andb].
  - split; [intros H; now destruct H | intros [H _]; now destruct H].
  - destruct (isValidDateDDMMYYYY (String c t)) eqn:Ev; cbn [negb].
    + apply isValidDate_iff in Ev.
      split; [intros H; now destruct H | intros [_ H]; contradiction].
    + split; [|discriminate]. intros _. split; [discriminate|].
      intros Hc. apply isValidDate_iff in Hc. congruence.
Qed.

(** X4.  An [input] event on a date input writes the masked text back,
    with or without the listener of [formatDateFields].  The listener of
    the mask alone leaves a custom validity message exactly when eight
    digits have been typed and they do not make a calendar-valid date, so
    a date that is still being typed is never flagged; on an input that
    [formatDateFields] has gone through, the listener added after the mask
    clears the message at every [input] event.  The [blur] listener leaves
    a message exactly when the trimmed text is not empty and not a
    calendar-valid date, and does not change the text. *)
Theorem date_input_flagging (i : DateInput) :
  (forall formatted,
      di_value (inputEvent formatted i) = maskDate (di_value i))
  /\ (di_validity (inputEvent false i) <> "" <->
      (8 <= String.length (keepDigits (di_value i)))%nat
      /\ ~ CalendarValid (maskDate (di_value i)))
  /\ di_validity (inputEvent true i) = ""
  /\ di_value (onMaskBlur i) = di_value i
  /\ (di_validity (onMaskBlur i) <> "" <->
      trim (di_value i) <> "" /\ ~ CalendarValid (trim (di_value i))).
Proof.
  split; [now intros []|].
  split; [exact (maskValidity_flags (di_value i))|].
  split; [reflexivity|].
  split; [reflexivity|].
  exact (blurValidity_flags (di_value i)).
Qed.

(** ** The Aadhaar mask *)

Lemma maskAadhaar_from_digits (value : string) :
  maskAadhaar value = maskAadhaar (slice 0 12 (keepDigits value)).
Proof.
  destruct (firstDigits_spec 12 value) as [Hd Hl].
  unfold maskAadhaar at 2. now rewrite (firstDigits_fixed 12 _ Hd Hl).
Qed.

(** The scan of [spaceEveryFour] only adds spaces. *)
Lemma keepDigits_cons (c : ascii) (s : string) :
  keepDigits (String c s)
  = if isDigit c then String c (keepDigits s) else keepDigits s.
Proof. reflexivity. Qed.

Lemma spaceEveryFour_long (p : ascii -> bool) (a b c d e : ascii) (t : string) :
  spaceEveryFour p (String a (String b (String c (String d (String e t)))))
  = if p a && p b && p c && p d && p e
    then String a (String b (String c (String d
           (String " " (spaceEveryFour p (String e t))))))
    else String a (spaceEveryFour p (String b (String c (String d (String e t))))).
Proof. reflexivity. Qed.

Lemma keepDigits_spaced (p : ascii -> bool) (n : nat) : forall s : string,
  (String.length s <= n)%nat ->
  keepDigits (spaceEveryFour p s) = keepDigits s.
Proof.
  induction n as [|n IH]; intros s Hl.
  - destruct s; [reflexivity | cbn in Hl; lia].
  - destruct s as [|a [|b [|c [|d [|e t]]]]]; try reflexivity.
    cbn [String.length] in Hl.
    rewrite spaceEveryFour_long.
    destruct (p a && p b && p c && p d && p e).
    + rewrite !keepDigits_cons, space_not_digit.
      rewrite (IH (String e t)) by (cbn [String.length]; lia).
      rewrite !keepDigits_cons. reflexivity.
    + rewrite (keepDigits_cons a (spaceEveryFour p _)).
      rewrite IH by (cbn [String.length]; lia).
      rewrite <- keepDigits_cons. reflexivity.
Qed.

(** Two classes that agree on the characters of a text space it alike. *)
Lemma spaceEveryFour_ext (p q : ascii -> bool) (n : nat) : forall s : string,
  (String.length s <= n)%nat ->
  allChars (fun c => Bool.eqb (p c) (q c)) s ->
  spaceEveryFour p s = spaceEveryFour q s.
Proof.
  induction n as [|n IH]; intros s Hl Hs.
  - destruct s; [reflexivity | cbn in Hl; lia].
  - destruct s as [|a [|b [|c [|d [|e t]]]]]; try reflexivity.
    cbn [String.length] in Hl.
    destruct Hs as (Ha & Hb & Hc & Hd & He & Ht).
    apply Bool.eqb_prop in Ha, Hb, Hc, Hd, He.
    rewrite !spaceEveryFour_long. rewrite Ha, Hb, Hc, Hd, He.
    destruct (q a && q b && q c && q d && q e).
    + rewrite (IH (String e t)); [reflexivity | cbn [String.length]; lia|].
      split; [now rewrite He; destruct (q e) | exact Ht].
    + rewrite (IH (String b (String c (String d (String e t)))));
        [reflexivity | cbn [String.length]; lia|].
      repeat split; try exact Ht;
        match goal with |- Bool.eqb (p ?x) (q ?x) = true =>
          first [rewrite Ha | rewrite Hb | rewrite Hc | rewrite Hd | rewrite He];
          now destruct (q x) end.
Qed.

Lemma spaceEveryFour_head (p : ascii -> bool) (a : ascii) (s : string) :
  exists t, spaceEveryFour p (String a s) = String a t.
Proof.
  destruct s as [|b [|c [|d [|e t]]]]; try (cbn [spaceEveryFour]; eauto; fail).
  rewrite spaceEveryFour_long.
  destruct (p a && p b && p c && p d && p e); eauto.
Qed.

(** A text of digits, once spaced, does not end with a space. *)
Lemma spaced_lastNotSpace (n : nat) : forall ds : string,
  (String.length ds <= n)%nat -> allChars isDigit ds ->
  lastNotSpace (spaceEveryFour isDigit ds) = true.
Proof.
  induction n as [|n IH]; intros ds Hl Hd.
  - destruct ds; [reflexivity | cbn in Hl; lia].
  - destruct ds as [|a [|b [|c [|d [|e t]]]]]; cbn [String.length] in Hl;
      try reflexivity;
      try (cbn in Hd; cbn [spaceEveryFour lastNotSpace];
           repeat match goal with
                  | H : _ /\ _ |- _ => destruct H
                  end;
           repeat match goal with
                  | H : isDigit ?c = true |- context [isSpace ?c] =>
                      rewrite (digit_not_space c H)
                  end; reflexivity).
    destruct Hd as (Ha & Hb & Hc & Hd & He & Ht).
    rewrite spaceEveryFour_long. rewrite Ha, Hb, Hc, Hd, He. cbn [andb].
    destruct (spaceEveryFour_head isDigit e t) as [t' Ht'].
    pose proof (IH (String e t) ltac:(cbn [String.length]; lia)
                   (conj He Ht)) as Hrec.
    rewrite Ht' in *. exact Hrec.
Qed.

Lemma trimEnd_fixed (s : string) : lastNotSpace s = true -> trimEnd s = s.
Proof.
  induction s as [|c t IH]; [reflexivity|].
  destruct t as [|c' t'].
  - cbn. intros H. apply negb_true_iff in H. now rewrite H.
  - intros H. cbn [lastNotSpace] in H. specialize (IH H).
    cbn [trimEnd] in *. now rewrite IH.
Qed.

Lemma trim_spaced (ds : string) :
  allChars isDigit ds ->
  trim (spaceEveryFour isDigit ds) = spaceEveryFour isDigit ds.
Proof.
  intros Hd. unfold trim.
  assert (Hs : trimStart (spaceEveryFour isDigit ds) = spaceEveryFour isDigit ds).
  { destruct ds as [|a s]; [reflexivity|].
    destruct (spaceEveryFour_head isDigit a s) as [t ->].
    destruct Hd as [Ha _]. cbn [trimStart].
    now rewrite (digit_not_space a Ha). }
  rewrite Hs. apply trimEnd_fixed.
  now apply (spaced_lastNotSpace (String.length ds)).
Qed.

Lemma maskAadhaar_twice_digits (ds : string) :
  allChars isDigit ds -> (String.length ds <= 12)%nat ->
  maskAadhaar (maskAadhaar ds) = maskAadhaar ds
  /\ formatAadhar ds = maskAadhaar ds.
Proof.
  intros Hd Hl. unfold maskAadhaar, formatAadhar.
  rewrite (firstDigits_fixed 12 ds Hd Hl). split.
  - rewrite (trim_spaced ds Hd).
    rewrite (keepDigits_spaced isDigit (String.length ds) ds (Nat.le_refl _)).
    now rewrite (firstDigits_fixed 12 ds Hd Hl), (trim_spaced ds Hd).
  - f_equal. apply (spaceEveryFour_ext _ _ (String.length ds)); [lia|].
    clear Hl. induction ds as [|c ds IH]; [exact I|].
    destruct Hd as [Hc Hd]. split; [|now apply IH].
    now rewrite (digit_not_terminator c Hc), Hc.
Qed.

Lemma formatAadhar_from_digits (value : string) :
  formatAadhar value = formatAadhar (slice 0 12 (keepDigits value)).
Proof.
  destruct (firstDigits_spec 12 value) as [Hd Hl].
  unfold formatAadhar at 2. now rewrite (firstDigits_fixed 12 _ Hd Hl).
Qed.

(** X5.  The Aadhaar mask is idempotent, and the listener of
    [formatAadharInput] writes the same value as the one of [addMasks]. *)
Theorem maskAadhaar_idempotent (value : string) :
  maskAadhaar (maskAadhaar value) = maskAadhaar value
  /\ formatAadhar value = maskAadhaar value.
Proof.
  rewrite (maskAadhaar_from_digits value), (formatAadhar_from_digits value).
  destruct (firstDigits_spec 12 value) as [Hd Hl].
  now apply maskAadhaar_twice_digits.
Qed.

(** X6.  As soon as the value typed holds twelve digits, the Aadhaar mask
    writes back a text the identifier rule of the validator accepts. *)
Theorem maskAadhaar_accepted (value : string) :
  (12 <= String.length (keepDigits value))%nat ->
  test reAadhaar (maskAadhaar value) = true.
Proof.
  intros H12. rewrite (maskAadhaar_from_digits value).
  destruct (firstDigits_spec 12 value) as [Hd _].
  assert (Hl : String.length (slice 0 12 (keepDigits value)) = 12%nat).
  { unfold slice. rewrite Nat.sub_0_r. now apply prefix_length_full. }
  set (ds := slice 0 12 (keepDigits value)) in *. clearbody ds.
  do 12 (destruct ds as [|? ds]; [discriminate Hl|destruct Hd as [? Hd]]).
  destruct ds; [|discriminate Hl].
  apply test_reAadhaar_shape.
  run_mask. unfold HasIdentifierShape, allDigits.
  do 14 eexists. split; [reflexivity|].
  split; [repeat constructor; assumption|]. split; reflexivity.
Qed.

Lemma maskAadhaar_accepted_witness :
  test reAadhaar (maskAadhaar "1234-5678-9012-77") = true.
Proof. apply (maskAadhaar_accepted "1234-5678-9012-77"). vm_compute. lia. Defined.

End MaskFacts.

(* ====================================================================== *)
(** * What the validator and the save gate leave behind *)
(* ====================================================================== *)

Module ValidatorFacts.
Import JS Dom Validation Spec Spec2 RuntimeFacts ValidationFacts.

(** The controls after the loop started at index [i]: the one reported,
    if any, carries the class added by [mark]; the others are the same. *)
Lemma validateFrom_marks (els : list Element) : forall i : nat,
  match firstEl (snd (validateFrom i els)) with
  | Some j => (i <= j)%nat /\ fst (validateFrom i els) = alter mark (j - i)%nat els
  | None => fst (validateFrom i els) = els
  end.
Proof.
  induction els as [|el rest IH]; intros i; [reflexivity|].
  rewrite validateFrom_cons.
  destruct (skipped el || negb (existsb (fun r => violates r el) ruleOrder)).
  - cbn [fst snd]. specialize (IH (S i)).
    destruct (firstEl (snd (validateFrom (S i) rest))) as [j|].
    + destruct IH as [Hj ->]. split; [lia|].
      replace (j - i)%nat with (S (j - S i)) by lia. reflexivity.
    + now rewrite IH.
  - destruct (List.find _ ruleOrder); cbn [fst snd firstEl fail].
    + split; [lia|]. now rewrite Nat.sub_diag.
    + reflexivity.
Qed.

Lemma validateForm_fields (form : Form) :
  fields (fst (validateForm form))
  = match firstEl (snd (validateForm form)) with
    | Some i => alter mark i (fields form)
    | None => fields form
    end.
Proof.
  unfold validateForm.
  pose proof (validateFrom_marks (fields form) 0) as H.
  destruct (validateFrom 0 (fields form)) as [els r]. cbn [fst snd] in *.
  destruct (firstEl r) as [j|]; [|exact H].
  destruct H as [_ ->]. now rewrite Nat.sub_0_r.
Qed.

Lemma validateForm_valid_fixed (form : Form) :
  valid (snd (validateForm form)) = true -> fst (validateForm form) = form.
Proof.
  intros Hv.
  pose proof (validateForm_fields form) as Hf.
  rewrite validateForm_snd in Hv, Hf.
  destruct (validateFrom_outcome (fields form) 0)
    as [[Hr _] | (k & e & rule & _ & Hr & _)].
  - rewrite Hr in Hf. cbn [firstEl] in Hf.
    unfold validateForm in *.
    destruct (validateFrom 0 (fields form)) as [els r]. cbn [fst fields set_fields] in *.
    subst els. now destruct form.
  - rewrite Hr in Hv. discriminate.
Qed.

(** X7.  [validateForm] changes nothing of the form but the class list of
    the field it reports, to which it adds "invalid": the action and the
    entity of the form, the number of fields and every other field are as
    before, and a form found valid comes back unchanged. *)
Theorem validateForm_marks_reported_field (form : Form) :
  action (fst (validateForm form)) = action form
  /\ form_entity (fst (validateForm form)) = form_entity form
  /\ fields (fst (validateForm form))
     = match firstEl (snd (validateForm form)) with
       | Some i => alter mark i (fields form)
       | None => fields form
       end
  /\ (forall i el, fields (fst (validateForm form)) !! i = Some el ->
        exists el0, fields form !! i = Some el0
                    /\ (el = el0 \/ (firstEl (snd (validateForm form)) = Some i
                                     /\ el = mark el0))
                    /\ value el = value el0)
  /\ (valid (snd (validateForm form)) = true -> fst (validateForm form) = form).
Proof.
  split; [|split; [|split; [|split]]].
  - unfold validateForm. now destruct (validateFrom 0 (fields form)).
  - unfold validateForm. now destruct (validateFrom 0 (fields form)).
  - apply validateForm_fields.
  - intros i el. rewrite validateForm_fields.
    destruct (firstEl (snd (validateForm form))) as [j|].
    + destruct (Nat.eq_dec j i) as [->|Hne].
      * rewrite list_lookup_alter_eq. intros H.
        destruct (fields form !! i) as [el0|]; [|discriminate].
        injection H as <-. exists el0. split; [reflexivity|].
        split; [right; now split | reflexivity].
      * rewrite list_lookup_alter_ne by exact Hne. intros H.
        exists el. split; [exact H|]. split; [now left | reflexivity].
    + intros H. exists el. split; [exact H|]. split; [now left | reflexivity].
  - apply validateForm_valid_fixed.
Qed.

(** A blank value breaks no rule of a control that is not required. *)
Lemma blank_optional_passes (el : Element) :
  isRequired el = false -> trim (value el) = "" -> failing el = false.
Proof.
  intros Hr Hv. unfold failing, ruleOrder, violates. cbn [existsb].
  rewrite Hr, Hv. cbn [truthy andb orb negb].
  rewrite !andb_false_r. cbn. now destruct (negb (skipped el)).
Qed.

(** X8.  The validator never rejects a blank value of a field that is not
    required: a form whose examined fields are either blank and not
    required or break no rule is found valid, whatever their types. *)
Theorem validateForm_ignores_blank_optional (form : Form) :
  (forall el, el ∈ fields form ->
              skipped el = true
              \/ (isRequired el = false /\ trim (value el) = "")
              \/ failing el = false) ->
  validateForm form = (form, mkResult true None "").
Proof.
  intros H.
  assert (Hr : snd (validateForm form) = mkResult true None "").
  { rewrite validateForm_snd.
    destruct (validateFrom_outcome (fields form) 0)
      as [[Hr _] | (k & e & rule & Hk & _ & Hs & Hv & _)]; [exact Hr|].
    exfalso.
    assert (Hf : failing e = true).
    { unfold failing. rewrite Hs. cbn [negb andb].
      apply existsb_exists. exists rule. split; [|exact Hv].
      destruct rule; cbn; tauto. }
    destruct (H e) as [Hsk | [[Hq Hb] | Hok]].
    - eapply list_elem_of_lookup_2, Hk.
    - congruence.
    - rewrite (blank_optional_passes e Hq Hb) in Hf. discriminate.
    - congruence. }
  rewrite (surjective_pairing (validateForm form)), Hr.
  f_equal. apply validateForm_valid_fixed. now rewrite Hr.
Qed.

Lemma validateForm_ignores_blank_optional_witness :
  validateForm (formOf [textInput "email" "  "; disabledRequired])
  = (formOf [textInput "email" "  "; disabledRequired], mkResult true None "").
Proof.
  apply (validateForm_ignores_blank_optional
           (formOf [textInput "email" "  "; disabledRequired])).
  intros el Hel. apply list_elem_of_In in Hel.
  destruct Hel as [<- | [<- | []]].
  - right. left. split; reflexivity.
  - left. reflexivity.
Defined.

Lemma contains_classAdd_same (c : string) (cs : list string) :
  contains c (classAdd c cs) = true.
Proof.
  unfold classAdd. destruct (contains c cs) eqn:E; [exact E|].
  unfold contains. rewrite existsb_app. cbn. rewrite String.eqb_refl.
  apply orb_true_r.
Qed.

Lemma contains_classAdd_other (c x : string) (cs : list string) :
  x <> c -> contains x (classAdd c cs) = contains x cs.
Proof.
  intros Hne. unfold classAdd. destruct (contains c cs); [reflexivity|].
  unfold contains. rewrite existsb_app. cbn.
  destruct (String.eqb_spec x c); [contradiction|]. now rewrite !orb_false_r.
Qed.

Lemma contains_classRemove_same (c : string) (cs : list string) :
  contains c (classRemove c cs) = false.
Proof.
  unfold contains, classRemove.
  induction cs as [|y cs IH]; [reflexivity|].
  cbn [List.filter]. destruct (String.eqb_spec c y); cbn [negb]; [exact IH|].
  cbn [existsb]. rewrite IH.
  destruct (String.eqb_spec c y); [contradiction | reflexivity].
Qed.

Lemma classToggle_coherent (c : string) (force : bool) (cs : list string) :
  contains c (classToggle c force cs) = force
  /\ forall x, x <> c -> contains x (classToggle c force cs) = contains x cs.
Proof.
  destruct force; cbn [classToggle]; split.
  - apply contains_classAdd_same.
  - intros x Hx. now apply contains_classAdd_other.
  - apply contains_classRemove_same.
  - intros x Hx. now apply PageFacts.contains_classRemove.
Qed.

(** The validator does not see the class it adds. *)
Lemma mark_invisible (el : Element) :
  skipped (mark el) = skipped el
  /\ forall r, violates r (mark el) = violates r el.
Proof.
  split; [reflexivity|]. intros r. destruct r; try reflexivity.
  unfold violates, isDateCategory, mark, set_classList.
  cbn [classList data_type name value].
  now rewrite contains_classAdd_other by discriminate.
Qed.

Lemma validateFrom_rel (l l' : list Element) :
  Forall2 (fun a b => skipped b = skipped a
                      /\ forall r, violates r b = violates r a) l l' ->
  forall i, snd (validateFrom i l') = snd (validateFrom i l).
Proof.
  induction 1 as [|a b l l' [Hs Hv] _ IH]; intros i; [reflexivity|].
  rewrite !validateFrom_cons.
  unfold ruleOrder. cbn [existsb List.find].
  rewrite Hs, !Hv.
  destruct (skipped a
            || negb (violates RequiredEmpty a
                     || (violates EmailShape a
                         || (violates DateValid a
                             || (violates IdentifierFormat a || false))))).
  - cbn [snd]. apply IH.
  - destruct (violates RequiredEmpty a); [reflexivity|].
    destruct (violates EmailShape a); [reflexivity|].
    destruct (violates DateValid a); [reflexivity|].
    destruct (violates IdentifierFormat a); reflexivity.
Qed.

Lemma marked_rel (i : nat) (l : list Element) :
  Forall2 (fun a b => skipped b = skipped a
                      /\ forall r, violates r b = violates r a)
          l (alter mark i l).
Proof.
  revert i. induction l as [|a l IH]; intros i; [constructor|].
  destruct i as [|i]; cbn.
  - constructor; [apply mark_invisible|].
    clear. induction l; constructor; [now split | assumption].
  - constructor; [now split | apply IH].
Qed.

Lemma mark_twice (el : Element) : mark (mark el) = mark el.
Proof.
  unfold mark, set_classList. cbn [classList elem_id tagName type name value
    checked disabled offsetParent clientRects closestHidden attr_required
    data_required aria_required data_optional data_type placeholder].
  f_equal. unfold classAdd at 1. now rewrite contains_classAdd_same.
Qed.

Lemma alter_mark_twice (i : nat) (l : list Element) :
  alter mark i (alter mark i l) = alter mark i l.
Proof.
  revert i. induction l as [|a l IH]; intros [|i]; cbn; try reflexivity.
  - now rewrite mark_twice.
  - now rewrite IH.
Qed.

Lemma form_ext (f g : Form) :
  action f = action g -> form_entity f = form_entity g ->
  others f = others g -> fields f = fields g -> f = g.
Proof. destruct f, g. cbn. congruence. Qed.

Lemma validateForm_frame (form : Form) :
  action (fst (validateForm form)) = action form
  /\ form_entity (fst (validateForm form)) = form_entity form.
Proof.
  unfold validateForm. now destruct (validateFrom 0 (fields form)).
Qed.

Lemma validateForm_others (form : Form) :
  others (fst (validateForm form)) = others form.
Proof.
  unfold validateForm. now destruct (validateFrom 0 (fields form)).
Qed.

(** Validating again the form the validator has marked gives the same
    report and the same form. *)
Lemma validateForm_twice (form : Form) :
  validateForm (fst (validateForm form)) = validateForm form.
Proof.
  assert (Hsnd : snd (validateForm (fst (validateForm form)))
                 = snd (validateForm form)).
  { rewrite !validateForm_snd, validateForm_fields.
    destruct (firstEl (snd (validateForm form))); [|reflexivity].
    apply validateFrom_rel, marked_rel. }
  apply injective_projections; [|exact Hsnd].
  destruct (validateForm_frame (fst (validateForm form))) as [Ha He].
  apply form_ext; [exact Ha | exact He | apply validateForm_others |].
  rewrite validateForm_fields, Hsnd.
  destruct (firstEl (snd (validateForm form))) eqn:E; [|reflexivity].
  rewrite validateForm_fields, E. apply alter_mark_twice.
Qed.

Lemma classToggle_twice (c : string) (force : bool) (cs : list string) :
  classToggle c force (classToggle c force cs) = classToggle c force cs.
Proof.
  destruct force; cbn [classToggle].
  - unfold classAdd at 1. now rewrite contains_classAdd_same.
  - unfold classRemove. induction cs as [|x cs IH]; [reflexivity|].
    cbn [List.filter]. destruct (negb (String.eqb c x)) eqn:E; [|exact IH].
    cbn [List.filter]. now rewrite E, IH.
Qed.

(** What [recomputeSaveEnabled] leaves of a form and a button. *)
Lemma recomputeSaveEnabled_eq (form : Form) (saveBtn : Button) :
  recomputeSaveEnabled (Some form) (Some saveBtn)
  = (Some (if areAllVisibleFieldsFilled form && allDatesValid form
           then fst (validateForm form) else form),
     Some (mkButton (negb (gateHolds form))
                    (classToggle "save-disabled" (negb (gateHolds form))
                                 (btn_classList saveBtn))
                    (btn_text saveBtn) (btn_boundAjax saveBtn))).
Proof.
  unfold recomputeSaveEnabled, gateHolds.
  destruct (areAllVisibleFieldsFilled form && allDatesValid form);
    [|reflexivity].
  now destruct (validateForm form).
Qed.

Lemma gated_cases (form : Form) :
  let form' := if areAllVisibleFieldsFilled form && allDatesValid form
               then fst (validateForm form) else form in
  (form' = form
   \/ (valid (snd (validateForm form)) = false
       /\ form' = fst (validateForm form)))
  /\ (gateHolds form = true -> form' = form)
  /\ gateHolds form' = gateHolds form
  /\ (if areAllVisibleFieldsFilled form' && allDatesValid form'
      then fst (validateForm form') else form') = form'.
Proof.
  cbn zeta. unfold gateHolds.
  destruct (areAllVisibleFieldsFilled form && allDatesValid form) eqn:E.
  - destruct (valid (snd (validateForm form))) eqn:Hv.
    + rewrite (validateForm_valid_fixed form Hv).
      split; [now left|]. split; [reflexivity|].
      split; [now rewrite E, Hv|].
      rewrite E. now apply validateForm_valid_fixed.
    + split; [right; now split|]. split; [discriminate|].
      rewrite validateForm_twice, Hv.
      split; [now rewrite !andb_false_r|].
      now destruct (areAllVisibleFieldsFilled (fst (validateForm form))
                    && allDatesValid (fst (validateForm form))).
  - split; [now left|]. split; [discriminate|]. split; [now rewrite E|].
    now rewrite E.
Qed.

(** X9.  [recomputeSaveEnabled] keeps the save button coherent: after it
    the class "save-disabled" is present exactly when the button is
    disabled, the other classes, the text and the binding flag are
    untouched, no value of the form has changed, and a run that enables
    the button leaves the form as it was.  It is idempotent: a second run
    on the form and the button it left changes nothing. *)
Theorem recomputeSaveEnabled_coherent (form : Form) (saveBtn : Button) :
  exists form' b',
    recomputeSaveEnabled (Some form) (Some saveBtn) = (Some form', Some b')
    /\ buttonCoherent b'
    /\ (forall c, c <> "save-disabled" ->
          contains c (btn_classList b') = contains c (btn_classList saveBtn))
    /\ btn_text b' = btn_text saveBtn
    /\ btn_boundAjax b' = btn_boundAjax saveBtn
    /\ map value (fields form') = map value (fields form)
    /\ (btn_disabled b' = false -> form' = form)
    /\ recomputeSaveEnabled (Some form') (Some b') = (Some form', Some b').
Proof.
  destruct (gated_cases form) as (Hform & Hgate & Hsame & Htwice).
  eexists _, _. split; [apply recomputeSaveEnabled_eq|].
  destruct (classToggle_coherent "save-disabled" (negb (gateHolds form))
                                 (btn_classList saveBtn)) as [H1 H2].
  split; [exact H1|]. split; [exact H2|]. do 2 (split; [reflexivity|]).
  split.
  { destruct Hform as [-> | [_ ->]]; [reflexivity|].
    rewrite validateForm_fields.
    destruct (firstEl (snd (validateForm form))) as [j|]; [|reflexivity].
    apply list_eq. intros i. rewrite !list_lookup_fmap.
    destruct (Nat.eq_dec j i) as [->|Hne].
    - rewrite list_lookup_alter_eq. now destruct (fields form !! i).
    - now rewrite list_lookup_alter_ne. }
  split.
  { cbn [btn_disabled]. intros Hd. apply Hgate. now apply negb_false_iff. }
  rewrite recomputeSaveEnabled_eq, Htwice, Hsame.
  cbn [btn_classList btn_text btn_boundAjax].
  now rewrite classToggle_twice.
Qed.

End ValidatorFacts.

(* ====================================================================== *)
(** * The two formats of a date *)
(* ====================================================================== *)

Module DateFacts.
Import JS Dom Validation Page Spec Spec2 RuntimeFacts ValidationFacts.

Ltac digits_of Hd :=
  unfold allDigits in Hd;
  repeat match goal with
         | H : Forall _ (_ :: _) |- _ => inversion_clear H
         end.

Lemma test_reISODate_shape (s : string) :
  test reISODate s = true <-> HasIsoShape s.
Proof.
  split.
  - intros H. unfold test, exec, firstMatch, reISODate in H.
    cbn in H. unfold oneChar in H. open_text H.
    unfold HasIsoShape, isoText, allDigits.
    repeat eexists; repeat constructor; assumption.
  - intros (d1 & d2 & m1 & m2 & y1 & y2 & y3 & y4 & -> & Hd).
    digits_of Hd.
    unfold test, exec, firstMatch, reISODate, isoText. cbn. unfold oneChar.
    PageFacts.use_digits. reflexivity.
Qed.

(** A value the save handler rewrites has the display shape, and what is
    sent for it is the same digits in the transmission shape. *)
Lemma toTransmission_Some (v iso : string) :
  toTransmission v = Some iso ->
  exists d1 d2 m1 m2 y1 y2 y3 y4,
    trim v = dateText d1 d2 m1 m2 y1 y2 y3 y4
    /\ iso = isoText d1 d2 m1 m2 y1 y2 y3 y4
    /\ allDigits [d1; d2; m1; m2; y1; y2; y3; y4].
Proof.
  unfold toTransmission.
  destruct (exec reDDMMYYYYGroups (trim v)) as [m|] eqn:E; [|discriminate].
  assert (Hshape : HasDateShape (trim v)).
  { clear -E. remember (trim v) as s eqn:Hs. clear Hs.
    unfold exec, firstMatch, reDDMMYYYYGroups in E.
    cbn in E. unfold oneChar in E. open_text E.
    unfold HasDateShape, dateText, allDigits.
    repeat eexists; repeat constructor; assumption. }
  destruct Hshape as (d1 & d2 & m1 & m2 & y1 & y2 & y3 & y4 & Hv & Hd).
  intros Hiso. exists d1, d2, m1, m2, y1, y2, y3, y4.
  split; [exact Hv|]. split; [|exact Hd].
  pose proof (PageFacts.toTransmission_dateText d1 d2 m1 m2 y1 y2 y3 y4 Hd) as Ht.
  unfold toTransmission in Ht.
  assert (Htrim : trim (dateText d1 d2 m1 m2 y1 y2 y3 y4)
                  = dateText d1 d2 m1 m2 y1 y2 y3 y4).
  { digits_of Hd. now apply PageFacts.trim_dateText. }
  rewrite Htrim, <- Hv, E in Ht. unfold isoText. congruence.
Qed.

Lemma toTransmission_shape (v : string) :
  HasDateShape (trim v) -> exists iso, toTransmission v = Some iso.
Proof.
  intros (d1 & d2 & m1 & m2 & y1 & y2 & y3 & y4 & Hv & Hd).
  pose proof (PageFacts.toTransmission_dateText d1 d2 m1 m2 y1 y2 y3 y4 Hd) as Ht.
  unfold toTransmission in *.
  assert (Htrim : trim (dateText d1 d2 m1 m2 y1 y2 y3 y4)
                  = dateText d1 d2 m1 m2 y1 y2 y3 y4).
  { digits_of Hd. now apply PageFacts.trim_dateText. }
  rewrite Htrim, <- Hv in Ht. rewrite Ht. eauto.
Qed.

Lemma includes_dash_skip (c : ascii) (t : string) :
  Ascii.eqb c "-" = false -> includes "-" (String c t) = includes "-" t.
Proof.
  intros Hc. cbn [includes String.prefix].
  destruct (ascii_dec "-" c) as [<-|_]; [discriminate | reflexivity].
Qed.

Lemma no_dash_in_dateText (d1 d2 m1 m2 y1 y2 y3 y4 : ascii) :
  allDigits [d1; d2; m1; m2; y1; y2; y3; y4] ->
  includes "-" (dateText d1 d2 m1 m2 y1 y2 y3 y4) = false.
Proof.
  intros Hd. digits_of Hd. unfold dateText.
  rewrite !includes_dash_skip
    by (reflexivity || (apply digit_not_dash; assumption)).
  reflexivity.
Qed.

Lemma toDisplay_twice (v : string) : toDisplay (toDisplay v) = toDisplay v.
Proof.
  destruct (test reISODate v) eqn:E.
  - apply test_reISODate_shape in E.
    destruct E as (d1 & d2 & m1 & m2 & y1 & y2 & y3 & y4 & -> & Hd).
    unfold isoText. rewrite (PageFacts.toDisplay_iso _ _ _ _ _ _ _ _ Hd).
    unfold toDisplay at 1. rewrite (no_dash_in_dateText _ _ _ _ _ _ _ _ Hd).
    now rewrite andb_false_r.
  - unfold toDisplay at 2. rewrite E, andb_false_r.
    unfold toDisplay. now rewrite E, andb_false_r.
Qed.

(** ** What an input keeps of a date text *)

Lemma digit_not_linebreak (c : ascii) :
  isDigit c = true -> isLineTerminator c = false.
Proof.
  destruct c as [[] [] [] [] [] [] [] []]; vm_compute; congruence.
Qed.

Lemma digit_not_whitespace (c : ascii) :
  isDigit c = true -> isAsciiWhitespace c = false.
Proof.
  destruct c as [[] [] [] [] [] [] [] []]; vm_compute; congruence.
Qed.

Lemma split_no_dash (d1 d2 m1 m2 y1 y2 y3 y4 : ascii) :
  allDigits [d1; d2; m1; m2; y1; y2; y3; y4] ->
  split "-" (dateText d1 d2 m1 m2 y1 y2 y3 y4)
  = [dateText d1 d2 m1 m2 y1 y2 y3 y4].
Proof.
  intros Hd. digits_of Hd. unfold dateText. cbn [split].
  rewrite (digit_not_dash d1), (digit_not_dash d2), (digit_not_dash m1),
    (digit_not_dash m2), (digit_not_dash y1), (digit_not_dash y2),
    (digit_not_dash y3), (digit_not_dash y4) by assumption.
  reflexivity.
Qed.

(** The text dd/mm/yyyy is refused by the date, month, week, time,
    datetime-local and number inputs, and kept as it is by the others. *)
Lemma sanitize_dateText (ty : string) (d1 d2 m1 m2 y1 y2 y3 y4 : ascii) :
  allDigits [d1; d2; m1; m2; y1; y2; y3; y4] ->
  sanitize ty (dateText d1 d2 m1 m2 y1 y2 y3 y4)
  = if refusesDateText ty then ""
    else dateText d1 d2 m1 m2 y1 y2 y3 y4.
Proof.
  intros Hd. unfold sanitize, refusesDateText.
  destruct (String.eqb_spec ty "date") as [->|Hne].
  - unfold validDateString. now rewrite (split_no_dash _ _ _ _ _ _ _ _ Hd).
  - assert (Hm : memString ty ["date"; "month"; "week"; "time";
                                "datetime-local"; "number"]
                 = memString ty ["month"; "week"; "time"; "datetime-local";
                                 "number"]).
    { unfold memString. cbn [existsb].
      destruct (String.eqb_spec ty "date"); [contradiction | reflexivity]. }
    rewrite Hm.
    destruct (memString ty ["month"; "week"; "time"; "datetime-local"; "number"]).
    + unfold dateText. now do 2 (cbn [includes String.prefix]; rewrite ?orb_true_r).
    + digits_of Hd.
      assert (Hs : stripNewlines (dateText d1 d2 m1 m2 y1 y2 y3 y4)
                   = dateText d1 d2 m1 m2 y1 y2 y3 y4).
      { unfold dateText.
        repeat (cbn [stripNewlines];
                first [ rewrite digit_not_linebreak by assumption
                      | change (isLineTerminator "/") with false ]).
        reflexivity. }
      rewrite Hs.
      destruct (memString ty ["url"; "email"]).
      * unfold dateText. cbn [stripLeading].
        rewrite (digit_not_whitespace d1) by assumption.
        cbn [stripTrailing].
        now rewrite (digit_not_whitespace y4) by assumption.
      * now destruct (memString ty ["text"; "search"; "tel"; "password"]).
Qed.

(** The value of an input after the assignment of a text dd/mm/yyyy. *)
Lemma value_set_dateText (el : Element) (d1 d2 m1 m2 y1 y2 y3 y4 : ascii) :
  tagName el = INPUT ->
  allDigits [d1; d2; m1; m2; y1; y2; y3; y4] ->
  value (set_value (dateText d1 d2 m1 m2 y1 y2 y3 y4) el)
  = if String.eqb (type el) "file" then value el
    else if refusesDateText (type el) then ""
    else dateText d1 d2 m1 m2 y1 y2 y3 y4.
Proof.
  intros Ht Hd. unfold set_value. rewrite Ht.
  destruct (String.eqb (type el) "file"); [reflexivity|].
  destruct (reflectsValueAttr (type el)) eqn:Er.
  - cbn [with_value value].
    assert (Hr : refusesDateText (type el) = false).
    { unfold reflectsValueAttr, refusesDateText, memString in *.
      cbn [existsb] in *.
      repeat match goal with
             | |- context [String.eqb ?a ?b] =>
                 destruct (String.eqb_spec a b) as [E|_];
                 [rewrite E in Er; discriminate|]
             end.
      reflexivity. }
    now rewrite Hr.
  - cbn [with_value value]. now apply sanitize_dateText.
Qed.

Lemma rewritten_dateText (d1 d2 m1 m2 y1 y2 y3 y4 : ascii) :
  allDigits [d1; d2; m1; m2; y1; y2; y3; y4] ->
  rewritten (dateText d1 d2 m1 m2 y1 y2 y3 y4) = false.
Proof.
  intros Hd. unfold rewritten.
  now rewrite (no_dash_in_dateText _ _ _ _ _ _ _ _ Hd), andb_false_r.
Qed.

Lemma becomeText_twice (el : Element) :
  becomeText (becomeText el) = becomeText el.
Proof. reflexivity. Qed.

Lemma becomeText_matches (el : Element) :
  tagName el = INPUT -> matchesDateSel (becomeText el) = true.
Proof.
  intros Ht. unfold matchesDateSel, becomeText.
  cbn [tagName placeholder classList attrIs]. rewrite Ht. cbn [Tag_eqb andb].
  rewrite String.eqb_refl. now rewrite orb_true_r.
Qed.

Lemma tagName_of_matches (el : Element) :
  matchesDateSel el = true -> tagName el = INPUT.
Proof.
  unfold matchesDateSel. intros H. apply andb_true_iff in H as [H _].
  now destruct (tagName el).
Qed.

(** The value [formatDateFields] leaves in an input it goes through. *)
Lemma value_formatDateField (el : Element) :
  matchesDateSel el = true ->
  value (formatDateField el) = formattedValue el.
Proof.
  intros Hsel. pose proof (tagName_of_matches el Hsel) as Ht.
  unfold formattedValue, formatDateField. rewrite Hsel. fold (rewritten (value el)).
  destruct (rewritten (value el)) eqn:Er.
  - unfold rewritten in Er.
    apply andb_true_iff in Er as [_ Hiso].
    apply test_reISODate_shape in Hiso.
    destruct Hiso as (d1 & d2 & m1 & m2 & y1 & y2 & y3 & y4 & Hv & Hd).
    rewrite Hv. unfold isoText.
    rewrite (PageFacts.toDisplay_iso _ _ _ _ _ _ _ _ Hd).
    fold (dateText d1 d2 m1 m2 y1 y2 y3 y4).
    unfold becomeText. cbn [value].
    rewrite DomFacts.set_value_type.
    destruct (String.eqb (type el) "file") eqn:Ef; [reflexivity|].
    rewrite (value_set_dateText el _ _ _ _ _ _ _ _ Ht Hd), Ef.
    destruct (memString (type el) ["checkbox"; "radio"]) eqn:Ec;
      cbn [andb]; [|reflexivity].
    assert (Hattr : has_value_attr
                      (set_value (dateText d1 d2 m1 m2 y1 y2 y3 y4) el) = true).
    { unfold set_value. rewrite Ht, Ef.
      assert (Hr : reflectsValueAttr (type el) = true).
      { unfold reflectsValueAttr, memString in *. cbn [existsb] in *.
        destruct (String.eqb (type el) "checkbox"); [now rewrite !orb_true_r|].
        destruct (String.eqb (type el) "radio"); [now rewrite !orb_true_r|].
        discriminate. }
      now rewrite Hr. }
    rewrite Hattr. cbn [negb].
    assert (Hr : refusesDateText (type el) = false).
    { unfold refusesDateText, memString in *. cbn [existsb] in *.
      destruct (String.eqb_spec (type el) "checkbox") as [E|_];
        [now rewrite E|].
      destruct (String.eqb_spec (type el) "radio") as [E|_];
        [now rewrite E|].
      discriminate. }
    now rewrite Hr.
  - reflexivity.
Qed.

Lemma formatDateField_not_rewritten (el : Element) :
  matchesDateSel el = true -> rewritten (value (formatDateField el)) = false.
Proof.
  intros Hsel. rewrite value_formatDateField by exact Hsel.
  unfold formattedValue.
  destruct (String.eqb (type el) "file"); [reflexivity|].
  destruct (rewritten (value el)) eqn:Er.
  - destruct (refusesDateText (type el)); [reflexivity|].
    unfold rewritten in Er. apply andb_true_iff in Er as [_ Hiso].
    apply test_reISODate_shape in Hiso.
    destruct Hiso as (d1 & d2 & m1 & m2 & y1 & y2 & y3 & y4 & -> & Hd).
    unfold isoText. rewrite (PageFacts.toDisplay_iso _ _ _ _ _ _ _ _ Hd).
    now apply (rewritten_dateText d1 d2 m1 m2 y1 y2 y3 y4).
  - now destruct (memString (type el) ["checkbox"; "radio"]
                  && negb (has_value_attr el)).
Qed.

Lemma formatDateField_shape (el : Element) :
  matchesDateSel el = true ->
  exists e, formatDateField el = becomeText e /\ tagName e = INPUT.
Proof.
  intros Hsel. pose proof (tagName_of_matches el Hsel) as Ht.
  unfold formatDateField. rewrite Hsel.
  destruct (_ && _); eexists; (split; [reflexivity|]);
    [now rewrite DomFacts.set_value_tagName | exact Ht].
Qed.

Lemma formatDateField_twice (el : Element) :
  formatDateField (formatDateField el) = formatDateField el.
Proof.
  destruct (matchesDateSel el) eqn:E.
  - destruct (formatDateField_shape el E) as (e & He & Ht).
    pose proof (formatDateField_not_rewritten el E) as Hn.
    unfold formatDateField at 1.
    rewrite He at 1. rewrite (becomeText_matches e Ht).
    fold (rewritten (value (formatDateField el))). rewrite Hn.
    rewrite He. apply becomeText_twice.
  - unfold formatDateField. now rewrite E, E.
Qed.

(** X10.  Putting dates in display form is idempotent: [formatDateFields]
    run again on a form it has already been through changes nothing, and
    the rewriting of a single value is idempotent too. *)
Theorem formatDateFields_idempotent :
  (forall v : string, toDisplay (toDisplay v) = toDisplay v)
  /\ (forall form : Form,
        formatDateFields (formatDateFields form) = formatDateFields form).
Proof.
  split; [exact toDisplay_twice|].
  intros form. unfold formatDateFields, set_fields. cbn [fields action form_entity].
  f_equal. rewrite map_map. apply map_ext. exact formatDateField_twice.
Qed.

End DateFacts.

(* ====================================================================== *)
(** * The save handler, from the click to the request *)
(* ====================================================================== *)

Module SaveFacts.
Import JS Dom Validation Page Spec Spec2 RuntimeFacts ValidationFacts.

(** ** Changes of class lists that the checks do not see *)

Section Annotation.

Variable g : Element -> Element.
Hypothesis g_classes : forall el, g el = set_classList (classList (g el)) el.
Hypothesis g_date :
  forall el, contains "date-field" (classList (g el))
             = contains "date-field" (classList el).

Lemma g_value (el : Element) : value (g el) = value el.
Proof. now rewrite g_classes. Qed.

Lemma g_name (el : Element) : name (g el) = name el.
Proof. now rewrite g_classes. Qed.

Lemma g_type (el : Element) : type (g el) = type el.
Proof. now rewrite g_classes. Qed.

Lemma g_tagName (el : Element) : tagName (g el) = tagName el.
Proof. now rewrite g_classes. Qed.

Lemma g_checked (el : Element) : checked (g el) = checked el.
Proof. now rewrite g_classes. Qed.

Lemma g_disabled (el : Element) : disabled (g el) = disabled el.
Proof. now rewrite g_classes. Qed.

Lemma g_isVisible (el : Element) : isVisible (g el) = isVisible el.
Proof. now rewrite g_classes. Qed.

Lemma g_data_optional (el : Element) : data_optional (g el) = data_optional el.
Proof. now rewrite g_classes. Qed.

Lemma g_placeholder (el : Element) : placeholder (g el) = placeholder el.
Proof. now rewrite g_classes. Qed.

Lemma g_data_type (el : Element) : data_type (g el) = data_type el.
Proof. now rewrite g_classes. Qed.

Lemma g_matchesDateSel (el : Element) :
  matchesDateSel (g el) = matchesDateSel el.
Proof.
  unfold matchesDateSel.
  now rewrite g_tagName, g_date, g_placeholder, g_data_type, g_name.
Qed.

Lemma g_group (l : list Element) (ty nm : string) :
  existsb checked
    (List.filter (fun x => Tag_eqb (tagName x) INPUT && String.eqb (type x) ty
                           && String.eqb (name x) nm) (map g l))
  = existsb checked
      (List.filter (fun x => Tag_eqb (tagName x) INPUT && String.eqb (type x) ty
                             && String.eqb (name x) nm) l).
Proof.
  induction l as [|x l IH]; [reflexivity|].
  cbn [map List.filter]. rewrite g_tagName, g_type, g_name.
  destruct (Tag_eqb (tagName x) INPUT && String.eqb (type x) ty
            && String.eqb (name x) nm); [|exact IH].
  cbn [existsb]. now rewrite g_checked, IH.
Qed.

Lemma g_isGroupChecked (form form' : Form) (el : Element) :
  fields form' = map g (fields form) ->
  isGroupChecked form' (g el) = isGroupChecked form el.
Proof.
  intros Hf. unfold isGroupChecked, groupOf. rewrite Hf.
  rewrite g_type, g_name.
  destruct (negb (String.eqb (toLowerCase (type el)) "checkbox")
            && negb (String.eqb (toLowerCase (type el)) "radio"));
    [reflexivity|].
  destruct (negb (truthy (name el))); [reflexivity|].
  apply g_group.
Qed.

Lemma g_allFilledFrom (form form' : Form) (els : list Element) :
  fields form' = map g (fields form) ->
  allFilledFrom form' (map g els) = allFilledFrom form els.
Proof.
  intros Hf. induction els as [|el rest IH]; [reflexivity|].
  cbn [map allFilledFrom].
  rewrite g_isVisible, g_disabled, g_type, g_data_optional, g_value,
    (g_isGroupChecked form form' el Hf), IH.
  reflexivity.
Qed.

Lemma g_filter_dates (l : list Element) :
  List.filter matchesDateSel (map g l) = map g (List.filter matchesDateSel l).
Proof.
  induction l as [|x l IH]; [reflexivity|].
  cbn [map List.filter]. rewrite g_matchesDateSel.
  destruct (matchesDateSel x); cbn [map]; now rewrite IH.
Qed.

Lemma g_allDatesValidFrom (els : list Element) :
  allDatesValidFrom (map g els) = allDatesValidFrom els.
Proof.
  induction els as [|el rest IH]; [reflexivity|].
  cbn [map allDatesValidFrom].
  now rewrite g_isVisible, g_disabled, g_value, IH.
Qed.

Lemma g_gate (form form' : Form) :
  fields form' = map g (fields form) ->
  areAllVisibleFieldsFilled form' = areAllVisibleFieldsFilled form
  /\ allDatesValid form' = allDatesValid form.
Proof.
  intros Hf. split.
  - unfold areAllVisibleFieldsFilled. rewrite Hf.
    now apply g_allFilledFrom.
  - unfold allDatesValid. rewrite Hf.
    now rewrite g_filter_dates, g_allDatesValidFrom.
Qed.

Lemma g_entries (el : Element) : entriesOfControl (g el) = entriesOfControl el.
Proof. now rewrite g_classes. Qed.

Lemma g_formDataOf (form form' : Form) :
  fields form' = map g (fields form) ->
  formDataOf form' = formDataOf form.
Proof.
  intros Hf. unfold formDataOf. rewrite Hf, map_map. f_equal.
  apply map_ext. exact g_entries.
Qed.

Lemma g_normalizeDates (form form' : Form) (fd : list (string * FormValue)) :
  fields form' = map g (fields form) ->
  normalizeDates form' fd = normalizeDates form fd.
Proof.
  intros Hf. unfold normalizeDates. rewrite Hf.
  rewrite g_filter_dates.
  generalize (List.filter matchesDateSel (fields form)) as l.
  intros l. revert fd.
  induction l as [|x l IH]; intros fd; [reflexivity|].
  cbn [map fold_left]. now rewrite g_value, g_name, IH.
Qed.

End Annotation.

(** What [clearFieldErrors] and then [clearInvalids] do to a control. *)
Lemma cleared_form (form : Form) :
  fields (clearInvalids (clearFieldErrors form))
  = map (fun el => removeClass "is-invalid"
                     (removeClass "invalid" (removeClass "is-invalid" el)))
        (fields form)
  /\ action (clearInvalids (clearFieldErrors form)) = action form.
Proof.
  unfold clearInvalids, clearFieldErrors, set_fields, set_others.
  cbn [fields action form_entity]. now rewrite map_map.
Qed.

Lemma cleaning_classes (el : Element) :
  removeClass "is-invalid" (removeClass "invalid" (removeClass "is-invalid" el))
  = set_classList
      (classList (removeClass "is-invalid"
                    (removeClass "invalid" (removeClass "is-invalid" el)))) el.
Proof. reflexivity. Qed.

Lemma cleaning_date (el : Element) :
  contains "date-field"
    (classList (removeClass "is-invalid"
                  (removeClass "invalid" (removeClass "is-invalid" el))))
  = contains "date-field" (classList el).
Proof.
  unfold removeClass, set_classList. cbn [classList].
  now rewrite !PageFacts.contains_classRemove by discriminate.
Qed.

(** The three checks of the handler, on the form as it is when the save
    action is triggered. *)
Lemma saveClick_eq (d : Document) (modal : Modal) (form : Form)
  (saveBtn : Button) :
  entityModal d = Some modal ->
  modal_form modal = Some form ->
  modal_save modal = Some saveBtn ->
  snd (saveClick d)
  = if negb (valid (snd (validateForm form)))
    then Alert (if truthy (msg (snd (validateForm form)))
                then msg (snd (validateForm form))
                else "Please correct highlighted fields.")
         :: snd (focusAndClear
                   (fst (validateForm (clearInvalids (clearFieldErrors form))))
                   (AtField <$> firstEl (snd (validateForm form))))
    else if negb (areAllVisibleFieldsFilled form) || negb (allDatesValid form)
    then [Alert "Please complete all fields and enter valid dates (dd/mm/yyyy)."]
    else [Fetch (mkRequest (action form) "POST"
                   (ajaxHeaders d "application/json,text/html")
                   (normalizeDates form (formDataOf form)))].
Proof.
  intros Hmodal Hform Hsave.
  unfold saveClick. rewrite Hmodal, Hform, Hsave.
  pose proof (PageFacts.validateForm_cleared form) as Hc.
  pose proof (ValidatorFacts.validateForm_valid_fixed
                (clearInvalids (clearFieldErrors form))) as Hfix.
  destruct (validateForm (clearInvalids (clearFieldErrors form)))
    as [form2 v] eqn:E.
  cbn [fst snd] in *. subst v.
  destruct (valid (snd (validateForm form))) eqn:Hv; cbn [negb].
  - rewrite (Hfix eq_refl).
    destruct (cleared_form form) as [Hf Ha].
    destruct (g_gate _ cleaning_classes cleaning_date form _ Hf) as [-> ->].
    destruct (negb (areAllVisibleFieldsFilled form) || negb (allDatesValid form));
      [reflexivity|].
    cbn [snd].
    rewrite (g_normalizeDates _ cleaning_classes cleaning_date form _ _ Hf),
      (g_formDataOf _ cleaning_classes form _ Hf), Ha.
    reflexivity.
  - now destruct (focusAndClear form2 (AtField <$> firstEl (snd (validateForm form)))).
Qed.

Lemma focusAndClear_no_fetch (form : Form) (el : option Located) :
  Forall (fun e => isFetch e = false) (snd (focusAndClear form el)).
Proof.
  unfold focusAndClear. destruct el as [[i|k j]|]; [| |constructor].
  - destruct (fields form !! i) as [e|]; [|constructor].
    cbn [snd]. destruct (Tag_eqb (tagName e) SELECT); repeat constructor.
  - destruct (lookupOther k j form); repeat constructor.
Qed.

(** X12.  The save handler sends a request exactly when the save gate
    holds of the form, that is exactly when [recomputeSaveEnabled] would
    enable the button; the request is then the only effect, a POST to the
    action of the form carrying its data with the dates rewritten: the
    entries of [new FormData(form)], one per selected file and per
    selected option among them, with the text of each date input that
    holds a date replaced.  When the gate does not hold the handler alerts
    and sends nothing; a form that passes the validator but is incomplete
    gets the generic message. *)
Theorem saveClick_submits_iff_gate
  (d : Document) (modal : Modal) (form : Form) (saveBtn : Button) :
  entityModal d = Some modal ->
  modal_form modal = Some form ->
  modal_save modal = Some saveBtn ->
  ((exists r, In (Fetch r) (snd (saveClick d))) <-> Gate form)
  /\ ((exists r, In (Fetch r) (snd (saveClick d)))
      <-> saveEnabled form saveBtn = true)
  /\ (Gate form ->
      snd (saveClick d)
      = [Fetch (mkRequest (action form) "POST"
                  (ajaxHeaders d "application/json,text/html")
                  (normalizeDates form (formDataOf form)))])
  /\ (~ Gate form ->
      exists m rest, snd (saveClick d) = Alert m :: rest
                     /\ Forall (fun e => isFetch e = false) rest)
  /\ (valid (snd (validateForm form)) = true -> ~ Gate form ->
      snd (saveClick d)
      = [Alert "Please complete all fields and enter valid dates (dd/mm/yyyy)."]).
Proof.
  intros Hmodal Hform Hsave.
  pose proof (saveClick_eq d modal form saveBtn Hmodal Hform Hsave) as Heq.
  pose proof (saveEnabled_iff form saveBtn) as Hgate.
  rewrite saveEnabled_eq in Hgate.
  assert (Hmain : (exists r, In (Fetch r) (snd (saveClick d))) <-> Gate form).
  { rewrite <- Hgate, Heq.
    destruct (valid (snd (validateForm form))); cbn [negb].
    - destruct (areAllVisibleFieldsFilled form), (allDatesValid form);
        cbn [negb orb andb]; split;
        try (intros [r [Hr | []]]; discriminate Hr); try discriminate;
        try reflexivity.
      intros _. eexists. left. reflexivity.
    - rewrite andb_false_r. split; [|discriminate].
      intros [r [Hr | Hr]]; [discriminate Hr|].
      pose proof (focusAndClear_no_fetch
                    (fst (validateForm (clearInvalids (clearFieldErrors form))))
                    (AtField <$> firstEl (snd (validateForm form)))) as Hno.
      eapply List.Forall_forall in Hno; [|exact Hr]. discriminate Hno. }
  split; [exact Hmain|].
  split; [now rewrite (saveEnabled_iff form saveBtn)|].
  split; [|split].
  - intros HG. apply Hgate in HG.
    apply andb_true_iff in HG as [HG Hv]. apply andb_true_iff in HG as [Hf Hd].
    now rewrite Heq, Hv, Hf, Hd.
  - intros HG. rewrite Heq.
    destruct (valid (snd (validateForm form))); cbn [negb].
    + destruct (negb (areAllVisibleFieldsFilled form)
                || negb (allDatesValid form)) eqn:E.
      * eexists _, []. split; [reflexivity | constructor].
      * exfalso. apply HG, Hgate. apply orb_false_iff in E as [E1 E2].
        apply negb_false_iff in E1, E2. now rewrite E1, E2.
    + eexists _, _. split; [reflexivity|]. apply focusAndClear_no_fetch.
  - intros Hv HG. rewrite Heq, Hv. cbn [negb].
    destruct (negb (areAllVisibleFieldsFilled form)
              || negb (allDatesValid form)) eqn:E; [reflexivity|].
    exfalso. apply HG, Hgate. apply orb_false_iff in E as [E1 E2].
    apply negb_false_iff in E1, E2. now rewrite E1, E2, Hv.
Qed.

Lemma saveClick_submits_iff_gate_witness :
  Gate uploadForm
  /\ snd (saveClick (pageOf uploadForm))
     = [Fetch (mkRequest "/client/create/" "POST"
                 [("X-CSRFToken", "token");
                  ("X-Requested-With", "XMLHttpRequest");
                  ("Accept", "application/json,text/html")]
                 [("name", Text "Asha");
                  ("photos", File "a.png"); ("photos", File "b.png");
                  ("tags", Text "x"); ("tags", Text "z")])].
Proof.
  destruct (saveClick_submits_iff_gate (pageOf uploadForm)
              (mkModal "flex" true (Some "") (Some uploadForm) (Some someButton))
              uploadForm someButton eq_refl eq_refl eq_refl)
    as (_ & _ & Hsend & _).
  assert (HG : Gate uploadForm).
  { apply (saveEnabled_iff uploadForm someButton). vm_compute. reflexivity. }
  split; [exact HG|]. exact (Hsend HG).
Defined.

(** ** The dates of the form data *)

Lemma entriesOf_set_same (k v : string) (fd : list (string * FormValue)) :
  entriesOf k (formDataSet k v fd) = [(k, Text v)].
Proof.
  unfold entriesOf. induction fd as [|[k' v'] rest IH].
  - cbn. now rewrite String.eqb_refl.
  - cbn [formDataSet]. destruct (String.eqb k' k) eqn:E.
    + cbn [List.filter fst]. rewrite String.eqb_refl. f_equal.
      clear. induction rest as [|[a b] rest IH]; [reflexivity|].
      cbn [List.filter fst]. destruct (String.eqb a k) eqn:Ea; cbn [negb].
      * exact IH.
      * cbn [List.filter fst]. now rewrite Ea.
    + cbn [List.filter fst]. now rewrite E.
Qed.

Lemma entriesOf_set_other (k k' v : string) (fd : list (string * FormValue)) :
  k' <> k -> entriesOf k' (formDataSet k v fd) = entriesOf k' fd.
Proof.
  intros Hne. unfold entriesOf. induction fd as [|[a b] rest IH].
  - cbn. destruct (String.eqb_spec k k'); [congruence | reflexivity].
  - cbn [formDataSet]. destruct (String.eqb_spec a k) as [->|Hak].
    + cbn [List.filter fst].
      destruct (String.eqb_spec k k'); [congruence|].
      clear IH. induction rest as [|[x y] rest IH]; [reflexivity|].
      cbn [List.filter fst].
      destruct (String.eqb_spec x k) as [->|Hxk]; cbn [negb].
      * destruct (String.eqb_spec k k'); [congruence | exact IH].
      * cbn [List.filter fst]. now rewrite IH.
    + cbn [List.filter fst]. now rewrite IH.
Qed.

Lemma fold_dates_rewritten (l : list Element) :
  forall (fd : list (string * FormValue)) (k : string),
    (exists inp, In inp l /\ name inp = k /\ toTransmission (value inp) <> None) ->
    exists inp' iso,
      In inp' l /\ name inp' = k /\ toTransmission (value inp') = Some iso
      /\ entriesOf k
           (fold_left (fun acc inp =>
                         match toTransmission (value inp) with
                         | Some iso => formDataSet (name inp) iso acc
                         | None => acc
                         end) l fd)
         = [(k, Text iso)].
Proof.
  induction l as [|x l IH] using rev_ind; intros fd k (inp & Hin & Hk & Ht).
  - destruct Hin.
  - rewrite fold_left_app. cbn [fold_left].
    assert (Hrec : In inp l ->
                   exists inp' iso,
                     In inp' (l ++ [x]) /\ name inp' = k
                     /\ toTransmission (value inp') = Some iso
                     /\ entriesOf k
                          (fold_left (fun acc inp =>
                                        match toTransmission (value inp) with
                                        | Some iso => formDataSet (name inp) iso acc
                                        | None => acc
                                        end) l fd)
                        = [(k, Text iso)]).
    { intros Hl. destruct (IH fd k) as (inp' & iso & H1 & H2 & H3 & H4);
        [now exists inp|].
      exists inp', iso. split; [apply in_or_app; now left|]. now repeat split. }
    apply in_app_or in Hin.
    destruct (toTransmission (value x)) as [isox|] eqn:Ex.
    + destruct (String.eqb_spec (name x) k) as [Hx|Hx].
      * exists x, isox. split; [apply in_or_app; right; now left|].
        split; [exact Hx|]. split; [exact Ex|].
        rewrite Hx. apply entriesOf_set_same.
      * rewrite entriesOf_set_other by congruence.
        apply Hrec. destruct Hin as [Hl | [<- | []]]; [exact Hl | congruence].
    + apply Hrec. destruct Hin as [Hl | [<- | []]]; [exact Hl | congruence].
Qed.

Lemma fold_dates_untouched (l : list Element) :
  forall (fd : list (string * FormValue)) (k : string),
    (forall inp, In inp l -> name inp = k -> toTransmission (value inp) = None) ->
    entriesOf k
      (fold_left (fun acc inp =>
                    match toTransmission (value inp) with
                    | Some iso => formDataSet (name inp) iso acc
                    | None => acc
                    end) l fd)
    = entriesOf k fd.
Proof.
  induction l as [|x l IH]; intros fd k H; [reflexivity|].
  cbn [fold_left]. rewrite IH by (intros inp Hin; apply H; now right).
  destruct (toTransmission (value x)) as [iso|] eqn:E; [|reflexivity].
  apply entriesOf_set_other. intros ->.
  rewrite (H x (or_introl eq_refl) eq_refl) in E. discriminate.
Qed.

(** X13.  What the save handler sends for the dates.  For every date
    input of the form whose value has the shape dd/mm/yyyy, whether or
    not the input is disabled or otherwise absent from the form data, the
    data sent hold exactly one entry under its name, and the value of
    that entry has the shape yyyy-mm-dd: it is the rewriting of a date
    input of that name.  The entries under a name that no such input
    bears are those of the form data. *)
Theorem normalizeDates_entries (form : Form) (fd : list (string * FormValue)) :
  (forall inp, inp ∈ fields form -> matchesDateSel inp = true ->
               HasDateShape (trim (value inp)) ->
     exists inp' iso,
       inp' ∈ fields form /\ matchesDateSel inp' = true
       /\ name inp' = name inp
       /\ toTransmission (value inp') = Some iso
       /\ HasIsoShape iso /\ test reISODate iso = true
       /\ entriesOf (name inp) (normalizeDates form fd)
          = [(name inp, Text iso)])
  /\ (forall k,
        (forall inp, inp ∈ fields form -> matchesDateSel inp = true ->
                     name inp = k -> ~ HasDateShape (trim (value inp))) ->
        entriesOf k (normalizeDates form fd) = entriesOf k fd)
  /\ formDataOf (formOf [dateInput "dob" "03/11/2026" true]) = []
  /\ normalizeDates (formOf [dateInput "dob" "03/11/2026" true]) []
     = [("dob", Text "2026-11-03")].
Proof.
  split; [|split; [|split; reflexivity]].
  - intros inp Hin Hsel Hshape.
    destruct (DateFacts.toTransmission_shape _ Hshape) as [iso0 H0].
    destruct (fold_dates_rewritten (List.filter matchesDateSel (fields form))
                                   fd (name inp))
      as (inp' & iso & H1 & H2 & H3 & H4).
    { exists inp. split; [|split; [reflexivity | congruence]].
      apply filter_In. split; [now apply list_elem_of_In | exact Hsel]. }
    apply filter_In in H1 as [H1 H1'].
    exists inp', iso. split; [now apply list_elem_of_In|].
    split; [exact H1'|]. split; [exact H2|]. split; [exact H3|].
    destruct (DateFacts.toTransmission_Some _ _ H3)
      as (d1 & d2 & m1 & m2 & y1 & y2 & y3 & y4 & _ & -> & Hd).
    assert (Hiso : HasIsoShape (isoText d1 d2 m1 m2 y1 y2 y3 y4)).
    { exists d1, d2, m1, m2, y1, y2, y3, y4. now split. }
    split; [exact Hiso|]. split; [now apply DateFacts.test_reISODate_shape|].
    exact H4.
  - intros k H. unfold normalizeDates. apply fold_dates_untouched.
    intros inp Hin Hk. apply filter_In in Hin as [Hin Hsel].
    destruct (toTransmission (value inp)) as [iso|] eqn:E; [|reflexivity].
    exfalso. apply (H inp); [now apply list_elem_of_In | exact Hsel | exact Hk|].
    destruct (DateFacts.toTransmission_Some _ _ E)
      as (d1 & d2 & m1 & m2 & y1 & y2 & y3 & y4 & Hv & _ & Hd).
    exists d1, d2, m1, m2, y1, y2, y3, y4. now split.
Qed.

(** ** The round trip of a date *)

Lemma iso_not_dash_free (y1 y2 y3 y4 m1 m2 d1 d2 : ascii) :
  allDigits [d1; d2; m1; m2; y1; y2; y3; y4] ->
  split "-" (isoText d1 d2 m1 m2 y1 y2 y3 y4)
  = [String y1 (String y2 (String y3 (String y4 "")));
     String m1 (String m2 ""); String d1 (String d2 "")].
Proof.
  intros Hd. DateFacts.digits_of Hd. unfold isoText. cbn [split].
  rewrite (digit_not_dash d1), (digit_not_dash d2), (digit_not_dash m1),
    (digit_not_dash m2), (digit_not_dash y1), (digit_not_dash y2),
    (digit_not_dash y3), (digit_not_dash y4) by assumption.
  reflexivity.
Qed.

Lemma monthLength_daysInMonth (y m : Z) : monthLength y m = daysInMonth y m.
Proof.
  unfold monthLength, daysInMonth, isLeapYear.
  destruct (Z.eqb_spec m 2) as [->|H2]; [reflexivity|].
  destruct (Z.eqb_spec m 4) as [->|H4]; [reflexivity|].
  destruct (Z.eqb_spec m 6) as [->|H6]; [reflexivity|].
  destruct (Z.eqb_spec m 9) as [->|H9]; [reflexivity|].
  destruct (Z.eqb_spec m 11) as [->|H11]; [reflexivity|].
  cbn [orb].
  destruct m as [|p|p]; try reflexivity.
  do 4 (destruct p as [p|p|]; try reflexivity; try congruence).
Qed.

(** The text yyyy-mm-dd of a calendar-valid date is a valid date string:
    a native date input holds it. *)
Lemma validDateString_iso (d1 d2 m1 m2 y1 y2 y3 y4 : ascii) :
  allDigits [d1; d2; m1; m2; y1; y2; y3; y4] ->
  (1900 <= yearOf y1 y2 y3 y4 <= 9999)%Z ->
  (1 <= monthOf m1 m2 <= 12)%Z ->
  (1 <= dayOf d1 d2 <= daysInMonth (yearOf y1 y2 y3 y4) (monthOf m1 m2))%Z ->
  validDateString (isoText d1 d2 m1 m2 y1 y2 y3 y4) = true.
Proof.
  intros Hd Hy Hm Hday. unfold validDateString.
  rewrite (iso_not_dash_free _ _ _ _ _ _ _ _ Hd).
  DateFacts.digits_of Hd.
  pose proof (Number_four_digits y1 y2 y3 y4) as Ny.
  pose proof (Number_two_digits m1 m2) as Nm.
  pose proof (Number_two_digits d1 d2) as Nd.
  unfold Number in Ny, Nm, Nd.
  rewrite Ny, Nm, Nd by assumption.
  cbn [digitsOnly String.length Nat.leb Nat.eqb].
  repeat match goal with
         | H : isDigit ?c = true |- context [isDigit ?c] => rewrite H
         end.
  cbn [andb]. fold (yearOf y1 y2 y3 y4) (monthOf m1 m2) (dayOf d1 d2).
  rewrite monthLength_daysInMonth.
  repeat (apply andb_true_iff; split);
    first [apply Z.ltb_lt | apply Z.leb_le]; lia.
Qed.

Lemma rewritten_iso (d1 d2 m1 m2 y1 y2 y3 y4 : ascii) :
  allDigits [d1; d2; m1; m2; y1; y2; y3; y4] ->
  rewritten (isoText d1 d2 m1 m2 y1 y2 y3 y4) = true.
Proof.
  intros Hd. unfold rewritten.
  assert (Ht : test reISODate (isoText d1 d2 m1 m2 y1 y2 y3 y4) = true).
  { apply DateFacts.test_reISODate_shape.
    exists d1, d2, m1, m2, y1, y2, y3, y4. now split. }
  rewrite Ht. unfold isoText. now rewrite PageFacts.includes_dash.
Qed.

(** What is sent for a form whose only control is a date input that
    holds a date. *)
Lemma normalizeDates_single (a : string) (e : option string) (el : Element)
  (iso : string) (fd : list (string * FormValue)) :
  matchesDateSel el = true -> toTransmission (value el) = Some iso ->
  normalizeDates (mkForm a e [el]) fd = formDataSet (name el) iso fd.
Proof.
  intros Hsel Ht. unfold normalizeDates, mkForm.
  cbn [fields List.filter]. rewrite Hsel. cbn [fold_left]. now rewrite Ht.
Qed.

(** C9.  The round trip of a calendar-valid date [d], displayed as
    dd/mm/yyyy by a date input named [nm]: the save handler sends it as
    the text [iso] of the form yyyy-mm-dd, and [formatDateFields] displays
    [d] again in a text input that holds [iso].  A native date input can
    hold [iso] as well, and does when the server renders the field so;
    there the date is not displayed again but lost: the text dd/mm/yyyy
    is assigned while the input is still of type [date] (line 590), which
    refuses it, and the input is an empty text input once its type has
    changed (line 594). *)
Theorem round_trip_lost_in_date_input (nm d : string) :
  nm <> "" -> CalendarValid d ->
  exists iso,
    normalizeDates (formOf [dateInput nm d false])
                   (formDataOf (formOf [dateInput nm d false]))
    = [(nm, Text iso)]
    /\ map value (fields (formatDateFields (formOf [dateInput nm iso false])))
       = [d]
    /\ value (set_value iso (nativeDateInput nm "")) = iso
    /\ map value (fields (formatDateFields (formOf [nativeDateInput nm iso])))
       = [""]
    /\ map type (fields (formatDateFields (formOf [nativeDateInput nm iso])))
       = ["text"].
Proof.
  intros Hnm (d1 & d2 & m1 & m2 & y1 & y2 & y3 & y4 & -> & Hd & Hy & Hm & Hday).
  exists (isoText d1 d2 m1 m2 y1 y2 y3 y4).
  assert (Hn : truthy nm = true) by now destruct nm.
  split; [|split; [|split; [|split]]].
  - unfold formOf.
    rewrite (normalizeDates_single _ _ _ (isoText d1 d2 m1 m2 y1 y2 y3 y4))
      by (reflexivity || (apply PageFacts.toTransmission_dateText; exact Hd)).
    unfold formDataOf, mkForm, entriesOfControl, dateInput, mkElement.
    cbn [fields map concat app disabled tagName type name value memString
         existsb String.eqb Ascii.eqb Bool.eqb orb andb negb].
    rewrite Hn. cbn [negb app formDataSet]. now rewrite String.eqb_refl.
  - unfold formatDateFields, formOf, mkForm. cbn [fields set_fields map].
    rewrite DateFacts.value_formatDateField by reflexivity.
    unfold formattedValue, dateInput, mkElement. cbn [type value].
    rewrite (rewritten_iso _ _ _ _ _ _ _ _ Hd).
    change (String.eqb "text" "file") with false.
    change (refusesDateText "text") with false. cbn iota.
    unfold isoText. now rewrite (PageFacts.toDisplay_iso _ _ _ _ _ _ _ _ Hd).
  - unfold set_value, nativeDateInput, mkElement.
    cbn [tagName type with_value value].
    change (String.eqb "date" "file") with false.
    change (reflectsValueAttr "date") with false. cbn iota.
    unfold sanitize. cbn [String.eqb Ascii.eqb Bool.eqb].
    now rewrite (validDateString_iso _ _ _ _ _ _ _ _ Hd Hy Hm Hday).
  - unfold formatDateFields, formOf, mkForm. cbn [fields set_fields map].
    rewrite DateFacts.value_formatDateField by reflexivity.
    unfold formattedValue, nativeDateInput, mkElement. cbn [type value].
    now rewrite (rewritten_iso _ _ _ _ _ _ _ _ Hd).
  - reflexivity.
Qed.

Lemma round_trip_lost_in_date_input_witness :
  normalizeDates (formOf [dateInput "dob" "29/02/2024" false])
                 (formDataOf (formOf [dateInput "dob" "29/02/2024" false]))
  = [("dob", Text "2024-02-29")]
  /\ map value (fields (formatDateFields
                         (formOf [dateInput "dob" "2024-02-29" false])))
     = ["29/02/2024"]
  /\ value (set_value "2024-02-29" (nativeDateInput "dob" "")) = "2024-02-29"
  /\ map value (fields (formatDateFields
                         (formOf [nativeDateInput "dob" "2024-02-29"])))
     = [""]
  /\ map type (fields (formatDateFields
                        (formOf [nativeDateInput "dob" "2024-02-29"])))
     = ["text"].
Proof.
  destruct (round_trip_lost_in_date_input "dob" "29/02/2024") as (iso & H).
  - discriminate.
  - exists "2"%char, "9"%char, "0"%char, "2"%char,
           "2"%char, "0"%char, "2"%char, "4"%char.
    split; [reflexivity|]. split; [repeat constructor|].
    vm_compute. repeat split; discriminate.
  - destruct H as (H1 & H2 & H3 & H4 & H5).
    assert (E : iso = "2024-02-29").
    { change (normalizeDates (formOf [dateInput "dob" "29/02/2024" false])
                (formDataOf (formOf [dateInput "dob" "29/02/2024" false])))
        with [("dob", Text "2024-02-29")] in H1.
      now injection H1 as <-. }
    subst iso. split; [reflexivity|]. now repeat split.
Defined.



End SaveFacts.

(* ====================================================================== *)
(** * Finding the field an error is about *)
(* ====================================================================== *)

Module FieldFacts.
Import JS Dom Validation Page Spec Spec2.

Lemma findIndexFrom_Some {A : Type} (p : A -> bool) (l : list A) :
  forall (i k : nat),
    findIndexFrom p i l = Some k ->
    exists x, (i <= k)%nat /\ l !! (k - i)%nat = Some x /\ p x = true
              /\ forall j y, (j < k - i)%nat -> l !! j = Some y -> p y = false.
Proof.
  induction l as [|a l IH]; intros i k H; [discriminate|].
  cbn [findIndexFrom] in H. destruct (p a) eqn:E.
  - injection H as <-. exists a. rewrite Nat.sub_diag.
    split; [lia|]. split; [reflexivity|]. split; [exact E|]. intros j y Hj. lia.
  - destruct (IH _ _ H) as (x & Hik & Hx & Hp & Hbefore).
    exists x. split; [lia|].
    replace (k - i)%nat with (S (k - S i)) by lia.
    split; [exact Hx|]. split; [exact Hp|].
    intros [|j] y Hj Hy.
    + cbn in Hy. now injection Hy as <-.
    + apply (Hbefore j); [lia | exact Hy].
Qed.

Lemma findIndexFrom_None {A : Type} (p : A -> bool) (l : list A) :
  forall i : nat,
    findIndexFrom p i l = None -> forall x, x ∈ l -> p x = false.
Proof.
  induction l as [|a l IH]; intros i H x Hx.
  - inversion Hx.
  - cbn [findIndexFrom] in H. destruct (p a) eqn:E; [discriminate|].
    apply elem_of_cons in Hx as [-> | Hx]; [exact E|].
    now apply (IH (S i)).
Qed.

Lemma findIndex_Some {A : Type} (p : A -> bool) (l : list A) (k : nat) :
  findIndex p l = Some k ->
  exists x, l !! k = Some x /\ p x = true
            /\ forall j y, (j < k)%nat -> l !! j = Some y -> p y = false.
Proof.
  intros H. destruct (findIndexFrom_Some p l 0 k H) as (x & _ & Hx & Hp & Hb).
  rewrite Nat.sub_0_r in *. eauto.
Qed.

Lemma findIndex_None {A : Type} (p : A -> bool) (l : list A) :
  findIndex p l = None -> forall x, x ∈ l -> p x = false.
Proof. apply findIndexFrom_None. Qed.

(** ** The first match of a selector *)

Lemma queryFrom_spec (pc : Element -> bool) (po : Other -> bool)
  (cs : list Element) :
  forall (gaps : list (list Other)) (i : nat),
    let f := mkFormTree "" None cs gaps in
    match queryFrom pc po i cs gaps with
    | Some l =>
        exists l0, l = shift i l0 /\ inForm f l0 /\ holdsAt pc po f l0 = true
                   /\ forall l', precedes l' l0 -> inForm f l' ->
                                 holdsAt pc po f l' = false
    | None => forall l', inForm f l' -> holdsAt pc po f l' = false
    end.
Proof.
  induction cs as [|c rest IH]; intros gaps i f.
  - cbn [queryFrom].
    destruct (findIndex po match gaps with g :: _ => g | [] => [] end)
      as [j|] eqn:E.
    + destruct (findIndex_Some _ _ _ E) as (o & Ho & Hp & Hb).
      exists (AtOther 0 j). split; [cbn; now rewrite Nat.add_0_r|].
      assert (Hl : lookupOther 0 j f = Some o).
      { unfold lookupOther, f. cbn [others]. destruct gaps; [discriminate Ho|].
        exact Ho. }
      split; [split; [cbn; lia | now rewrite Hl]|].
      split; [cbn [holdsAt]; now rewrite Hl|].
      intros [a|g' j'] Hpre Hin; cbn in Hpre; [lia|].
      destruct Hpre as [Hpre | [-> Hj]]; [lia|].
      cbn [holdsAt]. unfold lookupOther, f. cbn [others].
      destruct gaps as [|g0 gaps]; [reflexivity|]. cbn.
      destruct (g0 !! j') as [o'|] eqn:Eo; [|reflexivity].
      now apply (Hb j').
    + pose proof (findIndex_None _ _ E) as Hn.
      intros [a|g j] Hin; cbn in Hin; [lia|].
      destruct Hin as [Hg Hs]. assert (g = 0%nat) as -> by lia.
      cbn [holdsAt]. unfold lookupOther, f in *. cbn [others] in *.
      destruct gaps as [|g0 gaps]; [reflexivity|]. cbn in *.
      destruct (g0 !! j) as [o'|] eqn:Eo; [|reflexivity].
      apply Hn. eapply list_elem_of_lookup_2, Eo.
  - cbn [queryFrom].
    destruct (findIndex po match gaps with g :: _ => g | [] => [] end)
      as [j|] eqn:E.
    + destruct (findIndex_Some _ _ _ E) as (o & Ho & Hp & Hb).
      exists (AtOther 0 j). split; [cbn; now rewrite Nat.add_0_r|].
      assert (Hl : lookupOther 0 j f = Some o).
      { unfold lookupOther, f. cbn [others]. destruct gaps; [discriminate Ho|].
        exact Ho. }
      split; [split; [cbn; lia | now rewrite Hl]|].
      split; [cbn [holdsAt]; now rewrite Hl|].
      intros [a|g' j'] Hpre Hin; cbn in Hpre; [lia|].
      destruct Hpre as [Hpre | [-> Hj]]; [lia|].
      cbn [holdsAt]. unfold lookupOther, f. cbn [others].
      destruct gaps as [|g0 gaps]; [reflexivity|]. cbn.
      destruct (g0 !! j') as [o'|] eqn:Eo; [|reflexivity].
      now apply (Hb j').
    + pose proof (findIndex_None _ _ E) as Hn.
      assert (Hgap0 : forall j, holdsAt pc po f (AtOther 0 j) = false).
      { intros j. cbn [holdsAt]. unfold lookupOther, f. cbn [others].
        destruct gaps as [|g0 gaps]; [reflexivity|]. cbn.
        destruct (g0 !! j) as [o'|] eqn:Eo; [|reflexivity].
        apply Hn. eapply list_elem_of_lookup_2, Eo. }
      destruct (pc c) eqn:Ec.
      * exists (AtField 0). split; [cbn; now rewrite Nat.add_0_r|].
        split; [cbn; lia|]. split; [cbn; exact Ec|].
        intros [a|g j] Hpre Hin; cbn in Hpre; [lia|].
        assert (g = 0%nat) as -> by lia. apply Hgap0.
      * specialize (IH (tail gaps) (S i)). cbn zeta in IH.
        set (f' := mkFormTree "" None rest (tail gaps)) in *.
        assert (Hin' : forall l, inForm f (shift 1 l) <-> inForm f' l).
        { intros [a|g j]; cbn; [lia|].
          unfold lookupOther, f, f'. cbn [others].
          rewrite lookup_tail. split; intros [H1 H2]; (split; [lia | exact H2]). }
        assert (Hh' : forall l, holdsAt pc po f (shift 1 l) = holdsAt pc po f' l).
        { intros [a|g j]; cbn [shift holdsAt]; [reflexivity|].
          unfold lookupOther, f, f'. cbn [others]. now rewrite lookup_tail. }
        assert (Hcases : forall l, inForm f l ->
                   l = AtField 0 \/ (exists j, l = AtOther 0 j)
                   \/ exists l1, l = shift 1 l1).
        { intros [[|a]|[|g] j] _; [now left | right; right; now exists (AtField a)
                                  | right; left; now exists j
                                  | right; right; now exists (AtOther g j)]. }
        destruct (queryFrom pc po (S i) rest (tail gaps)) as [l|].
        -- destruct IH as (l1 & -> & Hi1 & Hh1 & Hb1).
           exists (shift 1 l1).
           split; [destruct l1; cbn; f_equal; lia|].
           split; [now apply Hin'|]. split; [now rewrite Hh'|].
           intros l' Hpre Hl'.
           destruct (Hcases l' Hl') as [-> | [[j ->] | [l2 ->]]].
           ++ cbn. exact Ec.
           ++ apply Hgap0.
           ++ rewrite Hh'. apply Hb1; [|now apply Hin'].
              destruct l1, l2; cbn in *; lia.
        -- intros l' Hl'.
           destruct (Hcases l' Hl') as [-> | [[j ->] | [l2 ->]]].
           ++ cbn. exact Ec.
           ++ apply Hgap0.
           ++ rewrite Hh'. apply IH. now apply Hin'.
Qed.

Lemma holdsAt_others (pc : Element -> bool) (po : Other -> bool)
  (form : Form) (l : Located) :
  holdsAt pc po (mkFormTree "" None (fields form) (others form)) l
  = holdsAt pc po form l.
Proof. now destruct l. Qed.

Lemma inForm_others (form : Form) (l : Located) :
  inForm (mkFormTree "" None (fields form) (others form)) l <-> inForm form l.
Proof. now destruct l. Qed.

(** [form.querySelector] answers the first element of the form, in
    document order, that the selector matches. *)
Lemma querySelector_spec (pc : Element -> bool) (po : Other -> bool)
  (form : Form) :
  match querySelector pc po form with
  | Some l =>
      inForm form l /\ holdsAt pc po form l = true
      /\ forall l', precedes l' l -> inForm form l' ->
                    holdsAt pc po form l' = false
  | None => forall l', inForm form l' -> holdsAt pc po form l' = false
  end.
Proof.
  unfold querySelector.
  pose proof (queryFrom_spec pc po (fields form) (others form) 0) as H.
  cbn zeta in H.
  destruct (queryFrom pc po 0 (fields form) (others form)) as [l|].
  - destruct H as (l0 & -> & Hi & Hh & Hb).
    assert (Hs : shift 0 l0 = l0) by now destruct l0.
    rewrite Hs. split; [now apply inForm_others|].
    split; [now rewrite <- holdsAt_others|].
    intros l' Hp Hl'. rewrite <- holdsAt_others.
    apply Hb; [exact Hp | now apply inForm_others].
  - intros l' Hl'. rewrite <- holdsAt_others. apply H.
    now apply inForm_others.
Qed.

Lemma locateField_eq (form : Form) (f : string) :
  truthy f = true ->
  locateField form (Some f)
  = match querySelector (locates f 0) (locatesOther f 0) form with
    | Some l => Some l
    | None =>
    match querySelector (locates f 1) (locatesOther f 1) form with
    | Some l => Some l
    | None =>
    match querySelector (locates f 2) (locatesOther f 2) form with
    | Some l => Some l
    | None => querySelector (locates f 3) (locatesOther f 3) form
    end end end.
Proof. intros H. unfold locateField. now rewrite H. Qed.


(** X14.  [locateField] tries four criteria in turn: the name [f], the
    name [f[]], the id [id_f], an id ending with [f], each of them over
    every element of the form, control or not.  Its answer is the first
    element, in document order, that meets the first criterion met by any
    element of the form; it answers nothing exactly when no element meets
    any of them, and always when no field name is given. *)
Theorem locateField_first_match (form : Form) :
  locateField form None = None
  /\ locateField form (Some "") = None
  /\ forall f : string, f <> "" ->
       match locateField form (Some f) with
       | Some l =>
           inForm form l
           /\ exists k,
                (k < 4)%nat /\ meets f k form l = true
                /\ (forall k' l', (k' < k)%nat -> inForm form l' ->
                                  meets f k' form l' = false)
                /\ (forall l', precedes l' l -> inForm form l' ->
                               meets f k form l' = false)
       | None =>
           forall k l', (k < 4)%nat -> inForm form l' ->
                        meets f k form l' = false
       end.
Proof.
  split; [reflexivity|]. split; [reflexivity|].
  intros f Hf. rewrite locateField_eq by (now destruct f).
  pose proof (querySelector_spec (locates f 0) (locatesOther f 0) form) as S0.
  pose proof (querySelector_spec (locates f 1) (locatesOther f 1) form) as S1.
  pose proof (querySelector_spec (locates f 2) (locatesOther f 2) form) as S2.
  pose proof (querySelector_spec (locates f 3) (locatesOther f 3) form) as S3.
  destruct (querySelector (locates f 0) (locatesOther f 0) form) as [l|].
  { destruct S0 as (Hi & Hh & Hb). split; [exact Hi|].
    exists 0%nat. split; [lia|]. split; [exact Hh|]. split; [|exact Hb].
    intros k' l' Hk. lia. }
  destruct (querySelector (locates f 1) (locatesOther f 1) form) as [l|].
  { destruct S1 as (Hi & Hh & Hb). split; [exact Hi|].
    exists 1%nat. split; [lia|]. split; [exact Hh|]. split; [|exact Hb].
    intros k' l' Hk Hl'. assert (k' = 0%nat) as -> by lia. now apply S0. }
  destruct (querySelector (locates f 2) (locatesOther f 2) form) as [l|].
  { destruct S2 as (Hi & Hh & Hb). split; [exact Hi|].
    exists 2%nat. split; [lia|]. split; [exact Hh|]. split; [|exact Hb].
    intros k' l' Hk Hl'.
    destruct k' as [|[|k']]; [now apply S0 | now apply S1 | lia]. }
  destruct (querySelector (locates f 3) (locatesOther f 3) form) as [l|].
  { destruct S3 as (Hi & Hh & Hb). split; [exact Hi|].
    exists 3%nat. split; [lia|]. split; [exact Hh|]. split; [|exact Hb].
    intros k' l' Hk Hl'.
    destruct k' as [|[|[|k']]];
      [now apply S0 | now apply S1 | now apply S2 | lia]. }
  intros k l' Hk Hl'.
  destruct k as [|[|[|[|k]]]];
    [now apply S0 | now apply S1 | now apply S2 | now apply S3 | lia].
Qed.


End FieldFacts.

(* ====================================================================== *)
(** * The answer of the server to a submission *)
(* ====================================================================== *)

Module ResponseFacts.
Import JS Dom Validation Page Spec Spec2.

Lemma focusAndClear_effects (form : Form) (el : option Located) :
  Forall (fun e => match e with
                   | FocusField _ | SelectField _ | ScrollToField _
                   | FocusOther _ _ | ScrollToOther _ _ => True
                   | _ => False
                   end)
         (snd (focusAndClear form el)).
Proof.
  unfold focusAndClear. destruct el as [[i|g j]|]; [| |constructor].
  - destruct (fields form !! i) as [e|]; [|constructor].
    cbn [snd]. destruct (Tag_eqb (tagName e) SELECT); repeat constructor.
  - destruct (lookupOther g j form); repeat constructor.
Qed.

(** The handler, branch by branch. *)
Lemma saveResponse_effects (res : Response) (d : Document) :
  Forall (fun e => match e with
                   | Fetch _ | Confirm _ => False
                   | Reload =>
                       authRefused res = false
                       /\ if saysJson res
                          then exists data, json res = Some data
                                            /\ j_success data = true
                          else carriesModal res = false
                   | _ => True
                   end)
         (snd (saveResponse res d)).
Proof.
  unfold saveResponse.
  fold (authRefused res). fold (saysJson res). fold (carriesModal res).
  destruct (authRefused res) eqn:Ha.
  { eapply Forall_impl; [apply PageFacts.handleAuthFailure_effects|].
    intros []; cbn; tauto. }
  destruct (saysJson res) eqn:Hj.
  - destruct (json res) as [data|]; [|repeat constructor].
    destruct (j_success data) eqn:Hs.
    { repeat constructor. eauto. }
    destruct (j_errors data) as [errors|].
    + set (d' := set_entityModal (showFormErrors errors <$> entityModal d) d).
      set (alert := Alert _).
      destruct (entityModal d' ≫= modal_form) as [form|].
      * destruct (locateField form (fst <$> head errors)) as [l|];
          [|repeat constructor].
        destruct (focusAndClear (addClassAt "invalid" l form) (Some l))
          as [form' effs] eqn:E.
        cbn [snd]. constructor; [exact I|].
        pose proof (focusAndClear_effects
                      (addClassAt "invalid" l form) (Some l)) as H.
        rewrite E in H. cbn [snd] in H.
        eapply Forall_impl; [exact H|]. intros []; cbn; tauto.
      * destruct (fst <$> head errors) as [f|]; [|repeat constructor].
        destruct (truthy f); repeat constructor.
    + destruct (j_html data) as [html|]; [|repeat constructor].
      destruct (truthy (markup_text html)); repeat constructor.
  - destruct (carriesModal res) eqn:Hm; repeat constructor.
Qed.

(** X15.  The handler of the response to a submission reloads the page
    in exactly two cases, neither of which is an authentication failure:
    the response is JSON and reports success, or it is not JSON and does
    not carry the markup of the modal.  It never sends a request and
    never asks for a confirmation. *)
Theorem saveResponse_reloads_iff (res : Response) (d : Document) :
  (In Reload (snd (saveResponse res d)) <->
   authRefused res = false
   /\ if saysJson res
      then exists data, json res = Some data /\ j_success data = true
      else carriesModal res = false)
  /\ Forall (fun e => match e with
                      | Fetch _ | Confirm _ => False
                      | _ => True
                      end)
            (snd (saveResponse res d)).
Proof.
  pose proof (saveResponse_effects res d) as H.
  split; [split|].
  - intros Hin. eapply List.Forall_forall in H; [|exact Hin]. exact H.
  - intros [Ha Hb]. unfold saveResponse.
    fold (authRefused res). fold (saysJson res). fold (carriesModal res).
    rewrite Ha. destruct (saysJson res).
    + destruct Hb as (data & -> & ->). now left.
    + rewrite Hb. right. now left.
  - eapply Forall_impl; [exact H|]. intros []; cbn; tauto.
Qed.

(** ** Field errors *)







Section Pointwise.

Context {A : Type} (R : A -> A -> Prop).
Hypothesis R_refl : forall a, R a a.
Hypothesis R_trans : forall a b c, R a b -> R b c -> R a c.




End Pointwise.

















End ResponseFacts.

(* ====================================================================== *)
(** * Normalized links and the click router *)
(* ====================================================================== *)

Module DispatchFacts.
Import JS Dom Router Dispatch Spec Spec2 RuntimeFacts RegexFacts RouterFacts.

(** ** Literal words, both ways *)

Lemma fold_letter_sound (x c : ascii) :
  isLower c = true -> Ascii.eqb (foldCase x) (foldCase c) = true ->
  toLowerChar x = toLowerChar c.
Proof.
  intros Hc H. destruct (lower_letter_fixed c Hc) as [Hl Hf].
  rewrite Hf in H. apply Ascii.eqb_eq in H. rewrite Hl.
  unfold foldCase in H. unfold toLowerChar.
  destruct (isUpper x) eqn:Eu; cbn [orb]; [exact H|]. subst x.
  unfold toLowerChar in Hl. rewrite Eu in Hl. exact Hl.
Qed.

Lemma in_run_Lit (w : string) :
  allChars isLower w -> w <> "" ->
  forall (s : string) (g : captures) (c rest : string) (g' : captures),
    In (c, rest, g') (run true (Lit w) s g) <->
    sameIgnoringCase c w /\ s = c +:+ rest /\ g' = g.
Proof.
  intros Hw Hne s g c rest g'. split.
  - revert Hw Hne s g c rest g'.
    induction w as [|a w IH]; intros Hw Hne s g c rest g' H; [contradiction|].
    destruct Hw as [Ha Hw]. destruct w as [|a' w'].
    + cbn [Lit run] in H. apply in_oneChar in H as (x & t & -> & Hx & [= -> -> ->]).
      split; [|split; reflexivity].
      split; [now apply fold_letter_sound | exact I].
    + change (Lit (String a (String a' w')))
        with (Seq (Chr a) (Lit (String a' w'))) in H.
      apply in_run_Seq in H as (c1 & s1 & g1 & c2 & s2 & g2 & H1 & H2 & E).
      injection E as -> -> ->.
      cbn [run] in H1.
      apply in_oneChar in H1 as (x & t & -> & Hx & E).
      injection E as -> -> ->.
      apply IH in H2 as (Hc2 & -> & ->); [|exact Hw | discriminate].
      split; [|split; reflexivity].
      rewrite app_cons, app_nil_l.
      split; [now apply fold_letter_sound | exact Hc2].
  - intros (Hc & -> & ->). now apply run_Lit_word.
Qed.

Lemma sameIgnoringCase_length (a : string) : forall b : string,
  sameIgnoringCase a b -> String.length a = String.length b.
Proof.
  induction a as [|x a IH]; intros [|y b] H; cbn in H; try contradiction.
  - reflexivity.
  - destruct H as [_ H]. cbn. now rewrite (IH b H).
Qed.

Lemma sameIgnoringCase_noSlash (a w : string) :
  allChars isLower w -> sameIgnoringCase a w -> noSlash a.
Proof.
  revert w. induction a as [|x a IH]; intros [|y w] Hw H; cbn in H;
    try contradiction; [exact I|].
  destruct Hw as [Hy Hw]. destruct H as [Hx H].
  split; [|now apply (IH w)].
  unfold isSegmentChar. destruct (Ascii.eqb_spec x "/") as [->|]; [|reflexivity].
  exfalso. destruct (lower_letter_fixed y Hy) as [Hl _]. rewrite Hl in Hx.
  subst y. discriminate Hy.
Qed.

(** ** The end of a link *)

Lemma in_run_closing (s : string) (g : captures) (o : outcome) :
  In o (run true (Seq (Opt (Chr "/")) Eol) s g) <->
  closing s /\ o = (s, "", g).
Proof.
  destruct o as [[c rest] g']. rewrite in_run_Seq. split.
  - intros (c1 & s1 & g1 & c2 & s2 & g2 & H1 & H2 & E).
    injection E as -> -> ->.
    apply in_run_Eol in H2 as (Hs1 & E). injection E as E1 E2 E3.
    subst s1 c2 s2 g2.
    apply in_run_Opt in H1 as [H1 | E].
    + apply in_run_slash in H1 as (t & Hs & E). injection E as E1 E2 E3.
      subst c1 t g1 s. split; [now right | reflexivity].
    + injection E as E1 E2 E3. subst c1 s g1.
      split; [now left | reflexivity].
  - intros [Hs E]. injection E as -> -> ->.
    exists s, "", g, "", "", g.
    split; [|split; [apply in_run_Eol; now split | now rewrite app_nil_r]].
    apply in_run_Opt. destruct Hs as [-> | ->]; [now right|].
    left. apply in_run_slash. now exists "".
Qed.

(** A segment followed by a closing: the segment is determined. *)
Lemma segment_closing_unique (a b sa sb : string) :
  noSlash a -> noSlash b -> closing sa -> closing sb ->
  a +:+ sa = b +:+ sb -> a = b /\ sa = sb.
Proof.
  intros Ha Hb [-> | ->] [-> | ->] H; rewrite ?app_nil_r in H.
  - now split.
  - exfalso. rewrite H in Ha. exact (noSlash_app_slash b "" Ha).
  - exfalso. rewrite <- H in Hb. exact (noSlash_app_slash a "" Hb).
  - destruct (split_at_slash a b "" "" Ha Hb H) as [-> _]. now split.
Qed.

(** ** The head of the three patterns: [/<ent>/] *)

Lemma in_run_link_head (R : regex) (ent x : string) (o : outcome) :
  ent <> "" -> noSlash ent ->
  (In o (run true (Seq (Chr "/") (Seq (Group 1 segment) (Seq (Chr "/") R)))
             (String "/" (ent +:+ String "/" x)) [])
   <-> exists c rest g,
         In (c, rest, g) (run true R x [(1%nat, ent)])
         /\ o = (String "/" (ent +:+ String "/" c), rest, g)).
Proof.
  intros Hne Hent. split.
  - intros H.
    apply in_run_Seq in H as (c1 & s1 & g1 & c2 & s2 & g2 & H1 & H & ->).
    apply in_run_slash in H1 as (t & [= <-] & [= -> -> ->]).
    apply in_run_Seq in H as (c3 & s3 & g3 & c4 & s4 & g4 & H3 & H & [= -> -> ->]).
    apply in_run_Group in H3 as (c5 & s5 & g5 & H3 & [= -> -> ->]).
    apply in_run_segment in H3 as (c6 & r6 & Hs & Hne6 & Hc & [= -> -> ->]).
    apply in_run_Seq in H as (c7 & s7 & g7 & c8 & s8 & g8 & H7 & H & [= -> -> ->]).
    apply in_run_slash in H7 as (t7 & -> & [= -> -> ->]).
    destruct (split_at_slash ent c6 x t7 Hent Hc Hs) as [<- <-].
    exists c8, s8, g8. split; [exact H|].
    now rewrite !app_cons, !app_nil_l.
  - intros (c & rest & g & H & ->).
    apply in_run_Seq.
    exists "/", (ent +:+ String "/" x), [], (ent +:+ String "/" c), rest, g.
    split; [apply in_run_slash; eexists; split; reflexivity|].
    split; [|reflexivity].
    apply in_run_Seq.
    exists ent, (String "/" x), [(1%nat, ent)], (String "/" c), rest, g.
    split; [apply in_run_Group; exists ent, (String "/" x), [];
            split; [|reflexivity];
            apply in_run_segment; exists ent, (String "/" x);
            repeat split; assumption|].
    split; [|reflexivity].
    apply in_run_Seq.
    exists "/", x, [(1%nat, ent)], c, rest, g.
    split; [apply in_run_slash; eexists; split; reflexivity|].
    split; [exact H | reflexivity].
Qed.

(** The head of a text that one of the patterns matches. *)
Lemma link_head_shape (R : regex) (s : string) (o : outcome) :
  In o (run true (Seq (Chr "/") (Seq (Group 1 segment) (Seq (Chr "/") R))) s []) ->
  exists ent x, s = String "/" (ent +:+ String "/" x) /\ ent <> "" /\ noSlash ent.
Proof.
  intros H.
  apply in_run_Seq in H as (c1 & s1 & g1 & c2 & s2 & g2 & H1 & H & ->).
  apply in_run_slash in H1 as (t & -> & [= -> -> ->]).
  apply in_run_Seq in H as (c3 & s3 & g3 & c4 & s4 & g4 & H3 & H & [= -> -> ->]).
  apply in_run_Group in H3 as (c5 & s5 & g5 & H3 & [= -> -> ->]).
  apply in_run_segment in H3 as (c6 & r6 & -> & Hne6 & Hc & [= -> -> ->]).
  apply in_run_Seq in H as (c7 & s7 & g7 & c8 & s8 & g8 & H7 & H & [= -> -> ->]).
  apply in_run_slash in H7 as (t7 & -> & [= -> -> ->]).
  now exists c6, t7.
Qed.

(** ** The tails *)

Lemma word_lower (w : string) :
  In w ["get"; "update"; "delete"] -> allChars isLower w /\ w <> "".
Proof.
  intros [<- | [<- | [<- | []]]]; cbn; repeat split; discriminate.
Qed.

Ltac inj E := injection E as ? ? ?; subst.

Lemma in_run_add_tail (x : string) (g : captures) (o : outcome) :
  In o (run true (Seq (Lit "get") (Seq (Opt (Chr "/")) Eol)) x g) <->
  exists op sl, x = op +:+ sl /\ sameIgnoringCase op "get" /\ closing sl
                /\ o = (x, "", g).
Proof.
  destruct (word_lower "get") as [Hlow Hne]; [now left|].
  destruct o as [[c rest] g']. rewrite in_run_Seq. split.
  - intros (c1 & s1 & g1 & c2 & s2 & g2 & H1 & H2 & E). inj E.
    apply (in_run_Lit "get" Hlow Hne) in H1 as (Hop & Hx & Hg). subst x g1.
    apply in_run_closing in H2 as (Hsl & E). inj E.
    do 2 eexists. split; [|split; [eassumption|split; [eassumption|reflexivity]]].
    reflexivity.
  - intros (op & sl & Hx & Hop & Hsl & E). inj E.
    exists op, sl, g, sl, "", g.
    split; [now apply (in_run_Lit "get" Hlow Hne)|].
    split; [now apply in_run_closing | reflexivity].
Qed.

Lemma in_run_id_tail (w x : string) (g : captures) (o : outcome) :
  allChars isLower w -> w <> "" ->
  (In o (run true (Seq (Lit w) (Seq (Chr "/") (Seq (Group 2 segment)
                  (Seq (Opt (Chr "/")) Eol)))) x g) <->
   exists op seg sl,
     x = op +:+ String "/" (seg +:+ sl)
     /\ sameIgnoringCase op w /\ seg <> "" /\ noSlash seg /\ closing sl
     /\ o = (x, "", (2%nat, seg) :: g)).
Proof.
  intros Hlow Hne. destruct o as [[c rest] g']. rewrite in_run_Seq. split.
  - intros (c1 & s1 & g1 & c2 & s2 & g2 & H1 & H2 & E). inj E.
    apply (in_run_Lit w Hlow Hne) in H1 as (Hop & Hx & Hg). subst x g1.
    apply in_run_Seq in H2 as (c3 & s3 & g3 & c4 & s4 & g4 & H3 & H4 & E).
    inj E.
    apply in_run_slash in H3 as (t & Hs1 & E). inj E.
    apply in_run_Seq in H4 as (c5 & s5 & g5 & c6 & s6 & g6 & H5 & H6 & E).
    inj E.
    apply in_run_Group in H5 as (c7 & s7 & g7 & H5 & E). inj E.
    apply in_run_segment in H5 as (seg & r & Ht & Hseg & Hns & E). inj E.
    apply in_run_closing in H6 as (Hsl & E). inj E.
    do 3 eexists.
    split; [|split; [eassumption|split; [eassumption|split;
      [eassumption|split; [eassumption|reflexivity]]]]].
    reflexivity.
  - intros (op & seg & sl & Hx & Hop & Hseg & Hns & Hsl & E). inj E.
    exists op, (String "/" (seg +:+ sl)), g, (String "/" (seg +:+ sl)), "",
           ((2%nat, seg) :: g).
    split; [now apply (in_run_Lit w Hlow Hne)|].
    split; [|reflexivity].
    apply in_run_Seq.
    exists "/", (seg +:+ sl), g, (seg +:+ sl), "", ((2%nat, seg) :: g).
    split; [apply in_run_slash; eexists; split; reflexivity|].
    split; [|reflexivity].
    apply in_run_Seq.
    exists seg, sl, ((2%nat, seg) :: g), sl, "", ((2%nat, seg) :: g).
    split; [apply in_run_Group; exists seg, sl, g; split; [|reflexivity];
            apply in_run_segment; exists seg, sl; repeat split; assumption|].
    split; [now apply in_run_closing | reflexivity].
Qed.

(** ** What the three patterns match *)

Lemma exec_anchored (p : pattern) (h : string) :
  anchored p = true ->
  exec p h = match run (icase p) (body p) h [] with
             | (c, rest, g) :: _ => Some (MatchResult "" c rest g)
             | [] => None
             end.
Proof. intros H. unfold exec, firstMatch. now rewrite H. Qed.

Lemma exec_add (h ent : string) :
  AddLink h ent ->
  exists m, exec reAddHref h = Some m /\ group 1 m = Some ent.
Proof.
  intros (op & sl & -> & Hne & Hent & Hop & Hsl).
  rewrite exec_anchored by reflexivity. cbn [icase body reAddHref].
  pose proof (in_run_link_head (Seq (Lit "get") (Seq (Opt (Chr "/")) Eol))
                ent (op +:+ sl)) as Hhead.
  destruct (run true _ (String "/" (ent +:+ String "/" (op +:+ sl))) [])
    as [|[[c rest] g] l] eqn:E.
  - exfalso.
    apply (proj2 (Hhead (String "/" (ent +:+ String "/" (op +:+ sl)), "",
                         [(1%nat, ent)]) Hne Hent)).
    exists (op +:+ sl), "", [(1%nat, ent)]. split; [|reflexivity].
    apply in_run_add_tail. now exists op, sl.
  - destruct (proj1 (Hhead (c, rest, g) Hne Hent) (or_introl eq_refl))
      as (c' & rest' & g' & Hin & Eo).
    apply in_run_add_tail in Hin as (? & ? & _ & _ & _ & Eo').
    injection Eo as -> -> ->. injection Eo' as _ _ ->.
    eexists. split; reflexivity.
Qed.

Lemma exec_add_sound (h : string) (m : matchResult) :
  exec reAddHref h = Some m -> exists ent, AddLink h ent.
Proof.
  rewrite exec_anchored by reflexivity. cbn [icase body reAddHref].
  destruct (run true _ h []) as [|[[c rest] g] l] eqn:E; [discriminate|].
  intros _.
  assert (Hin : In (c, rest, g)
                   (run true (Seq (Chr "/") (Seq (Group 1 segment) (Seq (Chr "/")
                      (Seq (Lit "get") (Seq (Opt (Chr "/")) Eol))))) h []))
    by (rewrite E; now left).
  destruct (link_head_shape _ _ _ Hin) as (ent & x & -> & Hne & Hent).
  apply in_run_link_head in Hin as (c' & rest' & g' & Hin & _); try assumption.
  apply in_run_add_tail in Hin as (op & sl & -> & Hop & Hsl & _).
  exists ent, op, sl. now repeat split.
Qed.

Lemma exec_idLink (w h ent seg : string) :
  allChars isLower w -> w <> "" ->
  IdLink w h ent seg ->
  exists m, exec (idLink w) h = Some m
            /\ group 1 m = Some ent /\ group 2 m = Some seg.
Proof.
  intros Hlow Hw (op & sl & -> & Hne & Hent & Hop & Hseg & Hns & Hsl).
  rewrite exec_anchored by reflexivity. cbn [icase body idLink].
  pose proof (in_run_link_head
                (Seq (Lit w) (Seq (Chr "/") (Seq (Group 2 segment)
                   (Seq (Opt (Chr "/")) Eol))))
                ent (op +:+ String "/" (seg +:+ sl))) as Hhead.
  destruct (run true _
              (String "/" (ent +:+ String "/" (op +:+ String "/" (seg +:+ sl))))
              [])
    as [|[[c rest] g] l] eqn:E.
  - exfalso.
    apply (proj2 (Hhead (String "/" (ent +:+ String "/"
                                       (op +:+ String "/" (seg +:+ sl))), "",
                         [(2%nat, seg); (1%nat, ent)]) Hne Hent)).
    exists (op +:+ String "/" (seg +:+ sl)), "", [(2%nat, seg); (1%nat, ent)].
    split; [|reflexivity].
    apply in_run_id_tail; [assumption | assumption|].
    now exists op, seg, sl.
  - destruct (proj1 (Hhead (c, rest, g) Hne Hent) (or_introl eq_refl))
      as (c' & rest' & g' & Hin & Eo).
    apply in_run_id_tail in Hin
      as (op' & seg' & sl' & Hx & Hop' & Hseg' & Hns' & Hsl' & Eo');
      [|assumption | assumption].
    injection Eo as -> -> ->. injection Eo' as _ _ ->.
    assert (Hno : noSlash op) by (eapply sameIgnoringCase_noSlash; eassumption).
    assert (Hno' : noSlash op') by (eapply sameIgnoringCase_noSlash; eassumption).
    destruct (split_at_slash _ _ _ _ Hno Hno' Hx) as [<- Hrest].
    destruct (segment_closing_unique _ _ _ _ Hns Hns' Hsl Hsl' Hrest) as [<- _].
    eexists. split; [reflexivity|]. split; reflexivity.
Qed.

Lemma exec_idLink_sound (w h : string) (m : matchResult) :
  allChars isLower w -> w <> "" ->
  exec (idLink w) h = Some m -> exists ent seg, IdLink w h ent seg.
Proof.
  intros Hlow Hw.
  rewrite exec_anchored by reflexivity. cbn [icase body idLink].
  destruct (run true _ h []) as [|[[c rest] g] l] eqn:E; [discriminate|].
  intros _.
  assert (Hin : In (c, rest, g)
                   (run true (Seq (Chr "/") (Seq (Group 1 segment) (Seq (Chr "/")
                      (Seq (Lit w) (Seq (Chr "/") (Seq (Group 2 segment)
                         (Seq (Opt (Chr "/")) Eol))))))) h []))
    by (rewrite E; now left).
  destruct (link_head_shape _ _ _ Hin) as (ent & x & -> & Hne & Hent).
  apply in_run_link_head in Hin as (c' & rest' & g' & Hin & _); try assumption.
  apply in_run_id_tail in Hin
    as (op & seg & sl & -> & Hop & Hseg & Hns & Hsl & _); try assumption.
  exists ent, seg, op, sl. now repeat split.
Qed.

(** The three shapes exclude one another. *)
Lemma idLink_not_add (w h ent seg ent' : string) :
  IdLink w h ent seg -> ~ AddLink h ent'.
Proof.
  intros (op & sl & -> & Hne & Hent & Hop & Hseg & Hns & Hsl)
         (op' & sl' & E & Hne' & Hent' & Hop' & Hsl').
  injection E as E.
  destruct (split_at_slash _ _ _ _ Hent Hent' E) as [<- E'].
  symmetry in E'. revert E'.
  apply no_inner_slash; [|exact Hsl' | exact Hseg].
  eapply (sameIgnoringCase_noSlash _ "get"); [|exact Hop'].
  cbn; repeat split.
Qed.

Lemma delete_not_update (h ent seg ent' seg' : string) :
  IdLink "delete" h ent seg -> ~ IdLink "update" h ent' seg'.
Proof.
  intros (op & sl & -> & Hne & Hent & Hop & Hseg & Hns & Hsl)
         (op' & sl' & E & Hne' & Hent' & Hop' & Hseg' & Hns' & Hsl').
  injection E as E.
  destruct (split_at_slash _ _ _ _ Hent Hent' E) as [<- E'].
  assert (Hno : noSlash op).
  { eapply (sameIgnoringCase_noSlash _ "delete"); [|exact Hop].
    cbn; repeat split. }
  assert (Hno' : noSlash op').
  { eapply (sameIgnoringCase_noSlash _ "update"); [|exact Hop'].
    cbn; repeat split. }
  destruct (split_at_slash _ _ _ _ Hno Hno' E') as [<- _].
  apply PageFacts.sameIgnoringCase_lower in Hop, Hop'.
  rewrite Hop in Hop'. discriminate Hop'.
Qed.

(** ** Stamping *)

Lemma stamp_twice (old v : option string) :
  stamp (stamp old v) v = stamp old v.
Proof.
  unfold stamp. f_equal.
  destruct old as [[|a o]|], v as [[|b v]|]; reflexivity.
Qed.

Lemma classAdd_twice (c : string) (cs : list string) :
  classAdd c (classAdd c cs) = classAdd c cs.
Proof.
  unfold classAdd at 1.
  now rewrite ValidatorFacts.contains_classAdd_same.
Qed.

Lemma isButtonLike_stamped (t : Target) (tr : Trigger) (c : string) :
  href tr = href (trigger t) -> c <> "btn" ->
  isButtonLike (mkTarget tr (isAnchor t) (isButtonTag t) (classAdd c (classes t)))
  = isButtonLike t.
Proof.
  intros Hh Hc. unfold isButtonLike. cbn [trigger isAnchor isButtonTag classes].
  rewrite Hh. now rewrite ValidatorFacts.contains_classAdd_other by congruence.
Qed.

(** X17.  [normalizeEntityButtons] is idempotent: a second pass over
    elements it has already stamped changes none of them. *)
Theorem normalizeEntityButtons_idempotent (scope : list Target) :
  normalizeEntityButtons (normalizeEntityButtons scope)
  = normalizeEntityButtons scope.
Proof.
  unfold normalizeEntityButtons. rewrite map_map. apply map_ext.
  intros t. unfold normalizeEntityButton at 2.
  destruct (isButtonLike t) eqn:Eb; cbn [negb];
    [|unfold normalizeEntityButton; now rewrite Eb].
  destruct (href (trigger t)) as [h|] eqn:Eh;
    [|unfold normalizeEntityButton; now rewrite Eb, Eh].
  destruct (truthy h) eqn:Et; cbn [negb];
    [|unfold normalizeEntityButton; now rewrite Eb, Eh, Et].
  destruct (exec reAddHref h) as [m1|] eqn:E1.
  { unfold normalizeEntityButton.
    rewrite isButtonLike_stamped by (cbn; congruence || discriminate).
    rewrite Eb. cbn [negb trigger href isAnchor isButtonTag classes].
    rewrite Eh, Et, E1. cbn [negb el_id href data_open_entity data_edit_entity
                               data_delete_entity data_entity data_id ancestors].
    now rewrite !stamp_twice, classAdd_twice. }
  destruct (exec reEditHref h) as [m2|] eqn:E2.
  { unfold normalizeEntityButton.
    rewrite isButtonLike_stamped by (cbn; congruence || discriminate).
    rewrite Eb. cbn [negb trigger href isAnchor isButtonTag classes].
    rewrite Eh, Et, E1, E2.
    cbn [negb el_id href data_open_entity data_edit_entity
         data_delete_entity data_entity data_id ancestors].
    now rewrite !stamp_twice, classAdd_twice. }
  destruct (exec reDelHref h) as [m3|] eqn:E3.
  { unfold normalizeEntityButton.
    rewrite isButtonLike_stamped by (cbn; congruence || discriminate).
    rewrite Eb. cbn [negb trigger href isAnchor isButtonTag classes].
    rewrite Eh, Et, E1, E2, E3.
    cbn [negb el_id href data_open_entity data_edit_entity
         data_delete_entity data_entity data_id ancestors].
    now rewrite !stamp_twice, classAdd_twice. }
  unfold normalizeEntityButton. now rewrite Eb, Eh, Et, E1, E2, E3.
Qed.

(** X18.  The click router never calls a handler without what it needs:
    the entity it passes is never empty, the id passed to [editEntity] or
    [deleteEntity] is never empty, and the default action of the click
    is prevented exactly when an entity was found for a matching
    element. *)
Theorem routeClick_never_empty (path : list Target) :
  match call (routeClick path) with
  | OpenEntityModal entity => entity <> ""
  | EditEntity entity id | DeleteEntity entity id => entity <> "" /\ id <> ""
  | Warn _ | NoCall => True
  end
  /\ (defaultPrevented (routeClick path) = false ->
      call (routeClick path) = NoCall)
  /\ (defaultPrevented (routeClick path) = true <->
      exists t, List.find matchesEntityBtn path = Some t
                /\ getEntityFromElement (Some (trigger t)) <> "").
Proof.
  unfold routeClick.
  destruct (List.find matchesEntityBtn path) as [t|].
  - destruct (truthy (getEntityFromElement (Some (trigger t)))) eqn:Ee;
      cbn [negb].
    + apply ValidationFacts.truthy_true_iff in Ee.
      cbn [call defaultPrevented].
      split; [|split; [discriminate|]].
      * destruct (matchesAdd t); [exact Ee|].
        destruct (matchesEdit t).
        { destruct (truthy (getIdFromElement (Some (trigger t)))) eqn:Ei;
            cbn [negb]; [|exact I].
          split; [exact Ee | now apply ValidationFacts.truthy_true_iff]. }
        destruct (matchesDelete t); [|exact I].
        destruct (truthy (getIdFromElement (Some (trigger t)))) eqn:Ei;
          cbn [negb]; [|exact I].
        split; [exact Ee | now apply ValidationFacts.truthy_true_iff].
      * split; [intros _; now exists t | reflexivity].
    + apply ValidationFacts.truthy_false_iff in Ee.
      cbn [call defaultPrevented].
      split; [exact I|]. split; [reflexivity|].
      split; [discriminate|]. intros (t' & [= <-] & H). contradiction.
  - cbn [call defaultPrevented].
    split; [exact I|]. split; [reflexivity|].
    split; [discriminate|]. intros (t' & H & _). discriminate.
Qed.

(** ** From a link to a call *)

Lemma truthy_nonempty (s : string) : s <> "" -> truthy s = true.
Proof. now destruct s. Qed.

Lemma normalize_add (t : Target) (h ent : string) :
  isButtonLike t = true -> href (trigger t) = Some h ->
  NoDataAttributes (trigger t) -> AddLink h ent ->
  normalizeEntityButton t
  = mkTarget (mkTrigger (el_id (trigger t)) (Some h) (Some ent) None None
                        (Some ent) None (ancestors (trigger t)))
             (isAnchor t) (isButtonTag t) (classAdd "btn-add" (classes t)).
Proof.
  intros Hb Hh (H1 & H2 & H3 & H4 & H5) Hadd.
  destruct (exec_add h ent Hadd) as (m & Hm & Hg).
  unfold normalizeEntityButton. rewrite Hb, Hh. cbn [negb].
  assert (Ht : truthy h = true)
    by (destruct Hadd as (? & ? & -> & _); reflexivity).
  rewrite Ht, Hm, Hg, H1, H2, H3, H4, H5. cbn [negb].
  reflexivity.
Qed.

Lemma normalize_edit (t : Target) (h ent seg : string) :
  isButtonLike t = true -> href (trigger t) = Some h ->
  NoDataAttributes (trigger t) -> IdLink "update" h ent seg ->
  normalizeEntityButton t
  = mkTarget (mkTrigger (el_id (trigger t)) (Some h) None (Some ent) None
                        (Some ent) (Some seg) (ancestors (trigger t)))
             (isAnchor t) (isButtonTag t) (classAdd "btn-edit" (classes t)).
Proof.
  intros Hb Hh (H1 & H2 & H3 & H4 & H5) Hid.
  destruct (word_lower "update") as [Hlow Hw]; [right; now left|].
  destruct (exec_idLink "update" h ent seg Hlow Hw Hid) as (m & Hm & Hg1 & Hg2).
  assert (Hadd : exec reAddHref h = None).
  { destruct (exec reAddHref h) as [m'|] eqn:E; [|reflexivity].
    destruct (exec_add_sound h m' E) as [ent' Hadd].
    destruct (idLink_not_add _ _ _ _ ent' Hid Hadd). }
  unfold normalizeEntityButton. rewrite Hb, Hh. cbn [negb].
  assert (Ht : truthy h = true)
    by (destruct Hid as (? & ? & -> & _); reflexivity).
  unfold reEditHref.
  rewrite Ht, Hadd, Hm, Hg1, Hg2, H1, H2, H3, H4, H5. cbn [negb].
  reflexivity.
Qed.

Lemma normalize_delete (t : Target) (h ent seg : string) :
  isButtonLike t = true -> href (trigger t) = Some h ->
  NoDataAttributes (trigger t) -> IdLink "delete" h ent seg ->
  normalizeEntityButton t
  = mkTarget (mkTrigger (el_id (trigger t)) (Some h) None None (Some ent)
                        (Some ent) (Some seg) (ancestors (trigger t)))
             (isAnchor t) (isButtonTag t) (classAdd "btn-delete" (classes t)).
Proof.
  intros Hb Hh (H1 & H2 & H3 & H4 & H5) Hid.
  destruct (word_lower "delete") as [Hlow Hw]; [right; right; now left|].
  destruct (word_lower "update") as [Hlow' Hw']; [right; now left|].
  destruct (exec_idLink "delete" h ent seg Hlow Hw Hid) as (m & Hm & Hg1 & Hg2).
  assert (Hadd : exec reAddHref h = None).
  { destruct (exec reAddHref h) as [m'|] eqn:E; [|reflexivity].
    destruct (exec_add_sound h m' E) as [ent' Hadd].
    destruct (idLink_not_add _ _ _ _ ent' Hid Hadd). }
  assert (Hedit : exec reEditHref h = None).
  { destruct (exec reEditHref h) as [m'|] eqn:E; [|reflexivity].
    destruct (exec_idLink_sound "update" h m' Hlow' Hw' E) as (ent' & seg' & Hup).
    destruct (delete_not_update _ _ _ _ _ Hid Hup). }
  unfold normalizeEntityButton. rewrite Hb, Hh. cbn [negb].
  assert (Ht : truthy h = true)
    by (destruct Hid as (? & ? & -> & _); reflexivity).
  rewrite Ht, Hadd, Hedit. unfold reDelHref.
  rewrite Hm, Hg1, Hg2, H1, H2, H3, H4, H5. cbn [negb].
  reflexivity.
Qed.

Lemma entity_of_stamped (id : string) (h : option string)
  (a b c : option string) (ent : string) (i : option string)
  (ancs : list Ancestor) :
  ent <> "" ->
  (a = Some ent \/ (a = None /\ (b = Some ent \/ (b = None /\ c = Some ent)))) ->
  getEntityFromElement (Some (mkTrigger id h a b c (Some ent) i ancs)) = ent.
Proof.
  intros Hne H. unfold getEntityFromElement.
  cbn [data_open_entity data_edit_entity data_delete_entity data_entity].
  pose proof (truthy_nonempty ent Hne) as Ht.
  destruct H as [-> | [-> [-> | [-> ->]]]]; cbn [orElse]; rewrite Ht;
    cbn [orEmpty]; now rewrite Ht.
Qed.

Lemma id_of_stamped (id : string) (h : option string)
  (a b c e : option string) (seg : string) (ancs : list Ancestor) :
  seg <> "" ->
  getIdFromElement (Some (mkTrigger id h a b c e (Some seg) ancs))
  = stripColon seg.
Proof.
  intros Hne. unfold getIdFromElement. cbn [data_id orElse].
  rewrite (truthy_nonempty seg Hne). cbn [orEmpty].
  rewrite (truthy_nonempty seg Hne). cbn [negb].
  apply replace_leading_colon.
Qed.

Lemma unmarked_ignored (t : Target) :
  Unmarked t -> routeClick [t] = mkRouted false NoCall.
Proof.
  intros (Hno & Ca & Ce & Cd & Ci).
  unfold routeClick. cbn [List.find]. unfold matchesEntityBtn.
  destruct Hno as (-> & -> & -> & _). rewrite Ca, Ce, Cd, Ci. reflexivity.
Qed.

Lemma route_add (t : Target) (h ent : string) (rest : list Target) :
  isButtonLike t = true -> href (trigger t) = Some h -> Unmarked t ->
  AddLink h ent ->
  routeClick (normalizeEntityButton t :: rest)
  = mkRouted true (OpenEntityModal ent).
Proof.
  intros Hb Hh (Hno & Ca & Ce & Cd & Ci) Hadd.
  rewrite (normalize_add t h ent Hb Hh Hno Hadd).
  destruct Hadd as (_ & _ & _ & Hne & _).
  unfold routeClick. cbn [List.find]. unfold matchesEntityBtn at 1.
  cbn [trigger data_open_entity bool_decide decide_rel orb].
  change (bool_decide (is_Some (Some ent))) with true. cbn [orb].
  cbn [trigger]. rewrite entity_of_stamped by (assumption || now left).
  rewrite (truthy_nonempty ent Hne). cbn [negb].
  unfold matchesAdd. cbn [trigger data_open_entity].
  change (bool_decide (is_Some (Some ent))) with true. reflexivity.
Qed.

Lemma route_edit (t : Target) (h ent seg : string) (rest : list Target) :
  isButtonLike t = true -> href (trigger t) = Some h -> Unmarked t ->
  IdLink "update" h ent seg ->
  routeClick (normalizeEntityButton t :: rest)
  = mkRouted true (if truthy (stripColon seg)
                   then EditEntity ent (stripColon seg)
                   else Warn "Edit clicked without id").
Proof.
  intros Hb Hh (Hno & Ca & Ce & Cd & Ci) Hid.
  rewrite (normalize_edit t h ent seg Hb Hh Hno Hid).
  destruct Hid as (_ & _ & _ & Hne & _ & _ & Hseg & _).
  unfold routeClick. cbn [List.find]. unfold matchesEntityBtn at 1.
  cbn [trigger data_open_entity data_edit_entity].
  change (bool_decide (is_Some (Some ent))) with true.
  rewrite orb_true_r. cbn [orb trigger].
  rewrite entity_of_stamped
    by (assumption || (right; split; [reflexivity | now left])).
  rewrite id_of_stamped by assumption.
  rewrite (truthy_nonempty ent Hne). cbn [negb].
  unfold matchesAdd, matchesEdit.
  cbn [trigger data_open_entity data_edit_entity classes el_id].
  rewrite ValidatorFacts.contains_classAdd_other by discriminate.
  rewrite Ca, Ci.
  change (bool_decide (is_Some (@None string))) with false.
  change (bool_decide (is_Some (Some ent))) with true. cbn [orb].
  now destruct (truthy (stripColon seg)).
Qed.

Lemma route_delete (t : Target) (h ent seg : string) (rest : list Target) :
  isButtonLike t = true -> href (trigger t) = Some h -> Unmarked t ->
  IdLink "delete" h ent seg ->
  routeClick (normalizeEntityButton t :: rest)
  = mkRouted true (if truthy (stripColon seg)
                   then DeleteEntity ent (stripColon seg)
                   else Warn "Delete clicked without id").
Proof.
  intros Hb Hh (Hno & Ca & Ce & Cd & Ci) Hid.
  rewrite (normalize_delete t h ent seg Hb Hh Hno Hid).
  destruct Hid as (_ & _ & _ & Hne & _ & _ & Hseg & _).
  unfold routeClick. cbn [List.find]. unfold matchesEntityBtn at 1.
  cbn [trigger data_open_entity data_edit_entity data_delete_entity].
  change (bool_decide (is_Some (Some ent))) with true.
  change (bool_decide (is_Some (@None string))) with false.
  cbn [orb trigger].
  rewrite entity_of_stamped
    by (assumption || (right; split; [reflexivity | right; now split])).
  rewrite id_of_stamped by assumption.
  rewrite (truthy_nonempty ent Hne). cbn [negb].
  unfold matchesAdd, matchesEdit, matchesDelete.
  cbn [trigger data_open_entity data_edit_entity data_delete_entity
       classes el_id].
  rewrite !ValidatorFacts.contains_classAdd_other by discriminate.
  rewrite Ca, Ce, Ci.
  change (bool_decide (is_Some (@None string))) with false.
  change (bool_decide (is_Some (Some ent))) with true. cbn [orb].
  now destruct (truthy (stripColon seg)).
Qed.

(** X19.  A link (or button) that carries none of the data attributes and
    classes the router goes by is ignored by the router; once
    [normalizeEntityButtons] has stamped it, a click on it opens the
    create form of [ent] when its target is [/ent/get], edits
    [(ent, id)] when it is [/ent/update/id] and deletes [(ent, id)] when
    it is [/ent/delete/id], with or without a closing slash and whatever
    the case of the word; the id passed has lost one leading colon, and a
    target whose id is a lone colon only logs a warning. *)
Theorem normalized_link_routes
  (t : Target) (h ent : string) (rest : list Target) :
  isButtonLike t = true -> href (trigger t) = Some h -> Unmarked t ->
  routeClick [t] = mkRouted false NoCall
  /\ (AddLink h ent ->
      routeClick (normalizeEntityButton t :: rest)
      = mkRouted true (OpenEntityModal ent))
  /\ (forall seg, IdLink "update" h ent seg ->
        routeClick (normalizeEntityButton t :: rest)
        = mkRouted true (if truthy (stripColon seg)
                         then EditEntity ent (stripColon seg)
                         else Warn "Edit clicked without id"))
  /\ (forall seg, IdLink "delete" h ent seg ->
        routeClick (normalizeEntityButton t :: rest)
        = mkRouted true (if truthy (stripColon seg)
                         then DeleteEntity ent (stripColon seg)
                         else Warn "Delete clicked without id")).
Proof.
  intros Hb Hh Hun.
  split; [now apply unmarked_ignored|].
  split; [intros H; now apply (route_add t h)|].
  split; intros seg H; [now apply (route_edit t h) | now apply (route_delete t h)].
Qed.

Lemma normalized_link_routes_witness :
  routeClick [anchorTo "/client/Delete/:42/"] = mkRouted false NoCall
  /\ (AddLink "/client/Delete/:42/" "client" ->
      routeClick (normalizeEntityButton (anchorTo "/client/Delete/:42/") :: [])
      = mkRouted true (OpenEntityModal "client"))
  /\ (forall seg, IdLink "update" "/client/Delete/:42/" "client" seg ->
        routeClick (normalizeEntityButton (anchorTo "/client/Delete/:42/") :: [])
        = mkRouted true (if truthy (stripColon seg)
                         then EditEntity "client" (stripColon seg)
                         else Warn "Edit clicked without id"))
  /\ (forall seg, IdLink "delete" "/client/Delete/:42/" "client" seg ->
        routeClick (normalizeEntityButton (anchorTo "/client/Delete/:42/") :: [])
        = mkRouted true (if truthy (stripColon seg)
                         then DeleteEntity "client" (stripColon seg)
                         else Warn "Delete clicked without id")).
Proof.
  apply (normalized_link_routes (anchorTo "/client/Delete/:42/")
           "/client/Delete/:42/" "client" []).
  - reflexivity.
  - reflexivity.
  - repeat split; reflexivity.
Defined.

End DispatchFacts.

(* ====================================================================== *)
(** * The address a deletion is posted to *)
(* ====================================================================== *)

Module DeleteFacts.
Import JS Dom Router Dispatch Page Spec Spec2 RuntimeFacts RegexFacts
       RouterFacts DispatchFacts.

Lemma allChars_app (p : ascii -> bool) (a b : string) :
  allChars p (a +:+ b) <-> allChars p a /\ allChars p b.
Proof.
  induction a as [|c a IH].
  - rewrite app_nil_l. cbn. tauto.
  - rewrite app_cons. cbn. rewrite IH. tauto.
Qed.

Lemma encode_cons (c : ascii) (t : string) :
  encodeURIComponent (String c t)
  = encodeURIComponent (String c "") +:+ encodeURIComponent t.
Proof. cbn [encodeURIComponent]. now rewrite app_nil_r. Qed.

(** What one character becomes: a text that is not empty, holds no slash
    and does not start with a colon. *)
Lemma encode_char (c : ascii) :
  exists x r, encodeURIComponent (String c "") = String x r
              /\ x <> ":"%char /\ noSlash (String x r).
Proof.
  destruct c as [[] [] [] [] [] [] [] []];
    (eexists _, _; split; [vm_compute; reflexivity|];
     split; [discriminate | repeat split]).
Qed.

Lemma encode_noSlash (s : string) : noSlash (encodeURIComponent s).
Proof.
  induction s as [|c s IH]; [exact I|].
  rewrite encode_cons. apply allChars_app. split; [|exact IH].
  destruct (encode_char c) as (x & r & -> & _ & H). exact H.
Qed.

Lemma encode_nonempty (s : string) :
  s <> "" -> encodeURIComponent s <> "" /\ stripColon (encodeURIComponent s)
                                          = encodeURIComponent s.
Proof.
  destruct s as [|c s]; [contradiction|]. intros _.
  rewrite encode_cons.
  destruct (encode_char c) as (x & r & -> & Hx & _).
  rewrite app_cons. split; [discriminate|].
  cbn [stripColon]. destruct (Ascii.eqb_spec x ":"); [contradiction | reflexivity].
Qed.

Lemma toLowerCase_nonempty (s : string) : s <> "" -> toLowerCase s <> "".
Proof. now destruct s. Qed.

(** Lower-case letters and digits are sent as they are. *)
Lemma plain_char (c : ascii) :
  isLower c || isDigit c = true ->
  encodeURIComponent (String c "") = String c ""
  /\ toLowerChar c = c /\ isSpace c = false /\ c <> ":"%char.
Proof.
  destruct c as [[] [] [] [] [] [] [] []]; vm_compute;
    intros H; try discriminate H; repeat split; discriminate.
Qed.

Lemma plain_text (s : string) :
  allChars (fun c => isLower c || isDigit c) s ->
  encodeURIComponent s = s /\ toLowerCase s = s /\ removeSpaces s = s
  /\ stripColon s = s.
Proof.
  induction s as [|c s IH]; [now repeat split|].
  intros [Hc Hs]. destruct (IH Hs) as (H1 & H2 & H3 & _).
  destruct (plain_char c Hc) as (E1 & E2 & E3 & E4).
  rewrite encode_cons, E1, H1. cbn [toLowerCase removeSpaces stripColon].
  rewrite E2, E3, H2, H3.
  destruct (Ascii.eqb_spec c ":"); [contradiction|]. now repeat split.
Qed.

Lemma allChars_impl (p q : ascii -> bool) (s : string) :
  (forall c, p c = true -> q c = true) -> allChars p s -> allChars q s.
Proof.
  intros H. induction s as [|c s IH]; [trivial|].
  intros [Hc Hs]. split; [now apply H | now apply IH].
Qed.

Lemma isButtonLike_anchor (x : string) :
  isButtonLike (anchorTo (String "/" x)) = true.
Proof.
  unfold isButtonLike, anchorTo, linkTo.
  cbn [trigger isAnchor href andb String.prefix].
  destruct (ascii_dec "/" "/") as [_|H]; [|now destruct H].
  now destruct x.
Qed.

(** X20.  After the confirmation, for a role other than master and an
    entity other than the permissions page, [deleteEntity] posts to
    [/<ent>/delete/<id>/], where [ent] is the entity name without white
    space, in lower case and escaped, and [id] the identifier without one
    leading colon, escaped.  That address is a delete link: the router,
    once the link is normalized, resolves it to a deletion of
    [(ent, id)].  For a name made of lower-case letters and digits and
    such an identifier, nothing is escaped, and the router calls
    [deleteEntity] with the very entity and identifier the address was
    built from. *)
Theorem deleteEntity_posts_to_delete_link
  (d : Document) (entity id : string) (rest : list Target) :
  getCurrentRole d <> "master" -> isUserPermEntity entity = false ->
  removeSpaces entity <> "" -> stripColon id <> "" ->
  exists url,
    deleteEntity d true entity id
    = [Confirm "Are you sure you want to delete this item?";
       Fetch (mkRequest url "POST" (ajaxHeaders d "application/json") [])]
    /\ IdLink "delete" url
              (encodeURIComponent (toLowerCase (removeSpaces entity)))
              (encodeURIComponent (stripColon id))
    /\ routeClick (normalizeEntityButton (anchorTo url) :: rest)
       = mkRouted true
           (DeleteEntity (encodeURIComponent (toLowerCase (removeSpaces entity)))
                         (encodeURIComponent (stripColon id)))
    /\ (allChars (fun c => isLower c || isDigit c) entity ->
        allChars (fun c => isLower c || isDigit c) id ->
        url = deleteUrl entity id
        /\ routeClick (normalizeEntityButton (anchorTo url) :: rest)
           = mkRouted true (DeleteEntity entity id)).
Proof.
  intros Hrole Hperm Hent Hid.
  set (ent := encodeURIComponent (toLowerCase (removeSpaces entity))).
  set (seg := encodeURIComponent (stripColon id)).
  exists (String "/" (ent +:+ String "/" ("delete" +:+ String "/" (seg +:+ "/")))).
  assert (Hlink : IdLink "delete"
                    (String "/" (ent +:+ String "/"
                       ("delete" +:+ String "/" (seg +:+ "/")))) ent seg).
  { exists "delete", "/". split; [reflexivity|].
    split; [apply encode_nonempty, toLowerCase_nonempty, Hent|].
    split; [apply encode_noSlash|].
    split; [cbn; tauto|].
    split; [apply encode_nonempty, Hid|].
    split; [apply encode_noSlash | now right]. }
  assert (Hroute : routeClick
                     (normalizeEntityButton
                        (anchorTo (String "/" (ent +:+ String "/"
                           ("delete" +:+ String "/" (seg +:+ "/"))))) :: rest)
                   = mkRouted true (DeleteEntity ent seg)).
  { rewrite (route_delete
               (anchorTo (String "/" (ent +:+ String "/"
                  ("delete" +:+ String "/" (seg +:+ "/")))))
               (String "/" (ent +:+ String "/"
                  ("delete" +:+ String "/" (seg +:+ "/"))))
               ent seg rest (isButtonLike_anchor _) eq_refl);
      [|repeat split; reflexivity | exact Hlink].
    destruct (encode_nonempty (stripColon id) Hid) as [Hne Hstrip].
    fold seg in Hne, Hstrip. rewrite Hstrip.
    now rewrite (truthy_nonempty seg Hne). }
  split; [|split; [exact Hlink|split; [exact Hroute|]]].
  - unfold deleteEntity. cbn [negb].
    destruct (String.eqb_spec (getCurrentRole d) "master"); [contradiction|].
    rewrite Hperm, replace_leading_colon. reflexivity.
  - intros He Hi.
    destruct (plain_text entity He) as (E1 & E2 & E3 & _).
    destruct (plain_text id Hi) as (I1 & _ & _ & I4).
    assert (ent = entity) as Eent by (subst ent; now rewrite E3, E2, E1).
    assert (seg = id) as Eseg by (subst seg; now rewrite I4, I1).
    rewrite Hroute, Eent, Eseg. split; reflexivity.
Qed.

Lemma deleteEntity_posts_to_delete_link_witness :
  exists url,
    deleteEntity (pageWithRole "Staff") true "Loan Application" ":17"
    = [Confirm "Are you sure you want to delete this item?";
       Fetch (mkRequest url "POST"
                (ajaxHeaders (pageWithRole "Staff") "application/json") [])]
    /\ IdLink "delete" url
              (encodeURIComponent (toLowerCase (removeSpaces "Loan Application")))
              (encodeURIComponent (stripColon ":17"))
    /\ routeClick (normalizeEntityButton (anchorTo url) :: [])
       = mkRouted true
           (DeleteEntity
              (encodeURIComponent (toLowerCase (removeSpaces "Loan Application")))
              (encodeURIComponent (stripColon ":17")))
    /\ (allChars (fun c => isLower c || isDigit c) "Loan Application" ->
        allChars (fun c => isLower c || isDigit c) ":17" ->
        url = deleteUrl "Loan Application" ":17"
        /\ routeClick (normalizeEntityButton (anchorTo url) :: [])
           = mkRouted true (DeleteEntity "Loan Application" ":17")).
Proof.
  apply (deleteEntity_posts_to_delete_link (pageWithRole "Staff")
           "Loan Application" ":17" []).
  - vm_compute. discriminate.
  - vm_compute. reflexivity.
  - vm_compute. discriminate.
  - vm_compute. discriminate.
Defined.

End DeleteFacts.

(* ====================================================================== *)
(** * Permission check boxes *)
(* ====================================================================== *)

Module PermissionFacts.
Import JS Dom Permissions Spec Spec2.

Lemma forallb_const (b : bool) (l : list bool) :
  l <> [] -> forallb (fun c => c) (map (fun _ => b) l) = b.
Proof.
  induction l as [|x l IH]; [contradiction|]. intros _.
  cbn [map forallb]. destruct l as [|y l].
  - cbn. apply andb_true_r.
  - rewrite IH by discriminate. now destruct b.
Qed.

(** X21.  Whatever the state before, a click on the select-all box or on
    a box of a group that is not empty leaves the select-all box checked
    exactly when every box of the group is checked; a click on the
    select-all box gives its state to every box of the group, and a
    click on a box changes no other box.  For an empty group the
    select-all box does not follow: unchecking it leaves it unchecked
    while every box of the group is (vacuously) checked. *)
Theorem groupClick_coherent (e : GroupClick) (g : Group) :
  boxes g <> [] ->
  match e with
  | ClickSelectAll => True
  | ClickBox i => (i < length (boxes g))%nat
  end ->
  groupCoherent (groupClick e g)
  /\ length (boxes (groupClick e g)) = length (boxes g)
  /\ match e with
     | ClickSelectAll =>
         selectAll (groupClick e g) = negb (selectAll g)
         /\ Forall (fun c => c = negb (selectAll g)) (boxes (groupClick e g))
     | ClickBox i =>
         boxes (groupClick e g) = alter negb i (boxes g)
     end
  /\ ~ groupCoherent (groupClick ClickSelectAll (mkGroup true [])).
Proof.
  intros Hne He. unfold groupCoherent.
  split; [|split; [|split]].
  - destruct e as [|i]; cbn [groupClick].
    + cbn [onSelectAllChange selectAll boxes].
      now rewrite forallb_const.
    + apply Nat.ltb_lt in He. rewrite He. reflexivity.
  - destruct e as [|i]; cbn [groupClick].
    + cbn [onSelectAllChange selectAll boxes]. apply length_map.
    + apply Nat.ltb_lt in He. rewrite He.
      cbn [onBoxChange boxes]. apply length_alter.
  - destruct e as [|i]; cbn [groupClick].
    + cbn [onSelectAllChange selectAll boxes]. split; [reflexivity|].
      apply Forall_forall. intros c Hc.
      apply list_elem_of_fmap in Hc as (x & -> & _). reflexivity.
    + apply Nat.ltb_lt in He. now rewrite He.
  - cbn. discriminate.
Qed.

Lemma groupClick_coherent_witness :
  groupCoherent (groupClick (ClickBox 1) (mkGroup false [true; false; true]))
  /\ length (boxes (groupClick (ClickBox 1) (mkGroup false [true; false; true])))
     = length (boxes (mkGroup false [true; false; true]))
  /\ boxes (groupClick (ClickBox 1) (mkGroup false [true; false; true]))
     = alter negb 1%nat (boxes (mkGroup false [true; false; true]))
  /\ ~ groupCoherent (groupClick ClickSelectAll (mkGroup true [])).
Proof.
  apply (groupClick_coherent (ClickBox 1) (mkGroup false [true; false; true])).
  - discriminate.
  - cbn. lia.
Defined.

(** ** Role switches *)

Lemma roleClick_perms (r : Role) (s : Switches) :
  perms (roleClick r s)
  = map (fun cb => mkPerm (perm cb)
                          (negb (roleOn r s) && grants r cb)
                          (negb (roleOn r s) && grants r cb && locks r))
        (perms s).
Proof.
  unfold roleClick, onRoleChange, clearAll.
  destruct r; cbn [flip master staff report perms roleOn grants locks].
  - destruct (master s); cbn [negb perms andb];
      rewrite ?map_map; apply map_ext; intros cb; reflexivity.
  - destruct (staff s); cbn [negb perms andb];
      rewrite ?map_map; apply map_ext; intros cb; cbn [perm hasPerm];
      [reflexivity|].
    unfold hasPerm. cbn [perm].
    destruct (match perm cb with Some p => includes "loanapplication" p
                               | None => false end); reflexivity.
  - destruct (report s); cbn [negb perms andb];
      rewrite ?map_map; apply map_ext; intros cb; cbn [perm hasPerm];
      [reflexivity|].
    unfold hasPerm. cbn [perm].
    destruct (match perm cb with Some p => includes "fieldschedule" p
                               | None => false end
              || match perm cb with Some p => includes "fieldreport" p
                                  | None => false end); reflexivity.
Qed.

Lemma roleClick_switch (r : Role) (s : Switches) :
  roleOn r (roleClick r s) = negb (roleOn r s)
  /\ (roleOn r s = false ->
      forall r', r' <> r -> roleOn r' (roleClick r s) = false)
  /\ (roleOn r s = true ->
      forall r', r' <> r -> roleOn r' (roleClick r s) = roleOn r' s).
Proof.
  unfold roleClick, onRoleChange.
  destruct r; cbn [flip master staff report perms roleOn].
  - destruct (master s); cbn [negb roleOn master staff report];
      (split; [reflexivity|]); (split; [intros H | intros H]);
      try discriminate; intros [] Hr; try contradiction; reflexivity.
  - destruct (staff s); cbn [negb roleOn master staff report];
      (split; [reflexivity|]); (split; [intros H | intros H]);
      try discriminate; intros [] Hr; try contradiction; reflexivity.
  - destruct (report s); cbn [negb roleOn master staff report];
      (split; [reflexivity|]); (split; [intros H | intros H]);
      try discriminate; intros [] Hr; try contradiction; reflexivity.
Qed.

(** X22.  A click on a role switch decides the permission boxes alone,
    whatever they held before: when it turns the switch on, exactly the
    permissions of the role are checked (all of them for master, those
    of the loan applications for staff, those of the field schedules
    and field reports for report) and, except for master, locked, and
    the two other switches are turned off; when it turns the switch
    off, every permission box is unchecked and unlocked and the other
    switches are left alone. *)
Theorem roleClick_sets_permissions (r : Role) (s : Switches) :
  roleOn r (roleClick r s) = negb (roleOn r s)
  /\ perms (roleClick r s)
     = map (fun cb => mkPerm (perm cb)
                             (roleOn r (roleClick r s) && grants r cb)
                             (roleOn r (roleClick r s) && grants r cb && locks r))
           (perms s)
  /\ (roleOn r (roleClick r s) = true ->
      forall r', r' <> r -> roleOn r' (roleClick r s) = false)
  /\ (roleOn r (roleClick r s) = false ->
      forall r', r' <> r -> roleOn r' (roleClick r s) = roleOn r' s).
Proof.
  destruct (roleClick_switch r s) as (H1 & H2 & H3).
  split; [exact H1|]. split; [|split].
  - rewrite H1. apply roleClick_perms.
  - rewrite H1. intros H. apply H2. now apply negb_true_iff.
  - rewrite H1. intros H. apply H3. now apply negb_false_iff.
Qed.

Lemma atMostOneRole_step (r : Role) (s : Switches) :
  atMostOneRole s -> atMostOneRole (roleClick r s).
Proof.
  unfold atMostOneRole, roleClick, onRoleChange.
  destruct r; cbn [flip master staff report perms];
    destruct (master s), (staff s), (report s);
    cbn [negb master staff report]; intuition congruence.
Qed.

(** X23.  Through any sequence of clicks on the role switches, starting
    from a page where at most one switch is on, at most one switch is
    on; and once a switch has been clicked, a permission box is locked
    only if it is checked, and none is checked when the three switches
    are off. *)
Theorem roleClicks_invariant (rs : list Role) (s : Switches) :
  atMostOneRole s ->
  atMostOneRole (roleClicks rs s)
  /\ (rs <> [] ->
      Forall (fun cb => p_disabled cb = true -> p_checked cb = true)
             (perms (roleClicks rs s))
      /\ (master (roleClicks rs s) = false ->
          staff (roleClicks rs s) = false ->
          report (roleClicks rs s) = false ->
          Forall (fun cb => p_checked cb = false) (perms (roleClicks rs s)))).
Proof.
  revert s. induction rs as [|r rs IH] using rev_ind; intros s Hs.
  - split; [exact Hs | contradiction].
  - unfold roleClicks in *. rewrite fold_left_app. cbn [fold_left].
    destruct (IH s Hs) as [Hone _].
    set (s1 := fold_left (fun s r => roleClick r s) rs s) in *.
    split; [now apply atMostOneRole_step|]. intros _.
    pose proof (roleClick_perms r s1) as Hp.
    destruct (roleClick_switch r s1) as (Hon & _ & _).
    rewrite <- Hon in Hp.
    split.
    + rewrite Hp. apply Forall_forall. intros cb Hcb.
      apply list_elem_of_fmap in Hcb as (x & -> & _).
      cbn [p_disabled p_checked]. intros H.
      now apply andb_true_iff in H as [H _].
    + intros Hm Hst Hr. rewrite Hp. apply Forall_forall. intros cb Hcb.
      apply list_elem_of_fmap in Hcb as (x & -> & _). cbn [p_checked].
      assert (roleOn r (roleClick r s1) = false) as ->
        by (destruct r; assumption).
      reflexivity.
Qed.

Lemma roleClicks_invariant_witness :
  atMostOneRole
    (roleClicks [Master; Report; Report]
       (mkSwitches false true false
          [mkPerm (Some "view_loanapplication") true true;
           mkPerm (Some "delete_loanapplication") false false]))
  /\ Forall (fun cb => p_checked cb = false)
            (perms
               (roleClicks [Master; Report; Report]
                  (mkSwitches false true false
                     [mkPerm (Some "view_loanapplication") true true;
                      mkPerm (Some "delete_loanapplication") false false]))).
Proof.
  destruct (roleClicks_invariant [Master; Report; Report]
              (mkSwitches false true false
                 [mkPerm (Some "view_loanapplication") true true;
                  mkPerm (Some "delete_loanapplication") false false]))
    as [H1 H2].
  - split; [discriminate | reflexivity].
  - split; [exact H1|].
    destruct (H2 ltac:(discriminate)) as [_ H3].
    apply H3; reflexivity.
Defined.


End PermissionFacts.

(* ====================================================================== *)
(** * The login overlay *)
(* ====================================================================== *)

Module LoginFacts.
Import JS Dom Page Login Spec Spec2.

Lemma showInlineLoginError_displays (m : string) (d : Document) :
  errorDisplayed (shown (showInlineLoginError m d)).
Proof.
  unfold showInlineLoginError, errorDisplayed, shown.
  assert (Hne : (if truthy m then m else "Invalid credentials.") <> "").
  { destruct m; discriminate. }
  destruct (loginError d) as [box|]; cbn [fst snd page effects].
  - left. eexists. split; [reflexivity|]. split; [reflexivity | exact Hne].
  - right. eexists. split; [reflexivity | exact Hne].
Qed.

Lemma showInlineLoginError_otp (m : string) (d : Document) (v : bool) :
  errorDisplayed
    (shown (showInlineLoginError m
              (mkPage (body d) (csrfToken d) (entityModal d) (loginModal d)
                      (loginUsername d) (loginPassword d)
                      ((fun _ => v) <$> otpBlock d)
                      (loginError d) (loginSubmit d) (focusTimers d)))).
Proof. apply showInlineLoginError_displays. Qed.

(** X24.  The handler of the answer to a login leaves the page for
    another address exactly when the answer is accepted: JSON, with a
    status other than 400, 401 and 403, and a body that reports success.
    It then closes the overlay and goes to the address the body names,
    or to the dashboard.  In every other case it stays on the page and
    puts an error on display, in the error box or, failing that, in an
    alert. *)
Theorem loginResponse_navigates_iff (res : LoginResponse) (d : Document) :
  (navigatedTo (loginResponse res d) <> None <-> loginAccepted res = true)
  /\ (loginAccepted res = true ->
      exists data url,
        l_json res = Some data
        /\ loginResponse res d = mkLoginOutcome (closeLoginModal d) [] (Some url)
        /\ url <> ""
        /\ (forall u, l_redirect_url data = Some u -> u <> "" -> url = u)
        /\ (l_redirect_url data = None -> url = "/dashboard/"))
  /\ (loginAccepted res = false -> errorDisplayed (loginResponse res d)).
Proof.
  unfold loginAccepted, loginResponse.
  set (json := includes "application/json"
                        (toLowerCase (orEmpty (l_contentType res)))).
  set (refused := ((l_status res =? 401)%Z || (l_status res =? 400)%Z
                   || (l_status res =? 403)%Z)).
  destruct json eqn:Ej; cbn [negb andb];
    rewrite ?andb_false_r; cbn [negb andb].
  - destruct refused eqn:Er; cbn [negb andb].
    + split; [split; [intros H; now destruct H | discriminate]|].
      split; [discriminate|]. intros _. apply showInlineLoginError_displays.
    + destruct (l_json res) as [data|].
      * destruct (l_success data) eqn:Es.
        -- split; [split; [reflexivity | discriminate]|].
           split; [|discriminate]. intros _.
           exists data, (orEmpty (orElse (l_redirect_url data) (Some "/dashboard/"))).
           split; [reflexivity|]. split; [reflexivity|].
           destruct (l_redirect_url data) as [[|c u]|]; cbn.
           ++ split; [discriminate|]. split; [|discriminate].
              intros u [= <-] H. contradiction.
           ++ split; [discriminate|]. split; [|discriminate].
              now intros u' [= <-] _.
           ++ split; [discriminate|]. split; [discriminate | reflexivity].
        -- split; [split; [intros H; now destruct H | discriminate]|].
           split; [discriminate|]. intros _.
           destruct (l_require_otp data).
           ++ apply showInlineLoginError_otp.
           ++ apply showInlineLoginError_displays.
      * split; [split; [intros H; now destruct H | discriminate]|].
        split; [discriminate|]. intros _. apply showInlineLoginError_displays.
  - assert (Hshown : forall b : bool,
               errorDisplayed
                 (if b then shown (showInlineLoginError "Invalid credentials." d)
                  else shown (showInlineLoginError "Invalid credentials." d))).
    { intros []; apply showInlineLoginError_displays. }
    destruct (l_redirected res); cbn [andb].
    + split; [split; [intros H; now destruct H | discriminate]|].
      split; [discriminate|]. intros _. apply showInlineLoginError_displays.
    + destruct refused.
      * split; [split; [intros H; now destruct H | discriminate]|].
        split; [discriminate|]. intros _. apply showInlineLoginError_displays.
      * split; [split; [intros H; now destruct H | discriminate]|].
        split; [discriminate|]. intros _. apply showInlineLoginError_displays.
Qed.

Lemma classRemove_classAdd (c : string) (cs : list string) :
  classRemove c (classAdd c cs) = classRemove c cs.
Proof.
  unfold classAdd. destruct (contains c cs); [reflexivity|].
  unfold classRemove. rewrite List.filter_app. cbn.
  rewrite String.eqb_refl. cbn. apply app_nil_r.
Qed.

Lemma resetLoginModalState_twice (d : Document) :
  resetLoginModalState (resetLoginModalState d) = resetLoginModalState d.
Proof.
  unfold resetLoginModalState.
  cbn [body csrfToken entityModal loginModal loginUsername loginPassword
       otpBlock loginError loginSubmit].
  destruct (loginUsername d), (loginPassword d), (otpBlock d),
    (loginError d), (loginSubmit d); reflexivity.
Qed.

Lemma overlay_inputs_cleared (d d' : Document) (lm : LoginModal) :
  loginModal d = Some lm ->
  d' = fst (openLoginModal d) \/ d' = closeLoginModal d
  \/ (exists m, d' = fst (handleAuthFailure m d)) ->
  loginUsername d' = (fun _ => mkLoginInput "" true true) <$> loginUsername d
  /\ loginPassword d' = (fun _ => mkLoginInput "" true true) <$> loginPassword d
  /\ loginSubmit d' = (fun _ => true) <$> loginSubmit d.
Proof.
  intros Hlm [-> | [-> | [m ->]]].
  - unfold openLoginModal. rewrite Hlm. cbn. now repeat split.
  - unfold closeLoginModal. rewrite Hlm. cbn. now repeat split.
  - unfold handleAuthFailure, openLoginModal, showInlineLoginError.
    rewrite Hlm. unfold resetLoginModalState. cbn.
    destruct (loginError d); cbn; now repeat split.
Qed.

Lemma overlay_timer_queued (d d' : Document) (lm : LoginModal) (u : TextInput) :
  loginModal d = Some lm -> loginUsername d = Some u ->
  d' = fst (openLoginModal d) \/ (exists m, d' = fst (handleAuthFailure m d)) ->
  focusTimers d' = S (focusTimers d).
Proof.
  intros Hlm Hu [-> | [m ->]].
  - unfold openLoginModal. rewrite Hlm. cbn. now rewrite Hu.
  - unfold handleAuthFailure, openLoginModal, showInlineLoginError.
    rewrite Hlm. unfold resetLoginModalState. cbn. rewrite Hu.
    destruct (loginError d); reflexivity.
Qed.

(** X25.  The overlay never keeps what was typed: opening it, closing
    it, or failing authentication leaves the user name and the password
    empty and read-only, with the listeners that unlock them bound, and
    the submit button disabled, and [updateSubmitState] keeps that button
    disabled until both inputs hold something other than white space.
    Opening the overlay (by itself or on an authentication failure) queues
    one call of [focus] on the user name, closing it queues none; once the
    handler has returned the queued calls run, after the warning that
    [handleAuthFailure] logs: when the first of them gives the focus to
    the user name, that input is writable (and still empty), while the
    password stays read-only; when it does not, both stay read-only.
    Resetting is idempotent. *)
Theorem login_overlay_cleared (d : Document) (lm : LoginModal) :
  loginModal d = Some lm ->
  (forall d', d' = fst (openLoginModal d) \/ d' = closeLoginModal d
              \/ (exists m, d' = fst (handleAuthFailure m d)) ->
     loginUsername d' = (fun _ => mkLoginInput "" true true) <$> loginUsername d
     /\ loginPassword d' = (fun _ => mkLoginInput "" true true) <$> loginPassword d
     /\ loginSubmit d' = (fun _ => true) <$> loginSubmit d
     /\ forall focused,
          loginSubmit (updateSubmitState focused d') = loginSubmit d')
  /\ (forall d' u,
        loginUsername d = Some u ->
        d' = fst (openLoginModal d) \/ (exists m, d' = fst (handleAuthFailure m d)) ->
        focusTimers d' = S (focusTimers d)
        /\ (forall takes,
              snd (runTimers takes d') = repeat FocusLoginUsername (S (focusTimers d))
              /\ focusTimers (fst (runTimers takes d')) = 0%nat
              /\ loginPassword (fst (runTimers takes d')) = loginPassword d')
        /\ loginUsername (fst (runTimers true d'))
           = Some (mkLoginInput "" false false)
        /\ loginUsername (fst (runTimers false d')) = loginUsername d')
  /\ focusTimers (closeLoginModal d) = focusTimers d
  /\ (forall m,
        exists shown,
          snd (handleAuthFailure m d) = shown ++ [ConsoleWarn "Auth required"]
          /\ Forall (fun e => e <> FocusLoginUsername) shown)
  /\ resetLoginModalState (resetLoginModalState d) = resetLoginModalState d
  /\ (forall focused,
        loginSubmit (updateSubmitState focused d)
        = (fun _ => negb (nonBlank (loginUsername d)
                          && nonBlank (loginPassword d))) <$> loginSubmit d).
Proof.
  intros Hlm.
  split; [|split; [|split; [|split; [|split]]]].
  - intros d' Hd'.
    destruct (overlay_inputs_cleared d d' lm Hlm Hd') as (Hu & Hp & Hs).
    split; [exact Hu|]. split; [exact Hp|]. split; [exact Hs|].
    intros focused. unfold updateSubmitState. cbn [loginSubmit].
    rewrite Hu, Hs. destruct (loginUsername d), (loginSubmit d); reflexivity.
  - intros d' u Hu Hd'.
    pose proof (overlay_timer_queued d d' lm u Hlm Hu Hd') as Ht.
    assert (Hd3 : d' = fst (openLoginModal d) \/ d' = closeLoginModal d
                  \/ (exists m, d' = fst (handleAuthFailure m d)))
      by (destruct Hd' as [H | H]; [now left | right; now right]).
    destruct (overlay_inputs_cleared d d' lm Hlm Hd3) as (Hu' & _ & _).
    rewrite Hu in Hu'. cbn in Hu'.
    split; [exact Ht|].
    unfold runTimers. rewrite Ht, Hu'. cbn.
    split; [|split; reflexivity].
    intros takes. now repeat split.
  - unfold closeLoginModal. now rewrite Hlm.
  - intros m. unfold handleAuthFailure, openLoginModal. rewrite Hlm.
    destruct (showInlineLoginError _ _) as [d2 e2] eqn:E.
    exists e2. split; [reflexivity|].
    unfold showInlineLoginError in E.
    destruct (loginError _); injection E as _ <-; repeat constructor.
    discriminate.
  - apply resetLoginModalState_twice.
  - intros focused. reflexivity.
Qed.

Lemma login_overlay_cleared_witness :
  fst (handleAuthFailure "" (pageWithForm [textInput "name" "Asha"]))
  = mkPage None "token"
      (entityModal (pageWithForm [textInput "name" "Asha"]))
      (Some (mkLoginModal ["show"] "flex"))
      (Some (mkLoginInput "" true true)) (Some (mkLoginInput "" true true))
      (Some true)
      (Some (mkErrorBox "Not authenticated." false "block" (Some "alert")
                        (Some "assertive")))
      (Some true) 1
  /\ snd (handleAuthFailure "" (pageWithForm [textInput "name" "Asha"]))
     ++ snd (runTimers true
               (fst (handleAuthFailure "" (pageWithForm [textInput "name" "Asha"]))))
     = [ConsoleWarn "Auth required"; FocusLoginUsername]
  /\ loginUsername
       (fst (runTimers true
               (fst (handleAuthFailure "" (pageWithForm [textInput "name" "Asha"])))))
     = Some (mkLoginInput "" false false)
  /\ loginPassword
       (fst (runTimers true
               (fst (handleAuthFailure "" (pageWithForm [textInput "name" "Asha"])))))
     = Some (mkLoginInput "" true true).
Proof.
  destruct (login_overlay_cleared (pageWithForm [textInput "name" "Asha"])
              (mkLoginModal [] "none") eq_refl)
    as (_ & H & _).
  destruct (H (fst (handleAuthFailure "" (pageWithForm [textInput "name" "Asha"])))
              (mkTextInput "asha" false) eq_refl)
    as (_ & _ & Hu & _).
  { right. now exists "". }
  split; [reflexivity|]. split; [reflexivity|]. split; [exact Hu | reflexivity].
Defined.

End LoginFacts.

(* ====================================================================== *)
(** * Installing a form in the modal *)
(* ====================================================================== *)

Module InstallFacts.
Import JS Dom Validation Router Page Spec Spec2 ValidationFacts ValidatorFacts.

Lemma ensureFormErrorBox_frame (m : Modal) :
  modal_form (ensureFormErrorBox m) = modal_form m
  /\ modal_save (ensureFormErrorBox m) = modal_save m
  /\ modal_display (ensureFormErrorBox m) = modal_display m.
Proof.
  unfold ensureFormErrorBox.
  destruct (form_errors m); [now repeat split|].
  destruct (modal_body m); now repeat split.
Qed.

Lemma setupSaveButtonHandler_frame (m : Modal) :
  modal_form (setupSaveButtonHandler m) = modal_form m
  /\ modal_display (setupSaveButtonHandler m) = modal_display m
  /\ modal_save (setupSaveButtonHandler m)
     = (fun b => mkButton (btn_disabled b) (btn_classList b) (btn_text b) true)
         <$> modal_save m.
Proof.
  unfold setupSaveButtonHandler.
  destruct (modal_save m) as [b|] eqn:E; [|now rewrite E].
  destruct (btn_boundAjax b) eqn:Eb; cbn; [|now repeat split].
  rewrite E. repeat split. cbn. f_equal. destruct b; cbn in *. now subst.
Qed.

Lemma prepareFormValidation_eq (m : Modal) (form : Form) (btn : Button) :
  modal_form m = Some form -> modal_save m = Some btn ->
  modal_form (prepareFormValidation m)
  = Some (if areAllVisibleFieldsFilled form && allDatesValid form
          then fst (validateForm form) else form)
  /\ modal_save (prepareFormValidation m)
     = Some (mkButton (negb (gateHolds form))
               (classToggle "save-disabled" (negb (gateHolds form))
                  (classAdd "save-disabled" (btn_classList btn)))
               (btn_text btn) (btn_boundAjax btn))
  /\ modal_display (prepareFormValidation m) = modal_display m.
Proof.
  intros Hf Hb. unfold prepareFormValidation. rewrite Hf, Hb.
  rewrite recomputeSaveEnabled_eq. cbn. now repeat split.
Qed.

Lemma prepareFormValidation_no_button (m : Modal) :
  modal_save m = None -> prepareFormValidation m = m.
Proof.
  intros H. unfold prepareFormValidation. rewrite H.
  now destruct (modal_form m).
Qed.

(** The last steps of [insertEntityModal]: the modal is shown, its dates
    are put in display form, the save handler is bound and the gate is
    computed. *)
Lemma finish_install (m : Modal) (form : Form) :
  modal_form m = Some form ->
  let m' :=
    prepareFormValidation
      (setupSaveButtonHandler
         (ensureFormErrorBox
            (set_modal_form (Some (formatDateFields form))
                            (set_modal_display "flex" m)))) in
  modal_display m' = "flex"
  /\ match modal_save m with
     | Some btn =>
         modal_form m'
         = Some (if areAllVisibleFieldsFilled (formatDateFields form)
                    && allDatesValid (formatDateFields form)
                 then fst (validateForm (formatDateFields form))
                 else formatDateFields form)
         /\ modal_save m'
            = Some (mkButton (negb (gateHolds (formatDateFields form)))
                      (classToggle "save-disabled"
                         (negb (gateHolds (formatDateFields form)))
                         (classAdd "save-disabled" (btn_classList btn)))
                      (btn_text btn) true)
     | None =>
         modal_form m' = Some (formatDateFields form) /\ modal_save m' = None
     end.
Proof.
  intros Hf. cbn zeta.
  set (m1 := set_modal_form (Some (formatDateFields form))
                            (set_modal_display "flex" m)).
  destruct (ensureFormErrorBox_frame m1) as (E1 & E2 & E3).
  destruct (setupSaveButtonHandler_frame (ensureFormErrorBox m1))
    as (S1 & S2 & S3).
  rewrite E1 in S1. rewrite E3 in S2. rewrite E2 in S3.
  cbn [m1 modal_form modal_save modal_display set_modal_form
       set_modal_display] in S1, S2, S3.
  destruct (modal_save m) as [btn|] eqn:Eb.
  - cbn in S3.
    destruct (prepareFormValidation_eq _ _ _ S1 S3) as (P1 & P2 & P3).
    rewrite P3, S2. split; [reflexivity|]. split; [exact P1 | exact P2].
  - cbn in S3. rewrite (prepareFormValidation_no_button _ S3).
    split; [exact S2|]. split; [exact S1 | exact S3].
Qed.

Lemma insert_modal_eq (entity : string) (html : Markup) (mode : string)
  (id : option string) (pathname : string) (today : Z) (d : Document) :
  entityModal (fst (insertEntityModal entity html mode id pathname today d))
  = Some
      (let m0 :=
         match markup_modal html with
         | Some rm =>
             set_modal_display "flex"
               (ensureFormErrorBox
                  (set_modal_form
                     (setAction entity (getEntityBase entity pathname) mode id
                        <$> modal_form rm) rm))
         | None =>
             set_modal_form
               ((fun form =>
                   let form := setAction entity (getEntityBase entity pathname)
                                         mode id form in
                   if String.eqb mode "Create"
                   then set_fields (map (prefillDate (formatToday today))
                                        (fields form)) form
                   else form) <$> markup_form html)
               (set_modal_display "flex" modalSkeleton)
         end in
       prepareFormValidation
         (setupSaveButtonHandler
            (ensureFormErrorBox
               (set_modal_form (formatDateFields <$> modal_form m0)
                               (set_modal_display "flex" m0))))).
Proof.
  unfold insertEntityModal.
  destruct (markup_modal html) as [rm|]; reflexivity.
Qed.

Lemma setAction_endpoint (entity base mode : string) (id : option string)
  (f : Form) :
  action (setAction entity base mode id f) = endpoint base mode id (action f)
  /\ form_entity (setAction entity base mode id f) = Some entity
  /\ fields (setAction entity base mode id f) = fields f.
Proof.
  unfold setAction, endpoint. cbn [action form_entity fields].
  now rewrite RouterFacts.replace_leading_colon.
Qed.

Lemma validateForm_values (form : Form) :
  map value (fields (fst (validateForm form))) = map value (fields form).
Proof.
  rewrite validateForm_fields.
  destruct (firstEl (snd (validateForm form))) as [j|]; [|reflexivity].
  apply list_eq. intros i. rewrite !list_lookup_fmap.
  destruct (Nat.eq_dec j i) as [->|Hne].
  - rewrite list_lookup_alter_eq. now destruct (fields form !! i).
  - now rewrite list_lookup_alter_ne.
Qed.

(** The form a finished installation leaves, from the form [form] it
    started with. *)
Lemma installed_form (m : Modal) (form : Form) :
  modal_form m = Some form ->
  exists f',
    modal_form
      (prepareFormValidation
         (setupSaveButtonHandler
            (ensureFormErrorBox
               (set_modal_form (Some (formatDateFields form))
                               (set_modal_display "flex" m))))) = Some f'
    /\ action f' = action form /\ form_entity f' = form_entity form
    /\ map value (fields f') = map (fun el => value (formatDateField el))
                                   (fields form)
    /\ forall btn, modal_save m = Some btn ->
         exists b,
           modal_save
             (prepareFormValidation
                (setupSaveButtonHandler
                   (ensureFormErrorBox
                      (set_modal_form (Some (formatDateFields form))
                                      (set_modal_display "flex" m))))) = Some b
           /\ buttonCoherent b /\ btn_boundAjax b = true
           /\ (btn_disabled b = false <-> Gate f').
Proof.
  intros Hf.
  destruct (finish_install m form Hf) as [_ H].
  assert (Hvals : map value (fields (formatDateFields form))
                  = map (fun el => value (formatDateField el)) (fields form)).
  { unfold formatDateFields. cbn [fields set_fields set_others]. now rewrite map_map. }
  destruct (modal_save m) as [btn|].
  - destruct H as [H1 H2].
    destruct (gated_cases (formatDateFields form)) as (Hc & _ & Hsame & _).
    eexists. split; [exact H1|].
    split.
    { destruct Hc as [-> | [_ ->]]; [reflexivity|].
      now destruct (validateForm_frame (formatDateFields form)) as [-> _]. }
    split.
    { destruct Hc as [-> | [_ ->]]; [reflexivity|].
      now destruct (validateForm_frame (formatDateFields form)) as [_ ->]. }
    split.
    { destruct Hc as [-> | [_ ->]]; [exact Hvals|].
      now rewrite validateForm_values. }
    intros btn' [= <-]. eexists. split; [exact H2|].
    split.
    { apply (classToggle_coherent "save-disabled"). }
    split; [reflexivity|].
    cbn [btn_disabled]. rewrite negb_false_iff, <- Hsame.
    unfold gateHolds. rewrite <- (saveEnabled_eq _ btn).
    apply saveEnabled_iff.
  - destruct H as [H1 _]. eexists. split; [exact H1|].
    split; [reflexivity|]. split; [reflexivity|]. split; [exact Hvals|].
    discriminate.
Qed.


Lemma install_from_modal (entity : string) (html : Markup)
  (mode : string) (id : option string) (pathname : string) (today : Z)
  (d : Document) (rm : Modal) (f : Form) :
  markup_modal html = Some rm -> modal_form rm = Some f ->
  exists f',
    liveForm (fst (insertEntityModal entity html mode id pathname today d))
    = Some f'
    /\ action f' = endpoint (getEntityBase entity pathname) mode id (action f)
    /\ form_entity f' = Some entity
    /\ map value (fields f')
       = map (fun el => value (formatDateField el)) (fields f)
    /\ forall btn, modal_save rm = Some btn ->
         exists b,
           liveButton (fst (insertEntityModal entity html mode id pathname
                              today d)) = Some b
           /\ buttonCoherent b /\ btn_boundAjax b = true
           /\ (btn_disabled b = false <-> Gate f').
Proof.
  intros Hrm Hf. unfold liveForm, liveButton.
  rewrite insert_modal_eq. cbn zeta. rewrite Hrm.
  set (m0 := set_modal_display "flex" _).
  destruct (setAction_endpoint entity (getEntityBase entity pathname) mode id f)
    as (A1 & A2 & A3).
  assert (Hm0 : modal_form m0
                = Some (setAction entity (getEntityBase entity pathname) mode id f)).
  { subst m0. cbn [modal_form set_modal_display].
    destruct (ensureFormErrorBox_frame
                (set_modal_form
                   (setAction entity (getEntityBase entity pathname) mode id
                      <$> modal_form rm) rm)) as (-> & _).
    cbn [modal_form set_modal_form]. now rewrite Hf. }
  rewrite Hm0. cbn [fmap option_fmap option_map].
  destruct (installed_form m0 _ Hm0) as (f' & H1 & H2 & H3 & H4 & H5).
  exists f'. split; [exact H1|]. split; [now rewrite H2|].
  split; [now rewrite H3|]. split; [now rewrite H4, A3|].
  intros btn Hbtn. apply (H5 btn).
  subst m0. cbn [modal_save set_modal_display].
  now destruct (ensureFormErrorBox_frame
                  (set_modal_form
                     (setAction entity (getEntityBase entity pathname) mode id
                        <$> modal_form rm) rm)) as (_ & -> & _).
Qed.

Lemma install_from_form (entity : string) (html : Markup)
  (mode : string) (id : option string) (pathname : string) (today : Z)
  (d : Document) (f : Form) :
  markup_modal html = None -> markup_form html = Some f ->
  exists f' b,
    liveForm (fst (insertEntityModal entity html mode id pathname today d))
    = Some f'
    /\ action f' = endpoint (getEntityBase entity pathname) mode id (action f)
    /\ form_entity f' = Some entity
    /\ map value (fields f')
       = map (fun el =>
                value (formatDateField
                         (if String.eqb mode "Create"
                          then prefillDate (formatToday today) el else el)))
             (fields f)
    /\ liveButton (fst (insertEntityModal entity html mode id pathname
                          today d)) = Some b
    /\ buttonCoherent b /\ btn_boundAjax b = true
    /\ (btn_disabled b = false <-> Gate f').
Proof.
  intros Hnone Hf. unfold liveForm, liveButton.
  rewrite insert_modal_eq. cbn zeta. rewrite Hnone, Hf.
  cbn [fmap option_fmap option_map].
  set (f0 := if String.eqb mode "Create" then _ else _).
  set (m0 := set_modal_form (Some f0) _).
  assert (Hm0 : modal_form m0 = Some f0) by reflexivity.
  rewrite Hm0. cbn [fmap option_fmap option_map].
  destruct (installed_form m0 _ Hm0) as (f' & H1 & H2 & H3 & H4 & H5).
  destruct (H5 (mkButton true ["btn"; "btn-primary"; "save-disabled"] "Save" false)
               eq_refl) as (b & B1 & B2 & B3 & B4).
  destruct (setAction_endpoint entity (getEntityBase entity pathname) mode id f)
    as (A1 & A2 & A3).
  exists f', b. split; [exact H1|].
  assert (Hf0 : action f0 = endpoint (getEntityBase entity pathname) mode id (action f)
                /\ form_entity f0 = Some entity
                /\ fields f0
                   = map (fun el => if String.eqb mode "Create"
                                    then prefillDate (formatToday today) el
                                    else el) (fields f)).
  { subst f0. destruct (String.eqb mode "Create").
    - cbn [action form_entity fields set_fields]. now rewrite A1, A2, A3.
    - rewrite A1, A2, A3. split; [reflexivity|]. split; [reflexivity|].
      now rewrite map_id. }
  destruct Hf0 as (F1 & F2 & F3).
  split; [now rewrite H2|]. split; [now rewrite H3|].
  split; [now rewrite H4, F3, map_map|].
  split; [exact B1|]. split; [exact B2|]. split; [exact B3 | exact B4].
Qed.


End InstallFacts.

(* ====================================================================== *)
(** * Requests for a form, and their answers *)
(* ====================================================================== *)

Module RequestFacts.
Import JS Dom Validation Router Page Requests Spec Spec2 RuntimeFacts
       RegexFacts RouterFacts.

(** ** The permissions page *)

Lemma isUserPermEntity_word (entity : string) :
  IsUserPerm entity -> isUserPermEntity entity = true.
Proof.
  assert (Hlow : allChars isLower "userpermission" /\ "userpermission" <> "")
    by (cbn; repeat split; discriminate).
  destruct Hlow as [Hlow Hne].
  assert (Hrun : forall (op sl : string),
             sameIgnoringCase op "userpermission" ->
             (sl = "" \/ exists x, sl = String x "" /\ toLowerChar x = "s"%char) ->
             run true (JS.body reUserPerm) (op +:+ sl) [] <> []).
  { intros op sl Hop Hsl.
    assert (Hin : In (op +:+ sl +:+ "", "", [])
                     (run true (JS.body reUserPerm) (op +:+ sl) [])).
    { unfold reUserPerm. cbn [JS.body].
      apply in_run_Seq. exists op, sl, [], (sl +:+ ""), "", [].
      split; [now apply run_Lit_word|]. split; [|reflexivity].
      apply in_run_Seq. exists sl, "", [], "", "", [].
      split; [|split; [apply in_run_Eol; now split | reflexivity]].
      apply in_run_Opt. destruct Hsl as [-> | (x & -> & Hx)]; [now right|].
      left. cbn [run]. apply in_oneChar. exists x, "".
      split; [reflexivity|]. split; [|reflexivity].
      apply fold_matches_letter; [reflexivity | exact Hx]. }
    intros E. rewrite E in Hin. exact Hin. }
  intros [H | H]; unfold isUserPermEntity, test;
    rewrite DispatchFacts.exec_anchored by reflexivity;
    change (icase reUserPerm) with true.
  - specialize (Hrun entity "" H (or_introl eq_refl)).
    rewrite app_nil_r in Hrun.
    now destruct (run true (JS.body reUserPerm) entity []) as [|[[? ?] ?] ?].
  - assert (Hsplit : exists op x,
               entity = op +:+ String x ""
               /\ sameIgnoringCase op "userpermission"
               /\ toLowerChar x = "s"%char).
    { do 15 (destruct entity as [|? entity]; [contradiction|];
             destruct H as [? H]).
      destruct entity; [|contradiction].
      eexists (String _ (String _ (String _ (String _ (String _ (String _
                (String _ (String _ (String _ (String _ (String _ (String _
                (String _ (String _ "")))))))))))))), _.
      split; [reflexivity|]. split; [|eassumption].
      cbn. repeat split; assumption. }
    destruct Hsplit as (op & x & -> & Hop & Hx).
    specialize (Hrun op (String x "") Hop
                     (or_intror (ex_intro _ x (conj eq_refl Hx)))).
    now destruct (run true (JS.body reUserPerm) (op +:+ String x "") [])
      as [|[[? ?] ?] ?].
Qed.

Lemma IsUserPerm_nonempty (entity : string) : IsUserPerm entity -> entity <> "".
Proof. intros [H | H]; destruct entity; try discriminate; contradiction. Qed.

(** X27.  The permissions page has no table behind it, and no request
    for one of its records is ever sent: for the entity name
    "userpermission" or "userpermissions", in any letter case,
    [editEntity] and [deleteEntity] send nothing, whatever the id, the
    role and the answer to the prompt, and [openEntityModal] requests
    the form only from the permissions page itself and otherwise goes
    to that page. *)
Theorem userperm_never_requested (entity : string) :
  IsUserPerm entity ->
  (forall id pathname,
      Forall (fun e => isFetch e = false) (editEntity entity id pathname))
  /\ (forall d confirmed id,
        Forall (fun e => isFetch e = false) (deleteEntity d confirmed entity id))
  /\ (forall pathname,
        openEntityModal (ByName entity) pathname
        = if test reUserPermPage pathname
          then ([Fetch (mkRequest (getEntityBase entity pathname +:+ "get/")
                          "GET" loadHeaders [])], None)
          else ([], Some "/UserPermission/")).
Proof.
  intros H. pose proof (isUserPermEntity_word entity H) as Hp.
  pose proof (IsUserPerm_nonempty entity H) as Hne.
  split; [|split].
  - intros id pathname. unfold editEntity. rewrite Hp.
    destruct (negb (truthy entity) || negb (truthy id)); repeat constructor.
  - intros d confirmed id. unfold deleteEntity. rewrite Hp.
    destruct confirmed; cbn [negb]; [|repeat constructor].
    destruct (String.eqb (getCurrentRole d) "master"); repeat constructor.
  - intros pathname. unfold openEntityModal. cbn [orEmpty].
    rewrite (DispatchFacts.truthy_nonempty entity Hne), Hp. cbn [negb andb].
    now destruct (test reUserPermPage pathname).
Qed.

Lemma userperm_never_requested_witness :
  (forall id pathname,
      Forall (fun e => isFetch e = false)
             (editEntity "UserPermissions" id pathname))
  /\ (forall d confirmed id,
        Forall (fun e => isFetch e = false)
               (deleteEntity d confirmed "UserPermissions" id))
  /\ (forall pathname,
        openEntityModal (ByName "UserPermissions") pathname
        = if test reUserPermPage pathname
          then ([Fetch (mkRequest
                          (getEntityBase "UserPermissions" pathname +:+ "get/")
                          "GET" loadHeaders [])], None)
          else ([], Some "/UserPermission/")).
Proof.
  apply (userperm_never_requested "UserPermissions").
  right. cbn. repeat split.
Defined.

(** ** The answer to the request of a form *)

Lemma handleAuthFailure_nonempty (m : string) (d : Document) :
  snd (handleAuthFailure m d) <> [].
Proof.
  unfold handleAuthFailure.
  destruct (openLoginModal d) as [d1 e1].
  destruct (showInlineLoginError _ d1) as [d2 e2]. cbn [snd].
  destruct e1; [destruct e2|]; discriminate.
Qed.

Lemma loadResponse_delivers (texts : LoadTexts) (entity mode : string)
  (id : option string) (res : LoadResponse) (pathname : string) (today : Z)
  (d : Document) (html : Markup) :
  Delivers res html ->
  fst (loadResponse texts entity mode id res pathname today d)
  = fst (insertEntityModal entity html mode id pathname today d)
  /\ exists warn,
       snd (loadResponse texts entity mode id res pathname today d)
       = warn ++ snd (insertEntityModal entity html mode id pathname today d)
       /\ Forall (fun e => match e with ConsoleWarn _ => True | _ => False end)
                 warn.
Proof.
  intros (Hauth & Hhtml & Hbody). unfold loadResponse. rewrite Hauth.
  destruct (includes "application/json" (orEmpty (r_contentType res))).
  - destruct Hbody as (data & -> & -> & -> & ->). cbn [negb orb].
    rewrite Hhtml.
    destruct (insertEntityModal entity html mode id pathname today d)
      as [d' effs]. cbn [fst snd]. split; [reflexivity|].
    eexists. split; [reflexivity|].
    destruct (truthy (orEmpty (d_warning data))); repeat constructor.
  - destruct Hbody as [H404 ->].
    destruct (Z.eqb_spec (r_status res) 404); [contradiction|].
    rewrite Hhtml. split; [reflexivity|]. exists []. split; [reflexivity|].
    constructor.
Qed.

Lemma loadResponse_refuses (texts : LoadTexts) (entity mode : string)
  (id : option string) (res : LoadResponse) (pathname : string) (today : Z)
  (d : Document) :
  (forall html, ~ Delivers res html) ->
  entityModal (fst (loadResponse texts entity mode id res pathname today d))
  = entityModal d
  /\ snd (loadResponse texts entity mode id res pathname today d) <> []
  /\ Forall (fun e => match e with
                      | Fetch _ | Reload | Confirm _ => False
                      | _ => True
                      end)
            (snd (loadResponse texts entity mode id res pathname today d)).
Proof.
  intros Hno. unfold loadResponse.
  destruct ((r_status res =? 401)%Z || (r_status res =? 403)%Z
            || r_redirected res) eqn:Hauth.
  { split; [apply PageFacts.handleAuthFailure_entityModal|].
    split; [apply handleAuthFailure_nonempty|].
    eapply Forall_impl; [apply PageFacts.handleAuthFailure_effects|].
    intros []; cbn; tauto. }
  destruct (includes "application/json" (orEmpty (r_contentType res))) eqn:Hj.
  - destruct (r_json res) as [data|] eqn:Hd;
      [|split; [reflexivity|]; split; [discriminate | repeat constructor]].
    destruct (ok res) eqn:Hok; cbn [negb orb];
      [|split; [reflexivity|]; split; [discriminate | repeat constructor]].
    destruct (d_success data) eqn:Hs; cbn [negb];
      [|split; [reflexivity|]; split; [discriminate | repeat constructor]].
    assert (Hwarn : forall tail,
               tail <> [] ->
               Forall (fun e => match e with
                                | Fetch _ | Reload | Confirm _ => False
                                | _ => True
                                end) tail ->
               (if truthy (orEmpty (d_warning data))
                then [ConsoleWarn (orEmpty (d_warning data))] else []) ++ tail
               <> []
               /\ Forall (fun e => match e with
                                   | Fetch _ | Reload | Confirm _ => False
                                   | _ => True
                                   end)
                         ((if truthy (orEmpty (d_warning data))
                           then [ConsoleWarn (orEmpty (d_warning data))] else [])
                          ++ tail)).
    { intros tail Hne Hall.
      destruct (truthy (orEmpty (d_warning data))); cbn [app].
      - split; [discriminate|]. now constructor.
      - now split. }
    destruct (d_html data) as [html|] eqn:Hh.
    + destruct (truthy (markup_text html)) eqn:Ht.
      * exfalso. apply (Hno html). unfold Delivers. rewrite Hauth, Hj.
        split; [reflexivity|]. split; [exact Ht|]. now exists data.
      * split; [reflexivity|]. apply Hwarn; [discriminate | repeat constructor].
    + split; [reflexivity|]. apply Hwarn; [discriminate | repeat constructor].
  - destruct (r_text res) as [text|] eqn:Ht;
      [|split; [reflexivity|]; split; [discriminate | repeat constructor]].
    destruct (Z.eqb_spec (r_status res) 404) as [H404|H404];
      [split; [reflexivity|]; split; [discriminate | repeat constructor]|].
    destruct (truthy (markup_text text)) eqn:Hm;
      [|split; [reflexivity|]; split; [discriminate | repeat constructor]].
    exfalso. apply (Hno text). unfold Delivers. rewrite Hauth, Hj.
    split; [reflexivity|]. split; [exact Hm|]. now split.
Qed.

(** X28.  The handlers of [openEntityModal] and [editEntity] install a
    form only from an answer that delivers markup: one that is no
    authentication failure, is ok and reports success when it is JSON,
    is not a 404 otherwise, and is not empty.  The page is then the one
    [insertEntityModal] builds from that markup, and nothing precedes
    its effects but the warning of the server.  Any other answer leaves
    the modal as it was, sends nothing, does not reload the page, and
    tells the user. *)
Theorem loadResponse_installs_delivered (texts : LoadTexts)
  (entity mode : string) (id : option string) (res : LoadResponse)
  (pathname : string) (today : Z) (d : Document) :
  (forall html, Delivers res html ->
     fst (loadResponse texts entity mode id res pathname today d)
     = fst (insertEntityModal entity html mode id pathname today d)
     /\ exists warn,
          snd (loadResponse texts entity mode id res pathname today d)
          = warn ++ snd (insertEntityModal entity html mode id pathname today d)
          /\ Forall (fun e => match e with ConsoleWarn _ => True | _ => False end)
                    warn)
  /\ ((forall html, ~ Delivers res html) ->
      entityModal (fst (loadResponse texts entity mode id res pathname today d))
      = entityModal d
      /\ snd (loadResponse texts entity mode id res pathname today d) <> []
      /\ Forall (fun e => match e with
                          | Fetch _ | Reload | Confirm _ => False
                          | _ => True
                          end)
                (snd (loadResponse texts entity mode id res pathname today d))).
Proof.
  split; [intros html; apply loadResponse_delivers | apply loadResponse_refuses].
Qed.

Lemma stripColon_twice (id : string) :
  (forall t, id <> String ":" (String ":" t)) ->
  stripColon (stripColon id) = stripColon id.
Proof.
  intros H. destruct id as [|c t]; [reflexivity|].
  cbn [stripColon]. destruct (Ascii.eqb_spec c ":") as [->|Hc].
  - destruct t as [|c' t]; [reflexivity|].
    cbn [stripColon]. destruct (Ascii.eqb_spec c' ":") as [->|Hc'];
      [now destruct (H t) | reflexivity].
  - cbn [stripColon]. destruct (Ascii.eqb_spec c ":"); [contradiction | reflexivity].
Qed.

(** X29.  Editing, from the request to the form.  For an entity other
    than the permissions page and an id, [editEntity] requests
    [<base>get/<id>/], the id having lost one leading colon; when the
    answer delivers markup that carries a form, the live form posts to
    [<base>update/<id>/] for the same id (which loses a second colon
    only if it had two), carries the entity, and holds what
    [formatDateFields] leaves of the values received: an edit form is
    never pre-filled.  In particular a date received as yyyy-mm-dd in a
    native date input is lost: that input is empty in the live form. *)
Theorem edit_round_trip (entity id pathname : string) (res : LoadResponse)
  (html : Markup) (f : Form) (today : Z) (d : Document) :
  entity <> "" -> id <> "" -> isUserPermEntity entity = false ->
  Delivers res html -> receivedForm html = Some f ->
  exists f',
    editEntity entity id pathname
    = [Fetch (mkRequest (getEntityBase entity pathname +:+ "get/"
                         +:+ stripColon id +:+ "/") "GET" loadHeaders [])]
    /\ liveForm (fst (editResponse entity id res pathname today d)) = Some f'
    /\ action f' = getEntityBase entity pathname +:+ "update/"
                   +:+ stripColon (stripColon id) +:+ "/"
    /\ ((forall t, id <> String ":" (String ":" t)) ->
        action f' = getEntityBase entity pathname +:+ "update/"
                    +:+ stripColon id +:+ "/")
    /\ form_entity f' = Some entity
    /\ map value (fields f')
       = map (fun el => value (formatDateField el)) (fields f)
    /\ (forall i el,
          fields f !! i = Some el -> matchesDateSel el = true ->
          value <$> fields f' !! i = Some (formattedValue el))
    /\ (forall i el,
          fields f !! i = Some el -> matchesDateSel el = true ->
          type el = "date" -> test reISODate (value el) = true ->
          value <$> fields f' !! i = Some "").
Proof.
  intros He Hi Hp Hdel Hf.
  assert (Hreq : editEntity entity id pathname
                 = [Fetch (mkRequest (getEntityBase entity pathname +:+ "get/"
                                      +:+ stripColon id +:+ "/") "GET"
                                     loadHeaders [])]).
  { unfold editEntity.
    rewrite (DispatchFacts.truthy_nonempty entity He),
      (DispatchFacts.truthy_nonempty id Hi), Hp. cbn [negb orb].
    now rewrite replace_leading_colon. }
  unfold editResponse.
  destruct (loadResponse_delivers editTexts entity "Edit"
              (Some (replace reLeadingColon "" id)) res pathname today d html
              Hdel) as [-> _].
  rewrite replace_leading_colon.
  assert (Hinst : exists f',
             liveForm (fst (insertEntityModal entity html "Edit"
                              (Some (stripColon id)) pathname today d)) = Some f'
             /\ action f' = endpoint (getEntityBase entity pathname) "Edit"
                                     (Some (stripColon id)) (action f)
             /\ form_entity f' = Some entity
             /\ map value (fields f')
                = map (fun el => value (formatDateField el)) (fields f)).
  { unfold receivedForm in Hf.
    destruct (markup_modal html) as [rm|] eqn:Em.
    - destruct (InstallFacts.install_from_modal entity html "Edit"
                  (Some (stripColon id)) pathname today d rm f Em Hf)
        as (f' & H1 & H2 & H3 & H4 & _).
      now exists f'.
    - destruct (InstallFacts.install_from_form entity html "Edit"
                  (Some (stripColon id)) pathname today d f Em Hf)
        as (f' & b & H1 & H2 & H3 & H4 & _).
      now exists f'. }
  destruct Hinst as (f' & H1 & H2 & H3 & H4).
  assert (Hval : forall i el,
             fields f !! i = Some el -> matchesDateSel el = true ->
             value <$> fields f' !! i = Some (formattedValue el)).
  { intros i el Hel Hsel.
    rewrite <- list_lookup_fmap.
    change (map value (fields f') !! i = Some (formattedValue el)).
    rewrite H4.
    change (((fun el => value (formatDateField el)) <$> fields f) !! i
            = Some (formattedValue el)).
    rewrite list_lookup_fmap, Hel. cbn.
    now rewrite DateFacts.value_formatDateField. }
  exists f'. split; [exact Hreq|]. split; [exact H1|].
  split; [exact H2|]. split; [|split; [exact H3 | split; [exact H4|]]].
  - intros Hc. rewrite H2. unfold endpoint. cbn [String.eqb interpolate].
    now rewrite (stripColon_twice id Hc).
  - split; [exact Hval|].
    intros i el Hel Hsel Hty Hiso. rewrite (Hval i el Hel Hsel).
    unfold formattedValue, rewritten. rewrite Hty, Hiso.
    apply DateFacts.test_reISODate_shape in Hiso.
    destruct Hiso as (d1 & d2 & m1 & m2 & y1 & y2 & y3 & y4 & -> & _).
    unfold isoText. now rewrite PageFacts.includes_dash.
Qed.

Lemma edit_round_trip_witness :
  exists f',
    editEntity "Client" ":42" "/client/"
    = [Fetch (mkRequest "/client/get/42/" "GET" loadHeaders [])]
    /\ liveForm (fst (editResponse "Client" ":42" (htmlAnswer editMarkup)
                        "/client/" (newDate 2026 10 3) emptyPage)) = Some f'
    /\ action f' = "/client/update/42/"
    /\ form_entity f' = Some "Client"
    /\ map value (fields f') = ["Asha"; "29/02/2024"; ""]
    /\ value <$> fields f' !! 2%nat = Some "".
Proof.
  destruct (edit_round_trip "Client" ":42" "/client/" (htmlAnswer editMarkup)
              editMarkup
              (mkForm "" None
                 [textInput "name" "Asha"; dateInput "joined" "2024-02-29" false;
                  nativeDateInput "dob" "1990-05-17"])
              (newDate 2026 10 3) emptyPage)
    as (f' & H1 & H2 & H3 & _ & H5 & H6 & _ & H8).
  - discriminate.
  - discriminate.
  - vm_compute. reflexivity.
  - unfold Delivers. vm_compute. repeat split. discriminate.
  - reflexivity.
  - exists f'. split; [exact H1|]. split; [exact H2|].
    split; [exact H3|]. split; [exact H5|]. split; [exact H6|].
    apply (H8 2%nat (nativeDateInput "dob" "1990-05-17")); reflexivity.
Defined.

(** ** The answer to a deletion *)

(** X30.  The handler of the answer to a deletion treats a 401, a 403 and
    a redirection as authentication failures before anything else; it
    reloads the page exactly when the answer is none of these, is JSON
    and reports success; and an answer that is none of these and is not
    JSON always gets the message about an unexpected response, so that
    the alert about the CSRF validation, which the code reserves for a
    403, is never raised by that branch.  The handler leaves the entity
    modal alone and sends nothing. *)
Theorem deleteResponse_outcomes (entSeg : string) (res : DeleteResponse)
  (d : Document) :
  (deleteRefused res = true ->
   deleteResponse entSeg res d = handleAuthFailure "Not authenticated." d)
  /\ (In Reload (snd (deleteResponse entSeg res d)) <->
      deleteRefused res = false /\ deleteSaysJson res = true
      /\ exists data, del_json res = Some data /\ del_success data = true)
  /\ (deleteRefused res = false -> deleteSaysJson res = false ->
      deleteResponse entSeg res d
      = (d, [Alert "Server returned unexpected response while deleting.";
             ConsoleError "Delete non-JSON response:"]))
  /\ entityModal (fst (deleteResponse entSeg res d)) = entityModal d
  /\ Forall (fun e => match e with
                      | Fetch _ | Confirm _ => False
                      | _ => True
                      end)
            (snd (deleteResponse entSeg res d)).
Proof.
  unfold deleteRefused, deleteSaysJson, deleteResponse.
  assert (Hauth : forall e, In e (snd (handleAuthFailure "Not authenticated." d)) ->
                            match e with
                            | Alert _ | ConsoleWarn _ | FocusLoginUsername => True
                            | _ => False
                            end).
  { apply List.Forall_forall, PageFacts.handleAuthFailure_effects. }
  assert (Hauth' : Forall (fun e => match e with
                                    | Fetch _ | Confirm _ => False
                                    | _ => True
                                    end)
                          (snd (handleAuthFailure "Not authenticated." d))).
  { eapply Forall_impl; [apply PageFacts.handleAuthFailure_effects|].
    intros []; cbn; tauto. }
  destruct (del_status res =? 401)%Z eqn:E1; cbn [orb].
  { split; [reflexivity|]. split; [split|].
    - intros Hin. destruct (Hauth _ Hin).
    - intros [H _]. discriminate H.
    - split; [discriminate|].
      split; [apply PageFacts.handleAuthFailure_entityModal | exact Hauth']. }
  destruct ((del_status res =? 403)%Z || del_redirected res) eqn:E2.
  { split; [reflexivity|]. split; [split|].
    - intros Hin. destruct (Hauth _ Hin).
    - intros [H _]. discriminate H.
    - split; [discriminate|].
      split; [apply PageFacts.handleAuthFailure_entityModal | exact Hauth']. }
  split; [discriminate|].
  destruct (includes "application/json"
                     (toLowerCase (orEmpty (del_contentType res)))) eqn:Ej.
  - destruct (del_json res) as [data|].
    + destruct (del_success data) eqn:Es.
      * split; [split; [intros _; split; [reflexivity|]; split; [reflexivity|];
                        now exists data
                       |intros _; now left]|].
        split; [discriminate|]. split; [reflexivity | repeat constructor].
      * assert (Hcase : forall b : bool,
                   let r := if b
                            then (d, [Alert "Table missing. Run migrations, then retry delete."])
                            else (d, [Alert (orEmpty (orElse (del_error data)
                                                       (Some "Delete failed.")))]) in
                   ~ In Reload (snd r) /\ entityModal (fst r) = entityModal d
                   /\ Forall (fun e => match e with
                                       | Fetch _ | Confirm _ => False
                                       | _ => True
                                       end) (snd r)).
        { intros []; cbn; (split; [intros [H | []]; discriminate H|]);
            (split; [reflexivity | repeat constructor]). }
        destruct (Hcase (test reTableMissing
                           (toLowerCase (orEmpty (orElse (del_error data) (Some ""))))
                         && (String.eqb entSeg "userprofile"
                             || String.eqb entSeg "hrpm")))
          as (Hno & Hm & Hall).
        split; [split; [intros Hin; now destruct (Hno Hin)
                       |intros (_ & _ & data' & [= <-] & Hs'); congruence]|].
        split; [discriminate|]. split; [exact Hm | exact Hall].
    + split; [split; [intros [H | [H | []]]; discriminate H
                     |intros (_ & _ & data' & Hd & _); discriminate Hd]|].
      split; [discriminate|]. split; [reflexivity | repeat constructor].
  - assert (H403 : (del_status res =? 403)%Z = false).
    { now apply orb_false_iff in E2 as [-> _]. }
    rewrite H403. cbn [andb].
    split; [split; [intros [H | [H | []]]; discriminate H
                   |intros (_ & H & _); discriminate H]|].
    split; [reflexivity|]. split; [reflexivity | repeat constructor].
Qed.

End RequestFacts.
